(* ===== verification/_CoqProject ===== *)
-Q . S2P
Prelude.v
JsNumber.v
JsString.v
JsArray.v
Types.v
Constants.v
ActivityRanking.v
Ranking.v
Http.v
Promise.v
Pool.v
Singleton.v
Errors.v
NumberText.v
JsNumberText.v
Schema.v
Selection.v
OpenMeteoAPI.v
ResolverTypes.v
Resolvers.v
Console.v
Execute.v
Server.v
Arithmetic.v
Float64.v
Binary64.v
Compare64.v
Forecast64.v
TestSuite.v
