(* ===== verification/Prelude.v ===== *)
(** * Travel-planner API: a verification development

    The program (TypeScript, [src/]) answers two GraphQL queries.  [searchCities]
    asks the Open-Meteo geocoding service for places and returns those that are
    populated places, each with a "rich" identifier
    ["<lat>,<lon>:<name>:<country>"].  [getCityWeather] decodes such an
    identifier, asks the Open-Meteo forecast service for current conditions and a
    seven-day series, and attaches to every day the best-suited activity, chosen
    by a scoring engine out of a table of four activity profiles.

    ** Parts of the program and the files that model them

    - [Prelude] (this file): checks over a range of integers ([zrange],
      [forallb_zrange]) for the proofs by evaluation, and the [result] type with its bind notation (thrown
      errors are values) and [traverse], the tactics and the hint databases
      [js] and [js_simpl] the other files share, and the list lemmas more
      than one component needs.
    - [JsNumber]: the JavaScript [number] values the program computes with:
      [NaN], the two infinities and the finite numbers, with [+], [-], [*],
      [/ 2], the comparisons, [===], [Math.min], [Math.max], [Math.round],
      [isNaN] and [ToIntegerOrInfinity].  The equivalence [num_eqv] identifies
      representations of one value and every operation is [Proper] for it.
    - [JsString]: [String.prototype.includes], [split] on one character,
      [trim], [Array.prototype.join] and the [||] default on strings.
    - [JsArray]: [Array.prototype.sort] as a stable sort driven by a
      comparator returning a [number], [Array.prototype.slice] and
      [Array.prototype.map] with the index; the abstract specification of a
      stable sort and the proof that the sort implements it and is the only
      list that does.
    - [Types]: the GraphQL object types of [src/schema.graphql] and
      [src/unnamed/part_002] as records.
    - [Constants]: [src/src/utils/constants.ts]: [WEATHER_CODES],
      [ACTIVITY_CONFIGS], [ERROR_CODES].
    - [ActivityRanking]: [src/unnamed/part_000] (the service with named
      thresholds) and [src/src/utils/activityRanking.ts] (the same service
      with literal thresholds, module [Literal]): [scoreActivity] and
      [rankActivitiesForDay].
    - [Ranking]: the ranking service as the weather service uses it
      ([activityRankingService], imported by [src/unnamed/part_001]): the
      interface [RankingService.service] with the operation
      [rankActivitiesForDay], the laws [RankingService.ok] its callers rely
      on, and the instance in exact decimal arithmetic.
    - [Http]: an asynchronous function as a finite tree [prog] of requests,
      with [run], [trace] and [at_most]; the equivalence [peq] of programs
      (the same requests and results on every branch), for which these are
      [Proper]; settled promises, [await] and [try]/[catch] around an
      [await].
    - [Promise]: the life of the promise an asynchronous function returns,
      as a step relation: one turn of the event loop resumes the function
      after the request it awaits, or settles the promise.
    - [Pool]: several asynchronous calls on one event loop, sharing only
      the remote services, whose answers are a relation on a state of any
      type; an executable scheduler.  This file and [Server] use the lists
      and relations of stdpp.
    - [Singleton]: the private static [instance] fields of the two service
      classes and their [getInstance] ([src/unnamed/part_000],
      [src/unnamed/part_001], [src/src/utils/activityRanking.ts]), the
      exports of the two modules, and the states calls of [getInstance]
      reach.
    - [Errors]: the thrown values: [OpenMeteoAPIError]
      ([src/unnamed/part_001]) and the [AxiosError], [Error] and
      [GraphQLError] of the libraries, with the tests of the [catch] blocks.
    - [NumberText]: the interface of number printing and parsing the
      identifier codec relies on (a class with its laws); [JsNumberText]:
      the instance, [Number::toString] and [parseFloat] after ECMAScript.
    - [Schema]: the six object types of [src/schema.graphql] as terms of
      the GraphQL type system, the JSON values of a response, the test
      [conforms] of a value against a type, and the coercion of the results
      of the resolvers ([Int], [Float], [String], objects field by field).
    - [Selection]: the selection sets of a query (the fields selected, with
      the selections below them), the type of a response restricted to a
      selection, the validity of a selection against a type, and the
      completion of a result for the selected fields, in their order.
    - [OpenMeteoAPI]: [src/unnamed/part_001]: [isValidCoordinate],
      [getWeatherCondition], [parseCityId], the identifier [cityId] built by
      [searchCities], the two [catch] blocks, and the three service methods
      [searchCities], [getWeatherData], [getWeatherByCityId] as programs
      over the two requests of [api].  Its theorems are proved for any
      instance of [NumberText] and any ranking service that keeps the laws
      of [RankingService.ok]; its witnesses and scenarios use the instance
      of [JsNumberText] and the ranking in exact decimals.  The same holds
      of [Resolvers], [Console], [Execute] and [Server].
    - [ResolverTypes]: the generated types of [src/unnamed/part_002] that
      type the resolvers: [ResolverFn], [Resolver], one record of optional
      field resolvers per object type, and [Resolvers].
    - [Resolvers]: [src/src/schema/resolvers.ts]: the two query resolvers
      ([Query.searchCities], [Query.getCityWeather]) and their translation
      of a thrown error into a [GraphQLError] with a code and a service
      name; the exported object [resolvers]; the query surface
      [resolvers.Query] as the function [resolve] of an [operation] (a
      field of [type Query] with its argument).
    - [Console]: the two resolvers as written, with their calls of
      [console.log] and [console.error]: programs whose events are the
      requests and the console calls, and the erasure of the console calls.
    - [Execute]: a request (a field of [Query] with its arguments and the
      selection below it) from the field to the response: the lookup of the
      resolver in [resolvers], its call, the completion of the result
      against the schema for the selected fields and the response, after
      the specification of the execution engine.
    - [Server]: the queries of several clients at the same time: one call
      of [Execute.execute] per query, run by [Pool].
    - [Arithmetic]: [src/src/utils/activityRanking.ts] once more, over a
      class of numbers with the operations the engine uses (module
      [Engine]); the exact decimals are one instance.
    - [Float64]: the binary64 numbers (the primitive floats of Rocq) and
      what their specification in the Standard Library gives: the tests on
      a number, integers below [2^53], when an operation returns [NaN],
      and when rounding stays finite.
    - [Binary64]: the instance of the program: binary64 numbers with
      [Math.round], [Math.min] and [Math.max] after ECMAScript, the clamp
      of a score, and the ranking [rankActivitiesForDay64] of a day whose
      numbers are read as [JSON.parse] reads them ([of_number]), with the
      order the comparator gives it.
    - [Compare64]: the engine in the two arithmetics, compared.
    - [Forecast64]: the ranking service in binary64, an instance of the
      interface of [Ranking]: the program as it runs, from the query to the
      response, and its comparison with the program in exact arithmetic.
    - [TestSuite]: the three test files of the repository (the ranking tests
      at the end of [src/src/utils/constants.ts], the service and resolver
      tests of [src/src/__tests__/openMeteoAPI.test.ts]): the ranking tests
      as functions of the service under test, the mocked answers of
      [axios.get] as handlers, the queries of the resolver tests as
      requests and every other [it(...)] block as an example.

    ** How state and effects are modelled

    The only state the program writes are the static [instance] fields of
    the two service classes: [Singleton.statics], passed explicitly through
    [getInstance].  They are written when the modules are loaded and never
    after ([Singleton.load_exports]), and the methods of the services read
    only constants of their object, so the models of the methods are
    functions of their arguments.  A thrown exception is a value of [result]: [Err e] for
    [throw e], and [try]/[catch] is [catch_result].  An HTTP request is the
    effect of a service (the resolvers also write to the console: the
    console calls are events of their own in [Console], and the other
    files work with the resolvers without them, which [Console] proves
    equivalent); a service method is a finite tree ([Http.prog]) whose nodes are
    requests and whose leaves are results, so that "no request is made
    before the input is validated" and "exactly one request per operation"
    are statements about the tree, and running a method against any
    behaviour of the remote service ([Http.run] with a handler) is a
    function.  The outcome of a request (a body, no body, a rejection with
    any error) is an input of the model.  The same tree is run in small
    steps by [Promise.step]; the steps reach the result of [run] after one
    step per request and one more.  Several calls at once are a list of
    promises and a state of the services ([Pool.state]); a turn resumes or
    settles one of them, and the services answer by a relation, so that an
    answer may depend on the requests of the other calls.  The locals [score] and [reasons]
    of [scoreActivity] are a record threaded through the four blocks of the
    function.

    ** Numbers

    JavaScript numbers are binary64 floating-point values.  The model keeps
    [NaN] and the infinities and represents a finite number exactly, as a
    decimal [m / 10^e] with [m : Z].  Every binary64 value is such a decimal,
    the literals of the program and the decimal literals of a JSON response
    are such decimals without rounding, and the decimals are closed under the
    operations the program uses ([+], [-], [*], [/ 2], [Math.round]).  What
    this model leaves out is the rounding of binary64 arithmetic to 53 bits
    (and the sign of zero): a computation is carried out exactly, a number
    is printed with all the digits of its decimal, and a literal is parsed
    to the decimal it denotes.  It agrees with the program wherever the
    program's intermediate results are representable.

    For the scoring engine the gap is closed: [Arithmetic] has the engine
    over a class of numbers, of which the exact decimals and the binary64
    numbers of [Binary64] are instances, and [Compare64] compares the two.
    They give the same ranking on every day of whole degrees, which
    includes the days of the repository's tests.  On days given in tenths
    of a degree, as the forecast service reports them, the program scores
    one less than the exact formula when a penalty is a half, and it
    differs by more when the rounding of [maxTemp + minTemp] moves the
    average across the end of an ideal range
    ([Binary64.binary64_differs]).

    The rest of the program does no arithmetic on the numbers of an
    answer: it copies them into the response and hands the numbers of a
    day to the ranking service.  So the numbers of an answer stay decimals
    in the model, and the arithmetic is a property of the ranking service:
    [Ranking.decimal_service] ranks in exact decimals and
    [Forecast64.binary64_service] reads the numbers of a day as binary64
    numbers ([Binary64.of_number]) and ranks as the program does.  The
    theorems of [OpenMeteoAPI], [Resolvers], [Execute] and [Server] hold
    for both, because they are proved from the laws of the interface; the
    theorems of [ActivityRanking] and those of the section [Decimal] of
    [OpenMeteoAPI] are about the formula in exact arithmetic.
    [Binary64.of_number] is the quotient of the mantissa and the power of
    ten, which is the nearest binary64 number for a mantissa below [2^53]
    and at most 18 decimals; it is proved finite for at most 15 decimals
    ([Binary64.of_number_short]), which is more than a weather service
    sends.  A number the ranking service reads as a finite number is
    [RankingService.finite].  The identifier codec prints and
    parses coordinates as decimals; the shortest-digits printing of
    binary64 is not modelled.  Strings are sequences of 8-bit code units: characters
    above 255 are not represented.

    ** What the theorems show

    - [JsNumber]: each operation computes the rational-number operation it
      stands for ([toQ] is a homomorphism on finite numbers); the orders are
      decided by the boolean comparisons; [Math.round] returns the integer
      [floor (x + 1/2)]; clamping by [Math.max 0 (Math.min 100 _)] lands in
      [0..100] on everything but [NaN].
    - [JsString], [JsArray]: [split] and [join] are inverse on pieces without
      the separator; the sort returns a permutation, sorted for the
      comparator, that keeps equal elements in their original order, and it
      is the unique list with these properties; [slice] returns a prefix of
      known length.
    - [JsNumberText]: parsing a printed number returns it, also when text
      that cannot continue a number follows it, and printing it again gives
      the same text; two numbers print alike exactly when they are equal;
      the printed text holds no colon and no comma.  These are the laws of [NumberText].
    - [ActivityRanking]: the score of every profile on every day whose
      average temperature is a number is an integer of [0..100]; it is [NaN]
      exactly when the average temperature is; the reasoning is never empty
      and the fallback ["standard conditions"] is unreachable; the ranking
      is sorted by decreasing score, stable, drawn from the profile table,
      and of length [min top 4] for a non-negative integer [top]; the score
      equals a closed rational-number formula (functional refinement); the
      test scenarios of the repository evaluate to the documented results.
    - [OpenMeteoAPI]: the identifier of a city decodes to the city (round
      trip), and what [parseCityId] accepts and rejects beyond that (more
      than two coordinates, text after a number, a colon in a name);
      [isValidCoordinate] is the closed-interval test on finite numbers;
      every method validates its input before its one request, performs
      exactly that request, and throws only [OpenMeteoAPIError]s with a code
      of the user or API categories; the classification of transport
      failures (timeout first, then status 429, then unknown); the forecast
      has one day per date, each with one activity of the table, for every
      lawful ranking service, and with the best activity of that day for
      the ranking in exact arithmetic; the result depends on the ranking
      service only through the rankings of the days of the answer.
    - [Ranking]: the ranking in exact decimals keeps the laws of the
      interface (the instance [decimal_ok]).
    - [Resolvers]: a resolver returns what the service returns and performs
      its requests; what it throws is a [GraphQLError] with the message and
      code of the service's error; identifiers built by [searchCities] are
      accepted by [getCityWeather] (end to end).  For every operation of
      the query surface: at most one request is issued, and a failure is
      either a user error reported before any request or an API error
      reported after exactly one; [INTERNAL_SERVER_ERROR] is never
      reported.
    - [Promise]: the step relation is deterministic and well founded, a
      pending promise can always take a step, and it settles with the
      result of [run] (termination and liveness for every program tree).
    - [Singleton]: in every reachable state a static field refers to an
      object of its class and no class has two objects (by induction on the
      calls); a later [getInstance] returns the object of the first; after
      loading, no call writes the state.
    - [Schema]: a completed result conforms to its type (soundness of the
      coercion), the coercion succeeds exactly on the results whose [Int]s
      are 32-bit integers and whose [Float]s are finite, and its errors
      carry no code.
    - [Console]: the resolvers of [Resolvers] are the resolvers as written
      with the console calls erased, up to the equivalence [Http.peq] of
      programs, which [run], [trace], [at_most] and [pbind] respect (the
      proofs rewrite with it); a call writes the line of the query before
      any request and one line after the requests, the caught error of the
      service when it throws.
    - [Selection]: the completion of every selection returns a value of
      the restricted type (by one lemma for objects and one for lists,
      applied to the table of fields of each type); for the selection of
      every field it is the completion of [Schema]; its errors carry no
      code; a selection of fewer fields succeeds whenever one of more
      fields does; for a valid selection the restricted type has exactly
      the selected fields, and the selection is within that of every field
      (by induction on the nested selections).
    - [Execute]: every response is well typed, for every resolver object
      of the generated type and every selection: data of the schema's type
      restricted to the selection and no error, or no data and one
      [GraphQLError]; every query is eventually answered with such a
      response; an error of a resolver reaches the client with its code and
      service; a query of fewer fields has data whenever a query of more
      fields has; for every lawful ranking service that reads the finite
      temperatures of the answer as finite numbers, the response to the
      full [getCityWeather] has data exactly when every number of the
      upstream answer is there and finite (and then every valid query has
      data); the scores of days with two temperatures fit [Int]; one
      missing number makes the whole response [data: null] with an error
      without a code; two ranking services that agree on the days of the
      answers give the same responses.
    - [Pool], [Server]: for every order of the turns of the event loop and
      every behaviour of the services: the response to a query is one that
      [execute] gives for the query alone (the queries do not interfere),
      so it is well typed; no run is infinite; a run sends at most one
      request per query; when the services always answer, every run
      answers every query.
    - [Arithmetic]: in every arithmetic that meets the two laws of the
      class, a score is [NaN] or lies between 0 and 100, the reasoning
      begins with the reason of the temperature, and the ranking has
      [min top 4] activities drawn from the table; over the exact decimals
      the engine is the one of [ActivityRanking] (functional refinement).
    - [Float64]: from the specification of the primitive operations: an
      integer below [2^53] is a binary64 number with that mantissa;
      rounding never gives [NaN], so a sum or difference with a finite
      operand and a product or quotient with a finite operand that is not
      zero is [NaN] only when the other operand is; rounding a mantissa
      and an exponent that stand for less than [2^1023] is finite, so the
      quotient of two integers below [2^53] is ([div_of_Z_finite]).
    - [Binary64]: the laws of the class hold for binary64;
      [Math.max 0 (Math.min 100 (Math.round x))] is [NaN] when [x] is and
      one of the integers 0 to 100 for every other binary64 number, the
      infinities included; so every score of the program is [NaN] or an
      integer of [0..100], and it is [NaN] exactly when the average
      temperature of the day is; the exact value of an integer below
      [2^53] is the integer (round trip); the difference of two scores is
      exact, so on a day with two finite temperatures the ranking is sorted
      by non-increasing score, and on a day whose average is [NaN] the
      comparator returns [NaN], the sort keeps the order of the table and
      the first activity is skiing; a decimal with a mantissa below [2^53]
      and at most 15 decimals is read as a finite number; three days on
      which the program and the formula differ.
    - [Compare64]: the ranking of the program is the exact ranking on days
      of whole degrees; for an average in tenths the score is the exact one
      or one less.
    - [Forecast64]: the ranking in binary64 keeps the laws of the
      interface (the instance [binary64_ok]), so the theorems proved
      against the interface are theorems about the program as it runs; when
      the weather service answers in whole degrees, every query gets the
      same response from the program and from the program in exact
      arithmetic; an answer on which the two responses differ; when the
      temperatures of an answer are short decimals, the response of the
      program to the weather query of every field has data exactly when
      the numbers of the answer are present and finite.
    - [TestSuite]: the eight ranking tests pass on the ranking in exact
      arithmetic and on the ranking in binary64; the model meets every
      expectation of the other tests, for every date the tests may run on.

    ** Bounds and fuel

    Every recursion is structural (on a list, a string, a program tree or
    the decimal exponent) except the generation of decimal digits in
    [JsNumberText.digits], which divides by ten with fuel [1 + log2 z]; the
    number of digits of [z] is at most that, and [digits_enough_fuel] and
    the round trip are proved for all [z], with the fuel as computed.
    [Promise.settle] runs a promise with fuel: one more than the number of
    requests is enough ([Promise.settle_enough]), so 2 is enough for every
    operation of the program ([Resolvers.resolve_terminates],
    [Execute.execute_terminates]), which issue at most one request.  The
    runs of [Pool] need no fuel: the turn relation is well founded for
    every list of calls ([Pool.turn_well_founded]).  The [Int] of the
    schema has 32 bits; the scores lie in [0..100].  The theorems of
    [Float64] and [Binary64] hold for all binary64 numbers and need no
    range: that the comparator is exact on two scores is checked on the
    101 x 101 pairs of integers of [0..100], which the theorem on the
    clamp shows to be all the scores there are.  The comparisons of
    [Compare64] are proved by evaluating both engines over a range, which is
    part of each statement: whole degrees from -50 to 75 for the two
    temperatures (wider than the temperatures measured on Earth),
    precipitation and wind speed as whole numbers or tenths with a mantissa
    up to 5000, and averages from -30.0 to 50.0 in tenths; outside these
    ranges only the theorems for every arithmetic apply.

    ** Not modelled

    The start-up of the server (not among the sources); the axios transport
    itself (its outcomes are inputs of the model); the fields of the
    upstream responses the program does not read; the formatting of a
    console line (a console call is its list of arguments); binary64
    rounding outside the scoring engine (the text of a coordinate, and the
    reading of a number with a mantissa of 2^53 or more or with more than
    18 decimals).  Of the
    generated types ([src/unnamed/part_002]): the utility
    types and the types of subscriptions, unions and directives, which
    neither the schema nor the code uses.  Of the execution engine, which
    is a library and is modelled from its specification: the parsing of
    query documents (a request is the parsed query: one field of [Query],
    its arguments and its selection), the response to a query that is not
    valid, fragments, aliases, directives and queries of several fields of
    [Query], and the formatting of errors by the server.  A
    number that is missing from an array of the upstream answer is [NaN] in
    the model, where JavaScript has [undefined]: both make the completion
    of a [Float!] field fail, with different messages, so the statements
    about such failures do not mention the message.  The [readonly]
    fields of the two service classes are constants of the model, not
    fields of an object: the program never assigns them, and the only
    state of a class is its static [instance] ([Singleton]). *)

From Stdlib Require Import List String ZArith Bool Lia Permutation Sorted.
Import ListNotations.

Declare Scope js_scope.
Delimit Scope js_scope with js.

(** ** Thrown errors as values *)

Inductive result (E A : Type) : Type :=
| Ok (a : A)
| Err (e : E).

Arguments Ok {E A} a.
Arguments Err {E A} e.

Definition bind {E A B : Type} (c : result E A) (k : A -> result E B) : result E B :=
  match c with
  | Ok a => k a
  | Err e => Err e
  end.

Definition catch_result {E F A : Type} (c : result E A) (h : E -> result F A) : result F A :=
  match c with
  | Ok a => Ok a
  | Err e => h e
  end.

Definition is_ok {E A : Type} (c : result E A) : bool :=
  match c with
  | Ok _ => true
  | Err _ => false
  end.

Notation "x <- c ;; k" := (bind c (fun x => k))
  (at level 62, c at next level, right associativity) : js_scope.

(** ** Tactics shared by the component files *)

Ltac inv H := inversion H; subst; clear H.

(** Case analysis on the condition of the first [if] of the goal. *)
Ltac case_if :=
  match goal with
  | |- context [if ?b then _ else _] =>
      let E := fresh "Hif" in destruct b eqn:E
  end.

(** Case analysis on the scrutinee of the first [match] of the goal. *)
Ltac case_match_goal :=
  match goal with
  | |- context [match ?x with _ => _ end] =>
      let E := fresh "Hm" in destruct x eqn:E
  end.

(** Boolean connectives in hypotheses, split into their parts. *)
Ltac bool_hyps :=
  repeat match goal with
  | H : (_ && _)%bool = true |- _ => apply andb_true_iff in H; destruct H
  | H : (_ || _)%bool = false |- _ => apply orb_false_iff in H; destruct H
  | H : negb _ = true |- _ => apply negb_true_iff in H
  | H : negb _ = false |- _ => apply negb_false_iff in H
  end.

Create HintDb js discriminated.
Create Rewrite HintDb js_simpl.

(** ** Laws of [result] *)

Section ResultLaws.
Context {E A B C : Type}.

Lemma bind_Ok_l (a : A) (k : A -> result E B) : bind (Ok a) k = k a.
Proof. reflexivity. Qed.

Lemma bind_Ok_r (c : result E A) : bind c Ok = c.
Proof. destruct c; reflexivity. Qed.

Lemma bind_assoc (c : result E A) (k : A -> result E B) (h : B -> result E C) :
  bind (bind c k) h = bind c (fun a => bind (k a) h).
Proof. destruct c; reflexivity. Qed.

Lemma bind_Ok_inv (c : result E A) (k : A -> result E B) (b : B) :
  bind c k = Ok b -> exists a, c = Ok a /\ k a = Ok b.
Proof. destruct c; simpl; [eauto | discriminate]. Qed.

Lemma bind_Err_inv (c : result E A) (k : A -> result E B) (e : E) :
  bind c k = Err e -> c = Err e \/ exists a, c = Ok a /\ k a = Err e.
Proof. destruct c; simpl; [eauto | intros [= ->]; auto]. Qed.

End ResultLaws.

#[export] Hint Rewrite @bind_Ok_l @bind_Ok_r : js_simpl.

(** [f] on every element from the left, until one throws. *)
Fixpoint traverse {E A B : Type} (f : A -> result E B) (l : list A) : result E (list B) :=
  match l with
  | [] => Ok []
  | a :: l =>
      match f a with
      | Ok b =>
          match traverse f l with
          | Ok bs => Ok (b :: bs)
          | Err e => Err e
          end
      | Err e => Err e
      end
  end.

Section Traverse.
Context {E A B : Type}.
Variable f : A -> result E B.

Lemma traverse_Ok (l : list A) (bs : list B) :
  traverse f l = Ok bs <-> Forall2 (fun a b => f a = Ok b) l bs.
Proof.
  revert bs. induction l as [|a l IH]; intros bs; cbn [traverse].
  - split; [intros [= <-]; constructor | now inversion 1].
  - split.
    + destruct (f a) as [b|] eqn:Ea; [|discriminate].
      destruct (traverse f l) as [bs'|]; [|discriminate].
      intros [= <-]. constructor; [exact Ea | now apply IH].
    + intros H. inversion H as [|? b ? bs' Ha Hl]; subst.
      apply IH in Hl. now rewrite Ha, Hl.
Qed.

Lemma traverse_Err (l : list A) (e : E) :
  traverse f l = Err e -> exists a, In a l /\ f a = Err e.
Proof.
  induction l as [|a l IH]; cbn [traverse]; [discriminate|].
  destruct (f a) as [b|e'] eqn:Ea.
  - destruct (traverse f l); [discriminate|]. intros [= <-].
    destruct (IH eq_refl) as (a' & Hin & Ha'). exists a'. split; [now right | exact Ha'].
  - intros [= <-]. exists a. split; [now left | exact Ea].
Qed.

Lemma traverse_is_ok (l : list A) :
  is_ok (traverse f l) = forallb (fun a => is_ok (f a)) l.
Proof.
  induction l as [|a l IH]; cbn [traverse forallb]; [reflexivity|].
  destruct (f a); cbn [is_ok andb]; [|reflexivity].
  rewrite <- IH. now destruct (traverse f l).
Qed.

Lemma traverse_ext (g : A -> result E B) (l : list A) :
  (forall a, f a = g a) -> traverse f l = traverse g l.
Proof. intros Hfg. induction l as [|a l IH]; cbn [traverse]; [reflexivity|]. now rewrite Hfg, IH. Qed.

Lemma traverse_is_ok_ext (p : A -> bool) (l : list A) :
  (forall a, is_ok (f a) = p a) -> is_ok (traverse f l) = forallb p l.
Proof.
  intros Hp. rewrite traverse_is_ok.
  induction l as [|a l IH]; cbn [forallb]; [reflexivity | now rewrite Hp, IH].
Qed.

Lemma traverse_Ok_forallb (q : B -> bool) (l : list A) (bs : list B) :
  (forall a b, f a = Ok b -> q b = true) -> traverse f l = Ok bs -> forallb q bs = true.
Proof.
  intros Hq Hl%traverse_Ok. induction Hl as [|a b l bs Hab _ IH]; [reflexivity|].
  cbn [forallb]. now rewrite (Hq a b Hab), IH.
Qed.

End Traverse.

(** ** Lists *)

Section ListFacts.
Context {A : Type}.

Lemma firstn_Forall (P : A -> Prop) (n : nat) (l : list A) :
  Forall P l -> Forall P (firstn n l).
Proof.
  intros H. revert n. induction H; intros [|n]; simpl; auto.
Qed.

Lemma Forall_forallb (p : A -> bool) (l : list A) :
  Forall (fun a => p a = true) l <-> forallb p l = true.
Proof. rewrite forallb_forall. apply Forall_forall. Qed.

Lemma firstn_In (n : nat) (l : list A) (x : A) : In x (firstn n l) -> In x l.
Proof.
  revert n. induction l as [|y l IH]; intros [|n]; simpl; try tauto.
  intros [->|H]; eauto.
Qed.

Lemma firstn_incl_prefix (n : nat) (l : list A) : exists r, l = firstn n l ++ r.
Proof. exists (skipn n l). symmetry. apply firstn_skipn. Qed.

Lemma firstn_StronglySorted (R : A -> A -> Prop) (n : nat) (l : list A) :
  StronglySorted R l -> StronglySorted R (firstn n l).
Proof.
  intros H. revert n. induction H; intros [|n]; cbn [firstn]; constructor; auto.
  now apply firstn_Forall.
Qed.

Lemma StronglySorted_weaken (R R' : A -> A -> Prop) (P : A -> Prop) (l : list A) :
  (forall a b, P a -> P b -> R a b -> R' a b) ->
  Forall P l -> StronglySorted R l -> StronglySorted R' l.
Proof.
  intros HR HP HS. induction HS as [|a l HS IH Ha]; [constructor|].
  inv HP. constructor; [auto|].
  rewrite Forall_forall in *. auto.
Qed.

(** The first element kept by a filter splits the list. *)
Lemma filter_cons_split (p : A -> bool) (l : list A) (a : A) (r : list A) :
  filter p l = a :: r ->
  exists l1 l2, l = l1 ++ a :: l2 /\ Forall (fun b => p b = false) l1 /\ p a = true.
Proof.
  induction l as [|x l IH]; cbn [filter]; [discriminate|].
  destruct (p x) eqn:E.
  - intros [= -> _]. now exists [], l.
  - intros H. destruct (IH H) as (l1 & l2 & -> & H1 & H2).
    exists (x :: l1), l2. auto.
Qed.

Lemma Forall_Permutation (P : A -> Prop) (l l' : list A) :
  Permutation l l' -> Forall P l -> Forall P l'.
Proof. intros HP H. eapply Permutation_Forall; eauto. Qed.

End ListFacts.

#[export] Hint Resolve firstn_Forall firstn_In firstn_StronglySorted : js.

Lemma StronglySorted_map {A B : Type} (f : A -> B) (R : B -> B -> Prop) (l : list A) :
  StronglySorted (fun a b => R (f a) (f b)) l -> StronglySorted R (map f l).
Proof.
  induction 1 as [|a l HS IH Ha]; cbn [map]; constructor; [exact IH|].
  now apply Forall_map.
Qed.

(** ** Checks over a range of integers

    A property of the integers from [lo] to [hi] that a boolean function
    decides is proved by evaluating the function on the range. *)

(** The integers from [lo] to [hi]. *)
Fixpoint zrange_from (lo : Z) (n : nat) : list Z :=
  match n with
  | O => []
  | S n => lo :: zrange_from (lo + 1) n
  end.

Definition zrange (lo hi : Z) : list Z := zrange_from lo (Z.to_nat (hi - lo + 1)).

Lemma zrange_from_In (n : nat) (lo k : Z) :
  In k (zrange_from lo n) <-> (lo <= k < lo + Z.of_nat n)%Z.
Proof.
  revert lo. induction n as [|n IH]; intros lo; cbn [zrange_from In]; [lia|].
  rewrite IH. lia.
Qed.

Lemma zrange_In (lo hi k : Z) : In k (zrange lo hi) <-> (lo <= k <= hi)%Z.
Proof. unfold zrange. rewrite zrange_from_In. lia. Qed.

Lemma forallb_zrange (p : Z -> bool) (lo hi k : Z) :
  forallb p (zrange lo hi) = true -> (lo <= k <= hi)%Z -> p k = true.
Proof. rewrite forallb_forall. intros Hall Hk. now apply Hall, zrange_In. Qed.

Lemma forallb_bool (p : bool -> bool) (b : bool) : forallb p [true; false] = true -> p b = true.
Proof. cbn. rewrite andb_true_r, andb_true_iff. now destruct b. Qed.
