(* ===== verification/JsNumber.v ===== *)
(** * JsNumber: the JavaScript numbers of the program

    A [number] is [NaN], an infinity, or a finite number kept exactly as the
    decimal [m / 10^e].  The operations are those the sources apply to
    numbers: [+], [-], [*], [/ 2] (the only division, in
    [rankActivitiesForDay]), [<], [<=], [>], [>=], [Math.min], [Math.max],
    [Math.round], [isNaN] and the [ToIntegerOrInfinity] conversion that
    [Array.prototype.slice] applies to its bounds.  They follow ECMA-262 on
    [NaN] and the infinities; on finite numbers they are exact (binary64
    rounding and the sign of zero are left out, see [Prelude]).

    [toQ] reads a finite number as a rational; [num_eqv] identifies the
    representations of one value, and the operations respect it.
    [as_integer] is the integer a number is when it is one (a number used
    as a property key), [eqb] is [===], and [within lo hi] is the test
    [!isNaN(x) && x >= lo && x <= hi] of coordinate validation. *)

From Stdlib Require Import ZArith QArith Qround Qminmax Bool Lia Lqa Morphisms Setoid.
From S2P Require Import Prelude.

Local Open Scope Z_scope.

(** ** Values *)

Inductive number : Type :=
| NaN
| Inf (negative : bool)
| Fin (m : Z) (e : nat).

Fixpoint pow10 (e : nat) : Z :=
  match e with
  | O => 1
  | S e' => 10 * pow10 e'
  end.

(** An integer literal, and a literal with [e] decimals: [dec 75 1] is [7.5]. *)
Definition int (z : Z) : number := Fin z 0.
Definition dec (m : Z) (e : nat) : number := Fin m e.

Definition is_NaN (x : number) : bool :=
  match x with
  | NaN => true
  | _ => false
  end.

Definition is_finite (x : number) : bool :=
  match x with
  | Fin _ _ => true
  | _ => false
  end.

(** ** Arithmetic *)

Definition neg (x : number) : number :=
  match x with
  | NaN => NaN
  | Inf s => Inf (negb s)
  | Fin m e => Fin (- m) e
  end.

Definition add (x y : number) : number :=
  match x, y with
  | NaN, _ | _, NaN => NaN
  | Inf s, Inf t => if Bool.eqb s t then Inf s else NaN
  | Inf s, Fin _ _ => Inf s
  | Fin _ _, Inf t => Inf t
  | Fin m1 e1, Fin m2 e2 => Fin (m1 * pow10 e2 + m2 * pow10 e1) (e1 + e2)
  end.

Definition sub (x y : number) : number := add x (neg y).

(** The sign of [Infinity * m]: [NaN] when [m] is zero. *)
Definition inf_times (s : bool) (m : Z) : number :=
  match m ?= 0 with
  | Eq => NaN
  | Lt => Inf (negb s)
  | Gt => Inf s
  end.

Definition mul (x y : number) : number :=
  match x, y with
  | NaN, _ | _, NaN => NaN
  | Inf s, Inf t => Inf (xorb s t)
  | Inf s, Fin m _ => inf_times s m
  | Fin m _, Inf t => inf_times t m
  | Fin m1 e1, Fin m2 e2 => Fin (m1 * m2) (e1 + e2)
  end.

(** [x / 2]. *)
Definition half (x : number) : number :=
  match x with
  | NaN => NaN
  | Inf s => Inf s
  | Fin m e => Fin (5 * m) (S e)
  end.

(** ** Comparisons: every comparison with [NaN] is false *)

Definition ltb (x y : number) : bool :=
  match x, y with
  | NaN, _ | _, NaN => false
  | Inf s, Inf t => s && negb t
  | Inf s, Fin _ _ => s
  | Fin _ _, Inf t => negb t
  | Fin m1 e1, Fin m2 e2 => m1 * pow10 e2 <? m2 * pow10 e1
  end.

Definition leb (x y : number) : bool :=
  match x, y with
  | NaN, _ | _, NaN => false
  | Inf s, Inf t => s || negb t
  | Inf s, Fin _ _ => s
  | Fin _ _, Inf t => negb t
  | Fin m1 e1, Fin m2 e2 => m1 * pow10 e2 <=? m2 * pow10 e1
  end.

Definition gtb (x y : number) : bool := ltb y x.
Definition geb (x y : number) : bool := leb y x.

(** [x === y] on numbers. *)
Definition eqb (x y : number) : bool :=
  match x, y with
  | NaN, _ | _, NaN => false
  | Inf s, Inf t => Bool.eqb s t
  | Fin m1 e1, Fin m2 e2 => m1 * pow10 e2 =? m2 * pow10 e1
  | _, _ => false
  end.

(** ** Math *)

Definition Math_min (x y : number) : number :=
  match x, y with
  | NaN, _ | _, NaN => NaN
  | _, _ => if ltb y x then y else x
  end.

Definition Math_max (x y : number) : number :=
  match x, y with
  | NaN, _ | _, NaN => NaN
  | _, _ => if ltb x y then y else x
  end.

(** [Math.round x] is [floor (x + 1/2)]: halves go up. *)
Definition Math_round (x : number) : number :=
  match x with
  | NaN => NaN
  | Inf s => Inf s
  | Fin m e => Fin ((2 * m + pow10 e) / (2 * pow10 e)) 0
  end.

(** ** Conversions *)

(** [ToIntegerOrInfinity]: [NaN] is [0], a finite number is truncated
    towards zero, an infinity is kept ([None] here). *)
Inductive integer_or_infinity : Type :=
| Integer (z : Z)
| PlusInfinity
| MinusInfinity.

Definition ToIntegerOrInfinity (x : number) : integer_or_infinity :=
  match x with
  | NaN => Integer 0
  | Inf false => PlusInfinity
  | Inf true => MinusInfinity
  | Fin m e => Integer (Z.quot m (pow10 e))
  end.

(** ** Reading finite numbers as rationals *)

Definition toQ (x : number) : Q :=
  match x with
  | Fin m e => Qmake m (Z.to_pos (pow10 e))
  | _ => 0%Q
  end.

(** Two representations of one value. *)
Definition num_eqv (x y : number) : Prop :=
  match x, y with
  | NaN, NaN => True
  | Inf s, Inf t => s = t
  | Fin m1 e1, Fin m2 e2 => m1 * pow10 e2 = m2 * pow10 e1
  | _, _ => False
  end.

Infix "==n" := num_eqv (at level 70, no associativity) : js_scope.

(** An integer of the closed interval [lo..hi], in its canonical form. *)
Definition int_between (lo hi : Z) (x : number) : Prop :=
  exists z, x = Fin z 0 /\ lo <= z <= hi.

(** ** Powers of ten *)

Lemma pow10_pos (e : nat) : 0 < pow10 e.
Proof. induction e; cbn [pow10]; lia. Qed.

Lemma pow10_add (a b : nat) : pow10 (a + b) = pow10 a * pow10 b.
Proof. induction a; cbn [pow10 Nat.add]; [lia | rewrite IHa; ring]. Qed.

Lemma pow10_Z (e : nat) : pow10 e = 10 ^ Z.of_nat e.
Proof.
  induction e; [reflexivity|].
  rewrite Nat2Z.inj_succ, Z.pow_succ_r by lia. cbn [pow10]. lia.
Qed.

#[export] Hint Resolve pow10_pos : js.

(** Multiplying both sides of a comparison by a power of ten. *)
Lemma pow10_mul_lt (a b : Z) (e : nat) : a < b <-> a * pow10 e < b * pow10 e.
Proof. pose proof (pow10_pos e). nia. Qed.

Lemma pow10_mul_le (a b : Z) (e : nat) : a <= b <-> a * pow10 e <= b * pow10 e.
Proof. pose proof (pow10_pos e). nia. Qed.

Lemma pow10_mul_eq (a b : Z) (e : nat) : a = b <-> a * pow10 e = b * pow10 e.
Proof. pose proof (pow10_pos e). nia. Qed.

(** ** [toQ] is a homomorphism on finite numbers *)

Lemma toQ_Fin (m : Z) (e : nat) :
  (toQ (Fin m e) == inject_Z m / inject_Z (pow10 e))%Q.
Proof.
  pose proof (pow10_pos e) as H. unfold toQ.
  rewrite (Qmake_Qdiv m (Z.to_pos (pow10 e))), Z2Pos.id by exact H.
  reflexivity.
Qed.

Lemma inject_pow10_neq0 (e : nat) : ~ (inject_Z (pow10 e) == 0)%Q.
Proof.
  pose proof (pow10_pos e). unfold Qeq. simpl. lia.
Qed.

#[export] Hint Resolve inject_pow10_neq0 : js.

Lemma toQ_int (z : Z) : (toQ (int z) == inject_Z z)%Q.
Proof. unfold int, toQ. simpl. unfold inject_Z. reflexivity. Qed.

Lemma toQ_add (m1 m2 : Z) (e1 e2 : nat) :
  (toQ (add (Fin m1 e1) (Fin m2 e2)) == toQ (Fin m1 e1) + toQ (Fin m2 e2))%Q.
Proof.
  cbn [add]. rewrite !toQ_Fin, pow10_add, inject_Z_plus, !inject_Z_mult.
  field. split; auto with js.
Qed.

Lemma toQ_neg (m : Z) (e : nat) : (toQ (neg (Fin m e)) == - toQ (Fin m e))%Q.
Proof.
  cbn [neg]. rewrite !toQ_Fin, inject_Z_opp. field. auto with js.
Qed.

Lemma toQ_sub (m1 m2 : Z) (e1 e2 : nat) :
  (toQ (sub (Fin m1 e1) (Fin m2 e2)) == toQ (Fin m1 e1) - toQ (Fin m2 e2))%Q.
Proof.
  unfold sub. change (neg (Fin m2 e2)) with (Fin (- m2) e2).
  rewrite toQ_add. change (Fin (- m2) e2) with (neg (Fin m2 e2)).
  rewrite toQ_neg. ring.
Qed.

Lemma toQ_mul (m1 m2 : Z) (e1 e2 : nat) :
  (toQ (mul (Fin m1 e1) (Fin m2 e2)) == toQ (Fin m1 e1) * toQ (Fin m2 e2))%Q.
Proof.
  cbn [mul]. rewrite !toQ_Fin, pow10_add, !inject_Z_mult.
  field. split; auto with js.
Qed.

Lemma toQ_half (m : Z) (e : nat) :
  (toQ (half (Fin m e)) == toQ (Fin m e) / 2)%Q.
Proof.
  cbn [half]. rewrite !toQ_Fin. cbn [pow10]. rewrite !inject_Z_mult.
  field. auto with js.
Qed.

(** ** The comparisons decide the order of the rationals *)

(** [Z.pos (Z.to_pos (pow10 e))] back to [pow10 e], everywhere. *)
Ltac pow10_pos_id :=
  repeat match goal with
  | |- context [Z.pos (Z.to_pos (pow10 ?e))] =>
      rewrite (Z2Pos.id (pow10 e) (pow10_pos e))
  | H : context [Z.pos (Z.to_pos (pow10 ?e))] |- _ =>
      rewrite (Z2Pos.id (pow10 e) (pow10_pos e)) in H
  end.

Lemma ltb_Fin (m1 m2 : Z) (e1 e2 : nat) :
  ltb (Fin m1 e1) (Fin m2 e2) = true <-> (toQ (Fin m1 e1) < toQ (Fin m2 e2))%Q.
Proof.
  cbn [ltb toQ]. rewrite Z.ltb_lt. unfold Qlt. cbn [Qnum Qden].
  pow10_pos_id. reflexivity.
Qed.

Lemma leb_Fin (m1 m2 : Z) (e1 e2 : nat) :
  leb (Fin m1 e1) (Fin m2 e2) = true <-> (toQ (Fin m1 e1) <= toQ (Fin m2 e2))%Q.
Proof.
  cbn [leb toQ]. rewrite Z.leb_le. unfold Qle. cbn [Qnum Qden].
  pow10_pos_id. reflexivity.
Qed.

Lemma eqb_Fin (m1 m2 : Z) (e1 e2 : nat) :
  eqb (Fin m1 e1) (Fin m2 e2) = true <-> (toQ (Fin m1 e1) == toQ (Fin m2 e2))%Q.
Proof.
  cbn [eqb toQ]. rewrite Z.eqb_eq. unfold Qeq. cbn [Qnum Qden].
  pow10_pos_id. reflexivity.
Qed.

Lemma num_eqv_Fin (m1 m2 : Z) (e1 e2 : nat) :
  num_eqv (Fin m1 e1) (Fin m2 e2) <-> (toQ (Fin m1 e1) == toQ (Fin m2 e2))%Q.
Proof.
  cbn [num_eqv toQ]. unfold Qeq. cbn [Qnum Qden]. pow10_pos_id. reflexivity.
Qed.

Lemma num_eqv_toQ (x y : number) :
  is_finite x = true -> is_finite y = true -> (toQ x == toQ y)%Q -> num_eqv x y.
Proof.
  destruct x, y; try discriminate. intros _ _. apply num_eqv_Fin.
Qed.

(** Without [NaN], [<] is the negation of the converse [<=]. *)
Lemma ltb_negb_leb (x y : number) :
  is_NaN x = false -> is_NaN y = false -> ltb x y = negb (leb y x).
Proof.
  destruct x as [|s|m1 e1], y as [|t|m2 e2]; cbn; try discriminate; intros _ _.
  - destruct s, t; reflexivity.
  - destruct s; reflexivity.
  - destruct t; reflexivity.
  - apply Z.ltb_antisym.
Qed.

Lemma ltb_irrefl (x : number) : ltb x x = false.
Proof. destruct x as [|[]|m e]; cbn; auto using Z.ltb_irrefl. Qed.

Lemma ltb_leb_incl (x y : number) : ltb x y = true -> leb x y = true.
Proof.
  destruct x as [|s|m1 e1], y as [|t|m2 e2]; cbn; try discriminate; auto.
  - destruct s, t; auto.
  - rewrite Z.ltb_lt, Z.leb_le. lia.
Qed.

Lemma ltb_asym (x y : number) : ltb x y = true -> ltb y x = false.
Proof.
  destruct x as [|s|m1 e1], y as [|t|m2 e2]; cbn; try discriminate; auto.
  - destruct s, t; auto.
  - destruct s; auto.
  - destruct t; auto.
  - rewrite Z.ltb_lt, Z.ltb_ge. lia.
Qed.

Lemma ltb_trans (x y z : number) :
  ltb x y = true -> ltb y z = true -> ltb x z = true.
Proof.
  destruct x as [|s|m1 e1], y as [|t|m2 e2], z as [|u|m3 e3]; cbn;
    try discriminate; try (destruct s); try (destruct t); try (destruct u);
    cbn; try discriminate; auto.
  rewrite !Z.ltb_lt. intros H1 H2.
  apply (pow10_mul_lt _ _ e2).
  apply (proj1 (pow10_mul_lt _ _ e3)) in H1.
  apply (proj1 (pow10_mul_lt _ _ e1)) in H2. lia.
Qed.

(** [ltb] is negatively transitive: what is not below is not overtaken. *)
Lemma ltb_false_trans (x y z : number) :
  is_NaN y = false ->
  ltb x y = false -> ltb y z = false -> ltb x z = false.
Proof.
  destruct x as [|s|m1 e1], y as [|t|m2 e2], z as [|u|m3 e3]; cbn;
    try discriminate; try (destruct s); try (destruct t); try (destruct u);
    cbn; try discriminate; auto.
  rewrite !Z.ltb_ge. intros _ H1 H2.
  apply (pow10_mul_le _ _ e2).
  apply (proj1 (pow10_mul_le _ _ e1)) in H2.
  apply (proj1 (pow10_mul_le _ _ e3)) in H1. lia.
Qed.

(** The sign test of a comparator [b - a] is the comparison [a < b]. *)
Lemma ltb_0_sub (a b : number) : ltb (int 0) (sub b a) = ltb a b.
Proof.
  destruct a as [|[]|m1 e1], b as [|[]|m2 e2]; cbn; try reflexivity.
  apply eq_true_iff_eq. rewrite !Z.ltb_lt. lia.
Qed.

Lemma ltb_sub_0 (a b : number) : ltb (sub b a) (int 0) = ltb b a.
Proof.
  destruct a as [|[]|m1 e1], b as [|[]|m2 e2]; cbn; try reflexivity.
  apply eq_true_iff_eq. rewrite !Z.ltb_lt. lia.
Qed.

(** ** [num_eqv] is an equivalence and the operations respect it *)

#[export] Instance num_eqv_Equivalence : Equivalence num_eqv.
Proof.
  split.
  - intros [|s|m e]; cbn; auto.
  - intros [|s|m e] [|t|m' e']; cbn; auto.
  - intros [|s|m1 e1] [|t|m2 e2] [|u|m3 e3]; try (cbn; (tauto || congruence)).
    rewrite !num_eqv_Fin. intros H1 H2. rewrite H1. exact H2.
Qed.

(** Case analysis on the arguments of a binary operation, related pairwise;
    the cases left are those where both sides have the same shape. *)
Ltac num_eqv_cases :=
  let x := fresh "x" in let x' := fresh "x'" in let Hx := fresh "Hx" in
  let y := fresh "y" in let y' := fresh "y'" in let Hy := fresh "Hy" in
  intros x x' Hx y y' Hy;
  destruct x as [|? |? ?], x' as [|? |? ?]; cbn [num_eqv] in Hx; try contradiction;
  destruct y as [|? |? ?], y' as [|? |? ?]; cbn [num_eqv] in Hy; try contradiction;
  subst; try reflexivity; try (cbn; reflexivity).

#[export] Instance toQ_Proper : Proper (num_eqv ==> Qeq) toQ.
Proof.
  intros [|s|m e] [|t|m' e'] H; cbn [num_eqv] in H; try contradiction;
    try reflexivity.
  now apply num_eqv_Fin.
Qed.

#[export] Instance is_NaN_Proper : Proper (num_eqv ==> eq) is_NaN.
Proof. intros [|s|m e] [|t|m' e'] H; cbn in *; tauto. Qed.

#[export] Instance is_finite_Proper : Proper (num_eqv ==> eq) is_finite.
Proof. intros [|s|m e] [|t|m' e'] H; cbn in *; tauto. Qed.

#[export] Instance neg_Proper : Proper (num_eqv ==> num_eqv) neg.
Proof.
  intros [|s|m e] [|t|m' e'] H; cbn [num_eqv neg] in *; try tauto;
    [congruence | lia].
Qed.

#[export] Instance add_Proper : Proper (num_eqv ==> num_eqv ==> num_eqv) add.
Proof.
  num_eqv_cases. apply num_eqv_toQ; try reflexivity. rewrite !toQ_add.
  apply num_eqv_Fin in Hx, Hy. now rewrite Hx, Hy.
Qed.

#[export] Instance sub_Proper : Proper (num_eqv ==> num_eqv ==> num_eqv) sub.
Proof. intros x x' Hx y y' Hy. unfold sub. now rewrite Hx, Hy. Qed.

Lemma inf_times_eqv (s : bool) (m m' : Z) (e e' : nat) :
  m * pow10 e' = m' * pow10 e -> inf_times s m = inf_times s m'.
Proof.
  intros H. pose proof (pow10_pos e). pose proof (pow10_pos e').
  unfold inf_times.
  destruct (Z.compare_spec m 0), (Z.compare_spec m' 0); try reflexivity; nia.
Qed.

#[export] Instance mul_Proper : Proper (num_eqv ==> num_eqv ==> num_eqv) mul.
Proof.
  num_eqv_cases.
  - cbn [mul]. erewrite inf_times_eqv by eassumption. reflexivity.
  - cbn [mul]. erewrite inf_times_eqv by eassumption. reflexivity.
  - apply num_eqv_toQ; try reflexivity. rewrite !toQ_mul.
    apply num_eqv_Fin in Hx, Hy. now rewrite Hx, Hy.
Qed.

#[export] Instance half_Proper : Proper (num_eqv ==> num_eqv) half.
Proof.
  intros [|s|m e] [|t|m' e'] H; cbn [num_eqv half] in *; try tauto.
  cbn [pow10]. lia.
Qed.

#[export] Instance ltb_Proper : Proper (num_eqv ==> num_eqv ==> eq) ltb.
Proof.
  num_eqv_cases. apply eq_true_iff_eq. rewrite !ltb_Fin.
  apply num_eqv_Fin in Hx, Hy. now rewrite Hx, Hy.
Qed.

#[export] Instance leb_Proper : Proper (num_eqv ==> num_eqv ==> eq) leb.
Proof.
  num_eqv_cases. apply eq_true_iff_eq. rewrite !leb_Fin.
  apply num_eqv_Fin in Hx, Hy. now rewrite Hx, Hy.
Qed.

#[export] Instance gtb_Proper : Proper (num_eqv ==> num_eqv ==> eq) gtb.
Proof. intros x x' Hx y y' Hy. unfold gtb. now rewrite Hx, Hy. Qed.

#[export] Instance geb_Proper : Proper (num_eqv ==> num_eqv ==> eq) geb.
Proof. intros x x' Hx y y' Hy. unfold geb. now rewrite Hx, Hy. Qed.

#[export] Instance eqb_Proper : Proper (num_eqv ==> num_eqv ==> eq) eqb.
Proof.
  num_eqv_cases. apply eq_true_iff_eq. rewrite !eqb_Fin.
  apply num_eqv_Fin in Hx, Hy. now rewrite Hx, Hy.
Qed.

(** [Math.min] and [Math.max] choose one of their arguments. *)
Lemma Math_min_cases (x y : number) :
  is_NaN x = false -> is_NaN y = false ->
  Math_min x y = if ltb y x then y else x.
Proof. destruct x, y; cbn; congruence. Qed.

Lemma Math_max_cases (x y : number) :
  is_NaN x = false -> is_NaN y = false ->
  Math_max x y = if ltb x y then y else x.
Proof. destruct x, y; cbn; congruence. Qed.

Lemma Math_min_NaN (x y : number) :
  is_NaN (Math_min x y) = is_NaN x || is_NaN y.
Proof.
  destruct x as [|s|m e], y as [|t|m' e']; cbn [Math_min is_NaN orb];
    try reflexivity; now case_if.
Qed.

Lemma Math_max_NaN (x y : number) :
  is_NaN (Math_max x y) = is_NaN x || is_NaN y.
Proof.
  destruct x as [|s|m e], y as [|t|m' e']; cbn [Math_max is_NaN orb];
    try reflexivity; now case_if.
Qed.

#[export] Instance Math_min_Proper : Proper (num_eqv ==> num_eqv ==> num_eqv) Math_min.
Proof.
  intros x x' Hx y y' Hy.
  destruct (is_NaN x) eqn:Nx, (is_NaN y) eqn:Ny;
    pose proof Nx as Nx'; pose proof Ny as Ny'; rewrite Hx in Nx'; rewrite Hy in Ny';
    try (destruct x, x', y, y'; try discriminate; reflexivity).
  rewrite !Math_min_cases by assumption.
  rewrite (ltb_Proper _ _ Hy _ _ Hx). now case_if.
Qed.

#[export] Instance Math_max_Proper : Proper (num_eqv ==> num_eqv ==> num_eqv) Math_max.
Proof.
  intros x x' Hx y y' Hy.
  destruct (is_NaN x) eqn:Nx, (is_NaN y) eqn:Ny;
    pose proof Nx as Nx'; pose proof Ny as Ny'; rewrite Hx in Nx'; rewrite Hy in Ny';
    try (destruct x, x', y, y'; try discriminate; reflexivity).
  rewrite !Math_max_cases by assumption.
  rewrite (ltb_Proper _ _ Hx _ _ Hy). now case_if.
Qed.

(** ** [Math.round] and clamping *)

Lemma Math_round_Fin (m : Z) (e : nat) :
  Math_round (Fin m e) = int (Qfloor (toQ (Fin m e) + (1 # 2))).
Proof.
  unfold Math_round, int. f_equal.
  cbn [toQ Qplus Qfloor Qnum Qden]. rewrite Pos2Z.inj_mul. pow10_pos_id.
  f_equal; ring.
Qed.

#[export] Instance Math_round_Proper : Proper (num_eqv ==> eq) Math_round.
Proof.
  intros [|s|m e] [|t|m' e'] H; cbn [num_eqv] in H; try contradiction;
    try reflexivity; [now subst|].
  rewrite !Math_round_Fin. f_equal. apply Qfloor_comp.
  apply num_eqv_Fin in H. now rewrite H.
Qed.

Lemma Math_round_NaN (x : number) : is_NaN (Math_round x) = is_NaN x.
Proof. now destruct x. Qed.

(** The rounded value is within one half of the argument. *)
Lemma Math_round_bounds (m : Z) (e : nat) (z : Z) :
  Math_round (Fin m e) = int z ->
  (inject_Z z - (1 # 2) <= toQ (Fin m e) < inject_Z z + (1 # 2))%Q.
Proof.
  rewrite Math_round_Fin. intros H.
  assert (Hz : Qfloor (toQ (Fin m e) + (1 # 2)) = z) by (unfold int in H; congruence).
  rewrite <- Hz. clear H Hz.
  pose proof (Qfloor_le (toQ (Fin m e) + (1 # 2))) as Hl.
  pose proof (Qlt_floor (toQ (Fin m e) + (1 # 2))) as Hu.
  rewrite inject_Z_plus in Hu. change (inject_Z 1) with 1%Q in Hu.
  split; lra.
Qed.

Lemma Math_min_int (a b : Z) : Math_min (int a) (int b) = int (Z.min a b).
Proof.
  unfold int. cbn [Math_min ltb pow10]. rewrite !Z.mul_1_r.
  destruct (Z.ltb_spec b a); f_equal; lia.
Qed.

Lemma Math_max_int (a b : Z) : Math_max (int a) (int b) = int (Z.max a b).
Proof.
  unfold int. cbn [Math_max ltb pow10]. rewrite !Z.mul_1_r.
  destruct (Z.ltb_spec a b); f_equal; lia.
Qed.

(** [Math.max lo (Math.min hi (Math.round x))]: the clamp of the sources. *)
Definition clamp_round (lo hi : Z) (x : number) : number :=
  Math_max (int lo) (Math_min (int hi) (Math_round x)).

Lemma clamp_round_Fin (lo hi m : Z) (e : nat) :
  clamp_round lo hi (Fin m e)
  = int (Z.max lo (Z.min hi (Qfloor (toQ (Fin m e) + (1 # 2))))).
Proof.
  unfold clamp_round. now rewrite Math_round_Fin, Math_min_int, Math_max_int.
Qed.

Lemma clamp_round_Inf (lo hi : Z) (s : bool) :
  lo <= hi -> clamp_round lo hi (Inf s) = int (if s then lo else hi).
Proof.
  intros H. unfold clamp_round, int. destruct s; cbn; [reflexivity|].
  rewrite !Z.mul_1_r. destruct (Z.ltb_spec lo hi); f_equal; lia.
Qed.

Lemma clamp_round_NaN (lo hi : Z) (x : number) :
  is_NaN (clamp_round lo hi x) = is_NaN x.
Proof.
  unfold clamp_round. now rewrite Math_max_NaN, Math_min_NaN, Math_round_NaN.
Qed.

Lemma clamp_round_between (lo hi : Z) (x : number) :
  lo <= hi -> is_NaN x = false -> int_between lo hi (clamp_round lo hi x).
Proof.
  intros Hle Hx. destruct x as [|s|m e]; [discriminate| |].
  - rewrite clamp_round_Inf by exact Hle. exists (if s then lo else hi).
    split; [reflexivity | destruct s; lia].
  - rewrite clamp_round_Fin. eexists. split; [reflexivity | lia].
Qed.

(** ** Which results are [NaN] *)

Lemma neg_NaN (x : number) : is_NaN (neg x) = is_NaN x.
Proof. now destruct x. Qed.

Lemma half_NaN (x : number) : is_NaN (half x) = is_NaN x.
Proof. now destruct x. Qed.

Lemma add_finite_NaN (x y : number) :
  is_finite y = true -> is_NaN (add x y) = is_NaN x.
Proof. destruct x, y; try discriminate; reflexivity. Qed.

Lemma finite_add_NaN (x y : number) :
  is_finite x = true -> is_NaN (add x y) = is_NaN y.
Proof. destruct x, y; try discriminate; reflexivity. Qed.

Lemma sub_finite_NaN (x y : number) :
  is_finite y = true -> is_NaN (sub x y) = is_NaN x.
Proof. destruct x, y; try discriminate; reflexivity. Qed.

Lemma finite_sub_NaN (x y : number) :
  is_finite x = true -> is_NaN (sub x y) = is_NaN y.
Proof. destruct x, y; try discriminate; reflexivity. Qed.

Lemma mul_nonzero_NaN (x : number) (m : Z) (e : nat) :
  m <> 0 -> is_NaN (mul x (Fin m e)) = is_NaN x.
Proof.
  intros Hm. destruct x as [|s|m' e']; try reflexivity.
  cbn [mul]. unfold inf_times. destruct (Z.compare_spec m 0); now try lia.
Qed.

Lemma add_finite (x y : number) :
  is_finite x = true -> is_finite y = true -> is_finite (add x y) = true.
Proof. destruct x, y; try discriminate; reflexivity. Qed.

Lemma sub_finite (x y : number) :
  is_finite x = true -> is_finite y = true -> is_finite (sub x y) = true.
Proof. destruct x, y; try discriminate; reflexivity. Qed.

Lemma mul_finite (x y : number) :
  is_finite x = true -> is_finite y = true -> is_finite (mul x y) = true.
Proof. destruct x, y; try discriminate; reflexivity. Qed.

Lemma half_finite (x : number) : is_finite (half x) = is_finite x.
Proof. now destruct x. Qed.

Lemma finite_not_NaN (x : number) : is_finite x = true -> is_NaN x = false.
Proof. now destruct x. Qed.

Lemma Math_min_finite (x y : number) :
  is_finite x = true -> is_finite y = true -> is_finite (Math_min x y) = true.
Proof. destruct x, y; try discriminate; intros _ _; cbn [Math_min]; now case_if. Qed.

Lemma int_between_not_NaN (lo hi : Z) (x : number) :
  int_between lo hi x -> is_NaN x = false.
Proof. now intros (z & -> & _). Qed.

#[export] Hint Resolve add_finite sub_finite mul_finite Math_min_finite
  finite_not_NaN int_between_not_NaN : js.
#[export] Hint Rewrite neg_NaN half_NaN Math_round_NaN Math_min_NaN
  Math_max_NaN clamp_round_NaN : js_simpl.

(** Every comparison with [NaN] is false. *)
Lemma ltb_NaN_l (y : number) : ltb NaN y = false.
Proof. reflexivity. Qed.

Lemma ltb_NaN_r (x : number) : ltb x NaN = false.
Proof. now destruct x. Qed.

Lemma leb_NaN_l (y : number) : leb NaN y = false.
Proof. reflexivity. Qed.

Lemma leb_NaN_r (x : number) : leb x NaN = false.
Proof. now destruct x. Qed.

#[export] Hint Rewrite ltb_NaN_l ltb_NaN_r leb_NaN_l leb_NaN_r : js_simpl.

(** ** [ToIntegerOrInfinity] *)

#[export] Instance ToIntegerOrInfinity_Proper :
  Proper (num_eqv ==> eq) ToIntegerOrInfinity.
Proof.
  intros [|s|m e] [|t|m' e'] H; cbn [num_eqv] in H; try contradiction;
    try reflexivity; [now subst|].
  cbn [ToIntegerOrInfinity]. f_equal.
  pose proof (pow10_pos e). pose proof (pow10_pos e').
  rewrite <- (Z.quot_mul_cancel_r m (pow10 e) (pow10 e')) by lia.
  rewrite <- (Z.quot_mul_cancel_r m' (pow10 e') (pow10 e)) by lia.
  rewrite H. f_equal. ring.
Qed.

Lemma ToIntegerOrInfinity_int (z : Z) : ToIntegerOrInfinity (int z) = Integer z.
Proof. unfold int. cbn [ToIntegerOrInfinity pow10]. now rewrite Z.quot_1_r. Qed.

(** ** Finite numbers compute as rationals

    The homomorphism lemmas once more, for operands known to be finite
    rather than written as [Fin]: the form the component files rewrite
    with. *)

(** [a < b] on rationals, as a boolean. *)
Definition Qltb (a b : Q) : bool := negb (Qle_bool b a).

Lemma Qltb_lt (a b : Q) : Qltb a b = true <-> (a < b)%Q.
Proof.
  unfold Qltb. rewrite negb_true_iff, <- not_true_iff_false, Qle_bool_iff.
  split; [apply Qnot_le_lt | apply Qlt_not_le].
Qed.

#[export] Instance Qltb_Proper : Proper (Qeq ==> Qeq ==> eq) Qltb.
Proof. intros a a' Ha b b' Hb. unfold Qltb. now rewrite Ha, Hb. Qed.

Section Finite.
Variables x y : number.
Hypothesis Hx : is_finite x = true.
Hypothesis Hy : is_finite y = true.

Lemma toQ_add_fin : (toQ (add x y) == toQ x + toQ y)%Q.
Proof. destruct x, y; try discriminate. apply toQ_add. Qed.

Lemma toQ_sub_fin : (toQ (sub x y) == toQ x - toQ y)%Q.
Proof. destruct x, y; try discriminate. apply toQ_sub. Qed.

Lemma toQ_mul_fin : (toQ (mul x y) == toQ x * toQ y)%Q.
Proof. destruct x, y; try discriminate. apply toQ_mul. Qed.

Lemma toQ_half_fin : (toQ (half x) == toQ x / 2)%Q.
Proof. destruct x; try discriminate. apply toQ_half. Qed.

Lemma ltb_toQ : ltb x y = Qltb (toQ x) (toQ y).
Proof.
  destruct x, y; try discriminate. apply eq_true_iff_eq.
  now rewrite ltb_Fin, Qltb_lt.
Qed.

Lemma leb_toQ : leb x y = Qle_bool (toQ x) (toQ y).
Proof.
  destruct x, y; try discriminate. apply eq_true_iff_eq.
  now rewrite leb_Fin, Qle_bool_iff.
Qed.

Lemma toQ_Math_min_fin : (toQ (Math_min x y) == Qmin (toQ x) (toQ y))%Q.
Proof.
  rewrite Math_min_cases by auto using finite_not_NaN.
  assert (Hlt : ltb y x = Qltb (toQ y) (toQ x)).
  { destruct x, y; try discriminate. apply eq_true_iff_eq.
    now rewrite ltb_Fin, Qltb_lt. }
  rewrite Hlt. destruct (Qltb (toQ y) (toQ x)) eqn:E.
  - apply Qltb_lt in E. symmetry. apply Q.min_r. now apply Qlt_le_weak.
  - apply not_true_iff_false in E. rewrite Qltb_lt in E.
    symmetry. apply Q.min_l. now apply Qnot_lt_le.
Qed.

Lemma clamp_round_fin (lo hi : Z) :
  clamp_round lo hi x = int (Z.max lo (Z.min hi (Qfloor (toQ x + (1 # 2))))).
Proof. destruct x; try discriminate. apply clamp_round_Fin. Qed.

End Finite.

Lemma gtb_toQ (x y : number) :
  is_finite x = true -> is_finite y = true -> gtb x y = Qltb (toQ y) (toQ x).
Proof. intros Hx Hy. unfold gtb. now apply ltb_toQ. Qed.

Lemma geb_toQ (x y : number) :
  is_finite x = true -> is_finite y = true -> geb x y = Qle_bool (toQ y) (toQ x).
Proof. intros Hx Hy. unfold geb. now apply leb_toQ. Qed.

(** ** Numbers as property keys *)

(** The integer a number is, when it is one: a number used as a property
    key selects the property named by its decimal text, and the keys of the
    program's tables are texts of integers. *)
Definition as_integer (x : number) : option Z :=
  match x with
  | Fin m e => if m mod pow10 e =? 0 then Some (m / pow10 e) else None
  | _ => None
  end.

Lemma as_integer_Some (x : number) (z : Z) :
  as_integer x = Some z <-> num_eqv x (int z).
Proof.
  destruct x as [| s | m e]; cbn [as_integer];
    try (split; [discriminate | intros []]).
  pose proof (pow10_pos e) as Hp. unfold int. cbn [num_eqv pow10].
  rewrite Z.mul_1_r. destruct (Z.eqb_spec (m mod pow10 e) 0) as [H0 | H0].
  - apply Z.div_exact in H0; [|lia]. set (q := m / pow10 e) in *. split.
    + intros [= <-]. rewrite H0. apply Z.mul_comm.
    + intros H. f_equal. apply (Z.mul_cancel_l _ _ (pow10 e)); lia.
  - split; [discriminate | intros ->]. exfalso. apply H0.
    apply Z.mod_mul. lia.
Qed.

Lemma as_integer_int (z : Z) : as_integer (int z) = Some z.
Proof. now apply as_integer_Some. Qed.

#[export] Instance as_integer_Proper : Proper (num_eqv ==> eq) as_integer.
Proof.
  intros x y Hxy. destruct (as_integer y) as [z|] eqn:Ey.
  - apply as_integer_Some. apply as_integer_Some in Ey. now rewrite Hxy.
  - destruct (as_integer x) as [z|] eqn:Ex; [|reflexivity].
    apply as_integer_Some in Ex. rewrite Hxy in Ex.
    apply as_integer_Some in Ex. congruence.
Qed.

(** ** Closed intervals *)

(** [!isNaN(x) && x >= lo && x <= hi] for integer bounds. *)
Definition within (lo hi : Z) (x : number) : bool :=
  negb (is_NaN x) && geb x (int lo) && leb x (int hi).

Lemma within_spec (lo hi : Z) (x : number) :
  within lo hi x = true
  <-> is_finite x = true /\ (inject_Z lo <= toQ x <= inject_Z hi)%Q.
Proof.
  unfold within. destruct x as [| s | m e].
  - cbn. split; [discriminate | now intros [? _]].
  - split; [|now intros [? _]]. destruct s; cbn; rewrite ?andb_false_r; discriminate.
  - rewrite geb_toQ, leb_toQ by reflexivity. cbn [is_NaN negb andb is_finite].
    rewrite andb_true_iff, !Qle_bool_iff, !toQ_int. tauto.
Qed.

#[export] Instance within_Proper (lo hi : Z) : Proper (num_eqv ==> eq) (within lo hi).
Proof. intros x y Hxy. unfold within. now rewrite Hxy. Qed.

Lemma within_finite (lo hi : Z) (x : number) :
  within lo hi x = true -> is_finite x = true.
Proof. intros Hw. now apply within_spec in Hw. Qed.

Lemma within_not_NaN (lo hi : Z) (x : number) :
  within lo hi x = true -> is_NaN x = false.
Proof. intros Hw. now apply finite_not_NaN, (within_finite lo hi). Qed.

(** [x === y] holds exactly when [x] and [y] are one value and not [NaN]. *)
Lemma eqb_eqv (x y : number) :
  eqb x y = true <-> num_eqv x y /\ is_NaN x = false.
Proof.
  destruct x as [| s | m1 e1], y as [| t | m2 e2]; cbn [eqb num_eqv is_NaN];
    try (split; [discriminate | intros [? ?]; (discriminate || contradiction)]).
  - rewrite Bool.eqb_true_iff. intuition.
  - rewrite Z.eqb_eq. intuition.
Qed.

Lemma eqb_int (x : number) (z : Z) : eqb x (int z) = true <-> num_eqv x (int z).
Proof.
  rewrite eqb_eqv. split; [tauto | intros Hx; split; [exact Hx|]].
  now rewrite Hx.
Qed.
