(* ===== verification/JsString.v ===== *)
(** * JsString: the string operations of the program

    [String.prototype.includes], [split] on a one-character separator,
    [trim], [Array.prototype.join] on an array of strings, and the [||]
    operator applied to a string (the empty string is the one falsy string).
    Strings are [string] of the standard library, one [ascii] per code unit:
    code units above 255 are not represented, so of the white space that
    [trim] removes only the Latin-1 part (TAB, LF, VT, FF, CR, SPACE, NBSP)
    is modelled. *)

From Stdlib Require Import String Ascii List Bool Lia.
From S2P Require Import Prelude.
Import ListNotations.

Local Open Scope string_scope.

(** ** Operations *)

(** [s.includes(sub)]: [sub] occurs in [s] at some position. *)
Fixpoint includes (s sub : string) : bool :=
  match s with
  | EmptyString => prefix sub EmptyString
  | String c s' => prefix sub s || includes s' sub
  end.

(** [s.split(sep)] for a separator of one character: never empty. *)
Fixpoint split (s : string) (sep : ascii) : list string :=
  match s with
  | EmptyString => [EmptyString]
  | String c s' =>
      if Ascii.eqb c sep then EmptyString :: split s' sep
      else match split s' sep with
           | [] => [String c EmptyString]
           | p :: ps => String c p :: ps
           end
  end.

(** [c] does not occur in [s]. *)
Fixpoint lacks (c : ascii) (s : string) : bool :=
  match s with
  | EmptyString => true
  | String d s' => negb (Ascii.eqb d c) && lacks c s'
  end.

Definition is_whitespace (c : ascii) : bool :=
  match nat_of_ascii c with
  | 9 | 10 | 11 | 12 | 13 | 32 | 160 => true
  | _ => false
  end.

(** A string of white space only. *)
Fixpoint blank (s : string) : bool :=
  match s with
  | EmptyString => true
  | String c s' => is_whitespace c && blank s'
  end.

Fixpoint trimStart (s : string) : string :=
  match s with
  | EmptyString => EmptyString
  | String c s' => if is_whitespace c then trimStart s' else s
  end.

Fixpoint trimEnd (s : string) : string :=
  match s with
  | EmptyString => EmptyString
  | String c s' =>
      match trimEnd s' with
      | EmptyString => if is_whitespace c then EmptyString else String c EmptyString
      | t => String c t
      end
  end.

(** [s.trim()]. *)
Definition trim (s : string) : string := trimEnd (trimStart s).

(** [l.join(sep)]. *)
Definition join (l : list string) (sep : string) : string := String.concat sep l.

(** [s || d]: [d] when [s] is empty. *)
Definition or_default (s d : string) : string :=
  match s with
  | EmptyString => d
  | _ => s
  end.

(** The double-quote character, and a text between double quotes. *)
Definition dquote : string := String (ascii_of_nat 34) EmptyString.
Definition quoted (s : string) : string := dquote ++ s ++ dquote.

(** ** Append *)

Lemma string_app_nil_r (s : string) : s ++ "" = s.
Proof. induction s; simpl; congruence. Qed.

Lemma string_app_assoc (a b c : string) : (a ++ b) ++ c = a ++ b ++ c.
Proof. induction a; simpl; congruence. Qed.

Lemma string_length_app (a b : string) :
  String.length (a ++ b) = String.length a + String.length b.
Proof. induction a; simpl; congruence. Qed.

Lemma string_app_inv_head (a b c : string) : a ++ b = a ++ c -> b = c.
Proof. induction a; simpl; intros H; [assumption | inv H; auto]. Qed.

#[export] Hint Rewrite string_app_nil_r string_app_assoc string_length_app : js_simpl.

(** ** Prefixes and occurrences *)

Lemma prefix_app (p s : string) : prefix p s = true <-> exists r, s = p ++ r.
Proof.
  revert s. induction p as [|c p IH]; intros [|d s]; simpl.
  - split; [eauto | reflexivity].
  - split; [eauto | reflexivity].
  - split; [discriminate | intros (r & [=])].
  - destruct (ascii_dec c d) as [->|Hne].
    + rewrite IH. split; intros (r & Hr); exists r; [now subst | now inv Hr].
    + split; [discriminate | intros (r & [= Hc _]); congruence].
Qed.

Lemma prefix_append (p r : string) : prefix p (p ++ r) = true.
Proof. apply prefix_app. eauto. Qed.

Lemma includes_app (s sub : string) :
  includes s sub = true <-> exists a b, s = a ++ sub ++ b.
Proof.
  induction s as [|c s IH]; cbn [includes].
  - rewrite prefix_app. split.
    + intros (r & Hr). now exists "", r.
    + intros ([|] & b & Hb); [eauto | discriminate].
  - rewrite orb_true_iff, prefix_app, IH. split.
    + intros [(r & Hr) | (a & b & Hab)]; [now exists "", r|].
      exists (String c a), b. now subst.
    + intros ([|d a] & b & Hab); [left; eauto | right].
      inv Hab. eauto.
Qed.

Lemma includes_false (s sub : string) :
  includes s sub = false <-> forall a b, s <> a ++ sub ++ b.
Proof.
  rewrite <- not_true_iff_false, includes_app. split.
  - intros H a b E. apply H. eauto.
  - intros H (a & b & E). exact (H a b E).
Qed.

(** ** [join] *)

Lemma join_nil (sep : string) : join [] sep = "".
Proof. reflexivity. Qed.

Lemma join_one (x sep : string) : join [x] sep = x.
Proof. reflexivity. Qed.

Lemma join_cons (x y : string) (l : list string) (sep : string) :
  join (x :: y :: l) sep = x ++ sep ++ join (y :: l) sep.
Proof. reflexivity. Qed.

Lemma app_empty_inv (a b : string) : a ++ b = "" -> a = "" /\ b = "".
Proof. destruct a; simpl; [auto | discriminate]. Qed.

(** A joined list starts with its first element. *)
Lemma join_prefix (x : string) (l : list string) (sep : string) :
  exists r, join (x :: l) sep = x ++ r.
Proof.
  destruct l as [|y l]; [exists ""; simpl; now rewrite string_app_nil_r|].
  rewrite join_cons. eauto.
Qed.

Lemma join_nonempty (x : string) (l : list string) (sep : string) :
  x <> "" -> join (x :: l) sep <> "".
Proof.
  intros Hx. destruct (join_prefix x l sep) as (r & ->).
  intros H. now apply app_empty_inv in H.
Qed.

(** ** [||] *)

Lemma or_default_nonempty (s d : string) : s <> "" -> or_default s d = s.
Proof. now destruct s. Qed.

Lemma or_default_empty (d : string) : or_default "" d = d.
Proof. reflexivity. Qed.

Lemma or_default_not_empty (s d : string) : d <> "" -> or_default s d <> "".
Proof. destruct s; [auto | discriminate]. Qed.

#[export] Hint Rewrite join_nil join_one or_default_empty : js_simpl.
#[export] Hint Resolve join_nonempty or_default_not_empty : js.

(** ** [split] *)

Lemma split_nonempty (s : string) (sep : ascii) : split s sep <> [].
Proof.
  destruct s; simpl; [discriminate|].
  destruct (Ascii.eqb _ _); [discriminate|]. now destruct (split s sep).
Qed.

Lemma split_lacks (s : string) (sep : ascii) :
  lacks sep s = true -> split s sep = [s].
Proof.
  induction s as [|c s IH]; simpl; [reflexivity|].
  rewrite andb_true_iff, negb_true_iff. intros [Hc Hs].
  now rewrite Hc, IH.
Qed.

Lemma split_pieces_lack (s : string) (sep : ascii) :
  Forall (fun p => lacks sep p = true) (split s sep).
Proof.
  induction s as [|c s IH]; simpl; [now repeat constructor|].
  destruct (Ascii.eqb c sep) eqn:E; [now constructor|].
  destruct (split s sep) as [|p ps]; [repeat constructor; simpl; now rewrite E|].
  inv IH. constructor; [|assumption]. simpl. now rewrite E.
Qed.

Lemma lacks_app (c : ascii) (a b : string) :
  lacks c (a ++ b) = lacks c a && lacks c b.
Proof. induction a; simpl; [reflexivity | now rewrite IHa, andb_assoc]. Qed.

(** Splitting [p ++ sep ++ rest] where [p] lacks the separator. *)
Lemma split_app (p rest : string) (sep : ascii) :
  lacks sep p = true ->
  split (p ++ String sep rest) sep = p :: split rest sep.
Proof.
  induction p as [|c p IH]; simpl.
  - intros _. now rewrite Ascii.eqb_refl.
  - rewrite andb_true_iff, negb_true_iff. intros [Hc Hp].
    now rewrite Hc, IH.
Qed.

(** Joining with the separator and splitting again returns the pieces. *)
Lemma split_join (l : list string) (sep : ascii) :
  l <> [] -> Forall (fun p => lacks sep p = true) l ->
  split (join l (String sep "")) sep = l.
Proof.
  intros Hne Hl. induction Hl as [|p l Hp Hl IH]; [congruence|].
  destruct l as [|q l].
  - rewrite join_one. now apply split_lacks.
  - rewrite join_cons. cbn [append]. rewrite split_app by exact Hp.
    f_equal. apply IH. discriminate.
Qed.

Lemma join_split (s : string) (sep : ascii) :
  join (split s sep) (String sep "") = s.
Proof.
  induction s as [|c s IH]; [reflexivity|]. cbn [split].
  destruct (Ascii.eqb_spec c sep) as [->|Hne].
  - pose proof (split_nonempty s sep) as Hn.
    destruct (split s sep) as [|p ps]; [congruence|].
    rewrite join_cons. cbn [append]. now rewrite IH.
  - destruct (split s sep) as [|p ps] eqn:E; [now apply split_nonempty in E|].
    destruct ps as [|q ps].
    + rewrite join_one in *. now subst.
    + rewrite join_cons in *. cbn [append] in *. now rewrite IH.
Qed.

(** ** [trim] *)

Lemma trimStart_length (s : string) : String.length (trimStart s) <= String.length s.
Proof. induction s; simpl; [lia|]. destruct (is_whitespace a); simpl; lia. Qed.

Lemma trimEnd_length (s : string) : String.length (trimEnd s) <= String.length s.
Proof.
  induction s; simpl; [lia|].
  destruct (trimEnd s); [destruct (is_whitespace a)|]; simpl in *; lia.
Qed.

Lemma trim_length (s : string) : String.length (trim s) <= String.length s.
Proof.
  unfold trim. etransitivity; [apply trimEnd_length | apply trimStart_length].
Qed.

(** A string without white space at either end is left as it is. *)
Definition starts_clean (s : string) : bool :=
  match s with
  | EmptyString => true
  | String c _ => negb (is_whitespace c)
  end.

Lemma trimStart_clean (s : string) : starts_clean (trimStart s) = true.
Proof.
  induction s as [|c s IH]; simpl; [reflexivity|].
  destruct (is_whitespace c) eqn:E; [exact IH | simpl; now rewrite E].
Qed.

(** White space before a text is trimmed with the white space of the text. *)
Lemma trimStart_blank (ws s : string) : blank ws = true -> trimStart (ws ++ s) = trimStart s.
Proof.
  induction ws as [|c ws IH]; cbn [blank append trimStart]; [reflexivity|].
  intros [-> Hws]%andb_true_iff. auto.
Qed.

Lemma blank_lacks (c : ascii) (ws : string) :
  is_whitespace c = false -> blank ws = true -> lacks c ws = true.
Proof.
  intros Hc. induction ws as [|d ws IH]; cbn [blank lacks]; [reflexivity|].
  intros [Hd Hws]%andb_true_iff. rewrite IH, andb_true_r by exact Hws.
  destruct (Ascii.eqb_spec d c) as [->|]; [congruence | reflexivity].
Qed.

Lemma trimStart_id (s : string) : starts_clean s = true -> trimStart s = s.
Proof. destruct s; simpl; [reflexivity|]. now intros ->%negb_true_iff. Qed.

Lemma trimEnd_cons (c : ascii) (s : string) :
  trimEnd (String c s)
  = match trimEnd s with
    | EmptyString => if is_whitespace c then EmptyString else String c EmptyString
    | t => String c t
    end.
Proof. reflexivity. Qed.

Lemma trimEnd_idem (s : string) : trimEnd (trimEnd s) = trimEnd s.
Proof.
  induction s as [|c s IH]; [reflexivity|]. rewrite trimEnd_cons.
  destruct (trimEnd s) as [|d t] eqn:E.
  - destruct (is_whitespace c) eqn:Ec; simpl; [reflexivity | now rewrite Ec].
  - rewrite trimEnd_cons, IH. reflexivity.
Qed.

Lemma trimEnd_starts_clean (s : string) :
  starts_clean s = true -> starts_clean (trimEnd s) = true.
Proof.
  destruct s as [|c s]; simpl; [reflexivity|]. intros H.
  destruct (trimEnd s); [|exact H].
  destruct (is_whitespace c) eqn:E; [discriminate | simpl; now rewrite E].
Qed.

Lemma trim_idem (s : string) : trim (trim s) = trim s.
Proof.
  unfold trim. rewrite (trimStart_id (trimEnd _)).
  - apply trimEnd_idem.
  - apply trimEnd_starts_clean, trimStart_clean.
Qed.

(** ** Counting a character *)

Fixpoint count_char (c : ascii) (s : string) : nat :=
  match s with
  | EmptyString => 0
  | String d s' => (if Ascii.eqb d c then 1 else 0) + count_char c s'
  end.

Lemma count_char_app (c : ascii) (a b : string) :
  count_char c (a ++ b) = count_char c a + count_char c b.
Proof. induction a; simpl; [reflexivity | rewrite IHa; lia]. Qed.

Lemma count_char_lacks (c : ascii) (s : string) :
  lacks c s = true <-> count_char c s = 0.
Proof.
  induction s as [|d s IH]; simpl; [tauto|].
  destruct (Ascii.eqb d c); simpl; [split; [discriminate | lia] | exact IH].
Qed.

(** [split] returns one piece more than there are separators. *)
Lemma split_length (s : string) (sep : ascii) :
  List.length (split s sep) = S (count_char sep s).
Proof.
  induction s as [|c s IH]; simpl; [reflexivity|].
  destruct (Ascii.eqb c sep); simpl; [now rewrite IH|].
  destruct (split s sep); simpl in *; [discriminate | exact IH].
Qed.

(** Splitting [a ++ sep ++ b] when neither part holds the separator. *)
Lemma split_two (a b : string) (sep : ascii) :
  lacks sep a = true -> lacks sep b = true ->
  split (a ++ String sep b) sep = [a; b].
Proof. intros Ha Hb. now rewrite split_app, split_lacks. Qed.

Lemma eqb_empty (s : string) : (s =? "") = false <-> s <> "".
Proof. rewrite <- not_true_iff_false, String.eqb_eq. tauto. Qed.
