(* ===== verification/JsArray.v ===== *)
(** * JsArray: [Array.prototype.sort], [slice] and [map]

    [Array_sort cmp l] is the array [l.sort(cmp)]: a comparator returns a
    [number], [a] is placed after [b] when [cmp a b > 0], and a result of
    [0], of a negative number or of [NaN] leaves [a] before [b].  ECMA-262
    (since ES2019) requires the sort to be stable and leaves the algorithm
    to the engine; the model is an insertion sort, and [Array_sort_unique]
    shows that for a comparator that is consistent on the elements of the
    array every algorithm that meets the specification [stable_sort_of]
    returns the same array.

    [Array_slice l start stop] is [l.slice(start, stop)] with the bounds
    converted by [ToIntegerOrInfinity] and negative bounds counted from the
    end.  [Array_mapi f l] is [l.map((x, index) => f index x)]. *)

From Stdlib Require Import List ZArith Bool Lia Permutation Sorted.
From S2P Require Import Prelude JsNumber.
Import ListNotations.

(** ** Operations *)

Section Sort.
Context {A : Type}.
Variable cmp : A -> A -> number.

(** [cmp a b > 0]: [a] has to come after [b]. *)
Definition after (a b : A) : bool := gtb (cmp a b) (int 0).

(** Neither has to come after the other. *)
Definition tied (a b : A) : bool := negb (after a b) && negb (after b a).

Fixpoint insert (x : A) (l : list A) : list A :=
  match l with
  | [] => [x]
  | y :: l' => if after x y then y :: insert x l' else x :: y :: l'
  end.

Fixpoint Array_sort (l : list A) : list A :=
  match l with
  | [] => []
  | x :: l' => insert x (Array_sort l')
  end.

(** ** The specification of a stable sort *)

(** [a] may stand before [b]. *)
Definition before (a b : A) : Prop := after a b = false.

Record stable_sort_of (P : A -> Prop) (l l' : list A) : Prop := {
  sorted_perm : Permutation l l';
  sorted_order : StronglySorted before l';
  sorted_stable : forall x, P x -> filter (tied x) l' = filter (tied x) l
}.

(** A comparator is consistent on the elements that satisfy [P] when "has
    to come after" is a strict weak order on them. *)
Record consistent_on (P : A -> Prop) : Prop := {
  after_asym : forall a b, P a -> P b -> after a b = true -> after b a = false;
  after_negtrans : forall a b c, P a -> P b -> P c ->
    after a b = false -> after b c = false -> after a c = false
}.

End Sort.

Arguments stable_sort_of {A} cmp P l l'.
Arguments consistent_on {A} cmp P.

(** [l.slice(start, stop)] *)

Definition relative_index (len : Z) (i : integer_or_infinity) : Z :=
  match i with
  | MinusInfinity => 0
  | PlusInfinity => len
  | Integer z => if (z <? 0)%Z then Z.max (len + z) 0 else Z.min z len
  end.

Definition Array_slice {A : Type} (l : list A) (start stop : number) : list A :=
  let len := Z.of_nat (length l) in
  let k := relative_index len (ToIntegerOrInfinity start) in
  let final := relative_index len (ToIntegerOrInfinity stop) in
  firstn (Z.to_nat (final - k)) (skipn (Z.to_nat k) l).

(** ** The sort returns a permutation *)

Section SortFacts.
Context {A : Type}.
Variable cmp : A -> A -> number.

Lemma insert_perm (x : A) (l : list A) : Permutation (x :: l) (insert cmp x l).
Proof.
  induction l as [|y l IH]; cbn [insert]; [reflexivity|].
  case_if; [|reflexivity].
  rewrite perm_swap. now apply perm_skip.
Qed.

Lemma Array_sort_perm (l : list A) : Permutation l (Array_sort cmp l).
Proof.
  induction l as [|x l IH]; cbn [Array_sort]; [reflexivity|].
  rewrite <- insert_perm. now apply perm_skip.
Qed.

Lemma Array_sort_length (l : list A) : length (Array_sort cmp l) = length l.
Proof. symmetry. apply Permutation_length, Array_sort_perm. Qed.

Lemma Array_sort_In (l : list A) (x : A) : In x (Array_sort cmp l) <-> In x l.
Proof.
  split; apply Permutation_in; [symmetry|]; apply Array_sort_perm.
Qed.

(** A list in which no element has to come after a later one is left as it is. *)
Lemma Array_sort_fixed (l : list A) :
  StronglySorted (before cmp) l -> Array_sort cmp l = l.
Proof.
  induction 1 as [|x l Hs IH Hx]; cbn [Array_sort]; [reflexivity|].
  rewrite IH. destruct l as [|y l]; [reflexivity|]. cbn [insert].
  inv Hx. now match goal with H : before _ _ _ |- _ => rewrite H end.
Qed.

(** ** For a consistent comparator the result is sorted and stable *)

Variable P : A -> Prop.
Hypothesis Hcmp : consistent_on cmp P.

Lemma insert_Forall (x : A) (l : list A) :
  P x -> Forall P l -> Forall P (insert cmp x l).
Proof.
  intros Hx Hl. eapply Forall_Permutation; [apply insert_perm | now constructor].
Qed.

Lemma Array_sort_Forall (l : list A) : Forall P l -> Forall P (Array_sort cmp l).
Proof. apply Forall_Permutation, Array_sort_perm. Qed.

Lemma before_refl (a : A) : P a -> before cmp a a.
Proof.
  intros Ha. unfold before. destruct (after cmp a a) eqn:E; [|reflexivity].
  now rewrite (after_asym cmp P Hcmp _ _ Ha Ha E) in E.
Qed.

Lemma tied_refl (a : A) : P a -> tied cmp a a = true.
Proof. intros Ha. unfold tied. now rewrite before_refl. Qed.

Lemma tied_sym (a b : A) : tied cmp a b = tied cmp b a.
Proof. unfold tied. apply andb_comm. Qed.

Lemma tied_trans (a b c : A) :
  P a -> P b -> P c ->
  tied cmp a b = true -> tied cmp b c = true -> tied cmp a c = true.
Proof.
  unfold tied. rewrite !andb_true_iff, !negb_true_iff.
  intros Ha Hb Hc [H1 H2] [H3 H4].
  split; [apply (after_negtrans cmp P Hcmp a b c)
        | apply (after_negtrans cmp P Hcmp c b a)]; assumption.
Qed.

Lemma insert_sorted (x : A) (l : list A) :
  P x -> Forall P l ->
  StronglySorted (before cmp) l -> StronglySorted (before cmp) (insert cmp x l).
Proof.
  intros Hx Hl. induction 1 as [|y l Hs IH Hy]; cbn [insert].
  - repeat constructor.
  - inv Hl. destruct (after cmp x y) eqn:E.
    + constructor; [now apply IH|].
      eapply Forall_Permutation; [apply insert_perm|].
      constructor; [now apply (after_asym cmp P Hcmp x y) | exact Hy].
    + constructor; [now constructor|].
      constructor; [exact E|].
      rewrite Forall_forall in *. intros z Hz.
      apply (after_negtrans cmp P Hcmp x y z); auto. now apply Hy.
Qed.

Lemma Array_sort_sorted (l : list A) :
  Forall P l -> StronglySorted (before cmp) (Array_sort cmp l).
Proof.
  induction 1 as [|x l Hx Hl IH]; cbn [Array_sort]; [constructor|].
  apply insert_sorted; auto using Array_sort_Forall.
Qed.

(** Inserting [x] moves it only past elements it is not tied with. *)
Lemma insert_filter_tied (z x : A) (l : list A) :
  P z -> P x -> Forall P l ->
  filter (tied cmp z) (insert cmp x l) = filter (tied cmp z) (x :: l).
Proof.
  intros Hz Hx. induction 1 as [|y l Hy Hl IH]; cbn [insert]; [reflexivity|].
  destruct (after cmp x y) eqn:E; [|reflexivity].
  cbn [filter] in *. rewrite IH.
  destruct (tied cmp z x) eqn:Ex, (tied cmp z y) eqn:Ey; try reflexivity.
  rewrite tied_sym in Ex.
  pose proof (tied_trans _ _ _ Hx Hz Hy Ex Ey) as Hxy.
  unfold tied in Hxy. now rewrite E in Hxy.
Qed.

Lemma Array_sort_stable (l : list A) (z : A) :
  P z -> Forall P l ->
  filter (tied cmp z) (Array_sort cmp l) = filter (tied cmp z) l.
Proof.
  intros Hz. induction 1 as [|x l Hx Hl IH]; cbn [Array_sort]; [reflexivity|].
  rewrite insert_filter_tied by auto using Array_sort_Forall.
  cbn [filter]. now rewrite IH.
Qed.

Lemma Array_sort_spec (l : list A) :
  Forall P l -> stable_sort_of cmp P l (Array_sort cmp l).
Proof.
  intros Hl. split; [apply Array_sort_perm | now apply Array_sort_sorted|].
  intros x Hx. now apply Array_sort_stable.
Qed.

(** Two sorted arrangements of the same elements that keep every class of
    tied elements in the same order are equal. *)
Lemma stable_sorted_unique (l1 l2 : list A) :
  Forall P l1 ->
  StronglySorted (before cmp) l1 -> StronglySorted (before cmp) l2 ->
  Permutation l1 l2 ->
  (forall x, P x -> filter (tied cmp x) l1 = filter (tied cmp x) l2) ->
  l1 = l2.
Proof.
  revert l2. induction l1 as [|a t1 IH]; intros l2 HP S1 S2 Pm F.
  - now apply Permutation_nil in Pm.
  - destruct l2 as [|b t2]; [now apply Permutation_sym, Permutation_nil in Pm|].
    inv S1. inv S2. inv HP.
    assert (Hab : before cmp a b).
    { assert (Hin : In b (a :: t1)) by (eapply Permutation_in; [symmetry; eauto | now left]).
      destruct Hin as [->|Hin]; [now apply before_refl | eapply Forall_forall; eauto]. }
    assert (Hba : before cmp b a).
    { assert (Hin : In a (b :: t2)) by (eapply Permutation_in; [eauto | now left]).
      destruct Hin as [->|Hin]; [now apply before_refl | eapply Forall_forall; eauto]. }
    assert (a = b) as <-.
    { pose proof (F a ltac:(assumption)) as Fa. cbn [filter] in Fa.
      rewrite tied_refl in Fa by assumption.
      unfold tied at 2 in Fa. rewrite Hab, Hba in Fa. now inv Fa. }
    f_equal. apply IH; auto.
    + eapply Permutation_cons_inv; eauto.
    + intros x Hx. pose proof (F x Hx) as Fx. cbn [filter] in Fx.
      destruct (tied cmp x a); [now inv Fx | exact Fx].
Qed.

Lemma Array_sort_unique (l l' : list A) :
  Forall P l -> stable_sort_of cmp P l l' -> l' = Array_sort cmp l.
Proof.
  intros Hl [Pm S F].
  apply stable_sorted_unique; auto using Array_sort_sorted.
  - eapply Forall_Permutation; eauto.
  - rewrite <- Pm. apply Array_sort_perm.
  - intros x Hx. now rewrite F, Array_sort_stable.
Qed.

(** The first element of the sorted array is one that no element has to
    precede. *)
Lemma Array_sort_head (l : list A) (a : A) (t : list A) :
  Forall P l ->
  Array_sort cmp l = a :: t -> forall x, In x l -> before cmp a x.
Proof.
  intros Hl E x Hx. pose proof (Array_sort_sorted l Hl) as S.
  pose proof (Array_sort_Forall l Hl) as HP. rewrite E in S, HP.
  apply Array_sort_In in Hx. rewrite E in Hx. inv S. inv HP.
  destruct Hx as [->|Hx]; [now apply before_refl | eapply Forall_forall; eauto].
Qed.

(** The first element of the sorted array is the first element of the
    input that no other has to precede: everything before it in the input
    has to come after it, and nothing has to come before it. *)
Lemma Array_sort_head_first (l : list A) (a : A) (t : list A) :
  Forall P l -> Array_sort cmp l = a :: t ->
  exists l1 l2, l = l1 ++ a :: l2
    /\ Forall (fun b => after cmp b a = true) l1
    /\ Forall (before cmp a) l2.
Proof.
  intros Hl E.
  pose proof (Array_sort_head l a t Hl E) as Hmin.
  assert (Pa : P a).
  { pose proof (Array_sort_Forall l Hl) as HP. rewrite E in HP. now inv HP. }
  pose proof (Array_sort_stable l a Pa Hl) as St.
  rewrite E in St. cbn [filter] in St. rewrite tied_refl in St by exact Pa.
  symmetry in St. apply filter_cons_split in St.
  destruct St as (l1 & l2 & -> & H1 & _). exists l1, l2. split; [reflexivity|].
  split; apply Forall_forall; intros b Hb.
  - assert (Hab : before cmp a b) by (apply Hmin, in_or_app; auto).
    rewrite Forall_forall in H1. specialize (H1 b Hb).
    unfold tied in H1. rewrite Hab in H1. cbn in H1.
    now apply negb_false_iff in H1.
  - apply Hmin, in_or_app. right. now right.
Qed.

End SortFacts.

(** ** [slice] *)

Section SliceFacts.
Context {A : Type}.

Lemma firstn_min_length (n : nat) (l : list A) :
  firstn (Nat.min n (length l)) l = firstn n l.
Proof.
  destruct (Nat.le_ge_cases n (length l)) as [H|H].
  - now rewrite Nat.min_l.
  - rewrite Nat.min_r by exact H. now rewrite !firstn_all2 by lia.
Qed.

(** [l.slice(0, n)] for an integer [n >= 0] is the first [n] elements. *)
Lemma Array_slice_0_int (l : list A) (n : Z) :
  (0 <= n)%Z -> Array_slice l (int 0) (int n) = firstn (Z.to_nat n) l.
Proof.
  intros Hn. unfold Array_slice. rewrite !ToIntegerOrInfinity_int.
  cbn [relative_index]. destruct (Z.ltb_spec n 0); [lia|].
  change (0 <? 0)%Z with false. cbv iota.
  rewrite (Z.min_l 0) by lia. cbn [Z.to_nat skipn]. rewrite Z.sub_0_r.
  rewrite <- (firstn_min_length (Z.to_nat n)). f_equal. lia.
Qed.

(** [l.slice(0, -k)] drops the last [k] elements. *)
Lemma Array_slice_0_neg (l : list A) (k : Z) :
  (0 < k)%Z ->
  Array_slice l (int 0) (int (- k)) = firstn (length l - Z.to_nat k) l.
Proof.
  intros Hk. unfold Array_slice. rewrite !ToIntegerOrInfinity_int.
  cbn [relative_index]. destruct (Z.ltb_spec (- k) 0); [|lia].
  change (0 <? 0)%Z with false. cbv iota.
  rewrite (Z.min_l 0) by lia. cbn [Z.to_nat skipn]. f_equal. lia.
Qed.

Lemma Array_slice_0_NaN (l : list A) : Array_slice l (int 0) NaN = [].
Proof.
  unfold Array_slice. rewrite ToIntegerOrInfinity_int. cbn [ToIntegerOrInfinity relative_index].
  change (0 <? 0)%Z with false. cbv iota. rewrite (Z.min_l 0) by lia. reflexivity.
Qed.

(** Whatever the bound, [l.slice(0, stop)] is a prefix of [l]. *)
Lemma Array_slice_0_prefix (l : list A) (stop : number) :
  exists n, Array_slice l (int 0) stop = firstn n l.
Proof.
  unfold Array_slice. rewrite ToIntegerOrInfinity_int. cbn [relative_index].
  change (0 <? 0)%Z with false. cbv iota. rewrite (Z.min_l 0) by lia.
  cbn [Z.to_nat skipn]. eauto.
Qed.

Lemma Array_slice_0_length (l : list A) (n : Z) :
  (0 <= n)%Z ->
  length (Array_slice l (int 0) (int n)) = Nat.min (Z.to_nat n) (length l).
Proof. intros Hn. now rewrite Array_slice_0_int, length_firstn. Qed.

End SliceFacts.

(** ** [map] commutes with [sort] and [slice] *)

Section Mapped.
Context {A B : Type}.
Variable f : A -> B.

Lemma Array_sort_map (cmp : B -> B -> number) (l : list A) :
  map f (Array_sort (fun a b => cmp (f a) (f b)) l) = Array_sort cmp (map f l).
Proof.
  induction l as [|x l IH]; [reflexivity|]. cbn [Array_sort map]. rewrite <- IH.
  generalize (Array_sort (fun a b => cmp (f a) (f b)) l). clear IH. intros s.
  induction s as [|y s IH]; [reflexivity|]. cbn [insert map]. unfold after.
  destruct (gtb (cmp (f x) (f y)) (int 0)); cbn [map]; [|reflexivity].
  f_equal. exact IH.
Qed.

Lemma Array_slice_map (l : list A) (start stop : number) :
  map f (Array_slice l start stop) = Array_slice (map f l) start stop.
Proof. unfold Array_slice. now rewrite length_map, <- firstn_map, <- skipn_map. Qed.

End Mapped.

#[export] Instance Array_slice_Proper {A : Type} (l : list A) :
  Morphisms.Proper (Morphisms.respectful num_eqv (Morphisms.respectful num_eqv eq))
    (Array_slice l).
Proof.
  intros x x' Hx y y' Hy. unfold Array_slice. now rewrite Hx, Hy.
Qed.

(** ** [Array.prototype.map] with the index *)

Section Mapi.
Context {A B : Type}.
Variable f : nat -> A -> B.

Fixpoint mapi_from (i : nat) (l : list A) : list B :=
  match l with
  | [] => []
  | x :: r => f i x :: mapi_from (S i) r
  end.

(** [l.map((x, index) => f index x)]. *)
Definition Array_mapi (l : list A) : list B := mapi_from 0 l.

Lemma mapi_from_length (i : nat) (l : list A) : length (mapi_from i l) = length l.
Proof. revert i. induction l; intros i; simpl; auto. Qed.

Lemma mapi_from_nth (i n : nat) (l : list A) :
  nth_error (mapi_from i l) n = option_map (f (i + n)) (nth_error l n).
Proof.
  revert i n. induction l as [|x r IH]; intros i [|n]; cbn; auto.
  - now rewrite Nat.add_0_r.
  - rewrite IH. now rewrite Nat.add_succ_r.
Qed.

Lemma Array_mapi_length (l : list A) : length (Array_mapi l) = length l.
Proof. apply mapi_from_length. Qed.

Lemma Array_mapi_nth (n : nat) (l : list A) :
  nth_error (Array_mapi l) n = option_map (f n) (nth_error l n).
Proof. apply mapi_from_nth. Qed.

Lemma mapi_from_Forall (P : B -> Prop) (i : nat) (l : list A) :
  (forall j x, P (f j x)) -> Forall P (mapi_from i l).
Proof. intros HP. revert i. induction l; intros i; simpl; auto. Qed.

Lemma Array_mapi_Forall (P : B -> Prop) (l : list A) :
  (forall j x, P (f j x)) -> Forall P (Array_mapi l).
Proof. apply mapi_from_Forall. Qed.

(** A test of the element at [j] that depends on [j] alone. *)
Lemma mapi_from_forallb (p : B -> bool) (q : nat -> bool) (i : nat) (l : list A) :
  (forall j x, p (f j x) = q j) ->
  forallb p (mapi_from i l) = forallb q (seq i (length l)).
Proof.
  intros Hpq. revert i.
  induction l as [|a l IH]; intros i; cbn [mapi_from forallb length seq]; [reflexivity|].
  now rewrite Hpq, IH.
Qed.

(** The same, when the property of the element at [j] depends on [j]. *)
Lemma mapi_from_Forall_index (P : B -> Prop) (i : nat) (l : list A) :
  (forall j x, nth_error l j = Some x -> P (f (i + j) x)) -> Forall P (mapi_from i l).
Proof.
  revert i. induction l as [|a l IH]; intros i HP; cbn [mapi_from]; constructor.
  - rewrite <- (Nat.add_0_r i). now apply HP.
  - apply IH. intros j x Hj. rewrite Nat.add_succ_comm. now apply HP.
Qed.

Lemma Array_mapi_Forall_index (P : B -> Prop) (l : list A) :
  (forall j x, nth_error l j = Some x -> P (f j x)) -> Forall P (Array_mapi l).
Proof. intros HP. now apply mapi_from_Forall_index. Qed.

Lemma Array_mapi_forallb (p : B -> bool) (q : nat -> bool) (l : list A) :
  (forall j x, p (f j x) = q j) ->
  forallb p (Array_mapi l) = forallb q (seq 0 (length l)).
Proof. apply mapi_from_forallb. Qed.

(** The same, for the elements the array has. *)
Lemma mapi_from_forallb_index (p : B -> bool) (q : nat -> bool) (i : nat) (l : list A) :
  (forall j x, nth_error l j = Some x -> p (f (i + j) x) = q (i + j)) ->
  forallb p (mapi_from i l) = forallb q (seq i (length l)).
Proof.
  revert i. induction l as [|a l IH]; intros i Hpq; cbn [mapi_from forallb length seq];
    [reflexivity|].
  rewrite <- (Nat.add_0_r i) at 1 3. rewrite (Hpq 0 a eq_refl), Nat.add_0_r. f_equal.
  apply IH. intros j x Hj. rewrite Nat.add_succ_comm. now apply Hpq.
Qed.

Lemma Array_mapi_forallb_index (p : B -> bool) (q : nat -> bool) (l : list A) :
  (forall j x, nth_error l j = Some x -> p (f j x) = q j) ->
  forallb p (Array_mapi l) = forallb q (seq 0 (length l)).
Proof. intros Hpq. now apply mapi_from_forallb_index. Qed.

(** A test every element passes gives a test every index passes. *)
Lemma Array_mapi_forallb_impl (p : B -> bool) (q : nat -> bool) (l : list A) :
  (forall j x, p (f j x) = true -> q j = true) ->
  forallb p (Array_mapi l) = true -> forallb q (seq 0 (length l)) = true.
Proof.
  intros Hpq Hall. rewrite forallb_forall in *. intros j [_ Hj]%in_seq.
  destruct (nth_error l j) as [x|] eqn:Hx; [|apply nth_error_None in Hx; lia].
  apply (Hpq j x), Hall. apply (nth_error_In _ j). now rewrite Array_mapi_nth, Hx.
Qed.

Lemma mapi_from_map (g : B -> A) (i : nat) (l : list A) :
  (forall j x, g (f j x) = x) -> map g (mapi_from i l) = l.
Proof. intros Hg. revert i. induction l; intros i; simpl; [|rewrite Hg, IHl]; auto. Qed.

End Mapi.

(** Two callbacks that agree on the elements of the array give the same
    array. *)
Lemma mapi_from_ext {A B : Type} (f g : nat -> A -> B) (i : nat) (l : list A) :
  (forall j x, nth_error l j = Some x -> f (i + j) x = g (i + j) x) ->
  mapi_from f i l = mapi_from g i l.
Proof.
  revert i. induction l as [|a l IH]; intros i Hfg; cbn [mapi_from]; [reflexivity|].
  f_equal.
  - rewrite <- (Nat.add_0_r i). now apply Hfg.
  - apply IH. intros j x Hj. rewrite Nat.add_succ_comm. now apply Hfg.
Qed.

Lemma Array_mapi_ext {A B : Type} (f g : nat -> A -> B) (l : list A) :
  (forall j x, nth_error l j = Some x -> f j x = g j x) -> Array_mapi f l = Array_mapi g l.
Proof. intros Hfg. now apply mapi_from_ext. Qed.
