(* ===== verification/Types.v ===== *)
(** * Types: the records exchanged between the components

    The GraphQL object types of [src/schema.graphql], as the generated
    TypeScript declares them in [src/unnamed/part_002]: [Activity], [City],
    [DailyForecast], [Weather] and [CityWeather], and the day summary
    [Omit<DailyForecast, 'activities'>] that the scoring engine receives.
    Each type is a module holding a record [t], so that the fields keep the
    names of the source ([Activity.name], [City.name]). *)

From Stdlib Require Import String List.
From S2P Require Import Prelude JsNumber.

Module Activity.
Record t : Type := mk {
  name : string;
  reasoning : string;
  suitabilityScore : number
}.
End Activity.

Module City.
Record t : Type := mk {
  country : string;
  id : string;
  latitude : number;
  longitude : number;
  name : string
}.
End City.

(** [Omit<DailyForecast, 'activities'>]: one day of the forecast, before the
    activities are attached. *)
Module ForecastDay.
Record t : Type := mk {
  date : string;
  maxTemp : number;
  minTemp : number;
  conditions : string;
  precipitation : number;
  windSpeed : number
}.
End ForecastDay.

Module DailyForecast.
Record t : Type := mk {
  activities : list Activity.t;
  conditions : string;
  date : string;
  maxTemp : number;
  minTemp : number;
  precipitation : number;
  windSpeed : number
}.

(** [{ ...forecastDay, activities }] *)
Definition of_day (d : ForecastDay.t) (acts : list Activity.t) : t :=
  {| activities := acts;
     conditions := ForecastDay.conditions d;
     date := ForecastDay.date d;
     maxTemp := ForecastDay.maxTemp d;
     minTemp := ForecastDay.minTemp d;
     precipitation := ForecastDay.precipitation d;
     windSpeed := ForecastDay.windSpeed d |}.
End DailyForecast.

Module Weather.
Record t : Type := mk {
  conditions : string;
  forecast : list DailyForecast.t;
  humidity : number;
  precipitation : number;
  temperature : number;
  windSpeed : number
}.
End Weather.

Module CityWeather.
Record t : Type := mk {
  city : City.t;
  weather : Weather.t
}.
End CityWeather.
