(* ===== verification/Constants.v ===== *)
(** * Constants: [src/src/utils/constants.ts]

    The weather-code vocabulary [WEATHER_CODES], the activity profile table
    [ACTIVITY_CONFIGS] with its type [ActivityConfig], the error codes
    [ERROR_CODES] and the map [ERROR_CODES_MAP] of their entries.  The
    theorems state the facts about these tables that the
    other components rely on: the profiles are finite numbers with
    tolerances in [0..1] and a non-empty ideal range, their names are
    distinct, the weather codes are distinct and their labels non-empty,
    the error codes are distinct strings, and the map has one entry for each
    category. *)

From Stdlib Require Import String List ZArith Bool Lia.
From S2P Require Import Prelude JsNumber JsString.
Import ListNotations.

Local Open Scope string_scope.

(** ** Weather codes *)

(** The object literal in source order; a key is the integer the property
    name denotes. *)
Definition WEATHER_CODES : list (Z * string) :=
  [ (0, "Clear sky");
    (1, "Mainly clear");
    (2, "Partly cloudy");
    (3, "Overcast");
    (45, "Fog");
    (48, "Depositing rime fog");
    (51, "Light drizzle");
    (53, "Moderate drizzle");
    (55, "Dense drizzle");
    (56, "Light freezing drizzle");
    (57, "Dense freezing drizzle");
    (61, "Slight rain");
    (63, "Moderate rain");
    (65, "Heavy rain");
    (66, "Light freezing rain");
    (67, "Heavy freezing rain");
    (71, "Slight snow fall");
    (73, "Moderate snow fall");
    (75, "Heavy snow fall");
    (77, "Snow grains");
    (80, "Slight rain showers");
    (81, "Moderate rain showers");
    (82, "Violent rain showers");
    (85, "Slight snow showers");
    (86, "Heavy snow showers");
    (95, "Thunderstorm");
    (96, "Thunderstorm with slight hail");
    (99, "Thunderstorm with heavy hail") ]%Z.

(** ** Activity profiles *)

Module ActivityConfig.
Record t : Type := mk {
  name : string;
  idealTempMin : number;
  idealTempMax : number;
  rainTolerance : number;
  windPreference : number
}.
End ActivityConfig.

Definition ACTIVITY_CONFIGS : list ActivityConfig.t :=
  [ {| ActivityConfig.name := "skiing";
       ActivityConfig.idealTempMin := int (-10);
       ActivityConfig.idealTempMax := int 2;
       ActivityConfig.rainTolerance := dec 1 1;
       ActivityConfig.windPreference := dec 2 1 |};
    {| ActivityConfig.name := "surfing";
       ActivityConfig.idealTempMin := int 18;
       ActivityConfig.idealTempMax := int 28;
       ActivityConfig.rainTolerance := dec 7 1;
       ActivityConfig.windPreference := dec 8 1 |};
    {| ActivityConfig.name := "indoor_sightseeing";
       ActivityConfig.idealTempMin := int 10;
       ActivityConfig.idealTempMax := int 30;
       ActivityConfig.rainTolerance := dec 10 1;
       ActivityConfig.windPreference := dec 5 1 |};
    {| ActivityConfig.name := "outdoor_sightseeing";
       ActivityConfig.idealTempMin := int 15;
       ActivityConfig.idealTempMax := int 25;
       ActivityConfig.rainTolerance := dec 1 1;
       ActivityConfig.windPreference := dec 3 1 |} ].

(** ** Error codes *)

Inductive error_category : Type :=
| API_ERROR
| INTERNAL_ERROR
| USER_ERROR.

Inductive error_code : Type :=
| RATE_LIMIT_EXCEEDED
| TIMEOUT
| UNKNOWN_ERROR
| INTERNAL_SERVER_ERROR
| INVALID_COORDINATES
| BAD_USER_INPUT.

(** [ERROR_CODES]: the codes of a category, and the string each code is. *)
Definition ERROR_CODES (c : error_category) : list error_code :=
  match c with
  | API_ERROR => [RATE_LIMIT_EXCEEDED; TIMEOUT; UNKNOWN_ERROR]
  | INTERNAL_ERROR => [INTERNAL_SERVER_ERROR]
  | USER_ERROR => [INVALID_COORDINATES; BAD_USER_INPUT]
  end.

Definition error_code_string (c : error_code) : string :=
  match c with
  | RATE_LIMIT_EXCEEDED => "RATE_LIMIT_EXCEEDED"
  | TIMEOUT => "TIMEOUT"
  | UNKNOWN_ERROR => "UNKNOWN_ERROR"
  | INTERNAL_SERVER_ERROR => "INTERNAL_SERVER_ERROR"
  | INVALID_COORDINATES => "INVALID_COORDINATES"
  | BAD_USER_INPUT => "BAD_USER_INPUT"
  end.

Definition category_of (c : error_code) : error_category :=
  match c with
  | RATE_LIMIT_EXCEEDED | TIMEOUT | UNKNOWN_ERROR => API_ERROR
  | INTERNAL_SERVER_ERROR => INTERNAL_ERROR
  | INVALID_COORDINATES | BAD_USER_INPUT => USER_ERROR
  end.

Definition error_code_eqb (a b : error_code) : bool :=
  String.eqb (error_code_string a) (error_code_string b).

(** The key of a category in [ERROR_CODES]. *)
Definition error_category_string (c : error_category) : string :=
  match c with
  | API_ERROR => "API_ERROR"
  | INTERNAL_ERROR => "INTERNAL_ERROR"
  | USER_ERROR => "USER_ERROR"
  end.

(** A [Map] with string keys, by its entries in the order of insertion, and
    [Map.prototype.get]. *)
Definition Map (V : Type) : Type := list (string * V).

Fixpoint Map_get {V : Type} (m : Map V) (key : string) : option V :=
  match m with
  | [] => None
  | (k, v) :: m' => if String.eqb k key then Some v else Map_get m' key
  end.

(** [Object.entries(ERROR_CODES)]: the categories in the order they are
    written, each with the object of its codes; the property of a code has
    the name and the value of the code, which are the same text. *)
Definition Object_entries_ERROR_CODES : list (string * list (string * string)) :=
  map (fun c =>
         (error_category_string c,
          map (fun code => (error_code_string code, error_code_string code))
            (ERROR_CODES c)))
      [API_ERROR; INTERNAL_ERROR; USER_ERROR].

(** [ERROR_CODES_MAP]: [new Map(Object.entries(ERROR_CODES))]. *)
Definition ERROR_CODES_MAP : Map (list (string * string)) := Object_entries_ERROR_CODES.

(** ** Well-formed profiles *)

(** The fields are finite numbers, the tolerances lie in [0..1] and the
    ideal range is not empty. *)
Definition config_wf (c : ActivityConfig.t) : bool :=
  is_finite (ActivityConfig.idealTempMin c)
  && is_finite (ActivityConfig.idealTempMax c)
  && is_finite (ActivityConfig.rainTolerance c)
  && is_finite (ActivityConfig.windPreference c)
  && leb (ActivityConfig.idealTempMin c) (ActivityConfig.idealTempMax c)
  && leb (int 0) (ActivityConfig.rainTolerance c)
  && leb (ActivityConfig.rainTolerance c) (int 1)
  && leb (int 0) (ActivityConfig.windPreference c)
  && leb (ActivityConfig.windPreference c) (int 1).

Lemma ACTIVITY_CONFIGS_wf : forallb config_wf ACTIVITY_CONFIGS = true.
Proof. vm_compute. reflexivity. Qed.

Lemma ACTIVITY_CONFIGS_Forall_wf :
  Forall (fun c => config_wf c = true) ACTIVITY_CONFIGS.
Proof. apply Forall_forall. apply forallb_forall. exact ACTIVITY_CONFIGS_wf. Qed.

Lemma config_wf_finite (c : ActivityConfig.t) :
  config_wf c = true ->
  is_finite (ActivityConfig.idealTempMin c) = true
  /\ is_finite (ActivityConfig.idealTempMax c) = true
  /\ is_finite (ActivityConfig.rainTolerance c) = true
  /\ is_finite (ActivityConfig.windPreference c) = true.
Proof. unfold config_wf. intros H. bool_hyps. auto. Qed.

Lemma ACTIVITY_CONFIGS_length : length ACTIVITY_CONFIGS = 4.
Proof. reflexivity. Qed.

Lemma ACTIVITY_CONFIGS_names :
  map ActivityConfig.name ACTIVITY_CONFIGS
  = ["skiing"; "surfing"; "indoor_sightseeing"; "outdoor_sightseeing"].
Proof. reflexivity. Qed.

Lemma ACTIVITY_CONFIGS_names_NoDup :
  NoDup (map ActivityConfig.name ACTIVITY_CONFIGS).
Proof.
  rewrite ACTIVITY_CONFIGS_names.
  repeat constructor; simpl; intuition discriminate.
Qed.

(** Exactly one profile is an indoor activity. *)
Lemma ACTIVITY_CONFIGS_indoor :
  map (fun c => includes (ActivityConfig.name c) "indoor") ACTIVITY_CONFIGS
  = [false; false; true; false].
Proof. reflexivity. Qed.

(** ** The vocabulary *)

Lemma WEATHER_CODES_keys_NoDup : NoDup (map fst WEATHER_CODES).
Proof.
  apply (NoDup_map_inv (fun z => Z.to_nat z)).
  rewrite map_map. simpl. repeat constructor; simpl; intuition lia.
Qed.

Lemma WEATHER_CODES_labels_nonempty :
  Forall (fun kv => snd kv <> "") WEATHER_CODES.
Proof. repeat constructor; discriminate. Qed.

Lemma WEATHER_CODES_keys_range :
  Forall (fun kv => (0 <= fst kv <= 99)%Z) WEATHER_CODES.
Proof. repeat constructor; simpl; lia. Qed.

(** ** The error codes *)

Lemma error_code_string_inj (a b : error_code) :
  error_code_string a = error_code_string b -> a = b.
Proof. destruct a, b; simpl; intros H; (reflexivity || discriminate). Qed.

Lemma error_code_eqb_eq (a b : error_code) : error_code_eqb a b = true <-> a = b.
Proof.
  unfold error_code_eqb. rewrite String.eqb_eq. split.
  - apply error_code_string_inj.
  - now intros ->.
Qed.

Lemma ERROR_CODES_category (c : error_code) : In c (ERROR_CODES (category_of c)).
Proof. destruct c; simpl; auto. Qed.

(** [ERROR_CODES_MAP] has one entry for each category, with the codes of the
    category, and no other entry. *)
Lemma ERROR_CODES_MAP_get (key : string) :
  Map_get ERROR_CODES_MAP key
  = if String.eqb "API_ERROR" key then
      Some (map (fun c => (error_code_string c, error_code_string c)) (ERROR_CODES API_ERROR))
    else if String.eqb "INTERNAL_ERROR" key then
      Some (map (fun c => (error_code_string c, error_code_string c))
              (ERROR_CODES INTERNAL_ERROR))
    else if String.eqb "USER_ERROR" key then
      Some (map (fun c => (error_code_string c, error_code_string c)) (ERROR_CODES USER_ERROR))
    else None.
Proof. reflexivity. Qed.

Lemma ERROR_CODES_MAP_category (c : error_category) :
  Map_get ERROR_CODES_MAP (error_category_string c)
  = Some (map (fun code => (error_code_string code, error_code_string code)) (ERROR_CODES c)).
Proof. now destruct c. Qed.

Lemma ERROR_CODES_MAP_keys : NoDup (map fst ERROR_CODES_MAP) /\ length ERROR_CODES_MAP = 3.
Proof. split; [|reflexivity]. repeat constructor; simpl; intuition discriminate. Qed.

Lemma ERROR_CODES_disjoint (k1 k2 : error_category) (c : error_code) :
  In c (ERROR_CODES k1) -> In c (ERROR_CODES k2) -> k1 = k2.
Proof.
  destruct k1, k2; simpl; intuition (subst; try discriminate; auto).
Qed.
