(* ===== verification/ActivityRanking.v ===== *)
(** * ActivityRanking: the activity-suitability scoring engine

    [src/unnamed/part_000] is the service [ActivityRankingService] with its
    thresholds as named constants; [src/src/utils/activityRanking.ts] is the
    same service with the thresholds written as literals and its own copy of
    the profile table (module [Literal] below).

    [scoreActivity] starts from the base score and an empty list of
    reasons, applies the four blocks of the source in order (temperature,
    rain, wind, indoor bonus), each of which may change the score and push
    reasons, and returns the clamped, rounded score with the joined reasons.
    The pair of the two mutable locals is the record [scoring]; a block is a
    function on it.  [rankActivitiesForDay] scores every profile of
    [ACTIVITY_CONFIGS], sorts by decreasing score and keeps the first [top].

    The theorems: the score is an integer of [0..100] unless the average
    temperature is [NaN], in which case it is [NaN]; the reasoning starts
    with one of the three temperature tags, so it is never empty and the
    fallback ["standard conditions"] is never returned; the ranking is a
    stable sort of the scored profiles cut to a prefix, of length
    [min top 4] for an integer [top >= 0]; the score is the rounding of a
    closed formula over the rationals ([score_spec]); the two versions of
    the service agree. *)

From Stdlib Require Import String List ZArith QArith Qround Qminmax Bool Lia Lqa
  Permutation Sorted.
From S2P Require Import Prelude JsNumber JsString JsArray Types Constants.
Import ListNotations.

Local Open Scope string_scope.
Local Open Scope list_scope.

(** ** The thresholds of the service *)

Definition BASE_SCORE : number := int 50.
Definition IDEAL_TEMP_BONUS : number := int 30.
Definition COLD_PENALTY_MULTIPLIER : number := int 5.
Definition WARM_PENALTY_MULTIPLIER : number := int 5.
Definition MAX_TEMP_PENALTY : number := int 30.
Definition RAIN_IMPACT_MULTIPLIER : number := int 20.
Definition HIGH_TOLERANCE_BONUS : number := int 10.
Definition LOW_TOLERANCE_BONUS : number := int 10.
Definition HIGH_TOLERANCE_THRESHOLD : number := dec 8 1.
Definition LOW_TOLERANCE_THRESHOLD : number := dec 3 1.
Definition WIND_IMPACT_MULTIPLIER : number := int 15.
Definition WIND_OFFSET : number := dec 75 1.
Definition HIGH_PREFERENCE_THRESHOLD : number := dec 6 1.
Definition LOW_PREFERENCE_THRESHOLD : number := dec 4 1.
Definition EXTREME_WEATHER_BONUS : number := int 15.
Definition COLD_THRESHOLD : number := int 10.
Definition HOT_THRESHOLD : number := int 30.
Definition RAIN_THRESHOLD : number := int 1.
Definition WIND_THRESHOLD : number := int 20.
Definition MIN_SCORE : number := int 0.
Definition MAX_SCORE : number := int 100.

(** ** The two locals of [scoreActivity] *)

Record scoring : Type := mkScoring {
  score : number;
  reasons : list string
}.

(** [score += d] and [score -= d]. *)
Definition plus (d : number) (st : scoring) : scoring :=
  {| score := add (score st) d; reasons := reasons st |}.

Definition minus (d : number) (st : scoring) : scoring :=
  {| score := sub (score st) d; reasons := reasons st |}.

(** [reasons.push(r)]. *)
Definition push (r : string) (st : scoring) : scoring :=
  {| score := score st; reasons := reasons st ++ [r] |}.

(** ** The four blocks *)

Definition temperatureBlock (config : ActivityConfig.t) (avgTemp : number)
  (st : scoring) : scoring :=
  if geb avgTemp (ActivityConfig.idealTempMin config)
     && leb avgTemp (ActivityConfig.idealTempMax config)
  then push "ideal temperature" (plus IDEAL_TEMP_BONUS st)
  else if ltb avgTemp (ActivityConfig.idealTempMin config)
  then
    let penalty :=
      Math_min MAX_TEMP_PENALTY
        (mul (sub (ActivityConfig.idealTempMin config) avgTemp) COLD_PENALTY_MULTIPLIER) in
    push "too cold" (minus penalty st)
  else
    let penalty :=
      Math_min MAX_TEMP_PENALTY
        (mul (sub avgTemp (ActivityConfig.idealTempMax config)) WARM_PENALTY_MULTIPLIER) in
    push "too warm" (minus penalty st).

Definition rainBlock (config : ActivityConfig.t) (hasRain : bool)
  (st : scoring) : scoring :=
  if hasRain then
    let rainImpact :=
      mul (sub (int 1) (ActivityConfig.rainTolerance config)) RAIN_IMPACT_MULTIPLIER in
    let st := minus rainImpact st in
    if gtb (ActivityConfig.rainTolerance config) HIGH_TOLERANCE_THRESHOLD
    then push "rain makes it more appealing" (plus HIGH_TOLERANCE_BONUS st)
    else if ltb (ActivityConfig.rainTolerance config) LOW_TOLERANCE_THRESHOLD
    then push "rain not ideal" st
    else st
  else
    if ltb (ActivityConfig.rainTolerance config) LOW_TOLERANCE_THRESHOLD
    then push "no rain" (plus LOW_TOLERANCE_BONUS st)
    else st.

Definition windBlock (config : ActivityConfig.t) (isWindy : bool)
  (st : scoring) : scoring :=
  if isWindy then
    let windImpact :=
      sub (mul (ActivityConfig.windPreference config) WIND_IMPACT_MULTIPLIER) WIND_OFFSET in
    let st := plus windImpact st in
    if gtb (ActivityConfig.windPreference config) HIGH_PREFERENCE_THRESHOLD
    then push "good wind conditions" st
    else if ltb (ActivityConfig.windPreference config) LOW_PREFERENCE_THRESHOLD
    then push "windy conditions" st
    else st
  else st.

Definition indoorBlock (config : ActivityConfig.t) (avgTemp : number)
  (st : scoring) : scoring :=
  if includes (ActivityConfig.name config) "indoor" then
    if ltb avgTemp COLD_THRESHOLD || gtb avgTemp HOT_THRESHOLD
    then push "extreme weather favors indoor activities" (plus EXTREME_WEATHER_BONUS st)
    else st
  else st.

(** The locals after the four blocks. *)
Definition scoreBlocks (config : ActivityConfig.t) (avgTemp : number)
  (hasRain isWindy : bool) : scoring :=
  indoorBlock config avgTemp
    (windBlock config isWindy
      (rainBlock config hasRain
        (temperatureBlock config avgTemp
          {| score := BASE_SCORE; reasons := [] |}))).

(** ** [scoreActivity] and [rankActivitiesForDay] *)

(** [Math.max(MIN_SCORE, Math.min(MAX_SCORE, Math.round(score)))] *)
Definition clampScore (score : number) : number :=
  Math_max MIN_SCORE (Math_min MAX_SCORE (Math_round score)).

Definition scoreActivity (config : ActivityConfig.t) (avgTemp : number)
  (hasRain isWindy : bool) (precipitation windSpeed : number) : Activity.t :=
  let st := scoreBlocks config avgTemp hasRain isWindy in
  {| Activity.name := ActivityConfig.name config;
     Activity.suitabilityScore := clampScore (score st);
     Activity.reasoning := or_default (join (reasons st) ", ") "standard conditions" |}.

(** The comparator of the sort: [(a, b) => b.suitabilityScore - a.suitabilityScore]. *)
Definition byScoreDescending (a b : Activity.t) : number :=
  sub (Activity.suitabilityScore b) (Activity.suitabilityScore a).

(** [(forecast.maxTemp + forecast.minTemp) / 2] *)
Definition averageTemp (forecast : ForecastDay.t) : number :=
  half (add (ForecastDay.maxTemp forecast) (ForecastDay.minTemp forecast)).

(** The scored profiles, in table order, before they are sorted. *)
Definition scoreAll (configs : list ActivityConfig.t) (forecast : ForecastDay.t) :
  list Activity.t :=
  let avgTemp := averageTemp forecast in
  let hasRain := gtb (ForecastDay.precipitation forecast) RAIN_THRESHOLD in
  let isWindy := gtb (ForecastDay.windSpeed forecast) WIND_THRESHOLD in
  map (fun config =>
         scoreActivity config avgTemp hasRain isWindy
           (ForecastDay.precipitation forecast) (ForecastDay.windSpeed forecast))
      configs.

(** [top] is [None] when the caller omits the argument: the default is [1]. *)
Definition rankActivitiesForDay (forecast : ForecastDay.t) (top : option number) :
  list Activity.t :=
  let top := match top with Some n => n | None => int 1 end in
  let activities := scoreAll ACTIVITY_CONFIGS forecast in
  Array_slice (Array_sort byScoreDescending activities) (int 0) top.

(** ** The version with literal thresholds: [src/src/utils/activityRanking.ts] *)

Module Literal.

Definition ACTIVITY_CONFIGS : list ActivityConfig.t :=
  [ ActivityConfig.mk "skiing" (int (-10)) (int 2) (dec 1 1) (dec 2 1);
    ActivityConfig.mk "surfing" (int 18) (int 28) (dec 7 1) (dec 8 1);
    ActivityConfig.mk "indoor_sightseeing" (int 10) (int 30) (dec 10 1) (dec 5 1);
    ActivityConfig.mk "outdoor_sightseeing" (int 15) (int 25) (dec 1 1) (dec 3 1) ].

Definition scoreActivity (config : ActivityConfig.t) (avgTemp : number)
  (hasRain isWindy : bool) (precipitation windSpeed : number) : Activity.t :=
  let st := {| score := int 50; reasons := [] |} in
  let st :=
    if geb avgTemp (ActivityConfig.idealTempMin config)
       && leb avgTemp (ActivityConfig.idealTempMax config)
    then push "ideal temperature" (plus (int 30) st)
    else if ltb avgTemp (ActivityConfig.idealTempMin config)
    then push "too cold"
           (minus (Math_min (int 30)
                     (mul (sub (ActivityConfig.idealTempMin config) avgTemp) (int 5))) st)
    else push "too warm"
           (minus (Math_min (int 30)
                     (mul (sub avgTemp (ActivityConfig.idealTempMax config)) (int 5))) st) in
  let st :=
    if hasRain then
      let st := minus (mul (sub (int 1) (ActivityConfig.rainTolerance config)) (int 20)) st in
      if gtb (ActivityConfig.rainTolerance config) (dec 8 1)
      then push "rain makes it more appealing" (plus (int 10) st)
      else if ltb (ActivityConfig.rainTolerance config) (dec 3 1)
      then push "rain not ideal" st
      else st
    else if ltb (ActivityConfig.rainTolerance config) (dec 3 1)
    then push "no rain" (plus (int 10) st)
    else st in
  let st :=
    if isWindy then
      let st :=
        plus (sub (mul (ActivityConfig.windPreference config) (int 15)) (dec 75 1)) st in
      if gtb (ActivityConfig.windPreference config) (dec 6 1)
      then push "good wind conditions" st
      else if ltb (ActivityConfig.windPreference config) (dec 4 1)
      then push "windy conditions" st
      else st
    else st in
  let st :=
    if includes (ActivityConfig.name config) "indoor" then
      if ltb avgTemp (int 10) || gtb avgTemp (int 30)
      then push "extreme weather favors indoor activities" (plus (int 15) st)
      else st
    else st in
  {| Activity.name := ActivityConfig.name config;
     Activity.suitabilityScore := Math_max (int 0) (Math_min (int 100) (Math_round (score st)));
     Activity.reasoning := or_default (join (reasons st) ", ") "standard conditions" |}.

Definition rankActivitiesForDay (forecast : ForecastDay.t) (top : option number) :
  list Activity.t :=
  let top := match top with Some n => n | None => int 1 end in
  let avgTemp := half (add (ForecastDay.maxTemp forecast) (ForecastDay.minTemp forecast)) in
  let hasRain := gtb (ForecastDay.precipitation forecast) (int 1) in
  let isWindy := gtb (ForecastDay.windSpeed forecast) (int 20) in
  let activities :=
    map (fun config =>
           scoreActivity config avgTemp hasRain isWindy
             (ForecastDay.precipitation forecast) (ForecastDay.windSpeed forecast))
        ACTIVITY_CONFIGS in
  Array_slice
    (Array_sort (fun a b => sub (Activity.suitabilityScore b) (Activity.suitabilityScore a))
       activities)
    (int 0) top.

End Literal.

(** ** The reasons *)

Definition temperature_tags : list string :=
  ["ideal temperature"; "too cold"; "too warm"].

(** A block only appends to the reasons. *)
Definition extends_reasons (st st' : scoring) : Prop :=
  exists l, reasons st' = reasons st ++ l.

Lemma extends_refl (st : scoring) : extends_reasons st st.
Proof. exists []. now rewrite app_nil_r. Qed.

Lemma extends_push (r : string) (st st' : scoring) :
  reasons st' = reasons st -> extends_reasons st (push r st').
Proof. intros H. exists [r]. cbn. now rewrite H. Qed.

Lemma extends_trans (a b c : scoring) :
  extends_reasons a b -> extends_reasons b c -> extends_reasons a c.
Proof.
  intros (l & Hl) (l' & Hl'). exists (l ++ l'). now rewrite Hl', Hl, app_assoc.
Qed.

(** Closes [extends_reasons st st'] when [st'] is [st] after score updates
    and at most one [push]. *)
Ltac solve_extends :=
  first [ exists []; cbn; now rewrite app_nil_r
        | eexists [_]; reflexivity ].

Lemma temperatureBlock_reasons (config : ActivityConfig.t) (avgTemp : number)
  (st : scoring) :
  exists tag, In tag temperature_tags
    /\ reasons (temperatureBlock config avgTemp st) = reasons st ++ [tag].
Proof.
  unfold temperatureBlock, temperature_tags.
  repeat case_if; cbn; eexists; (split; [|reflexivity]); simpl; auto.
Qed.

Lemma rainBlock_reasons (config : ActivityConfig.t) (hasRain : bool) (st : scoring) :
  extends_reasons st (rainBlock config hasRain st).
Proof. unfold rainBlock. repeat case_if; solve_extends. Qed.

Lemma windBlock_reasons (config : ActivityConfig.t) (isWindy : bool) (st : scoring) :
  extends_reasons st (windBlock config isWindy st).
Proof. unfold windBlock. repeat case_if; solve_extends. Qed.

Lemma indoorBlock_reasons (config : ActivityConfig.t) (avgTemp : number) (st : scoring) :
  extends_reasons st (indoorBlock config avgTemp st).
Proof. unfold indoorBlock. repeat case_if; solve_extends. Qed.

(** The first reason is always a temperature tag. *)
Lemma scoreBlocks_reasons (config : ActivityConfig.t) (avgTemp : number)
  (hasRain isWindy : bool) :
  exists tag rest, In tag temperature_tags
    /\ reasons (scoreBlocks config avgTemp hasRain isWindy) = tag :: rest.
Proof.
  unfold scoreBlocks.
  destruct (temperatureBlock_reasons config avgTemp (mkScoring BASE_SCORE []))
    as (tag & Htag & Ht).
  set (st1 := temperatureBlock config avgTemp _) in *.
  assert (H : extends_reasons st1
                (indoorBlock config avgTemp
                   (windBlock config isWindy (rainBlock config hasRain st1)))).
  { eapply extends_trans; [apply rainBlock_reasons|].
    eapply extends_trans; [apply windBlock_reasons | apply indoorBlock_reasons]. }
  destruct H as (l & Hl). exists tag, l. split; [exact Htag|].
  rewrite Hl, Ht. reflexivity.
Qed.

(** ** Which scores are numbers *)

Section Score.
Variable config : ActivityConfig.t.
Hypothesis Hwf : config_wf config = true.

Lemma temperatureBlock_finite (avgTemp : number) (st : scoring) :
  is_NaN avgTemp = false ->
  is_finite (score st) = true ->
  is_finite (score (temperatureBlock config avgTemp st)) = true.
Proof.
  destruct (config_wf_finite config Hwf) as (Hlo & Hhi & _). clear Hwf.
  intros Ht Hs. unfold temperatureBlock.
  destruct avgTemp as [|s|m e]; [discriminate| |].
  - destruct (ActivityConfig.idealTempMin config), (ActivityConfig.idealTempMax config);
      try discriminate.
    destruct st as [[|?|? ?] rs]; try discriminate. destruct s; reflexivity.
  - repeat case_if; cbn [score push plus minus]; auto 6 with js.
Qed.

Lemma rainBlock_finite (hasRain : bool) (st : scoring) :
  is_finite (score st) = true ->
  is_finite (score (rainBlock config hasRain st)) = true.
Proof.
  destruct (config_wf_finite config Hwf) as (_ & _ & Hr & _). intros Hs. unfold rainBlock.
  repeat case_if; cbn [score push plus minus]; auto 6 with js.
Qed.

Lemma windBlock_finite (isWindy : bool) (st : scoring) :
  is_finite (score st) = true ->
  is_finite (score (windBlock config isWindy st)) = true.
Proof.
  destruct (config_wf_finite config Hwf) as (_ & _ & _ & Hw). intros Hs. unfold windBlock.
  repeat case_if; cbn [score push plus minus]; auto 6 with js.
Qed.

Lemma indoorBlock_finite (avgTemp : number) (st : scoring) :
  is_finite (score st) = true ->
  is_finite (score (indoorBlock config avgTemp st)) = true.
Proof.
  intros Hs. unfold indoorBlock.
  repeat case_if; cbn [score push plus minus]; auto with js.
Qed.

Lemma scoreBlocks_finite (avgTemp : number) (hasRain isWindy : bool) :
  is_NaN avgTemp = false ->
  is_finite (score (scoreBlocks config avgTemp hasRain isWindy)) = true.
Proof.
  intros Ht. unfold scoreBlocks.
  apply indoorBlock_finite, windBlock_finite, rainBlock_finite,
    temperatureBlock_finite; auto.
Qed.

End Score.

(** A score that is [NaN] stays [NaN], and a [NaN] temperature makes it so. *)

Lemma add_NaN_r (x : number) : add x NaN = NaN.
Proof. now destruct x. Qed.

Lemma temperatureBlock_NaN (config : ActivityConfig.t) (avgTemp : number)
  (st : scoring) :
  is_NaN avgTemp = true -> score (temperatureBlock config avgTemp st) = NaN.
Proof.
  destruct avgTemp; try discriminate. intros _.
  unfold temperatureBlock, geb. rewrite leb_NaN_r. cbn.
  unfold sub. cbn. apply add_NaN_r.
Qed.

Lemma rainBlock_NaN (config : ActivityConfig.t) (hasRain : bool) (st : scoring) :
  score st = NaN -> score (rainBlock config hasRain st) = NaN.
Proof.
  intros H. unfold rainBlock.
  repeat case_if; cbn [score push plus minus]; unfold sub; now rewrite H.
Qed.

Lemma windBlock_NaN (config : ActivityConfig.t) (isWindy : bool) (st : scoring) :
  score st = NaN -> score (windBlock config isWindy st) = NaN.
Proof.
  intros H. unfold windBlock.
  repeat case_if; cbn [score push plus minus]; now rewrite H.
Qed.

Lemma indoorBlock_NaN (config : ActivityConfig.t) (avgTemp : number) (st : scoring) :
  score st = NaN -> score (indoorBlock config avgTemp st) = NaN.
Proof.
  intros H. unfold indoorBlock.
  repeat case_if; cbn [score push plus minus]; now rewrite H.
Qed.

Lemma scoreBlocks_NaN (config : ActivityConfig.t) (avgTemp : number)
  (hasRain isWindy : bool) :
  is_NaN avgTemp = true ->
  score (scoreBlocks config avgTemp hasRain isWindy) = NaN.
Proof.
  intros Ht. unfold scoreBlocks.
  now apply indoorBlock_NaN, windBlock_NaN, rainBlock_NaN, temperatureBlock_NaN.
Qed.

Lemma suitabilityScore_clamp (config : ActivityConfig.t) (avgTemp : number)
  (hasRain isWindy : bool) (precipitation windSpeed : number) :
  Activity.suitabilityScore
    (scoreActivity config avgTemp hasRain isWindy precipitation windSpeed)
  = clamp_round 0 100 (score (scoreBlocks config avgTemp hasRain isWindy)).
Proof. reflexivity. Qed.

(** ** Properties of [scoreActivity] *)

Section ScoreActivity.
Variable config : ActivityConfig.t.
Variables avgTemp precipitation windSpeed : number.
Variables hasRain isWindy : bool.

(** C1: for a well-formed profile and an average
    temperature that is a number (finite or infinite), the suitability score
    is an integer between 0 and 100. *)
Theorem scoreActivity_score_range :
  config_wf config = true -> is_NaN avgTemp = false ->
  int_between 0 100 (Activity.suitabilityScore (scoreActivity config avgTemp hasRain isWindy precipitation windSpeed)).
Proof.
  intros Hwf Ht. rewrite suitabilityScore_clamp.
  apply clamp_round_between; [lia|].
  now apply finite_not_NaN, scoreBlocks_finite.
Qed.

(** [scoreActivity_score_NaN]: when the average temperature is [NaN] (a
    missing or non-numeric temperature in the forecast) the suitability
    score is [NaN], whatever the profile: the clamp does not repair it. *)
Theorem scoreActivity_score_NaN :
  is_NaN avgTemp = true -> Activity.suitabilityScore (scoreActivity config avgTemp hasRain isWindy precipitation windSpeed) = NaN.
Proof.
  intros Ht. rewrite suitabilityScore_clamp.
  now rewrite scoreBlocks_NaN.
Qed.

(** The reasoning is the joined reasons, and starts with a temperature tag. *)
Lemma scoreActivity_reasoning_join :
  exists tag rest,
    In tag temperature_tags
    /\ reasons (scoreBlocks config avgTemp hasRain isWindy) = tag :: rest
    /\ Activity.reasoning (scoreActivity config avgTemp hasRain isWindy precipitation windSpeed) = join (tag :: rest) ", ".
Proof.
  cbn [scoreActivity Activity.reasoning].
  destruct (scoreBlocks_reasons config avgTemp hasRain isWindy)
    as (tag & l & Htag & ->).
  exists tag, l. repeat split; auto.
  apply or_default_nonempty, join_nonempty.
  destruct Htag as [<-|[<-|[<-|[]]]]; discriminate.
Qed.

(** [scoreActivity_reasoning_tag]: the reasoning always begins with one of the
    three temperature tags, for every profile and every input. *)
Theorem scoreActivity_reasoning_tag :
  exists tag rest, In tag temperature_tags
    /\ Activity.reasoning (scoreActivity config avgTemp hasRain isWindy precipitation windSpeed) = (tag ++ rest)%string.
Proof.
  destruct scoreActivity_reasoning_join as (tag & l & Htag & _ & ->).
  destruct (join_prefix tag l ", ") as (r & ->). eauto.
Qed.

(** [scoreActivity_reasoning_nonempty]: the reasoning is never the empty
    string. *)
Theorem scoreActivity_reasoning_nonempty : Activity.reasoning (scoreActivity config avgTemp hasRain isWindy precipitation windSpeed) <> "".
Proof.
  destruct scoreActivity_reasoning_join as (tag & l & Htag & _ & ->).
  apply join_nonempty.
  destruct Htag as [<-|[<-|[<-|[]]]]; discriminate.
Qed.

(** [scoreActivity_never_standard]: the fallback ["standard conditions"] is
    never returned, because the temperature block always pushes a reason:
    the reasoning is the joined list of reasons. *)
Theorem scoreActivity_never_standard :
  Activity.reasoning (scoreActivity config avgTemp hasRain isWindy precipitation windSpeed) <> "standard conditions"
  /\ Activity.reasoning (scoreActivity config avgTemp hasRain isWindy precipitation windSpeed)
     = join (reasons (scoreBlocks config avgTemp hasRain isWindy)) ", ".
Proof.
  destruct scoreActivity_reasoning_join as (tag & l & Htag & Hr & ->).
  split; [|now rewrite Hr].
  destruct (join_prefix tag l ", ") as (r & ->).
  destruct Htag as [<-|[<-|[<-|[]]]]; discriminate.
Qed.

(** The name of the profile is copied to the (scoreActivity config avgTemp hasRain isWindy precipitation windSpeed). *)
Lemma scoreActivity_name : Activity.name (scoreActivity config avgTemp hasRain isWindy precipitation windSpeed) = ActivityConfig.name config.
Proof. reflexivity. Qed.

(** [precipitation] and [windSpeed] are parameters the function never reads. *)
Lemma scoreActivity_ignores (precipitation' windSpeed' : number) :
  scoreActivity config avgTemp hasRain isWindy precipitation' windSpeed' = scoreActivity config avgTemp hasRain isWindy precipitation windSpeed.
Proof. reflexivity. Qed.

End ScoreActivity.

(** ** The comparator *)

Definition has_number (a : Activity.t) : Prop :=
  is_NaN (Activity.suitabilityScore a) = false.

Definition has_NaN (a : Activity.t) : Prop :=
  Activity.suitabilityScore a = NaN.

(** [a] has to come after [b] exactly when its score is smaller. *)
Lemma after_byScore (a b : Activity.t) :
  after byScoreDescending a b
  = ltb (Activity.suitabilityScore a) (Activity.suitabilityScore b).
Proof. unfold after, byScoreDescending, gtb. apply ltb_0_sub. Qed.

Lemma byScore_consistent_numbers : consistent_on byScoreDescending has_number.
Proof.
  split; intros *; unfold has_number; rewrite !after_byScore.
  - intros _ _. apply ltb_asym.
  - intros _ Hb _. now apply ltb_false_trans.
Qed.

Lemma byScore_consistent_NaN : consistent_on byScoreDescending has_NaN.
Proof.
  split; intros *; unfold has_NaN; rewrite !after_byScore.
  - intros -> _. discriminate.
  - intros -> _ _ _ _. reflexivity.
Qed.

(** On activities with a number for a score, "may stand before" is [>=]. *)
Lemma before_byScore (a b : Activity.t) :
  has_number a -> has_number b ->
  before byScoreDescending a b ->
  leb (Activity.suitabilityScore b) (Activity.suitabilityScore a) = true.
Proof.
  unfold before, has_number. rewrite after_byScore. intros Ha Hb H.
  rewrite ltb_negb_leb in H by assumption. now apply negb_false_iff in H.
Qed.

(** ** The scored profiles *)

Section ScoreAll.
Variable configs : list ActivityConfig.t.
Variable forecast : ForecastDay.t.

Lemma scoreAll_length : length (scoreAll configs forecast) = length configs.
Proof. apply length_map. Qed.

Lemma scoreAll_names :
  map Activity.name (scoreAll configs forecast) = map ActivityConfig.name configs.
Proof. unfold scoreAll. rewrite map_map. reflexivity. Qed.

Lemma scoreAll_In (a : Activity.t) :
  In a (scoreAll configs forecast) <->
  exists config, In config configs
    /\ a = scoreActivity config (averageTemp forecast)
             (gtb (ForecastDay.precipitation forecast) RAIN_THRESHOLD)
             (gtb (ForecastDay.windSpeed forecast) WIND_THRESHOLD)
             (ForecastDay.precipitation forecast) (ForecastDay.windSpeed forecast).
Proof.
  unfold scoreAll. rewrite in_map_iff. split; intros (c & H1 & H2); eauto.
Qed.

Lemma scoreAll_range :
  Forall (fun c => config_wf c = true) configs ->
  is_NaN (averageTemp forecast) = false ->
  Forall (fun a => int_between 0 100 (Activity.suitabilityScore a))
    (scoreAll configs forecast).
Proof.
  intros Hwf Ht. unfold scoreAll. apply Forall_map.
  eapply Forall_impl; [|exact Hwf]. intros c Hc.
  rewrite suitabilityScore_clamp. apply clamp_round_between; [lia|].
  now apply finite_not_NaN, scoreBlocks_finite.
Qed.

Lemma scoreAll_has_number :
  Forall (fun c => config_wf c = true) configs ->
  is_NaN (averageTemp forecast) = false ->
  Forall has_number (scoreAll configs forecast).
Proof.
  intros Hwf Ht. eapply Forall_impl; [|now apply scoreAll_range].
  intros a. apply int_between_not_NaN.
Qed.

Lemma scoreAll_has_NaN :
  is_NaN (averageTemp forecast) = true ->
  Forall has_NaN (scoreAll configs forecast).
Proof.
  intros Ht. unfold scoreAll. apply Forall_map, Forall_forall. intros c _.
  unfold has_NaN. rewrite suitabilityScore_clamp. now rewrite scoreBlocks_NaN.
Qed.

Lemma scoreAll_reasoning :
  Forall (fun a => Activity.reasoning a <> "") (scoreAll configs forecast).
Proof.
  unfold scoreAll. apply Forall_map, Forall_forall. intros c _.
  destruct (scoreActivity_reasoning_join c (averageTemp forecast)
              (ForecastDay.precipitation forecast) (ForecastDay.windSpeed forecast)
              (gtb (ForecastDay.precipitation forecast) RAIN_THRESHOLD)
              (gtb (ForecastDay.windSpeed forecast) WIND_THRESHOLD))
    as (tag & l & Htag & _ & ->).
  apply join_nonempty. destruct Htag as [<-|[<-|[<-|[]]]]; discriminate.
Qed.

End ScoreAll.

(** ** The ranking *)

(** The scored profiles of the table, sorted. *)
Definition sortedActivities (forecast : ForecastDay.t) : list Activity.t :=
  Array_sort byScoreDescending (scoreAll ACTIVITY_CONFIGS forecast).

Definition topOrDefault (top : option number) : number :=
  match top with
  | Some n => n
  | None => int 1
  end.

Lemma rankActivitiesForDay_unfold (forecast : ForecastDay.t) (top : option number) :
  rankActivitiesForDay forecast top
  = Array_slice (sortedActivities forecast) (int 0) (topOrDefault top).
Proof. reflexivity. Qed.

Lemma rankActivitiesForDay_prefix (forecast : ForecastDay.t) (top : option number) :
  exists n, rankActivitiesForDay forecast top = firstn n (sortedActivities forecast).
Proof. rewrite rankActivitiesForDay_unfold. apply Array_slice_0_prefix. Qed.

Lemma sortedActivities_perm (forecast : ForecastDay.t) :
  Permutation (scoreAll ACTIVITY_CONFIGS forecast) (sortedActivities forecast).
Proof. apply Array_sort_perm. Qed.

Lemma sortedActivities_length (forecast : ForecastDay.t) :
  length (sortedActivities forecast) = 4%nat.
Proof.
  unfold sortedActivities. now rewrite Array_sort_length, scoreAll_length.
Qed.

Lemma sortedActivities_sorted (forecast : ForecastDay.t) :
  is_NaN (averageTemp forecast) = false ->
  StronglySorted
    (fun a b => leb (Activity.suitabilityScore b) (Activity.suitabilityScore a) = true)
    (sortedActivities forecast).
Proof.
  intros Ht.
  pose proof (scoreAll_has_number _ forecast ACTIVITY_CONFIGS_Forall_wf Ht) as Hn.
  apply (StronglySorted_weaken (before byScoreDescending) _ has_number).
  - apply before_byScore.
  - now apply Array_sort_Forall.
  - now apply (Array_sort_sorted _ has_number byScore_consistent_numbers).
Qed.

(** On a day without a temperature every score is [NaN] and the sort leaves
    the table order. *)
Lemma sortedActivities_NaN (forecast : ForecastDay.t) :
  is_NaN (averageTemp forecast) = true ->
  sortedActivities forecast = scoreAll ACTIVITY_CONFIGS forecast.
Proof.
  intros Ht. apply Array_sort_fixed.
  pose proof (scoreAll_has_NaN ACTIVITY_CONFIGS forecast Ht) as Hn.
  induction Hn as [|a l Ha Hl IH]; constructor; auto.
  apply Forall_forall. intros b _. unfold before.
  rewrite after_byScore. unfold has_NaN in Ha. now rewrite Ha.
Qed.

(** With [top = 1] the ranking is the head of the sorted profiles. *)
Lemma rankActivitiesForDay_one (forecast : ForecastDay.t) :
  rankActivitiesForDay forecast (Some (int 1)) = firstn 1 (sortedActivities forecast).
Proof.
  rewrite rankActivitiesForDay_unfold. cbn [topOrDefault].
  now rewrite Array_slice_0_int by lia.
Qed.

(** On a day with a temperature, every score of the ranking is an integer
    between 0 and 100. *)
Lemma sortedActivities_range (forecast : ForecastDay.t) :
  is_NaN (averageTemp forecast) = false ->
  Forall (fun a => int_between 0 100 (Activity.suitabilityScore a))
    (sortedActivities forecast).
Proof.
  intros Ht. eapply Permutation_Forall; [apply sortedActivities_perm|].
  now apply scoreAll_range; [apply ACTIVITY_CONFIGS_Forall_wf|].
Qed.

Lemma rankActivitiesForDay_range (forecast : ForecastDay.t) (top : option number) :
  is_NaN (averageTemp forecast) = false ->
  Forall (fun a => int_between 0 100 (Activity.suitabilityScore a))
    (rankActivitiesForDay forecast top).
Proof.
  intros Ht. destruct (rankActivitiesForDay_prefix forecast top) as (n & ->).
  now apply firstn_Forall, sortedActivities_range.
Qed.

(** The head of the sorted profiles is the first profile of the table with
    the highest score. *)
Lemma sortedActivities_head_best (forecast : ForecastDay.t) (a : Activity.t)
  (t : list Activity.t) :
  is_NaN (averageTemp forecast) = false ->
  sortedActivities forecast = a :: t ->
  exists l1 l2, scoreAll ACTIVITY_CONFIGS forecast = l1 ++ a :: l2
    /\ Forall (fun b => ltb (Activity.suitabilityScore b) (Activity.suitabilityScore a) = true) l1
    /\ Forall (fun b => leb (Activity.suitabilityScore b) (Activity.suitabilityScore a) = true) l2.
Proof.
  intros Ht Es.
  pose proof (scoreAll_has_number _ forecast ACTIVITY_CONFIGS_Forall_wf Ht) as Hn.
  destruct (Array_sort_head_first _ has_number byScore_consistent_numbers _ _ _ Hn Es)
    as (l1 & l2 & Hl & H1 & H2).
  exists l1, l2. split; [exact Hl|].
  assert (Ha : has_number a).
  { rewrite Forall_forall in Hn. apply Hn. rewrite Hl. apply in_or_app. right. now left. }
  split.
  - rewrite Forall_forall in *. intros b Hb. specialize (H1 b Hb).
    now rewrite after_byScore in H1.
  - rewrite Hl in Hn. apply Forall_app in Hn. destruct Hn as [_ Hn]. inv Hn.
    rewrite Forall_forall in *. intros b Hb. apply before_byScore; auto.
Qed.

(** ** Properties of [rankActivitiesForDay] *)

Section Ranking.
Variable forecast : ForecastDay.t.

(** C3: on a day whose average temperature is a
    number, the ranking is sorted by non-increasing suitability score,
    whatever [top] is. *)
Theorem rankActivitiesForDay_sorted (top : option number) :
  is_NaN (averageTemp forecast) = false ->
  StronglySorted
    (fun a b => leb (Activity.suitabilityScore b) (Activity.suitabilityScore a) = true)
    (rankActivitiesForDay forecast top).
Proof.
  intros Ht. destruct (rankActivitiesForDay_prefix forecast top) as (n & ->).
  now apply firstn_StronglySorted, sortedActivities_sorted.
Qed.

(** [rankActivitiesForDay_length]: for an integer [top >= 0] the ranking has
    [min top 4] activities. *)
Theorem rankActivitiesForDay_length (n : Z) :
  (0 <= n)%Z ->
  length (rankActivitiesForDay forecast (Some (int n))) = Nat.min (Z.to_nat n) 4.
Proof.
  intros Hn. rewrite rankActivitiesForDay_unfold. cbn [topOrDefault].
  now rewrite Array_slice_0_length, sortedActivities_length.
Qed.

(** [rankActivitiesForDay_default]: when [top] is omitted the ranking is the
    one for [top = 1] and holds exactly one activity. *)
Theorem rankActivitiesForDay_default :
  rankActivitiesForDay forecast None = rankActivitiesForDay forecast (Some (int 1))
  /\ length (rankActivitiesForDay forecast None) = 1%nat.
Proof.
  split; [reflexivity|].
  rewrite rankActivitiesForDay_unfold. cbn [topOrDefault].
  now rewrite Array_slice_0_length, sortedActivities_length.
Qed.

(** [rankActivitiesForDay_scores]: on a day whose average temperature is a
    number, every ranked activity has an integer score between 0 and 100 and
    a non-empty reasoning. *)
Theorem rankActivitiesForDay_scores (top : option number) :
  is_NaN (averageTemp forecast) = false ->
  Forall (fun a => int_between 0 100 (Activity.suitabilityScore a)
                   /\ Activity.reasoning a <> "")
    (rankActivitiesForDay forecast top).
Proof.
  intros Ht. destruct (rankActivitiesForDay_prefix forecast top) as (n & ->).
  apply firstn_Forall.
  eapply Forall_Permutation; [apply sortedActivities_perm|].
  pose proof (scoreAll_range _ forecast ACTIVITY_CONFIGS_Forall_wf Ht) as H1.
  pose proof (scoreAll_reasoning ACTIVITY_CONFIGS forecast) as H2.
  rewrite Forall_forall in *. auto.
Qed.

(** [rankActivitiesForDay_from_table]: every ranked activity is the score of
    one profile of the table on this day, and no profile is ranked twice. *)
Theorem rankActivitiesForDay_from_table (top : option number) :
  (forall a, In a (rankActivitiesForDay forecast top) ->
     In a (scoreAll ACTIVITY_CONFIGS forecast))
  /\ NoDup (map Activity.name (rankActivitiesForDay forecast top)).
Proof.
  destruct (rankActivitiesForDay_prefix forecast top) as (n & ->). split.
  - intros a Ha. apply firstn_In in Ha.
    eapply Permutation_in; [symmetry; apply sortedActivities_perm | exact Ha].
  - assert (H : NoDup (map Activity.name (sortedActivities forecast))).
    { eapply Permutation_NoDup;
        [apply Permutation_map, sortedActivities_perm|].
      rewrite scoreAll_names. apply ACTIVITY_CONFIGS_names_NoDup. }
    rewrite <- (firstn_skipn n (sortedActivities forecast)), map_app in H.
    now apply NoDup_app_remove_r in H.
Qed.

(** [rankActivitiesForDay_any_stable_sort]: the ranking does not depend on
    the sorting algorithm of the engine: on a day whose average temperature
    is a number, cutting any stable sort of the scored profiles gives the
    same ranking. *)
Theorem rankActivitiesForDay_any_stable_sort (top : option number)
  (sorted : list Activity.t) :
  is_NaN (averageTemp forecast) = false ->
  stable_sort_of byScoreDescending has_number
    (scoreAll ACTIVITY_CONFIGS forecast) sorted ->
  rankActivitiesForDay forecast top = Array_slice sorted (int 0) (topOrDefault top).
Proof.
  intros Ht Hs. rewrite rankActivitiesForDay_unfold. f_equal.
  symmetry. apply (Array_sort_unique _ has_number byScore_consistent_numbers).
  - now apply scoreAll_has_number; [apply ACTIVITY_CONFIGS_Forall_wf|].
  - exact Hs.
Qed.

(** C16: with the default [top], on a day
    whose average temperature is a number, the one activity returned is the
    first profile of the table, in table order, with the highest score:
    every profile before it scores strictly less and every profile after it
    scores at most as much. *)
Theorem rankActivitiesForDay_best_first (a : Activity.t) :
  is_NaN (averageTemp forecast) = false ->
  rankActivitiesForDay forecast None = [a] ->
  exists l1 l2, scoreAll ACTIVITY_CONFIGS forecast = l1 ++ a :: l2
    /\ Forall (fun b => ltb (Activity.suitabilityScore b) (Activity.suitabilityScore a) = true) l1
    /\ Forall (fun b => leb (Activity.suitabilityScore b) (Activity.suitabilityScore a) = true) l2.
Proof.
  intros Ht E. change (rankActivitiesForDay forecast None)
    with (rankActivitiesForDay forecast (Some (int 1))) in E.
  rewrite rankActivitiesForDay_one in E.
  destruct (sortedActivities forecast) as [|a' t] eqn:Es; [discriminate|].
  cbn in E. inv E. now apply (sortedActivities_head_best forecast a t).
Qed.

(** C40: a negative integer [top] does not
    give an empty ranking: [slice(0, -k)] drops the last [k] of the four
    sorted activities. *)
Theorem rankActivitiesForDay_negative_top (k : Z) :
  (0 < k)%Z ->
  length (rankActivitiesForDay forecast (Some (int (- k)))) = (4 - Z.to_nat k)%nat.
Proof.
  intros Hk. rewrite rankActivitiesForDay_unfold. cbn [topOrDefault].
  rewrite Array_slice_0_neg by exact Hk.
  rewrite length_firstn, sortedActivities_length. lia.
Qed.

(** [rankActivitiesForDay_NaN_day]: on a day whose average temperature is
    [NaN] every score is [NaN], the sort keeps the table order, and the
    default ranking is the first profile of the table with the score [NaN]. *)
Theorem rankActivitiesForDay_NaN_day :
  is_NaN (averageTemp forecast) = true ->
  map Activity.name (rankActivitiesForDay forecast None) = ["skiing"]
  /\ map Activity.suitabilityScore (rankActivitiesForDay forecast None) = [NaN].
Proof.
  intros Ht. rewrite rankActivitiesForDay_unfold. cbn [topOrDefault].
  rewrite Array_slice_0_int by lia. rewrite sortedActivities_NaN by exact Ht.
  change (Z.to_nat 1) with 1%nat.
  unfold scoreAll, ACTIVITY_CONFIGS. cbn [map firstn]. split; [reflexivity|].
  f_equal. rewrite suitabilityScore_clamp. now rewrite scoreBlocks_NaN.
Qed.

End Ranking.

(** ** The score as a formula over the rationals *)

Local Open Scope Q_scope.

Definition temperature_term (lo hi t : Q) : Q :=
  if Qle_bool lo t && Qle_bool t hi then 30
  else if Qltb t lo then - Qmin 30 ((lo - t) * 5)
  else - Qmin 30 ((t - hi) * 5).

Definition rain_term (tolerance : Q) (hasRain : bool) : Q :=
  if hasRain
  then - ((1 - tolerance) * 20) + (if Qltb (8 # 10) tolerance then 10 else 0)
  else if Qltb tolerance (3 # 10) then 10 else 0.

Definition wind_term (preference : Q) (isWindy : bool) : Q :=
  if isWindy then preference * 15 - (75 # 10) else 0.

Definition indoor_term (indoor : bool) (t : Q) : Q :=
  if indoor && (Qltb t 10 || Qltb 30 t) then 15 else 0.

(** The unrounded score of a profile at the average temperature [t]. *)
Definition score_spec (config : ActivityConfig.t) (t : Q) (hasRain isWindy : bool) : Q :=
  50
  + temperature_term (toQ (ActivityConfig.idealTempMin config))
      (toQ (ActivityConfig.idealTempMax config)) t
  + rain_term (toQ (ActivityConfig.rainTolerance config)) hasRain
  + wind_term (toQ (ActivityConfig.windPreference config)) isWindy
  + indoor_term (includes (ActivityConfig.name config) "indoor") t.

(** Rounded half up and clamped to [0..100]. *)
Definition suitability_spec (config : ActivityConfig.t) (t : Q)
  (hasRain isWindy : bool) : Z :=
  Z.max 0 (Z.min 100 (Qfloor (score_spec config t hasRain isWindy + (1 # 2)))).

(** Rewrites the arithmetic of finite numbers into rational arithmetic. *)
Ltac to_rationals :=
  repeat first
    [ rewrite toQ_add_fin by auto 8 with js
    | rewrite toQ_sub_fin by auto 8 with js
    | rewrite toQ_mul_fin by auto 8 with js
    | rewrite toQ_Math_min_fin by auto 8 with js ].

Section Refinement.
Variable config : ActivityConfig.t.
Hypothesis Hwf : config_wf config = true.
Variable st : scoring.
Hypothesis Hst : is_finite (score st) = true.

Lemma temperatureBlock_spec (avgTemp : number) :
  is_finite avgTemp = true ->
  toQ (score (temperatureBlock config avgTemp st))
  == toQ (score st)
     + temperature_term (toQ (ActivityConfig.idealTempMin config))
         (toQ (ActivityConfig.idealTempMax config)) (toQ avgTemp).
Proof.
  destruct (config_wf_finite config Hwf) as (Hlo & Hhi & _). intros Ht.
  unfold temperatureBlock, temperature_term.
  rewrite geb_toQ, leb_toQ, ltb_toQ by assumption.
  repeat case_if; cbn [score push plus minus]; to_rationals;
    unfold MAX_TEMP_PENALTY, IDEAL_TEMP_BONUS, COLD_PENALTY_MULTIPLIER,
      WARM_PENALTY_MULTIPLIER; rewrite ?toQ_int; change (inject_Z ?z) with (z # 1);
    ring.
Qed.

Lemma rainBlock_spec (hasRain : bool) :
  toQ (score (rainBlock config hasRain st))
  == toQ (score st) + rain_term (toQ (ActivityConfig.rainTolerance config)) hasRain.
Proof.
  destruct (config_wf_finite config Hwf) as (_ & _ & Hr & _).
  unfold rainBlock, rain_term, HIGH_TOLERANCE_THRESHOLD, LOW_TOLERANCE_THRESHOLD.
  rewrite gtb_toQ, ltb_toQ by (assumption || reflexivity).
  change (toQ (dec 8 1)) with (8 # 10). change (toQ (dec 3 1)) with (3 # 10).
  repeat case_if; cbn [score push plus minus]; to_rationals;
    unfold RAIN_IMPACT_MULTIPLIER, HIGH_TOLERANCE_BONUS, LOW_TOLERANCE_BONUS;
    rewrite ?toQ_int; change (inject_Z ?z) with (z # 1); ring.
Qed.

Lemma windBlock_spec (isWindy : bool) :
  toQ (score (windBlock config isWindy st))
  == toQ (score st) + wind_term (toQ (ActivityConfig.windPreference config)) isWindy.
Proof.
  destruct (config_wf_finite config Hwf) as (_ & _ & _ & Hw).
  unfold windBlock, wind_term.
  repeat case_if; cbn [score push plus minus]; to_rationals;
    unfold WIND_IMPACT_MULTIPLIER, WIND_OFFSET;
    rewrite ?toQ_int; change (toQ (dec 75 1)) with (75 # 10);
    change (inject_Z ?z) with (z # 1); ring.
Qed.

Lemma indoorBlock_spec (avgTemp : number) :
  is_finite avgTemp = true ->
  toQ (score (indoorBlock config avgTemp st))
  == toQ (score st)
     + indoor_term (includes (ActivityConfig.name config) "indoor") (toQ avgTemp).
Proof.
  intros Ht. unfold indoorBlock, indoor_term, COLD_THRESHOLD, HOT_THRESHOLD.
  rewrite gtb_toQ, ltb_toQ by (assumption || reflexivity).
  change (toQ (int 10)) with 10. change (toQ (int 30)) with 30.
  destruct (includes _ _); cbn [andb]; repeat case_if;
    cbn [score push plus minus]; to_rationals;
    unfold EXTREME_WEATHER_BONUS; rewrite ?toQ_int;
    change (inject_Z ?z) with (z # 1); ring.
Qed.

End Refinement.

Lemma scoreBlocks_spec (config : ActivityConfig.t) (avgTemp : number)
  (hasRain isWindy : bool) :
  config_wf config = true -> is_finite avgTemp = true ->
  toQ (score (scoreBlocks config avgTemp hasRain isWindy))
  == score_spec config (toQ avgTemp) hasRain isWindy.
Proof.
  intros Hwf Ht. pose proof (finite_not_NaN _ Ht) as Hn.
  unfold scoreBlocks, score_spec.
  rewrite indoorBlock_spec, windBlock_spec, rainBlock_spec, temperatureBlock_spec;
    auto using windBlock_finite, rainBlock_finite, temperatureBlock_finite.
  reflexivity.
Qed.


Local Close Scope Q_scope.

(** ** The two versions of the service agree *)

(** [Literal_scoreActivity_eq]: the version of [scoreActivity] with literal
    thresholds computes the same activity as the version with named
    constants, for every profile and every input. *)
Theorem Literal_scoreActivity_eq (config : ActivityConfig.t) (avgTemp : number)
  (hasRain isWindy : bool) (precipitation windSpeed : number) :
  Literal.scoreActivity config avgTemp hasRain isWindy precipitation windSpeed
  = scoreActivity config avgTemp hasRain isWindy precipitation windSpeed.
Proof. reflexivity. Qed.

(** [Literal_rankActivitiesForDay_eq]: the two versions of
    [rankActivitiesForDay], each with its own copy of the profile table,
    return the same ranking for every forecast and every [top]. *)
Theorem Literal_rankActivitiesForDay_eq (forecast : ForecastDay.t) (top : option number) :
  Literal.rankActivitiesForDay forecast top = rankActivitiesForDay forecast top.
Proof.
  unfold Literal.rankActivitiesForDay, rankActivitiesForDay, scoreAll. cbv zeta.
  change Literal.ACTIVITY_CONFIGS with ACTIVITY_CONFIGS.
  do 2 f_equal.
Qed.

(** ** The scenarios of the repository's tests *)

Definition day (maxTemp minTemp precipitation windSpeed : number) : ForecastDay.t :=
  {| ForecastDay.date := "2026-01-01";
     ForecastDay.maxTemp := maxTemp;
     ForecastDay.minTemp := minTemp;
     ForecastDay.conditions := "";
     ForecastDay.precipitation := precipitation;
     ForecastDay.windSpeed := windSpeed |}.

Definition mild_day : ForecastDay.t := day (int 22) (int 18) (int 0) (int 5).

(** [ranking_scenarios]: the two scenarios of the specification: on a mild
    dry day the default ranking is outdoor sightseeing with the score 90,
    and on a rainy day with [top = 2] indoor sightseeing (90) is ranked
    before outdoor sightseeing (62). *)
Example ranking_scenarios :
  rankActivitiesForDay mild_day None
  = [ Activity.mk "outdoor_sightseeing" "ideal temperature, no rain" (int 90) ]
  /\ rankActivitiesForDay (day (int 18) (int 15) (int 15) (int 10)) (Some (int 2))
     = [ Activity.mk "indoor_sightseeing" "ideal temperature, rain makes it more appealing"
           (int 90);
         Activity.mk "outdoor_sightseeing" "ideal temperature, rain not ideal" (int 62) ].
Proof. split; vm_compute; reflexivity. Qed.

(** On the mild day surfing and indoor sightseeing both score 80.  With
    [top = 2] surfing is second, because it stands before indoor
    sightseeing in the table; with the two profiles exchanged in the table,
    indoor sightseeing is second. *)
Example table_order_decides_ties :
  map Activity.suitabilityScore (scoreAll ACTIVITY_CONFIGS mild_day)
  = [int 30; int 80; int 80; int 90]
  /\ map Activity.name (rankActivitiesForDay mild_day (Some (int 2)))
     = ["outdoor_sightseeing"; "surfing"]
  /\ match ACTIVITY_CONFIGS with
     | [skiing; surfing; indoor; outdoor] =>
         map Activity.name
           (Array_slice
              (Array_sort byScoreDescending (scoreAll [skiing; indoor; surfing; outdoor] mild_day))
              (int 0) (int 2))
         = ["outdoor_sightseeing"; "indoor_sightseeing"]
     | _ => False
     end.
Proof. repeat split; vm_compute; reflexivity. Qed.

(** ** Witnesses *)

Definition skiing : ActivityConfig.t :=
  ActivityConfig.mk "skiing" (int (-10)) (int 2) (dec 1 1) (dec 2 1).

Definition unknown_day : ForecastDay.t := day NaN (int 18) (int 0) (int 5).

Lemma scoreActivity_score_range_witness :
  config_wf skiing = true /\ is_NaN (int 20) = false
  /\ int_between 0 100
       (Activity.suitabilityScore (scoreActivity skiing (int 20) false true (int 0) (int 25))).
Proof.
  split; [reflexivity|]. split; [reflexivity|].
  apply scoreActivity_score_range; reflexivity.
Defined.

Lemma scoreActivity_score_NaN_witness :
  is_NaN NaN = true
  /\ Activity.suitabilityScore (scoreActivity skiing NaN false true (int 0) (int 25)) = NaN.
Proof. split; [reflexivity|]. apply scoreActivity_score_NaN. reflexivity. Defined.


Lemma rankActivitiesForDay_sorted_witness :
  is_NaN (averageTemp mild_day) = false
  /\ StronglySorted
       (fun a b => leb (Activity.suitabilityScore b) (Activity.suitabilityScore a) = true)
       (rankActivitiesForDay mild_day (Some (int 4))).
Proof. split; [reflexivity|]. apply rankActivitiesForDay_sorted. reflexivity. Defined.

Lemma rankActivitiesForDay_length_witness :
  length (rankActivitiesForDay mild_day (Some (int 2))) = 2%nat.
Proof. apply (rankActivitiesForDay_length mild_day 2). lia. Defined.

Lemma rankActivitiesForDay_scores_witness :
  Forall (fun a => int_between 0 100 (Activity.suitabilityScore a)
                   /\ Activity.reasoning a <> "")
    (rankActivitiesForDay mild_day (Some (int 4))).
Proof. apply rankActivitiesForDay_scores. reflexivity. Defined.

Lemma rankActivitiesForDay_any_stable_sort_witness :
  rankActivitiesForDay mild_day (Some (int 3))
  = Array_slice (sortedActivities mild_day) (int 0) (int 3).
Proof.
  apply (rankActivitiesForDay_any_stable_sort mild_day (Some (int 3))); [reflexivity|].
  apply (Array_sort_spec _ has_number byScore_consistent_numbers).
  apply scoreAll_has_number; [apply ACTIVITY_CONFIGS_Forall_wf | reflexivity].
Defined.

Definition mild_day_best : Activity.t :=
  Activity.mk "outdoor_sightseeing" "ideal temperature, no rain" (int 90).

Lemma rankActivitiesForDay_best_first_witness :
  exists l1 l2,
    scoreAll ACTIVITY_CONFIGS mild_day = l1 ++ mild_day_best :: l2
    /\ Forall (fun b => ltb (Activity.suitabilityScore b)
                          (Activity.suitabilityScore mild_day_best) = true) l1
    /\ Forall (fun b => leb (Activity.suitabilityScore b)
                          (Activity.suitabilityScore mild_day_best) = true) l2.
Proof.
  apply (rankActivitiesForDay_best_first mild_day mild_day_best);
    [reflexivity | vm_compute; reflexivity].
Defined.

Lemma rankActivitiesForDay_negative_top_witness :
  length (rankActivitiesForDay mild_day (Some (int (-1)))) = 3%nat.
Proof. apply (rankActivitiesForDay_negative_top mild_day 1). lia. Defined.

Lemma rankActivitiesForDay_NaN_day_witness :
  is_NaN (averageTemp unknown_day) = true
  /\ map Activity.name (rankActivitiesForDay unknown_day None) = ["skiing"]
  /\ map Activity.suitabilityScore (rankActivitiesForDay unknown_day None) = [NaN].
Proof. split; [reflexivity|]. apply rankActivitiesForDay_NaN_day. reflexivity. Defined.
