(* ===== verification/Ranking.v ===== *)
(** * Ranking: what the weather service asks of the ranking service

    [OpenMeteoAPI.getWeatherData] calls
    [activityRankingService.rankActivitiesForDay(forecastDay, 1)] for every
    day of the answer.  This file states that dependency as an interface:

    - [RankingService.service], the operation, with the test [finite] for
      the numbers the arithmetic of the service reads as finite;
    - [RankingService.ok], what the callers use: the number of activities,
      that every activity is a profile of the table with a reasoning and a
      score that is [NaN] or an integer between 0 and 100, and that a day
      with two finite temperatures has no [NaN] score.

    The weather service, the resolvers and the execution of a query are
    written and proved against the interface.  [decimal_service] is the
    ranking of [ActivityRanking] in exact decimal arithmetic; the ranking in
    binary64 arithmetic is the instance of [Forecast64]. *)

From Stdlib Require Import String List ZArith Bool Lia.
From S2P Require Import Prelude JsNumber JsString JsArray Types Constants ActivityRanking.
Import ListNotations.

Local Open Scope Z_scope.
Local Open Scope string_scope.

Module RankingService.

(** The object [activityRankingService] the weather service imports. *)
Class service : Type := {
  rankActivitiesForDay : ForecastDay.t -> option number -> list Activity.t;
  (** the numbers of an answer the service reads as finite numbers *)
  finite : number -> bool
}.

(** What an activity of a ranking is: a profile of the table, with a
    reasoning, and a score that is [NaN] or an integer between 0 and 100. *)
Definition ranked (a : Activity.t) : Prop :=
  In (Activity.name a) (map ActivityConfig.name ACTIVITY_CONFIGS)
  /\ Activity.reasoning a <> ""
  /\ (Activity.suitabilityScore a = NaN \/ int_between 0 100 (Activity.suitabilityScore a)).

Class ok (S : service) : Prop := {
  finite_is_finite : forall x, finite x = true -> is_finite x = true;
  rank_length : forall forecast n,
    0 <= n ->
    length (rankActivitiesForDay forecast (Some (int n))) = Nat.min (Z.to_nat n) 4;
  rank_ranked : forall forecast top, Forall ranked (rankActivitiesForDay forecast top);
  rank_defined : forall forecast top,
    finite (ForecastDay.maxTemp forecast) = true ->
    finite (ForecastDay.minTemp forecast) = true ->
    Forall (fun a => int_between 0 100 (Activity.suitabilityScore a))
      (rankActivitiesForDay forecast top)
}.

End RankingService.

(** ** What follows from the laws *)

Section Laws.
Context {S : RankingService.service} {Sok : RankingService.ok S}.

(** A ranking with [top = 1] is one activity. *)
Lemma rank_one (forecast : ForecastDay.t) :
  exists a, RankingService.rankActivitiesForDay forecast (Some (int 1)) = [a]
            /\ RankingService.ranked a.
Proof.
  pose proof (RankingService.rank_length forecast 1 ltac:(lia)) as Hlen.
  pose proof (RankingService.rank_ranked forecast (Some (int 1))) as Hall.
  destruct (RankingService.rankActivitiesForDay forecast (Some (int 1))) as [|a [|b l]];
    try discriminate.
  exists a. split; [reflexivity|]. now inversion Hall.
Qed.

End Laws.

(** ** The ranking in exact decimal arithmetic *)

#[export] Instance decimal_service : RankingService.service := {|
  RankingService.rankActivitiesForDay := Literal.rankActivitiesForDay;
  RankingService.finite := is_finite
|}.

(** The average of two finite temperatures is a number. *)
Lemma averageTemp_finite (forecast : ForecastDay.t) :
  is_finite (ForecastDay.maxTemp forecast) = true ->
  is_finite (ForecastDay.minTemp forecast) = true ->
  is_NaN (averageTemp forecast) = false.
Proof.
  intros Hmax Hmin. unfold averageTemp.
  apply finite_not_NaN. rewrite half_finite. now apply add_finite.
Qed.

Lemma decimal_ranked (forecast : ForecastDay.t) (top : option number) :
  Forall RankingService.ranked (rankActivitiesForDay forecast top).
Proof.
  apply Forall_forall. intros a Ha.
  apply (proj1 (rankActivitiesForDay_from_table forecast top)) in Ha.
  split; [|split].
  - rewrite <- (scoreAll_names ACTIVITY_CONFIGS forecast). now apply in_map.
  - exact (proj1 (Forall_forall _ _) (scoreAll_reasoning ACTIVITY_CONFIGS forecast) a Ha).
  - destruct (is_NaN (averageTemp forecast)) eqn:Ht.
    + left.
      exact (proj1 (Forall_forall _ _) (scoreAll_has_NaN ACTIVITY_CONFIGS forecast Ht) a Ha).
    + right.
      exact (proj1 (Forall_forall _ _)
               (scoreAll_range _ forecast ACTIVITY_CONFIGS_Forall_wf Ht) a Ha).
Qed.

#[export] Instance decimal_ok : RankingService.ok decimal_service.
Proof.
  split; cbn [RankingService.rankActivitiesForDay RankingService.finite decimal_service].
  - auto.
  - intros forecast n Hn. rewrite Literal_rankActivitiesForDay_eq.
    now apply rankActivitiesForDay_length.
  - intros forecast top. rewrite Literal_rankActivitiesForDay_eq. apply decimal_ranked.
  - intros forecast top Hmax Hmin. rewrite Literal_rankActivitiesForDay_eq.
    now apply rankActivitiesForDay_range, averageTemp_finite.
Qed.
