(* ===== verification/Http.v ===== *)
(** * Http: programs that call an external service

    The only effect of the services is an HTTP request made with
    [axios.get].  A method of a service is a [prog E A]: a finite tree whose
    leaves [Ret a] are results and whose nodes [Vis e k] perform the request
    [e : E X] and continue with its outcome [x : X].  The outcome is chosen
    by the environment, so a statement about every branch of the tree is a
    statement about every behaviour of the remote service.

    [run] executes a program against a handler that answers every request;
    [trace] is the list of requests made on the way; [at_most n p] says
    that no branch of [p] performs more than [n] requests.  Two programs
    are equivalent ([peq]) when they are the same tree up to the way their
    continuations are written; [run], [trace] and [at_most] respect the
    equivalence.  [translate] renames the requests of a program.

    A settled promise is [settled T]: [Fulfilled data] or [Rejected e].
    The data of a fulfilled request is optional: [None] stands for a
    response without a usable body, on which the first property access of
    the caller throws. *)

From Stdlib Require Import List Arith Lia RelationClasses Morphisms.
From S2P Require Import Prelude.
Import ListNotations.

Section Prog.
Variable E : Type -> Type.

Inductive prog (A : Type) : Type :=
| Ret (a : A)
| Vis (X : Type) (e : E X) (k : X -> prog A).

Arguments Ret {A} a.
Arguments Vis {A X} e k.

Fixpoint pbind {A B : Type} (p : prog A) (f : A -> prog B) : prog B :=
  match p with
  | Ret a => f a
  | Vis e k => Vis e (fun x => pbind (k x) f)
  end.

(** A request of any outcome type. *)
Inductive request : Type :=
| Request (X : Type) (e : E X).

Definition handler : Type := forall X, E X -> X.

Fixpoint run {A : Type} (h : handler) (p : prog A) : A :=
  match p with
  | Ret a => a
  | Vis e k => run h (k (h _ e))
  end.

Fixpoint trace {A : Type} (h : handler) (p : prog A) : list request :=
  match p with
  | Ret _ => []
  | @Vis _ X e k => Request X e :: trace h (k (h _ e))
  end.

Inductive at_most {A : Type} : nat -> prog A -> Prop :=
| at_most_Ret n a : at_most n (Ret a)
| at_most_Vis n X (e : E X) k :
    (forall x, at_most n (k x)) -> at_most (S n) (Vis e k).

(** The same bound, by recursion on the program. *)
Fixpoint bounded {A : Type} (n : nat) (p : prog A) {struct p} : Prop :=
  match p with
  | Ret _ => True
  | Vis e k =>
      match n with
      | 0 => False
      | S n' => forall x, bounded n' (k x)
      end
  end.

(** The program performs no request at all. *)
Definition silent {A : Type} (p : prog A) : Prop := exists a, p = Ret a.

(** The same requests and the same results, on every branch. *)
Fixpoint peq {A : Type} (p q : prog A) {struct p} : Prop :=
  match p with
  | Ret a => q = Ret a
  | Vis e k => exists k', q = Vis e k' /\ forall x, peq (k x) (k' x)
  end.

Lemma at_most_trace {A : Type} (n : nat) (p : prog A) (h : handler) :
  at_most n p -> length (trace h p) <= n.
Proof.
  intros H. induction H as [n a | n X e k Hk IH]; cbn [trace length]; [lia|].
  specialize (IH (h _ e)). lia.
Qed.

Lemma at_most_bounded {A : Type} (n : nat) (p : prog A) : at_most n p <-> bounded n p.
Proof.
  split.
  - induction 1; cbn; auto.
  - revert n. induction p as [a | X e k IH]; intros n; [constructor|].
    destruct n as [|n]; cbn; [tauto|]. constructor. auto.
Qed.

Lemma at_most_mono {A : Type} (n m : nat) (p : prog A) :
  n <= m -> at_most n p -> at_most m p.
Proof.
  intros Hle H. revert m Hle.
  induction H as [n a | n X e k Hk IH]; intros m Hle; [constructor|].
  destruct m as [|m]; [lia|]. constructor. intros x. apply IH. lia.
Qed.

Lemma at_most_pbind {A B : Type} (n m : nat) (p : prog A) (f : A -> prog B) :
  at_most n p -> (forall a, at_most m (f a)) -> at_most (n + m) (pbind p f).
Proof.
  intros Hp Hf. induction Hp as [n a | n X e k Hk IH]; cbn [pbind].
  - apply (at_most_mono m); [lia | apply Hf].
  - cbn [Nat.add]. constructor. exact IH.
Qed.

Lemma silent_trace {A : Type} (p : prog A) (h : handler) :
  silent p -> trace h p = [].
Proof. now intros (a & ->). Qed.

Lemma silent_at_most {A : Type} (p : prog A) : silent p <-> at_most 0 p.
Proof.
  split; [intros (a & ->); constructor | intros H; inv H; now eexists].
Qed.

Lemma run_pbind {A B : Type} (h : handler) (p : prog A) (f : A -> prog B) :
  run h (pbind p f) = run h (f (run h p)).
Proof. induction p as [a | X e k IH]; cbn [pbind run]; auto. Qed.

Lemma trace_pbind {A B : Type} (h : handler) (p : prog A) (f : A -> prog B) :
  trace h (pbind p f) = trace h p ++ trace h (f (run h p)).
Proof.
  induction p as [a | X e k IH]; cbn [pbind run trace app]; [reflexivity|].
  now rewrite IH.
Qed.

(** ** Equivalent programs *)

Lemma peq_Vis {A X : Type} (e : E X) (k k' : X -> prog A) :
  (forall x, peq (k x) (k' x)) -> peq (Vis e k) (Vis e k').
Proof. intros Hk. now exists k'. Qed.

#[export] Instance peq_Equivalence {A : Type} : Equivalence (@peq A).
Proof.
  split.
  - intros p. induction p as [a | X e k IH]; [reflexivity | now apply peq_Vis].
  - intros p. induction p as [a | X e k IH]; intros q; cbn [peq].
    + now intros ->.
    + intros (k' & -> & Hk). apply peq_Vis. auto.
  - intros p. induction p as [a | X e k IH]; intros q r; cbn [peq].
    + now intros -> ->.
    + intros (k' & -> & Hk) (k'' & -> & Hk'). apply peq_Vis. eauto.
Qed.

#[export] Instance run_Proper {A : Type} (h : handler) : Proper (peq ==> eq) (@run A h).
Proof.
  intros p. induction p as [a | X e k IH]; intros q; cbn [peq].
  - now intros ->.
  - intros (k' & -> & Hk). cbn [run]. auto.
Qed.

#[export] Instance trace_Proper {A : Type} (h : handler) : Proper (peq ==> eq) (@trace A h).
Proof.
  intros p. induction p as [a | X e k IH]; intros q; cbn [peq].
  - now intros ->.
  - intros (k' & -> & Hk). cbn [trace]. f_equal. auto.
Qed.

#[export] Instance at_most_Proper {A : Type} (n : nat) : Proper (peq ==> iff) (@at_most A n).
Proof.
  assert (Hle : forall p q : prog A, peq p q -> at_most n p -> at_most n q).
  { intros p q Hpq Hp. revert q Hpq.
    induction Hp as [n a | n X e k _ IH]; intros q; cbn [peq].
    - intros ->. constructor.
    - intros (k' & -> & Hk). constructor. intros x. exact (IH x _ (Hk x)). }
  intros p q Hpq. split; apply Hle; [exact Hpq | now symmetry].
Qed.

#[export] Instance pbind_Proper {A B : Type} :
  Proper (peq ==> pointwise_relation A peq ==> peq) (@pbind A B).
Proof.
  intros p. induction p as [a | X e k IH]; intros q Hpq f g Hfg; cbn [peq] in Hpq.
  - subst q. apply Hfg.
  - destruct Hpq as (k' & -> & Hk). cbn [pbind]. apply peq_Vis. intros x. now apply IH.
Qed.

End Prog.

Arguments Ret {E A} a.
Arguments Vis {E A X} e k.
Arguments pbind {E A B} p f.
Arguments Request {E X} e.
Arguments run {E A} h p.
Arguments trace {E A} h p.
Arguments at_most {E A} n p.
Arguments bounded {E A} n p.
Arguments silent {E A} p.
Arguments peq {E A} p q.

Infix "~~" := peq (at level 70, no associativity) : js_scope.

(** ** Renaming the requests *)

(** The program whose requests are those of [p], seen through [f]. *)
Fixpoint translate {E F : Type -> Type} {A : Type} (f : forall X, E X -> F X)
    (p : prog E A) : prog F A :=
  match p with
  | Ret a => Ret a
  | Vis e k => Vis (f _ e) (fun x => translate f (k x))
  end.

Lemma translate_pbind {E F : Type -> Type} {A B : Type} (f : forall X, E X -> F X)
  (p : prog E A) (g : A -> prog E B) :
  peq (translate f (pbind p g)) (pbind (translate f p) (fun a => translate f (g a))).
Proof.
  induction p as [a | X e k IH]; cbn [pbind translate]; [reflexivity|].
  now apply peq_Vis.
Qed.

Lemma run_translate {E F : Type -> Type} {A : Type} (f : forall X, E X -> F X)
  (h : handler F) (p : prog E A) :
  run h (translate f p) = run (fun X e => h X (f X e)) p.
Proof. induction p as [a | X e k IH]; cbn [translate run]; auto. Qed.

Lemma trace_translate {E F : Type -> Type} {A : Type} (f : forall X, E X -> F X)
  (h : handler F) (p : prog E A) :
  trace h (translate f p)
  = map (fun r => match r with Request e => Request (f _ e) end)
      (trace (fun X e => h X (f X e)) p).
Proof.
  induction p as [a | X e k IH]; cbn [translate trace map]; [reflexivity|].
  now rewrite IH.
Qed.

(** ** Settled promises *)

Inductive settled (Ex T : Type) : Type :=
| Fulfilled (data : option T)
| Rejected (e : Ex).

Arguments Fulfilled {Ex T} data.
Arguments Rejected {Ex T} e.

(** [await p]: the value a fulfilled promise carries, or the rejection
    thrown at the [await]. *)
Definition await {Ex T : Type} (p : settled Ex T) : result Ex (option T) :=
  match p with
  | Fulfilled data => Ok data
  | Rejected e => Err e
  end.

(** ** Asynchronous functions that may throw *)

(** [const a = await p; k a] inside an [async] function: a rejection of [p]
    rejects the whole function. *)
Definition await_bind {E : Type -> Type} {Ex A B : Type}
  (p : prog E (result Ex A)) (k : A -> prog E (result Ex B)) : prog E (result Ex B) :=
  pbind p (fun r => match r with
                    | Ok a => k a
                    | Err e => Ret (Err e)
                    end).

(** [try { return await p } catch (error) { throw h error }]. *)
Definition try_catch {E : Type -> Type} {Ex A : Type}
  (p : prog E (result Ex A)) (h : Ex -> Ex) : prog E (result Ex A) :=
  pbind p (fun r => Ret (catch_result r (fun error => Err (h error)))).

Section Async.
Context {E : Type -> Type} {Ex A B : Type}.

Lemma at_most_await_bind (n m : nat) (p : prog E (result Ex A))
  (k : A -> prog E (result Ex B)) :
  at_most n p -> (forall a, at_most m (k a)) -> at_most (n + m) (await_bind p k).
Proof.
  intros Hp Hk. apply at_most_pbind; [exact Hp|].
  intros [a | e]; [apply Hk | constructor].
Qed.

Lemma at_most_try_catch (n : nat) (p : prog E (result Ex A)) (h : Ex -> Ex) :
  at_most n p -> at_most n (try_catch p h).
Proof.
  intros Hp. replace n with (n + 0) by lia.
  apply at_most_pbind; [exact Hp | constructor].
Qed.

Lemma run_await_bind (h : handler E) (p : prog E (result Ex A))
  (k : A -> prog E (result Ex B)) :
  run h (await_bind p k)
  = match run h p with
    | Ok a => run h (k a)
    | Err e => Err e
    end.
Proof. unfold await_bind. rewrite run_pbind. now destruct (run h p). Qed.

Lemma run_try_catch (h : handler E) (p : prog E (result Ex A)) (f : Ex -> Ex) :
  run h (try_catch p f) = catch_result (run h p) (fun error => Err (f error)).
Proof. unfold try_catch. now rewrite run_pbind. Qed.

Lemma trace_try_catch (h : handler E) (p : prog E (result Ex A)) (f : Ex -> Ex) :
  trace h (try_catch p f) = trace h p.
Proof. unfold try_catch. rewrite trace_pbind. cbn [trace]. apply app_nil_r. Qed.

(** A function that throws before its first [await] performs no request. *)
Lemma trace_await_bind_Err (h : handler E) (p : prog E (result Ex A))
  (k : A -> prog E (result Ex B)) (e : Ex) :
  run h p = Err e -> trace h (await_bind p k) = trace h p.
Proof.
  intros Hp. unfold await_bind. rewrite trace_pbind, Hp. cbn [trace].
  apply app_nil_r.
Qed.

End Async.

#[export] Hint Constructors at_most : js.
#[export] Hint Resolve at_most_await_bind at_most_try_catch : js.
