(* ===== verification/Promise.v ===== *)
(** * Promise: the life of the promise an [async] function returns

    A call of an [async] function returns a promise that is pending while
    the body runs and settles when the body returns or throws.  The body
    suspends at an [await] of a request and resumes with its outcome.  The
    state of the call is a [promise]: [Pending p] with the rest [p] of the
    body, or [Settled a] with its result.  One [step] either resumes the
    body after the request it awaits, or settles the promise; a settled
    promise has no step.

    The outcome of a request is given by a handler, as in [Http.run]; the
    statements hold for every handler, that is, whatever the remote service
    answers.  [settle n] runs at most [n] steps; the theorems relate the
    steps to [run] and [trace] (the small steps reach the result of [run]
    after one step per request and one more), show that the steps always
    end ([step] is well founded, and [settle] has enough fuel with one more
    than the number of requests), and that a pending promise always
    settles. *)

From Stdlib Require Import List Arith Lia Relations Wellfounded.
From S2P Require Import Prelude Http.
Import ListNotations.

Section Lifecycle.
Context {E : Type -> Type} {A : Type}.

Inductive promise : Type :=
| Pending (p : prog E A)
| Settled (a : A).

Definition is_settled (c : promise) : bool :=
  match c with
  | Settled _ => true
  | Pending _ => false
  end.

Section Steps.
Variable h : handler E.

(** One turn of the event loop for this call. *)
Inductive step : promise -> promise -> Prop :=
| step_await X (e : E X) (k : X -> prog E A) :
    step (Pending (Vis e k)) (Pending (k (h _ e)))
| step_settle (a : A) :
    step (Pending (Ret a)) (Settled a).

(** The same, as a function. *)
Definition next (c : promise) : option promise :=
  match c with
  | Pending (Ret a) => Some (Settled a)
  | Pending (Vis e k) => Some (Pending (k (h _ e)))
  | Settled _ => None
  end.

(** [n] steps. *)
Inductive steps : nat -> promise -> promise -> Prop :=
| steps_O c : steps 0 c c
| steps_S n c1 c2 c3 : step c1 c2 -> steps n c2 c3 -> steps (S n) c1 c3.

(** At most [fuel] steps, until the promise is settled. *)
Fixpoint settle (fuel : nat) (c : promise) : option A :=
  match c with
  | Settled a => Some a
  | Pending _ =>
      match fuel, next c with
      | S fuel', Some c' => settle fuel' c'
      | _, _ => None
      end
  end.

(** On every run from [c], a state that satisfies [P] is reached. *)
Inductive eventually (P : promise -> Prop) (c : promise) : Prop :=
| eventually_now : P c -> eventually P c
| eventually_later c' : step c c' -> eventually P c' -> eventually P c.

(** ** The step relation *)

Lemma step_next (c c' : promise) : step c c' <-> next c = Some c'.
Proof.
  split.
  - now intros [X e k | a].
  - destruct c as [[a | X e k] | a]; cbn; intros [= <-]; constructor.
Qed.

Lemma step_deterministic (c c1 c2 : promise) : step c c1 -> step c c2 -> c1 = c2.
Proof. rewrite !step_next. congruence. Qed.

(** A settled promise does not change. *)
Lemma settled_final (a : A) (c : promise) : ~ step (Settled a) c.
Proof. rewrite step_next. discriminate. Qed.

(** A pending promise can always take a step. *)
Lemma pending_progress (p : prog E A) : exists c, step (Pending p) c.
Proof. destruct p; eexists; constructor. Qed.

Lemma progress (c : promise) : is_settled c = true \/ exists c', step c c'.
Proof. destruct c; [right; apply pending_progress | now left]. Qed.

(** ** Small steps and [run] *)

Lemma steps_run (p : prog E A) :
  steps (S (length (trace h p))) (Pending p) (Settled (run h p)).
Proof.
  induction p as [a | X e k IH]; cbn [trace run length].
  - eauto using steps, step.
  - eapply steps_S; [constructor | apply IH].
Qed.

Lemma steps_deterministic (n m : nat) (c : promise) (a b : A) :
  steps n c (Settled a) -> steps m c (Settled b) -> n = m /\ a = b.
Proof.
  intros Hn. revert m. remember (Settled a) as s eqn:Es.
  induction Hn as [c | n c1 c2 c3 H12 H23 IH]; intros m Hm; subst.
  - inversion Hm as [| ? ? ? ? Hs]; subst; [auto | now apply settled_final in Hs].
  - inversion Hm as [| m' ? c2' ? Hs Hm']; subst; [now apply settled_final in H12|].
    rewrite (step_deterministic _ _ _ Hs H12) in Hm'.
    destruct (IH eq_refl _ Hm') as [-> ->]. auto.
Qed.

(** The small steps of a call end in the result of [run], after one step
    per request and one more. *)
Lemma steps_iff_run (n : nat) (p : prog E A) (a : A) :
  steps n (Pending p) (Settled a) <-> a = run h p /\ n = S (length (trace h p)).
Proof.
  split.
  - intros Hn. destruct (steps_deterministic _ _ _ _ _ Hn (steps_run p)). auto.
  - intros [-> ->]. apply steps_run.
Qed.

(** ** Termination *)

Lemma settle_enough (fuel : nat) (p : prog E A) :
  length (trace h p) < fuel -> settle fuel (Pending p) = Some (run h p).
Proof.
  revert fuel. induction p as [a | X e k IH]; intros [|fuel] Hf;
    cbn [trace length] in Hf; try lia; cbn [settle next run].
  - now destruct fuel.
  - apply IH. lia.
Qed.

Lemma settle_Some (fuel : nat) (p : prog E A) (a : A) :
  settle fuel (Pending p) = Some a -> a = run h p /\ length (trace h p) < fuel.
Proof.
  revert fuel. induction p as [b | X e k IH]; intros [|fuel]; cbn [settle next run trace length];
    try discriminate.
  - destruct fuel; cbn; intros [= <-]; split; (reflexivity || lia).
  - intros [-> Hf]%IH. split; [reflexivity | lia].
Qed.

(** No infinite sequence of steps starts from any state. *)
Lemma step_well_founded : well_founded (fun c' c => step c c').
Proof.
  assert (Hs : forall a, Acc (fun c' c => step c c') (Settled a)).
  { intros a. constructor. intros c Hc. now apply settled_final in Hc. }
  assert (Hp : forall p, Acc (fun c' c => step c c') (Pending p)).
  { induction p as [a | X e k IH]; constructor; intros c Hc;
      apply step_next in Hc; cbn in Hc; injection Hc as <-; auto. }
  intros [p | a]; auto.
Qed.

(** ** Liveness *)

Lemma eventually_weaken (P Q : promise -> Prop) (c : promise) :
  (forall c', P c' -> Q c') -> eventually P c -> eventually Q c.
Proof. intros HPQ H. induction H; eauto using eventually. Qed.

Lemma eventually_steps (P : promise -> Prop) (n : nat) (c c' : promise) :
  steps n c c' -> P c' -> eventually P c.
Proof. induction 1; eauto using eventually. Qed.

(** A pending promise settles, with the result of [run]. *)
Lemma pending_settles (p : prog E A) :
  eventually (fun c => c = Settled (run h p)) (Pending p).
Proof. eapply eventually_steps; [apply steps_run | reflexivity]. Qed.

End Steps.
End Lifecycle.

Arguments promise : clear implicits.
