(* ===== verification/Pool.v ===== *)
(** * Pool: asynchronous calls that run at the same time

    The server answers every request of a client with its own call of a
    resolver; the calls run on one event loop, which at each turn resumes
    one of them, and they share nothing but the remote services.  A [state]
    holds the promises of the calls by position, the state of the remote
    services (the [world], of any type) and the requests sent so far.  What
    a service answers to a request, and the state it is left in, is a
    relation [answers]: the answer may depend on everything that happened
    before, and a rejection or a timeout is an answer.  A [turn] resumes
    one pending call with an answer to the request it awaits, or settles
    one call that has returned.

    The theorems hold for every relation [answers] and every order of the
    turns: what a call returns is a result it can return by itself
    ([may_return]: the other calls do not interfere); no infinite sequence
    of turns exists; when the services always answer, every run leads to a
    state in which every promise is settled ([inevitably]); and the number
    of requests sent is bounded by the sum of the bounds of the calls. *)

From stdpp Require Import list relations.
From Stdlib Require Import Lia Wellfounded.
From S2P Require Import Prelude Http Promise.

Section Calls.
Context {E : Type -> Type} {A W : Type}.
Variable answers : forall X, E X -> W -> X -> W -> Prop.

Record state : Type := mk_state {
  promises : list (promise E A);
  world : W;
  sent : list (request E)
}.

(** One turn of the event loop. *)
Inductive turn (s : state) : state -> Prop :=
| turn_await i X (e : E X) (k : X -> prog E A) (x : X) (w : W) :
    promises s !! i = Some (Pending (Vis e k)) ->
    answers X e (world s) x w ->
    turn s {| promises := <[i := Pending (k x)]> (promises s);
              world := w;
              sent := sent s ++ [Request e] |}
| turn_settle i (a : A) :
    promises s !! i = Some (Pending (Ret a)) ->
    turn s {| promises := <[i := Settled a]> (promises s);
              world := world s;
              sent := sent s |}.

(** A result the program can return, for some answers to its requests. *)
Fixpoint may_return (p : prog E A) (a : A) : Prop :=
  match p with
  | Ret b => b = a
  | Vis e k => exists x, may_return (k x) a
  end.

(** A state the promise of the program can be in. *)
Fixpoint reaches (p : prog E A) (c : promise E A) : Prop :=
  c = Pending p
  \/ match p with
     | Ret a => c = Settled a
     | Vis e k => exists x, reaches (k x) c
     end.

Definition descends (c c' : promise E A) : Prop :=
  match c with
  | Pending p => reaches p c'
  | Settled a => c' = Settled a
  end.

(** One step of one promise, for any answer. *)
Definition may_step (c c' : promise E A) : Prop :=
  match c with
  | Pending (Ret a) => c' = Settled a
  | Pending (Vis e k) => exists x, c' = Pending (k x)
  | Settled _ => False
  end.

(** One step of one promise of a list. *)
Definition pool_step (ps ps' : list (promise E A)) : Prop :=
  exists i c c', ps !! i = Some c /\ may_step c c' /\ ps' = <[i := c']> ps.

Definition all_settled (s : state) : Prop :=
  Forall (fun c => is_settled c = true) (promises s).

(** On every run from [s], whatever the order of the turns, a state that
    satisfies [P] is reached. *)
Inductive inevitably (P : state -> Prop) (s : state) : Prop :=
| inevitably_now : P s -> inevitably P s
| inevitably_later :
    (exists s', turn s s') -> (forall s', turn s s' -> inevitably P s') -> inevitably P s.

(** The promise sends at most [n] more requests. *)
Definition at_most_left (n : nat) (c : promise E A) : Prop :=
  match c with
  | Pending p => bounded n p
  | Settled _ => True
  end.

(** ** The calls do not interfere *)

Lemma reaches_refl (p : prog E A) : reaches p (Pending p).
Proof. destruct p; now left. Qed.

Lemma descends_refl (c : promise E A) : descends c c.
Proof. destruct c; [apply reaches_refl | reflexivity]. Qed.

Lemma reaches_step (p : prog E A) (c c' : promise E A) :
  reaches p c -> may_step c c' -> reaches p c'.
Proof.
  induction p as [a | X e k IH]; cbn [reaches].
  - intros [-> | ->]; cbn; [now right | tauto].
  - intros [-> | [x Hx]]; cbn.
    + intros [x ->]. right. exists x. apply reaches_refl.
    + intros Hc. right. exists x. now apply IH.
Qed.

Lemma descends_step (c0 c c' : promise E A) :
  descends c0 c -> may_step c c' -> descends c0 c'.
Proof.
  destruct c0 as [p | a]; cbn [descends]; [apply reaches_step|].
  now intros ->.
Qed.

Lemma reaches_Settled (p : prog E A) (a : A) : reaches p (Settled a) -> may_return p a.
Proof.
  induction p as [b | X e k IH]; cbn [reaches may_return].
  - now intros [[=] | [= ->]].
  - intros [[=] | [x Hx]]. exists x. now apply IH.
Qed.

Lemma turn_pool_step (s s' : state) : turn s s' -> pool_step (promises s) (promises s').
Proof.
  intros [i X e k x w Hi _ | i a Hi]; cbn [promises];
    eexists i, _, _; (split; [exact Hi|]); (split; [|reflexivity]); cbn; eauto.
Qed.

Lemma pool_step_descends (ps0 ps ps' : list (promise E A)) :
  Forall2 descends ps0 ps -> pool_step ps ps' -> Forall2 descends ps0 ps'.
Proof.
  intros H0 (i & c & c' & Hi & Hstep & ->).
  destruct (Forall2_lookup_r _ _ _ _ _ H0 Hi) as (c0 & Hi0 & Hc0).
  rewrite <- (list_insert_id ps0 i c0 Hi0).
  apply Forall2_insert; [exact H0 | exact (descends_step _ _ _ Hc0 Hstep)].
Qed.

Lemma turns_descends (s s' : state) :
  rtc turn s s' -> Forall2 descends (promises s) (promises s').
Proof.
  revert s'. apply rtc_ind_r.
  - apply Forall_Forall2_diag, Forall_forall. intros c _. apply descends_refl.
  - intros s' s'' _ Ht IH.
    eapply pool_step_descends; [exact IH | now apply turn_pool_step].
Qed.

(** [turns_may_return]: what a call returns while other calls run, in
    any order of the turns and whatever the services answer, is a result
    the call can return by itself. *)
Lemma turns_may_return (s s' : state) (i : nat) (p : prog E A) (a : A) :
  rtc turn s s' ->
  promises s !! i = Some (Pending p) ->
  promises s' !! i = Some (Settled a) ->
  may_return p a.
Proof.
  intros Hs%turns_descends Hi Hi'.
  destruct (Forall2_lookup_l _ _ _ _ _ Hs Hi) as (c & Hc & Hd).
  rewrite Hi' in Hc. injection Hc as <-. now apply reaches_Settled.
Qed.

(** ** No infinite run *)

Lemma may_step_Acc (c : promise E A) : Acc (flip may_step) c.
Proof.
  assert (Hs : forall a, Acc (flip may_step) (Settled a : promise E A)).
  { intros a. constructor. intros c' []. }
  destruct c as [p | a]; [|apply Hs].
  induction p as [a | X e k IH]; constructor; intros c'; cbn.
  - intros ->. apply Hs.
  - intros [x ->]. apply IH.
Qed.

Lemma pool_cons_Acc (c : promise E A) (ps : list (promise E A)) :
  Acc (flip may_step) c -> Acc (flip pool_step) ps -> Acc (flip pool_step) (c :: ps).
Proof.
  intros Hc. revert ps. induction Hc as [c _ IHc]. intros ps Hps.
  induction Hps as [ps Hps IHps]. constructor.
  intros ps' (i & d & d' & Hi & Hstep & ->). destruct i as [|j]; cbn in Hi.
  - injection Hi as <-. apply IHc; [exact Hstep | now constructor].
  - apply IHps. now exists j, d, d'.
Qed.

Lemma pool_step_Acc (ps : list (promise E A)) : Acc (flip pool_step) ps.
Proof.
  induction ps as [|c ps IH].
  - constructor. intros ps' (i & c & c' & Hi & _). discriminate.
  - apply pool_cons_Acc; [apply may_step_Acc | exact IH].
Qed.

(** [turn_well_founded]: no infinite sequence of turns starts from any
    state, whatever the services answer. *)
Lemma turn_well_founded : well_founded (flip turn).
Proof.
  intros s. pose proof (pool_step_Acc (promises s)) as Hacc.
  remember (promises s) as ps eqn:Eps. revert s Eps.
  induction Hacc as [ps _ IH]. intros s ->. constructor. intros s' Ht.
  apply (IH (promises s')); [now apply turn_pool_step | reflexivity].
Qed.

(** ** Every call is answered *)

Lemma settled_or_pending (ps : list (promise E A)) :
  Forall (fun c => is_settled c = true) ps \/ exists i p, ps !! i = Some (Pending p).
Proof.
  induction ps as [|[p | a] ps IH].
  - left. constructor.
  - right. now exists 0, p.
  - destruct IH as [IH | (i & p & Hi)]; [left; now constructor|].
    right. now exists (S i), p.
Qed.

Section Total.
Hypothesis answers_total : forall X (e : E X) (w : W), exists x w', answers X e w x w'.

Lemma turn_progress (s : state) : all_settled s \/ exists s', turn s s'.
Proof.
  destruct (settled_or_pending (promises s)) as [Hs | (i & [a | X e k] & Hi)]; [now left | |];
    right.
  - eexists. exact (turn_settle s i a Hi).
  - destruct (answers_total X e (world s)) as (x & w' & Hx).
    eexists. exact (turn_await s i X e k x w' Hi Hx).
Qed.

(** [all_settle]: when the services always answer (a rejection and a
    timeout are answers), every run of the pool leads to a state in which
    every promise is settled, whatever the order of the turns. *)
Lemma all_settle (s : state) : inevitably all_settled s.
Proof.
  induction (turn_well_founded s) as [s _ IH].
  destruct (turn_progress s) as [Hs | Hs]; [now apply inevitably_now|].
  apply inevitably_later; [exact Hs | exact IH].
Qed.

End Total.

Lemma inevitably_weaken (P Q : state -> Prop) (s : state) :
  (forall s', rtc turn s s' -> P s' -> Q s') -> inevitably P s -> inevitably Q s.
Proof.
  intros HPQ H. induction H as [s HP | s Hex _ IH].
  - apply inevitably_now, HPQ; [constructor | exact HP].
  - apply inevitably_later; [exact Hex|]. intros s' Ht. apply IH; [exact Ht|].
    intros s'' Hs. apply HPQ. now apply rtc_l with s'.
Qed.

(** ** The requests sent *)

Lemma sum_list_insert (ns : list nat) (i n m : nat) :
  ns !! i = Some n -> sum_list (<[i := m]> ns) + n = sum_list ns + m.
Proof.
  revert i. induction ns as [|k ns IH]; intros [|i]; simpl; try discriminate.
  - intros [= ->]. lia.
  - intros Hi. specialize (IH i Hi). lia.
Qed.

Lemma turn_budget (s s' : state) (ns : list nat) :
  turn s s' -> Forall2 at_most_left ns (promises s) ->
  exists ns', Forall2 at_most_left ns' (promises s')
    /\ length (sent s') + sum_list ns' <= length (sent s) + sum_list ns.
Proof.
  intros [i X e k x w Hi _ | i a Hi] Hns; cbn [promises sent];
    destruct (Forall2_lookup_r _ _ _ _ _ Hns Hi) as (n & Hn & Hb); cbn in Hb.
  - destruct n as [|n]; [contradiction|]. exists (<[i := n]> ns). split.
    + apply Forall2_insert; [exact Hns | apply Hb].
    + pose proof (sum_list_insert ns i (S n) n Hn). rewrite length_app. cbn [length]. lia.
  - exists ns. split; [|lia]. rewrite <- (list_insert_id ns i n Hn).
    now apply Forall2_insert.
Qed.

(** [turns_sent]: in every run, the requests sent are at most the sum of
    the bounds of the calls. *)
Lemma turns_sent (s s' : state) (ns : list nat) :
  rtc turn s s' -> Forall2 at_most_left ns (promises s) ->
  length (sent s') <= length (sent s) + sum_list ns.
Proof.
  intros Hs. revert ns. induction Hs as [s | s s' s'' Ht _ IH]; intros ns Hns; [lia|].
  destruct (turn_budget s s' ns Ht Hns) as (ns' & Hns' & Hle).
  specialize (IH ns' Hns'). lia.
Qed.

End Calls.

Arguments state : clear implicits.

(** ** A service that is a function, and a schedule *)

Section Schedule.
Context {E : Type -> Type} {A W : Type}.
Variable service : forall X, E X -> W -> X * W.

(** The answers of a service whose answer is determined by its state. *)
Definition answers_of (X : Type) (e : E X) (w : W) (x : X) (w' : W) : Prop :=
  service X e w = (x, w').

(** The turn of the promise at [i]; nothing when it is settled. *)
Definition take_turn (i : nat) (s : state E A W) : state E A W :=
  match promises s !! i with
  | Some (Pending (Ret a)) =>
      {| promises := <[i := Settled a]> (promises s); world := world s; sent := sent s |}
  | Some (Pending (Vis e k)) =>
      let (x, w) := service _ e (world s) in
      {| promises := <[i := Pending (k x)]> (promises s);
         world := w;
         sent := sent s ++ [Request e] |}
  | _ => s
  end.

(** The turns of the promises at the positions of [order], in that order. *)
Definition schedule (order : list nat) (s : state E A W) : state E A W :=
  foldl (fun s i => take_turn i s) s order.

Lemma answers_of_total (X : Type) (e : E X) (w : W) : exists x w', answers_of X e w x w'.
Proof. unfold answers_of. destruct (service X e w) as [x w']. now exists x, w'. Qed.

Lemma take_turn_rtc (i : nat) (s : state E A W) : rtc (turn answers_of) s (take_turn i s).
Proof.
  unfold take_turn. destruct (promises s !! i) as [[[a | X e k] | a] |] eqn:Hi;
    try reflexivity.
  - apply rtc_once. now apply turn_settle.
  - destruct (service X e (world s)) as [x w] eqn:Hx.
    apply rtc_once. now apply turn_await.
Qed.

Lemma schedule_turns (order : list nat) (s : state E A W) :
  rtc (turn answers_of) s (schedule order s).
Proof.
  revert s. induction order as [|i order IH]; intros s; cbn [schedule foldl]; [reflexivity|].
  etrans; [apply take_turn_rtc | apply IH].
Qed.

End Schedule.
