(* ===== verification/Singleton.v ===== *)
(** * Singleton: the static [instance] fields of the two service classes

    [ActivityRankingService] ([src/unnamed/part_000],
    [src/src/utils/activityRanking.ts]) and [OpenMeteoAPI]
    ([src/unnamed/part_001]) each keep one object in a private static field
    [instance], created by the first call of [getInstance] and returned by
    every later call; each module exports the object it gets when it is
    loaded.  These two fields are the only state of the program that is
    ever written.

    The state [statics] holds the objects created so far (an object is
    known by its position in the order of creation, a [ref]) and the two
    static fields.  [getInstance] is a function from the state to the
    reference it returns and the state it leaves; [reachable] are the states
    that any sequence of calls leads to from the state in which nothing has
    been created.

    The theorems show the invariant of the reachable states (a static field
    refers to an object of its class, and no class has two objects), that a
    call of [getInstance] after the first returns the object of the first
    and changes nothing, and that the exported objects are what every later
    call returns.  The constructors are public and the tests create their
    own objects with [new]: [reachable_with_new] are the states reached
    when that happens too, of which the weaker invariant [typed] holds.  The
    methods of the services read only constants of their object, so their
    model in [ActivityRanking] and [OpenMeteoAPI] does not depend on this
    state. *)

From Stdlib Require Import List Arith Bool Lia.
From S2P Require Import Prelude.
Import ListNotations.

Inductive class : Type :=
| ActivityRankingService
| OpenMeteoAPI.

Definition class_eq_dec (a b : class) : {a = b} + {a <> b}.
Proof. decide equality. Defined.

(** An object, by its position in the order of creation. *)
Definition ref : Type := nat.

Record statics : Type := mk_statics {
  objects : list class;
  ActivityRankingService_instance : option ref;
  OpenMeteoAPI_instance : option ref
}.

(** Before any module is loaded. *)
Definition init : statics :=
  {| objects := [];
     ActivityRankingService_instance := None;
     OpenMeteoAPI_instance := None |}.

(** [C.instance] *)
Definition instance (c : class) (s : statics) : option ref :=
  match c with
  | ActivityRankingService => ActivityRankingService_instance s
  | OpenMeteoAPI => OpenMeteoAPI_instance s
  end.

(** [C.instance = r] *)
Definition set_instance (c : class) (r : ref) (s : statics) : statics :=
  match c with
  | ActivityRankingService =>
      {| objects := objects s;
         ActivityRankingService_instance := Some r;
         OpenMeteoAPI_instance := OpenMeteoAPI_instance s |}
  | OpenMeteoAPI =>
      {| objects := objects s;
         ActivityRankingService_instance := ActivityRankingService_instance s;
         OpenMeteoAPI_instance := Some r |}
  end.

(** [new C()] *)
Definition new (c : class) (s : statics) : ref * statics :=
  (length (objects s),
   {| objects := objects s ++ [c];
      ActivityRankingService_instance := ActivityRankingService_instance s;
      OpenMeteoAPI_instance := OpenMeteoAPI_instance s |}).

(** [C.getInstance()] *)
Definition getInstance (c : class) (s : statics) : ref * statics :=
  match instance c s with
  | None =>
      let (r, s) := new c s in
      (r, set_instance c r s)
  | Some r => (r, s)
  end.

(** The objects the two modules export. *)
Record exports : Type := mk_exports {
  activityRankingService : ref;
  openMeteoAPI : ref
}.

(** Loading the modules: the module of the ranking service is a dependency
    of the module of the API client and is evaluated first. *)
Definition load (s : statics) : exports * statics :=
  let (a, s) := getInstance ActivityRankingService s in
  let (o, s) := getInstance OpenMeteoAPI s in
  ({| activityRankingService := a; openMeteoAPI := o |}, s).

(** A sequence of calls of [getInstance], with the references returned. *)
Fixpoint calls (cs : list class) (s : statics) : list ref * statics :=
  match cs with
  | [] => ([], s)
  | c :: cs =>
      let (r, s) := getInstance c s in
      let (rs, s) := calls cs s in
      (r :: rs, s)
  end.

Inductive reachable : statics -> Prop :=
| reachable_init : reachable init
| reachable_call c s : reachable s -> reachable (snd (getInstance c s)).

(** The invariant: the static field of a class refers to an object of that
    class, and a class has an object only through its static field. *)
Definition wf (s : statics) : Prop :=
  forall c,
    match instance c s with
    | Some r => nth_error (objects s) r = Some c /\ count_occ class_eq_dec (objects s) c = 1
    | None => count_occ class_eq_dec (objects s) c = 0
    end.

(** An action on the objects of the services: a call of [getInstance], or
    a [new] outside it (the constructors are public; the tests create a
    service before each test). *)
Inductive action : Type :=
| GetInstance (c : class)
| New (c : class).

Definition perform (a : action) (s : statics) : ref * statics :=
  match a with
  | GetInstance c => getInstance c s
  | New c => new c s
  end.

(** [beforeEach(() => { service = new C() })] *)
Definition beforeEach (c : class) (s : statics) : ref * statics := new c s.

(** The states any sequence of actions leads to. *)
Inductive reachable_with_new : statics -> Prop :=
| with_new_init : reachable_with_new init
| with_new_action a s : reachable_with_new s -> reachable_with_new (snd (perform a s)).

(** What holds also when objects are created outside [getInstance]: a
    static field refers to an object of its class. *)
Definition typed (s : statics) : Prop :=
  forall c r, instance c s = Some r -> nth_error (objects s) r = Some c.

(** ** [getInstance] *)

Lemma getInstance_Some (c : class) (s : statics) (r : ref) :
  instance c s = Some r -> getInstance c s = (r, s).
Proof. unfold getInstance. now intros ->. Qed.

Lemma getInstance_None (c : class) (s : statics) :
  instance c s = None ->
  getInstance c s = (length (objects s), set_instance c (length (objects s)) (snd (new c s))).
Proof. unfold getInstance. now intros ->. Qed.

Lemma instance_set_instance (c d : class) (r : ref) (s : statics) :
  instance c (set_instance d r s) = if class_eq_dec c d then Some r else instance c s.
Proof. now destruct c, d. Qed.

Lemma objects_set_instance (c : class) (r : ref) (s : statics) :
  objects (set_instance c r s) = objects s.
Proof. now destruct c. Qed.

(** After a call the static field holds the reference returned. *)
Lemma getInstance_instance (c : class) (s : statics) :
  instance c (snd (getInstance c s)) = Some (fst (getInstance c s)).
Proof.
  destruct (instance c s) as [r|] eqn:Hi.
  - now rewrite (getInstance_Some _ _ _ Hi).
  - rewrite (getInstance_None _ _ Hi). cbn [fst snd].
    rewrite instance_set_instance. now destruct (class_eq_dec c c).
Qed.

(** A call does not touch the static field of the other class. *)
Lemma getInstance_other (c d : class) (s : statics) :
  c <> d -> instance c (snd (getInstance d s)) = instance c s.
Proof.
  intros Hcd. destruct (instance d s) as [r|] eqn:Hi.
  - now rewrite (getInstance_Some _ _ _ Hi).
  - rewrite (getInstance_None _ _ Hi). cbn [fst snd].
    rewrite instance_set_instance. destruct (class_eq_dec c d); [contradiction|].
    now destruct c.
Qed.

(** A call creates an object exactly when the static field is empty. *)
Lemma getInstance_objects (c : class) (s : statics) :
  objects (snd (getInstance c s))
  = match instance c s with
    | Some _ => objects s
    | None => objects s ++ [c]
    end.
Proof.
  destruct (instance c s) as [r|] eqn:Hi.
  - now rewrite (getInstance_Some _ _ _ Hi).
  - rewrite (getInstance_None _ _ Hi). cbn [snd]. now rewrite objects_set_instance.
Qed.

(** ** The invariant *)

Lemma wf_init : wf init.
Proof. now intros []. Qed.

Lemma count_occ_snoc (l : list class) (c d : class) :
  count_occ class_eq_dec (l ++ [d]) c
  = count_occ class_eq_dec l c + (if class_eq_dec d c then 1 else 0).
Proof. rewrite count_occ_app. cbn. now destruct (class_eq_dec d c). Qed.

Lemma getInstance_wf (c : class) (s : statics) : wf s -> wf (snd (getInstance c s)).
Proof.
  intros Hwf d. pose proof (Hwf d) as Hd. pose proof (Hwf c) as Hc.
  destruct (instance c s) as [r|] eqn:Hi.
  - now rewrite (getInstance_Some _ _ _ Hi).
  - destruct (class_eq_dec d c) as [->|Hdc].
    + rewrite getInstance_instance, getInstance_objects, Hi.
      rewrite (getInstance_None _ _ Hi). cbn [fst].
      rewrite nth_error_app2, Nat.sub_diag, count_occ_snoc, Hc by lia.
      now destruct (class_eq_dec c c).
    + rewrite getInstance_other, getInstance_objects, Hi by exact Hdc.
      rewrite count_occ_snoc. destruct (class_eq_dec c d); [congruence|].
      destruct (instance d s) as [r|]; [|lia].
      destruct Hd as [Hn Hcount]. split; [|lia].
      rewrite nth_error_app1; [exact Hn|]. apply nth_error_Some. congruence.
Qed.

Lemma reachable_wf (s : statics) : reachable s -> wf s.
Proof. induction 1; auto using wf_init, getInstance_wf. Qed.

Lemma calls_reachable (cs : list class) (s : statics) :
  reachable s -> reachable (snd (calls cs s)).
Proof.
  revert s. induction cs as [|c cs IH]; intros s Hs; cbn [calls]; [exact Hs|].
  pose proof (IH _ (reachable_call c s Hs)) as H.
  destruct (getInstance c s) as [r s1]. cbn [snd] in H.
  now destruct (calls cs s1).
Qed.

(** Once set, a static field is never changed. *)
Lemma calls_instance (cs : list class) (c : class) (s : statics) (r : ref) :
  instance c s = Some r -> instance c (snd (calls cs s)) = Some r.
Proof.
  revert s. induction cs as [|d cs IH]; intros s Hi; cbn [calls]; [exact Hi|].
  assert (H1 : instance c (snd (getInstance d s)) = Some r).
  { destruct (class_eq_dec c d) as [->|Hcd].
    - now rewrite (getInstance_Some _ _ _ Hi).
    - now rewrite getInstance_other. }
  specialize (IH _ H1). destruct (getInstance d s) as [r1 s1]. cbn [snd] in IH.
  now destruct (calls cs s1).
Qed.

(** No class has more than one object. *)
Lemma wf_at_most_one (s : statics) (c : class) :
  wf s -> count_occ class_eq_dec (objects s) c <= 1.
Proof. intros Hwf. specialize (Hwf c). destruct (instance c s); lia. Qed.

Lemma length_count (l : list class) :
  length l
  = count_occ class_eq_dec l ActivityRankingService + count_occ class_eq_dec l OpenMeteoAPI.
Proof. induction l as [|[] l IH]; cbn; lia. Qed.

Lemma wf_two_objects (s : statics) : wf s -> length (objects s) <= 2.
Proof.
  intros Hwf. rewrite length_count.
  pose proof (wf_at_most_one s ActivityRankingService Hwf).
  pose proof (wf_at_most_one s OpenMeteoAPI Hwf). lia.
Qed.

(** ** The singletons *)

(** C8: in every state that calls of [getInstance] lead
    to, the static field of a class refers to an object of that class, no
    class has more than one object, and at most two objects exist. *)
Theorem singleton_invariant (s : statics) :
  reachable s ->
  wf s
  /\ (forall c, count_occ class_eq_dec (objects s) c <= 1)
  /\ length (objects s) <= 2.
Proof.
  intros Hwf%reachable_wf.
  auto using wf_at_most_one, wf_two_objects.
Qed.

(** C32: after a call of [getInstance] of a class and
    any further calls of [getInstance] of either class, [getInstance] of
    the class returns the object of the first call and leaves the state as
    it is. *)
Theorem getInstance_singleton (c : class) (s : statics) (cs : list class) :
  let s1 := snd (getInstance c s) in
  let s2 := snd (calls cs s1) in
  getInstance c s2 = (fst (getInstance c s), s2).
Proof.
  cbv zeta. apply getInstance_Some, calls_instance, getInstance_instance.
Qed.

(** The exported object of a class. *)
Definition exported (ex : exports) (c : class) : ref :=
  match c with
  | ActivityRankingService => activityRankingService ex
  | OpenMeteoAPI => openMeteoAPI ex
  end.

Lemma load_instance (s : statics) (c : class) :
  instance c (snd (load s)) = Some (exported (fst (load s)) c).
Proof.
  unfold load.
  pose proof (getInstance_instance ActivityRankingService s) as Ha.
  destruct (getInstance ActivityRankingService s) as [a s1]. cbn [fst snd] in Ha.
  pose proof (getInstance_instance OpenMeteoAPI s1) as Ho.
  pose proof (getInstance_other ActivityRankingService OpenMeteoAPI s1) as Hao.
  destruct (getInstance OpenMeteoAPI s1) as [o s2]. cbn [fst snd] in *.
  destruct c; cbn [exported activityRankingService openMeteoAPI];
    [rewrite Hao by discriminate|]; assumption.
Qed.

Lemma calls_settled (cs : list class) (s : statics) (f : class -> ref) :
  (forall c, instance c s = Some (f c)) -> calls cs s = (map f cs, s).
Proof.
  intros Hs. induction cs as [|c cs IH]; cbn [calls map]; [reflexivity|].
  now rewrite (getInstance_Some _ _ _ (Hs c)), IH.
Qed.

(** [load_exports]: once the modules are loaded, every call of
    [getInstance] returns the object its module exports, and no call
    creates an object or changes a static field. *)
Theorem load_exports (s : statics) (cs : list class) :
  calls cs (snd (load s)) = (map (exported (fst (load s))) cs, snd (load s)).
Proof. apply calls_settled, load_instance. Qed.

(** ** Objects created outside [getInstance] *)

Lemma new_instance (c d : class) (s : statics) : instance d (snd (new c s)) = instance d s.
Proof. now destruct d. Qed.

Lemma nth_error_snoc_Some {A : Type} (l : list A) (x y : A) (n : nat) :
  nth_error l n = Some x -> nth_error (l ++ [y]) n = Some x.
Proof. intros Hn. rewrite nth_error_app1; [exact Hn|]. apply nth_error_Some. congruence. Qed.

Lemma new_typed (c : class) (s : statics) : typed s -> typed (snd (new c s)).
Proof.
  intros Ht d r. rewrite new_instance. intros Hd%Ht. now apply nth_error_snoc_Some.
Qed.

Lemma getInstance_typed (c : class) (s : statics) : typed s -> typed (snd (getInstance c s)).
Proof.
  intros Ht d r. destruct (instance c s) as [r0|] eqn:Hi.
  - rewrite (getInstance_Some _ _ _ Hi). apply Ht.
  - rewrite getInstance_objects, Hi. destruct (class_eq_dec d c) as [->|Hdc].
    + rewrite getInstance_instance, (getInstance_None _ _ Hi). cbn [fst].
      intros [= <-]. now rewrite nth_error_app2, Nat.sub_diag by lia.
    + rewrite getInstance_other by exact Hdc. intros Hd%Ht. now apply nth_error_snoc_Some.
Qed.

Lemma perform_typed (a : action) (s : statics) : typed s -> typed (snd (perform a s)).
Proof. destruct a; [apply getInstance_typed | apply new_typed]. Qed.

(** A static field that is set is changed by no action. *)
Lemma perform_instance (a : action) (c : class) (s : statics) (r : ref) :
  instance c s = Some r -> instance c (snd (perform a s)) = Some r.
Proof.
  intros Hi. destruct a as [d | d]; cbn [perform]; [|now rewrite new_instance].
  destruct (class_eq_dec c d) as [->|Hcd].
  - now rewrite (getInstance_Some _ _ _ Hi).
  - now rewrite getInstance_other.
Qed.

(** [static_fields_typed]: whatever objects are created, by [getInstance]
    or by [new] outside it, a static field that is set refers to an object
    of its class, and [getInstance] of a class whose field is set returns
    that object and changes nothing. *)
Theorem static_fields_typed (s : statics) (c : class) (r : ref) :
  reachable_with_new s -> instance c s = Some r ->
  nth_error (objects s) r = Some c /\ getInstance c s = (r, s).
Proof.
  intros Hs Hi. split; [|now apply getInstance_Some].
  revert c r Hi. change (typed s).
  induction Hs as [| a s _ IH]; [now intros [] | now apply perform_typed].
Qed.

(** [beforeEach_second_object]: a [new] outside [getInstance], as in the
    tests, creates a second object of the class: the invariant of the
    states reached by [getInstance] alone does not hold of the state, while
    [getInstance] still returns the exported object. *)
Example beforeEach_second_object :
  let s := snd (beforeEach OpenMeteoAPI (snd (load init))) in
  count_occ class_eq_dec (objects s) OpenMeteoAPI = 2
  /\ ~ wf s
  /\ getInstance OpenMeteoAPI s = (openMeteoAPI (fst (load init)), s).
Proof.
  split; [reflexivity|]. split; [|reflexivity].
  intros Hwf. specialize (Hwf OpenMeteoAPI). cbn in Hwf. now destruct Hwf.
Qed.

(** [load_init]: loading the modules creates the ranking service first and
    the API client second. *)
Example load_init :
  load init
  = ({| activityRankingService := 0; openMeteoAPI := 1 |},
     {| objects := [ActivityRankingService; OpenMeteoAPI];
        ActivityRankingService_instance := Some 0;
        OpenMeteoAPI_instance := Some 1 |}).
Proof. reflexivity. Qed.

Lemma singleton_invariant_witness :
  wf (snd (load init))
  /\ (forall c, count_occ class_eq_dec (objects (snd (load init))) c <= 1)
  /\ length (objects (snd (load init))) <= 2.
Proof.
  apply singleton_invariant.
  exact (reachable_call OpenMeteoAPI _ (reachable_call ActivityRankingService _ reachable_init)).
Defined.
