(* ===== verification/Errors.v ===== *)
(** * Errors: the values the program throws

    [OpenMeteoAPIError] is the error class of [src/unnamed/part_001]; the
    other constructors are the errors of the libraries the program catches
    or raises: the [AxiosError] that [axios.get] rejects with (its [code],
    the [status] and [statusText] of its optional [response], its
    [message]), any other [Error] (for example the [TypeError] of a
    property access on [undefined]), and the [GraphQLError] the resolvers
    throw (its message and the [code] and [service] of its extensions).

    The predicates [isAxiosError], [instanceof_OpenMeteoAPIError] and
    [instanceof_GraphQLError] are the tests of the [catch] blocks. *)

From Stdlib Require Import String List Bool.
From S2P Require Import Prelude JsNumber Constants.

Local Open Scope string_scope.

Module AxiosResponse.
Record t : Type := mk {
  status : number;
  statusText : string
}.
End AxiosResponse.

#[warnings="-register-all"]
Inductive exn : Type :=
| OpenMeteoAPIError (message : string) (code : option error_code) (cause : option exn)
| AxiosError (code : option string) (response : option AxiosResponse.t) (message : string)
| Error (message : string)
| GraphQLError (message : string) (code : option error_code) (service : option string).

Definition isAxiosError (e : exn) : bool :=
  match e with
  | AxiosError _ _ _ => true
  | _ => false
  end.

Definition instanceof_OpenMeteoAPIError (e : exn) : bool :=
  match e with
  | OpenMeteoAPIError _ _ _ => true
  | _ => false
  end.

Definition instanceof_GraphQLError (e : exn) : bool :=
  match e with
  | GraphQLError _ _ _ => true
  | _ => false
  end.

(** [error.message] *)
Definition message_of (e : exn) : string :=
  match e with
  | OpenMeteoAPIError m _ _ | AxiosError _ _ m | Error m | GraphQLError m _ _ => m
  end.

(** [error.code] of an [OpenMeteoAPIError] or of the extensions of a
    [GraphQLError]. *)
Definition code_of (e : exn) : option error_code :=
  match e with
  | OpenMeteoAPIError _ c _ | GraphQLError _ c _ => c
  | _ => None
  end.

(** The [service] of the extensions of a [GraphQLError]. *)
Definition service_of (e : exn) : option string :=
  match e with
  | GraphQLError _ _ s => s
  | _ => None
  end.

(** The error is an [OpenMeteoAPIError] carrying one of the given codes. *)
Definition api_error_in (codes : list error_code) (e : exn) : Prop :=
  exists m c cause, e = OpenMeteoAPIError m (Some c) cause /\ In c codes.

(** The error is a [GraphQLError] carrying one of the given codes. *)
Definition graphql_error_in (codes : list error_code) (e : exn) : Prop :=
  exists m c s, e = GraphQLError m (Some c) s /\ In c codes.

Lemma api_error_in_incl (codes codes' : list error_code) (e : exn) :
  incl codes codes' -> api_error_in codes e -> api_error_in codes' e.
Proof. intros Hi (m & c & cause & -> & Hc). repeat eexists. auto. Qed.

Lemma api_error_in_instance (codes : list error_code) (e : exn) :
  api_error_in codes e -> instanceof_OpenMeteoAPIError e = true.
Proof. now intros (m & c & cause & -> & _). Qed.

Lemma api_error_in_code (codes : list error_code) (e : exn) :
  api_error_in codes e -> exists c, code_of e = Some c /\ In c codes.
Proof. intros (m & c & cause & -> & Hc). now exists c. Qed.

Lemma graphql_error_in_incl (codes codes' : list error_code) (e : exn) :
  incl codes codes' -> graphql_error_in codes e -> graphql_error_in codes' e.
Proof. intros Hi (m & c & s & -> & Hc). repeat eexists. auto. Qed.
