(* ===== verification/NumberText.v ===== *)
(** * NumberText: what the program needs of number printing and parsing

    The city identifier is built with template literals, which print a
    number with [Number::toString], and is decoded with [parseFloat].  The
    class [NumberText] states what the codec relies on: printing then
    parsing returns the number, also when the printed text is followed by
    text that does not continue a number ([parseFloat] reads a prefix) or
    preceded by white space ([parseFloat] skips it), the
    printed text contains neither of the separators [:] and [,] of the
    identifier and is not empty, and equal numbers print alike.  The theorems of [OpenMeteoAPI] are proved for any
    instance; [JsNumberText] gives the instance that follows the
    ECMAScript algorithms. *)

From Stdlib Require Import String Ascii Bool Arith Morphisms.
From S2P Require Import Prelude JsNumber JsString.

Local Open Scope string_scope.
Local Open Scope js_scope.

(** A character that can continue a decimal literal: a digit, the point,
    the letter of the exponent or a sign. *)
Definition continues_number (c : ascii) : bool :=
  let n := nat_of_ascii c in
  ((48 <=? n) && (n <=? 57))%nat
  || Ascii.eqb c "." || Ascii.eqb c "e" || Ascii.eqb c "E"
  || Ascii.eqb c "+" || Ascii.eqb c "-".

(** A text that does not continue a number written before it. *)
Definition trailing (s : string) : bool :=
  match s with
  | EmptyString => true
  | String c _ => negb (continues_number c)
  end.

Class NumberText : Type := {
  Number_toString : number -> string;
  parseFloat : string -> number;
  parseFloat_toString : forall x, parseFloat (Number_toString x) ==n x;
  parseFloat_trailing :
    forall x t, trailing t = true -> parseFloat (Number_toString x ++ t) ==n x;
  parseFloat_leading :
    forall ws s, blank ws = true -> parseFloat (ws ++ s) = parseFloat s;
  Number_toString_colon : forall x, lacks ":" (Number_toString x) = true;
  Number_toString_comma : forall x, lacks "," (Number_toString x) = true;
  Number_toString_nonempty : forall x, Number_toString x <> "";
  Number_toString_eqv : forall x y, x ==n y -> Number_toString x = Number_toString y
}.

Section Derived.
Context `{NumberText}.

#[export] Instance Number_toString_Proper : Proper (num_eqv ==> eq) Number_toString.
Proof. intros x y. apply Number_toString_eqv. Qed.

(** Numbers that print alike are equal. *)
Lemma Number_toString_inj (x y : number) :
  Number_toString x = Number_toString y -> x ==n y.
Proof.
  intros E. rewrite <- (parseFloat_toString x), <- (parseFloat_toString y).
  now rewrite E.
Qed.

Lemma Number_toString_iff (x y : number) :
  Number_toString x = Number_toString y <-> x ==n y.
Proof. split; [apply Number_toString_inj | apply Number_toString_eqv]. Qed.

End Derived.

#[export] Hint Resolve Number_toString_colon Number_toString_comma
  Number_toString_nonempty : js.
