(* ===== verification/JsNumberText.v ===== *)
(** * JsNumberText: [Number::toString] and [parseFloat]

    The instance of [NumberText] that follows ECMAScript: a finite number
    [m / 10^e] is printed from the decimal digits of [|m|] with trailing
    zeros removed ([k] digits) and the position [n] of the decimal point, as
    an integer when [k <= n <= 21], with a point inside the digits when
    [0 < n <= 21], as [0.000ddd] when [-6 < n <= 0], and in exponent
    notation otherwise; [parseFloat] skips leading white space and reads the
    longest prefix that is a decimal literal (an optional sign, [Infinity]
    or digits with an optional fraction and exponent), and is [NaN] when
    there is none.

    The digits of a non-negative integer are produced by repeated division
    by ten, with fuel [1 + log2 z], which bounds the number of digits.

    The theorems are the laws of [NumberText]: parsing a printed number
    returns it, also when text that cannot continue a number follows it,
    equal numbers print alike, and the printed text consists of digits,
    letters, signs and a point. *)

From Stdlib Require Import String Ascii List ZArith Bool Lia Morphisms.
From S2P Require Import Prelude JsNumber JsString NumberText.
Import ListNotations.

Local Open Scope list_scope.
Local Open Scope string_scope.
Local Open Scope Z_scope.

(** ** Digits *)

Definition digit_char (d : Z) : ascii := ascii_of_nat (48 + Z.to_nat d).

Definition digit_val (c : ascii) : option Z :=
  let n := nat_of_ascii c in
  if (48 <=? n)%nat && (n <=? 57)%nat then Some (Z.of_nat (n - 48)) else None.

Definition is_digit (c : ascii) : bool :=
  match digit_val c with
  | Some _ => true
  | None => false
  end.

Fixpoint all_digits (s : string) : bool :=
  match s with
  | EmptyString => true
  | String c r => is_digit c && all_digits r
  end.

(** The value of a string of digits, read from the left. *)
Fixpoint digits_value_acc (acc : Z) (s : string) : Z :=
  match s with
  | EmptyString => acc
  | String c r =>
      match digit_val c with
      | Some d => digits_value_acc (10 * acc + d) r
      | None => acc
      end
  end.

Definition digits_value (s : string) : Z := digits_value_acc 0 s.

(** The longest prefix of digits, and what follows it. *)
Fixpoint span_digits (s : string) : string * string :=
  match s with
  | EmptyString => (EmptyString, EmptyString)
  | String c r =>
      if is_digit c then
        let (d, rest) := span_digits r in (String c d, rest)
      else (EmptyString, s)
  end.

Fixpoint zeros (n : nat) : string :=
  match n with
  | O => EmptyString
  | S n' => String "0" (zeros n')
  end.

(** The string without its trailing zeros. *)
Fixpoint strip_zeros (s : string) : string :=
  match s with
  | EmptyString => EmptyString
  | String c r =>
      match strip_zeros r with
      | EmptyString => if Ascii.eqb c "0" then EmptyString else String c EmptyString
      | t => String c t
      end
  end.

Fixpoint take (n : nat) (s : string) : string :=
  match n, s with
  | S n', String c r => String c (take n' r)
  | _, _ => EmptyString
  end.

Fixpoint drop (n : nat) (s : string) : string :=
  match n, s with
  | S n', String c r => drop n' r
  | _, _ => s
  end.

(** The decimal digits of [z >= 0], most significant first. *)
Fixpoint digits_fuel (fuel : nat) (z : Z) : string :=
  match fuel with
  | O => EmptyString
  | S fuel' =>
      if z <? 10 then String (digit_char z) EmptyString
      else digits_fuel fuel' (z / 10) ++ String (digit_char (z mod 10)) EmptyString
  end.

Definition digits (z : Z) : string := digits_fuel (S (Z.to_nat (Z.log2 z))) z.

(** ** Printing *)

(** The exponent of the exponent notation, with its sign. *)
Definition exponent_text (ex : Z) : string :=
  (if ex <? 0 then "-" else "+") ++ digits (Z.abs ex).

(** The digits with a point after the first, when there is more than one. *)
Definition mantissa_text (s : string) : string :=
  match s with
  | String c (String d r) => String c ("." ++ String d r)
  | _ => s
  end.

(** The text of [D / 10^e] for the digits [D] of a positive integer. *)
Definition format (D : string) (e : nat) : string :=
  let s := strip_zeros D in
  let k := Z.of_nat (String.length s) in
  let n := Z.of_nat (String.length D) - Z.of_nat e in
  if (k <=? n) && (n <=? 21) then s ++ zeros (Z.to_nat (n - k))
  else if (0 <? n) && (n <=? 21) then take (Z.to_nat n) s ++ "." ++ drop (Z.to_nat n) s
  else if (-6 <? n) && (n <=? 0) then "0." ++ zeros (Z.to_nat (- n)) ++ s
  else mantissa_text s ++ "e" ++ exponent_text (n - 1).

Definition Number_prototype_toString (x : number) : string :=
  match x with
  | NaN => "NaN"
  | Inf false => "Infinity"
  | Inf true => "-Infinity"
  | Fin 0 _ => "0"
  | Fin (Zpos p) e => format (digits (Zpos p)) e
  | Fin (Zneg p) e => "-" ++ format (digits (Zpos p)) e
  end.

(** ** Parsing *)

Definition parse_sign (s : string) : bool * string :=
  match s with
  | String "-" r => (true, r)
  | String "+" r => (false, r)
  | _ => (false, s)
  end.

(** The digits after a point, when the text starts with a point. *)
Definition parse_fraction (s : string) : string * string :=
  match s with
  | String "." r => span_digits r
  | _ => (EmptyString, s)
  end.

(** The exponent part, when the text starts with one that has digits. *)
Definition parse_exponent (s : string) : Z :=
  match s with
  | String c r =>
      if Ascii.eqb c "e" || Ascii.eqb c "E" then
        let (negative, r') := parse_sign r in
        let (ds, _) := span_digits r' in
        if (ds =? "")%string then 0
        else if negative then - digits_value ds else digits_value ds
      else 0
  | EmptyString => 0
  end.

(** [m * 10^(ex - f)]. *)
Definition scale (m : Z) (f : nat) (ex : Z) : number :=
  let t := ex - Z.of_nat f in
  if 0 <=? t then Fin (m * pow10 (Z.to_nat t)) 0 else Fin m (Z.to_nat (- t)).

Definition parse_decimal (s : string) : number :=
  if prefix "Infinity" s then Inf false
  else
    let (ip, r1) := span_digits s in
    let (fp, r2) := parse_fraction r1 in
    if ((ip =? "") && (fp =? ""))%string then NaN
    else scale (digits_value (ip ++ fp)) (String.length fp) (parse_exponent r2).

Definition Number_parseFloat (s : string) : number :=
  let (negative, r) := parse_sign (trimStart s) in
  let x := parse_decimal r in
  if negative then neg x else x.

(** ** Facts about digits *)

Lemma digit_val_char (d : Z) : 0 <= d < 10 -> digit_val (digit_char d) = Some d.
Proof.
  intros Hd.
  assert (H : d = 0 \/ d = 1 \/ d = 2 \/ d = 3 \/ d = 4 \/ d = 5 \/ d = 6 \/ d = 7
              \/ d = 8 \/ d = 9) by lia.
  repeat (destruct H as [-> | H]; [reflexivity|]). now subst.
Qed.

Lemma digit_val_range (c : ascii) (d : Z) : digit_val c = Some d -> 0 <= d < 10.
Proof.
  unfold digit_val. destruct (Nat.leb_spec 48 (nat_of_ascii c)); [|discriminate].
  destruct (Nat.leb_spec (nat_of_ascii c) 57); [|discriminate].
  intros [= <-]. lia.
Qed.

Lemma is_digit_char (d : Z) : 0 <= d < 10 -> is_digit (digit_char d) = true.
Proof. intros Hd. unfold is_digit. now rewrite digit_val_char. Qed.

Lemma all_digits_app (a b : string) :
  all_digits (a ++ b) = all_digits a && all_digits b.
Proof. induction a; simpl; [reflexivity | now rewrite IHa, andb_assoc]. Qed.

Lemma all_digits_zeros (n : nat) : all_digits (zeros n) = true.
Proof. induction n; simpl; auto. Qed.

Lemma zeros_length (n : nat) : String.length (zeros n) = n.
Proof. induction n; simpl; auto. Qed.

Lemma zeros_add (a b : nat) : zeros (a + b) = zeros a ++ zeros b.
Proof. induction a; simpl; congruence. Qed.

Lemma digits_value_acc_app (acc : Z) (a b : string) :
  all_digits a = true ->
  digits_value_acc acc (a ++ b) = digits_value_acc (digits_value_acc acc a) b.
Proof.
  revert acc. induction a as [|c a IH]; intros acc;
    cbn [append digits_value_acc all_digits]; [reflexivity|].
  unfold is_digit. destruct (digit_val c); [|discriminate]. apply IH.
Qed.

Lemma digits_value_acc_pow (acc : Z) (s : string) :
  all_digits s = true ->
  digits_value_acc acc s = acc * pow10 (String.length s) + digits_value s.
Proof.
  unfold digits_value. revert acc.
  induction s as [|c s IH]; intros acc;
    cbn [digits_value_acc String.length pow10 all_digits].
  - intros _. lia.
  - unfold is_digit. destruct (digit_val c) as [d|]; [|discriminate].
    cbn [andb]. intros Hs.
    rewrite (IH (10 * acc + d)), (IH (10 * 0 + d)) by exact Hs. lia.
Qed.

Lemma digits_value_app (a b : string) :
  all_digits a = true -> all_digits b = true ->
  digits_value (a ++ b) = digits_value a * pow10 (String.length b) + digits_value b.
Proof.
  intros Ha Hb. unfold digits_value at 1.
  rewrite digits_value_acc_app by exact Ha. now rewrite digits_value_acc_pow.
Qed.

Lemma digits_value_zeros (n : nat) : digits_value (zeros n) = 0.
Proof.
  unfold digits_value. induction n; [reflexivity|]. exact IHn.
Qed.

Lemma digits_value_nonneg (s : string) : 0 <= digits_value s.
Proof.
  unfold digits_value. assert (H : forall acc, 0 <= acc -> 0 <= digits_value_acc acc s).
  { induction s as [|c s IH]; intros acc Hacc; cbn [digits_value_acc]; [exact Hacc|].
    destruct (digit_val c) as [d|] eqn:E; [|exact Hacc].
    apply digit_val_range in E. apply IH. lia. }
  apply H. lia.
Qed.

(** ** Prefixes of digits *)

Definition starts_nondigit (s : string) : bool :=
  match s with
  | EmptyString => true
  | String c _ => negb (is_digit c)
  end.

Lemma span_digits_app (a b : string) :
  all_digits a = true -> starts_nondigit b = true -> span_digits (a ++ b) = (a, b).
Proof.
  intros Ha Hb. induction a as [|c a IH]; cbn [append span_digits all_digits] in *.
  - destruct b as [|c b]; [reflexivity|]. cbn [starts_nondigit span_digits] in *.
    apply negb_true_iff in Hb. now rewrite Hb.
  - apply andb_true_iff in Ha. destruct Ha as [Hc Ha]. now rewrite Hc, IH.
Qed.

Lemma span_digits_all (a : string) :
  all_digits a = true -> span_digits a = (a, "").
Proof.
  intros Ha. rewrite <- (string_app_nil_r a) at 1. now apply span_digits_app.
Qed.

(** ** [take], [drop] and [strip_zeros] *)

Lemma take_drop (n : nat) (s : string) : take n s ++ drop n s = s.
Proof. revert s. induction n; intros [|c s]; simpl; try reflexivity. now rewrite IHn. Qed.

Lemma take_length (n : nat) (s : string) :
  (n <= String.length s)%nat -> String.length (take n s) = n.
Proof.
  revert s. induction n; intros [|c s]; simpl; intros Hn; try lia.
  rewrite IHn; lia.
Qed.

Lemma drop_length (n : nat) (s : string) :
  String.length (drop n s) = (String.length s - n)%nat.
Proof. revert s. induction n; intros [|c s]; simpl; auto. Qed.

Lemma all_digits_take_drop (n : nat) (s : string) :
  all_digits s = true -> all_digits (take n s) = true /\ all_digits (drop n s) = true.
Proof.
  intros Hs. rewrite <- (take_drop n s), all_digits_app in Hs.
  now apply andb_true_iff in Hs.
Qed.

Lemma strip_zeros_cons (c : ascii) (r : string) :
  strip_zeros (String c r)
  = match strip_zeros r with
    | EmptyString => if Ascii.eqb c "0" then EmptyString else String c EmptyString
    | t => String c t
    end.
Proof. reflexivity. Qed.

(** A string is its stripped part followed by zeros. *)
Lemma strip_zeros_spec (s : string) :
  s = strip_zeros s ++ zeros (String.length s - String.length (strip_zeros s)).
Proof.
  induction s as [|c s IH]; [reflexivity|]. rewrite strip_zeros_cons.
  pose proof (f_equal String.length IH) as Hlen.
  rewrite string_length_app, zeros_length in Hlen.
  destruct (strip_zeros s) as [|d t] eqn:E.
  - destruct (Ascii.eqb_spec c "0") as [->|_]; cbn [String.length append] in *.
    + rewrite Nat.sub_0_r in *. cbn [zeros]. now f_equal.
    + replace (S (String.length s) - 1)%nat with (String.length s - 0)%nat by lia.
      now f_equal.
  - cbn [String.length append] in *.
    replace (S (String.length s) - S (S (String.length t)))%nat
      with (String.length s - S (String.length t))%nat by lia.
    now f_equal.
Qed.

Lemma strip_zeros_zeros (n : nat) : strip_zeros (zeros n) = "".
Proof. induction n; [reflexivity|]. cbn [zeros]. now rewrite strip_zeros_cons, IHn. Qed.

Lemma strip_zeros_app_zeros (s : string) (n : nat) :
  strip_zeros (s ++ zeros n) = strip_zeros s.
Proof.
  induction s as [|c s IH]; [apply strip_zeros_zeros|].
  cbn [append]. now rewrite !strip_zeros_cons, IH.
Qed.

Lemma strip_zeros_length (s : string) :
  (String.length (strip_zeros s) <= String.length s)%nat.
Proof.
  pose proof (f_equal String.length (strip_zeros_spec s)) as H.
  rewrite string_length_app in H. lia.
Qed.

Lemma all_digits_strip_zeros (s : string) :
  all_digits s = true -> all_digits (strip_zeros s) = true.
Proof.
  intros Hs. rewrite (strip_zeros_spec s), all_digits_app in Hs.
  now apply andb_true_iff in Hs.
Qed.

(** Stripping keeps the value up to the power of ten of the zeros removed. *)
Lemma digits_value_strip_zeros (s : string) :
  all_digits s = true ->
  digits_value s
  = digits_value (strip_zeros s)
    * pow10 (String.length s - String.length (strip_zeros s)).
Proof.
  intros Hs. rewrite (strip_zeros_spec s) at 1.
  rewrite digits_value_app, digits_value_zeros, zeros_length
    by auto using all_digits_strip_zeros, all_digits_zeros.
  lia.
Qed.

(** ** The digits of a number *)

Lemma digits_value_one (d : Z) :
  0 <= d < 10 -> digits_value (String (digit_char d) "") = d.
Proof.
  intros Hd. unfold digits_value. cbn [digits_value_acc].
  rewrite digit_val_char by exact Hd. lia.
Qed.

Lemma digits_fuel_S (fuel : nat) (z : Z) :
  digits_fuel (S fuel) z
  = if z <? 10 then String (digit_char z) EmptyString
    else digits_fuel fuel (z / 10) ++ String (digit_char (z mod 10)) EmptyString.
Proof. reflexivity. Qed.

(** With enough fuel the digits are digits, and their value is the number. *)
Lemma digits_fuel_spec (fuel : nat) (z : Z) :
  0 <= z < 2 ^ Z.of_nat (S fuel) ->
  all_digits (digits_fuel (S fuel) z) = true
  /\ digits_value (digits_fuel (S fuel) z) = z.
Proof.
  revert z. induction fuel as [|fuel IH]; intros z Hz; rewrite digits_fuel_S.
  - change (2 ^ Z.of_nat 1) with 2 in Hz. destruct (Z.ltb_spec z 10); [|lia].
    cbn [all_digits]. rewrite is_digit_char, digits_value_one by lia. auto.
  - destruct (Z.ltb_spec z 10) as [Hlt | Hge].
    + cbn [all_digits]. rewrite is_digit_char, digits_value_one by lia. auto.
    + assert (Hq : 0 <= z / 10 < 2 ^ Z.of_nat (S fuel)).
      { rewrite (Nat2Z.inj_succ (S fuel)), Z.pow_succ_r in Hz by lia.
        split; [apply Z.div_pos; lia|]. apply Z.div_lt_upper_bound; lia. }
      destruct (IH (z / 10) Hq) as [Hall Hval].
      pose proof (Z.mod_pos_bound z 10 ltac:(lia)) as Hm.
      rewrite all_digits_app, Hall. cbn [all_digits].
      rewrite is_digit_char by lia. split; [reflexivity|].
      rewrite digits_value_app, Hval, digits_value_one by
        (try exact Hall; try lia; cbn [all_digits]; now rewrite is_digit_char).
      cbn [String.length pow10]. pose proof (Z.div_mod z 10 ltac:(lia)). lia.
Qed.

(** Fuel beyond what suffices changes nothing. *)
Lemma digits_fuel_enough (f f' : nat) (z : Z) :
  0 <= z < 2 ^ Z.of_nat (S f) -> 0 <= z < 2 ^ Z.of_nat (S f') ->
  digits_fuel (S f) z = digits_fuel (S f') z.
Proof.
  revert f' z. induction f as [|f IH]; intros f' z Hf Hf'.
  - change (2 ^ Z.of_nat 1) with 2 in Hf. rewrite !digits_fuel_S.
    destruct (Z.ltb_spec z 10); try reflexivity; lia.
  - destruct f' as [|f'].
    + change (2 ^ Z.of_nat 1) with 2 in Hf'. rewrite !digits_fuel_S.
      destruct (Z.ltb_spec z 10); try reflexivity; lia.
    + rewrite !digits_fuel_S.
      destruct (Z.ltb_spec z 10) as [Hlt | Hge]; [reflexivity|].
      f_equal. rewrite (Nat2Z.inj_succ (S f)), Z.pow_succ_r in Hf by lia.
      rewrite (Nat2Z.inj_succ (S f')), Z.pow_succ_r in Hf' by lia.
      apply IH; (split; [apply Z.div_pos; lia | apply Z.div_lt_upper_bound; lia]).
Qed.

Lemma digits_fuel_bound (z : Z) :
  0 <= z -> 0 <= z < 2 ^ Z.of_nat (S (Z.to_nat (Z.log2 z))).
Proof.
  intros Hz. split; [exact Hz|].
  rewrite Nat2Z.inj_succ, Z2Nat.id by apply Z.log2_nonneg.
  destruct (Z.eq_dec z 0) as [->|Hne]; [reflexivity|].
  apply Z.log2_spec. lia.
Qed.

Lemma digits_spec (z : Z) :
  0 <= z -> all_digits (digits z) = true /\ digits_value (digits z) = z.
Proof. intros Hz. apply digits_fuel_spec, digits_fuel_bound, Hz. Qed.

Lemma digits_tenfold (z : Z) : 0 < z -> digits (10 * z) = digits z ++ "0".
Proof.
  intros Hz. unfold digits at 1. rewrite digits_fuel_S.
  destruct (Z.ltb_spec (10 * z) 10) as [Hlt | _]; [lia|].
  rewrite Z.mul_comm, Z.div_mul, Z.mod_mul by lia. f_equal.
  pose proof (digits_fuel_bound (z * 10) ltac:(lia)) as Hb.
  destruct (Z.to_nat (Z.log2 (z * 10))) as [|f] eqn:Ef.
  - change (2 ^ Z.of_nat 1) with 2 in Hb. lia.
  - apply digits_fuel_enough; [|apply digits_fuel_bound; lia].
    rewrite (Nat2Z.inj_succ (S f)), Z.pow_succ_r in Hb by lia. lia.
Qed.

Lemma zeros_snoc (n : nat) : zeros n ++ "0" = zeros (S n).
Proof. induction n; [reflexivity|]. cbn [zeros append] in *. now rewrite IHn. Qed.

(** Multiplying by a power of ten appends zeros. *)
Lemma digits_pow10 (z : Z) (d : nat) :
  0 < z -> digits (z * pow10 d) = digits z ++ zeros d.
Proof.
  intros Hz. induction d as [|d IH]; cbn [pow10 zeros].
  - now rewrite Z.mul_1_r, string_app_nil_r.
  - pose proof (pow10_pos d) as Hp.
    replace (z * (10 * pow10 d)) with (10 * (z * pow10 d)) by lia.
    rewrite digits_tenfold, IH, string_app_assoc, zeros_snoc by lia. reflexivity.
Qed.

Lemma digits_nonempty (z : Z) : digits z <> "".
Proof.
  unfold digits. rewrite digits_fuel_S. destruct (z <? 10); [discriminate|].
  intros H%app_empty_inv. now destruct H.
Qed.

(** The digits of a positive number do not strip to nothing. *)
Lemma strip_digits_nonempty (z : Z) : 0 < z -> strip_zeros (digits z) <> "".
Proof.
  intros Hz He. destruct (digits_spec z ltac:(lia)) as [Hall Hval].
  rewrite digits_value_strip_zeros, He in Hval by exact Hall.
  unfold digits_value in Hval. cbn in Hval. lia.
Qed.

(** ** Parsing what was printed *)

Lemma scale_eqv (m : Z) (f : nat) (ex M : Z) (e a : nat) :
  m * pow10 a = M -> Z.of_nat a = ex - Z.of_nat f + Z.of_nat e ->
  num_eqv (scale m f ex) (Fin M e).
Proof.
  intros <- Ha. unfold scale. destruct (Z.leb_spec 0 (ex - Z.of_nat f)) as [Ht | Ht];
    cbn [num_eqv pow10].
  - replace a with (Z.to_nat (ex - Z.of_nat f) + e)%nat by lia.
    rewrite pow10_add. lia.
  - replace e with (a + Z.to_nat (- (ex - Z.of_nat f)))%nat at 1 by lia.
    rewrite pow10_add. lia.
Qed.

Lemma is_digit_not_I (c : ascii) (r : string) :
  is_digit c = true -> prefix "Infinity" (String c r) = false.
Proof.
  intros Hc. cbn [prefix]. destruct (ascii_dec "I" c) as [<-|_]; [discriminate | reflexivity].
Qed.

Lemma all_digits_head (s : string) :
  all_digits s = true -> s <> "" -> exists c r, s = String c r /\ is_digit c = true.
Proof.
  destruct s as [|c r]; [congruence|]. cbn [all_digits].
  intros [Hc _]%andb_true_iff _. eauto.
Qed.

(** A literal without a point: digits, then something that is neither a
    digit nor a point. *)
Lemma parse_decimal_integer (ip tail : string) :
  all_digits ip = true -> ip <> "" ->
  starts_nondigit tail = true -> parse_fraction tail = ("", tail) ->
  parse_decimal (ip ++ tail) = scale (digits_value ip) 0 (parse_exponent tail).
Proof.
  intros Hip Hne Htail Hfrac. unfold parse_decimal.
  destruct (all_digits_head ip Hip Hne) as (c & r & -> & Hc).
  cbn [append]. rewrite is_digit_not_I by exact Hc.
  change (String c (r ++ tail)) with (String c r ++ tail).
  rewrite span_digits_app, Hfrac by assumption.
  cbn [String.eqb andb String.length]. now rewrite string_app_nil_r.
Qed.

(** A literal with a point: digits, a point, digits, then something that
    is not a digit. *)
Lemma parse_decimal_fraction (ip fp tail : string) :
  all_digits ip = true -> ip <> "" -> all_digits fp = true ->
  starts_nondigit tail = true ->
  parse_decimal (ip ++ "." ++ fp ++ tail)
  = scale (digits_value (ip ++ fp)) (String.length fp) (parse_exponent tail).
Proof.
  intros Hip Hne Hfp Htail. unfold parse_decimal.
  destruct (all_digits_head ip Hip Hne) as (c & r & -> & Hc).
  cbn [append]. rewrite is_digit_not_I by exact Hc.
  change (String c (r ++ String "." (fp ++ tail)))
    with (String c r ++ String "." (fp ++ tail)).
  rewrite span_digits_app by (auto; reflexivity).
  cbn [parse_fraction]. rewrite span_digits_app by assumption.
  reflexivity.
Qed.

Lemma digits_head (z : Z) :
  0 <= z -> exists c r, digits z = String c r /\ is_digit c = true.
Proof.
  intros Hz. apply all_digits_head; [apply digits_spec, Hz | apply digits_nonempty].
Qed.

Lemma is_digit_not_sign (c : ascii) (r : string) :
  is_digit c = true -> parse_sign (String c r) = (false, String c r).
Proof.
  intros Hc. unfold parse_sign.
  destruct (ascii_dec c "-") as [->|H1]; [discriminate|].
  destruct (ascii_dec c "+") as [->|H2]; [discriminate|].
  destruct c as [[] [] [] [] [] [] [] []]; try reflexivity; congruence.
Qed.

Lemma parse_exponent_text (ex : Z) :
  parse_exponent ("e" ++ exponent_text ex) = ex.
Proof.
  unfold exponent_text. cbn [append parse_exponent Ascii.eqb Bool.eqb orb].
  destruct (digits_spec (Z.abs ex) ltac:(lia)) as [Hall Hval].
  pose proof (digits_nonempty (Z.abs ex)) as Hne.
  destruct (Z.ltb_spec ex 0); cbn [append parse_sign];
    rewrite span_digits_all by exact Hall;
    apply eqb_empty in Hne; rewrite Hne, Hval; lia.
Qed.

Lemma parse_fraction_e (r : string) : parse_fraction (String "e" r) = ("", String "e" r).
Proof. reflexivity. Qed.

(** The exponent notation reads back. *)
Lemma parse_exponential (s : string) (ex : Z) :
  all_digits s = true -> s <> "" ->
  parse_decimal (mantissa_text s ++ "e" ++ exponent_text ex)
  = scale (digits_value s) (String.length s - 1) ex.
Proof.
  intros Hall Hne. destruct s as [|c [|d r]]; [congruence| |].
  - cbn [mantissa_text String.length Nat.sub].
    rewrite parse_decimal_integer, parse_exponent_text; auto.
  - cbn [mantissa_text]. change (String c ("." ++ String d r))
      with (String c "" ++ "." ++ String d r).
    cbn [all_digits] in Hall. apply andb_true_iff in Hall. destruct Hall as [Hc Hr].
    rewrite string_app_assoc. change (("." ++ String d r) ++ ?x)
      with ("." ++ String d r ++ x).
    rewrite parse_decimal_fraction, parse_exponent_text;
      [| cbn [all_digits]; now rewrite Hc | discriminate | exact Hr | reflexivity].
    reflexivity.
Qed.

(** ** [format] *)

Lemma format_zeros (D : string) (e d : nat) :
  format (D ++ zeros d) (e + d) = format D e.
Proof.
  unfold format. rewrite strip_zeros_app_zeros, string_length_app, zeros_length.
  replace (Z.of_nat (String.length D + d) - Z.of_nat (e + d))
    with (Z.of_nat (String.length D) - Z.of_nat e) by lia.
  reflexivity.
Qed.

Section Format.
Variable p : positive.
Variable e : nat.

Let D : string := digits (Zpos p).
Let s : string := strip_zeros D.

Lemma format_digits :
  all_digits s = true /\ s <> ""
  /\ (String.length s <= String.length D)%nat
  /\ digits_value s * pow10 (String.length D - String.length s) = Zpos p.
Proof.
  destruct (digits_spec (Zpos p) ltac:(lia)) as [Hall Hval]. fold D in Hall, Hval.
  split; [now apply all_digits_strip_zeros|].
  split; [now apply strip_digits_nonempty|].
  split; [apply strip_zeros_length|].
  unfold s. now rewrite <- digits_value_strip_zeros by exact Hall.
Qed.

Lemma take_nonempty (n : nat) (t : string) :
  (0 < n)%nat -> t <> "" -> take n t <> "".
Proof. destruct n, t; intros; (lia || congruence || discriminate). Qed.

Lemma take_head (n : nat) (c : ascii) (r : string) :
  (0 < n)%nat -> exists r', take n (String c r) = String c r'.
Proof. destruct n; [lia|]. cbn [take]. eauto. Qed.

Let k : nat := String.length s.
Let n : Z := Z.of_nat (String.length D) - Z.of_nat e.

Lemma format_cases :
  format D e
  = if (Z.of_nat k <=? n) && (n <=? 21) then s ++ zeros (Z.to_nat (n - Z.of_nat k))
    else if (0 <? n) && (n <=? 21) then take (Z.to_nat n) s ++ "." ++ drop (Z.to_nat n) s
    else if (-6 <? n) && (n <=? 0) then "0." ++ zeros (Z.to_nat (- n)) ++ s
    else mantissa_text s ++ "e" ++ exponent_text (n - 1).
Proof. reflexivity. Qed.

Lemma parse_exponential_format :
  num_eqv (parse_decimal (mantissa_text s ++ "e" ++ exponent_text (n - 1)))
          (Fin (Zpos p) e).
Proof.
  destruct format_digits as (Hall & Hne & Hlen & Hval).
  rewrite parse_exponential by assumption.
  apply (scale_eqv _ _ _ _ _ (String.length D - String.length s)); [exact Hval|].
  assert (String.length s <> 0)%nat by (destruct s; cbn; congruence).
  unfold n. lia.
Qed.

Lemma parse_integer_format :
  Z.of_nat k <= n ->
  num_eqv (parse_decimal (s ++ zeros (Z.to_nat (n - Z.of_nat k)))) (Fin (Zpos p) e).
Proof.
  intros Hkn. destruct format_digits as (Hall & Hne & Hlen & Hval).
  rewrite <- (string_app_nil_r (s ++ _)). rewrite parse_decimal_integer;
    [| now rewrite all_digits_app, Hall, all_digits_zeros
     | intros [? _]%app_empty_inv; contradiction | reflexivity | reflexivity].
  apply (scale_eqv _ _ _ _ _ e); [|cbn; lia].
  rewrite digits_value_app, digits_value_zeros, zeros_length
    by auto using all_digits_zeros.
  rewrite <- Hval, Z.add_0_r, <- !Z.mul_assoc, <- !pow10_add. do 2 f_equal.
  unfold n, k in *. lia.
Qed.

Lemma parse_point_format :
  0 < n < Z.of_nat k ->
  num_eqv (parse_decimal (take (Z.to_nat n) s ++ "." ++ drop (Z.to_nat n) s))
          (Fin (Zpos p) e).
Proof.
  intros Hn. destruct format_digits as (Hall & Hne & Hlen & Hval).
  destruct (all_digits_take_drop (Z.to_nat n) s Hall) as [Ht Hd].
  rewrite <- (string_app_nil_r (drop _ _)).
  rewrite parse_decimal_fraction;
    [| exact Ht | apply take_nonempty; [lia | exact Hne] | exact Hd | reflexivity].
  rewrite take_drop, drop_length.
  apply (scale_eqv _ _ _ _ _ (String.length D - String.length s)); [exact Hval|].
  cbn [parse_exponent]. unfold n, k in *. lia.
Qed.

Lemma digits_value_0 (t : string) : digits_value (String "0" t) = digits_value t.
Proof. reflexivity. Qed.

Lemma parse_small_format :
  n <= 0 ->
  num_eqv (parse_decimal ("0." ++ zeros (Z.to_nat (- n)) ++ s)) (Fin (Zpos p) e).
Proof.
  intros Hn. destruct format_digits as (Hall & Hne & Hlen & Hval).
  replace ("0." ++ zeros (Z.to_nat (- n)) ++ s)
    with ("0" ++ "." ++ (zeros (Z.to_nat (- n)) ++ s) ++ "")
    by now rewrite string_app_nil_r.
  rewrite parse_decimal_fraction;
    [| reflexivity | discriminate
     | now rewrite all_digits_app, all_digits_zeros | reflexivity].
  apply (scale_eqv _ _ _ _ _ (String.length D - String.length s)).
  - rewrite <- Hval. f_equal. cbn [append]. rewrite digits_value_0.
    rewrite digits_value_app, digits_value_zeros by auto using all_digits_zeros.
    lia.
  - rewrite string_length_app, zeros_length. cbn [parse_exponent].
    unfold n, k in *. lia.
Qed.

(** Reading the text [format] prints for the digits of a positive integer
    [p] and the scale [e] gives [p / 10^e], in each of the four notations. *)
Lemma parse_decimal_format :
  num_eqv (parse_decimal (format (digits (Zpos p)) e)) (Fin (Zpos p) e).
Proof.
  fold D. rewrite format_cases.
  destruct (Z.leb_spec (Z.of_nat k) n), (Z.leb_spec n 21), (Z.ltb_spec 0 n),
    (Z.ltb_spec (-6) n), (Z.leb_spec n 0); cbn [andb];
    first [ exact parse_exponential_format
          | apply parse_integer_format; lia
          | apply parse_point_format; lia
          | apply parse_small_format; lia ].
Qed.

Lemma format_head :
  exists c r, format (digits (Zpos p)) e = String c r /\ is_digit c = true.
Proof.
  destruct format_digits as (Hall & Hne & _ & _).
  destruct (all_digits_head s Hall Hne) as (c & r & Hs & Hc).
  fold D. rewrite format_cases, Hs.
  destruct (_ && _); [cbn [append]; eauto|].
  destruct (Z.ltb_spec 0 n); cbn [andb].
  - destruct (n <=? 21).
    + destruct (take_head (Z.to_nat n) c r ltac:(lia)) as (r' & ->).
      cbn [append]. eauto.
    + destruct (_ && _); [cbn [append]; eexists _, _; split; reflexivity|].
      destruct r; cbn [mantissa_text append]; eauto.
  - destruct (_ && _); [cbn [append]; eexists _, _; split; reflexivity|].
    destruct r; cbn [mantissa_text append]; eauto.
Qed.

End Format.

(** ** [Number_parseFloat] of a printed number *)

Lemma is_digit_not_space (c : ascii) : is_digit c = true -> is_whitespace c = false.
Proof. destruct c as [[] [] [] [] [] [] [] []]; try discriminate; reflexivity. Qed.

Lemma parseFloat_digit (c : ascii) (r : string) :
  is_digit c = true -> Number_parseFloat (String c r) = parse_decimal (String c r).
Proof.
  intros Hc. unfold Number_parseFloat. cbn [trimStart].
  now rewrite is_digit_not_space, is_digit_not_sign by exact Hc.
Qed.

Lemma parseFloat_letter (c : ascii) (r : string) :
  is_whitespace c = false -> parse_sign (String c r) = (false, String c r) ->
  Number_parseFloat (String c r) = parse_decimal (String c r).
Proof. intros Hw Hs. unfold Number_parseFloat. cbn [trimStart]. now rewrite Hw, Hs. Qed.

Lemma parseFloat_minus (r : string) : Number_parseFloat (String "-" r) = neg (parse_decimal r).
Proof. reflexivity. Qed.

Lemma parseFloat_format (p : positive) (e : nat) :
  num_eqv (Number_parseFloat (format (digits (Zpos p)) e)) (Fin (Zpos p) e).
Proof.
  destruct (format_head p e) as (c & r & Hf & Hc).
  rewrite Hf, parseFloat_digit, <- Hf by exact Hc. apply parse_decimal_format.
Qed.

Lemma parseFloat_Number_toString (x : number) :
  num_eqv (Number_parseFloat (Number_prototype_toString x)) x.
Proof.
  destruct x as [| [] | [|p|p] e]; cbn [Number_prototype_toString]; try exact I;
    try reflexivity.
  - apply parseFloat_format.
  - change ("-" ++ ?t) with (String "-" t). rewrite parseFloat_minus.
    change (Fin (Zneg p) e) with (neg (Fin (Zpos p) e)).
    apply neg_Proper. destruct (format_head p e) as (c & r & Hf & Hc).
    apply parse_decimal_format.
Qed.

(** ** Text after a number *)

Lemma trailing_spec (t : string) :
  trailing t = true ->
  starts_nondigit t = true /\ parse_fraction t = ("", t)
  /\ parse_sign t = (false, t) /\ parse_exponent t = 0.
Proof.
  destruct t as [|c t]; [now repeat split|]. cbn [trailing]. intros Hc.
  destruct c as [[] [] [] [] [] [] [] []]; try discriminate Hc; now repeat split.
Qed.

Lemma span_digits_stable (t rest : string) :
  starts_nondigit rest = true ->
  span_digits (t ++ rest) = (fst (span_digits t), snd (span_digits t) ++ rest).
Proof.
  intros Hr. induction t as [|c t IH]; cbn [append span_digits].
  - destruct rest as [|c rest]; [reflexivity|]. cbn [starts_nondigit span_digits] in *.
    apply negb_true_iff in Hr. now rewrite Hr.
  - destruct (is_digit c); [|reflexivity].
    rewrite IH. now destruct (span_digits t).
Qed.

Lemma parse_fraction_stable (t rest : string) :
  trailing rest = true ->
  parse_fraction (t ++ rest) = (fst (parse_fraction t), snd (parse_fraction t) ++ rest).
Proof.
  intros Hr. destruct (trailing_spec rest Hr) as (Hd & Hf & _ & _).
  destruct t as [|c t]; [exact Hf|]. cbn [append parse_fraction].
  destruct (ascii_dec c ".") as [->|Hc]; [now apply span_digits_stable|].
  destruct c as [[] [] [] [] [] [] [] []]; try reflexivity; congruence.
Qed.

Lemma parse_sign_stable (t rest : string) :
  t <> "" ->
  parse_sign (t ++ rest) = (fst (parse_sign t), snd (parse_sign t) ++ rest).
Proof.
  destruct t as [|c t]; [congruence|]. intros _. cbn [append].
  destruct (ascii_dec c "-") as [->|H1]; [reflexivity|].
  destruct (ascii_dec c "+") as [->|H2]; [reflexivity|].
  destruct c as [[] [] [] [] [] [] [] []]; try reflexivity; congruence.
Qed.

Lemma exponent_digits_stable (t rest : string) :
  starts_nondigit rest = true ->
  (let (ds, _) := span_digits (t ++ rest) in
   if (ds =? "")%string then 0 else digits_value ds)
  = (let (ds, _) := span_digits t in
     if (ds =? "")%string then 0 else digits_value ds).
Proof.
  intros Hr. rewrite span_digits_stable by exact Hr. now destruct (span_digits t).
Qed.

Lemma parse_exponent_stable (t rest : string) :
  trailing rest = true -> parse_exponent (t ++ rest) = parse_exponent t.
Proof.
  intros Hr. destruct (trailing_spec rest Hr) as (Hd & _ & Hs & He).
  destruct t as [|c t]; [exact He|]. cbn [append parse_exponent].
  destruct (_ || _); [|reflexivity].
  destruct t as [|d t].
  - pose proof (span_digits_app "" rest eq_refl Hd) as Hsp.
    cbn [append parse_sign] in *. now rewrite Hs, Hsp.
  - rewrite parse_sign_stable by discriminate.
    destruct (parse_sign (String d t)) as [negative r]. cbn [fst snd].
    rewrite span_digits_stable by exact Hd. now destruct (span_digits r).
Qed.

(** A literal that starts with a digit is read the same when text that does
    not continue a number follows it. *)
Lemma parse_decimal_stable (c : ascii) (t rest : string) :
  is_digit c = true -> trailing rest = true ->
  parse_decimal (String c t ++ rest) = parse_decimal (String c t).
Proof.
  intros Hc Hr. destruct (trailing_spec rest Hr) as (Hd & _ & _ & _).
  unfold parse_decimal. cbn [append]. rewrite !is_digit_not_I by exact Hc.
  change (String c (t ++ rest)) with (String c t ++ rest).
  rewrite span_digits_stable by exact Hd.
  destruct (span_digits (String c t)) as [ip r1]. cbn [fst snd].
  rewrite parse_fraction_stable by exact Hr.
  destruct (parse_fraction r1) as [fp r2]. cbn [fst snd].
  now rewrite parse_exponent_stable by exact Hr.
Qed.

Lemma parseFloat_format_trailing (p : positive) (e : nat) (rest : string) :
  trailing rest = true ->
  num_eqv (parse_decimal (format (digits (Zpos p)) e ++ rest)) (Fin (Zpos p) e).
Proof.
  intros Hr. destruct (format_head p e) as (c & r & Hf & Hc).
  rewrite Hf, parse_decimal_stable, <- Hf by assumption. apply parse_decimal_format.
Qed.

(** [parseFloat] reads a printed number back when other text follows it. *)
Lemma parseFloat_Number_toString_trailing (x : number) (rest : string) :
  trailing rest = true ->
  num_eqv (Number_parseFloat (Number_prototype_toString x ++ rest)) x.
Proof.
  intros Hr. destruct x as [| [] | [|p|p] e]; cbn [Number_prototype_toString];
    try exact I.
  - change ("-Infinity" ++ rest) with (String "-" ("Infinity" ++ rest)).
    rewrite parseFloat_minus. unfold parse_decimal. now rewrite prefix_append.
  - change ("Infinity" ++ rest) with (String "I" ("nfinity" ++ rest)).
    rewrite parseFloat_letter by reflexivity.
    change (String "I" ("nfinity" ++ rest)) with ("Infinity" ++ rest).
    unfold parse_decimal. now rewrite prefix_append.
  - cbn [append]. rewrite parseFloat_digit by reflexivity.
    change (String "0" rest) with ("0" ++ rest).
    rewrite parse_decimal_stable by auto. reflexivity.
  - destruct (format_head p e) as (c & r & Hf & Hc). rewrite Hf. cbn [append].
    rewrite parseFloat_digit by exact Hc.
    change (String c (r ++ rest)) with (String c r ++ rest). rewrite <- Hf.
    now apply parseFloat_format_trailing.
  - rewrite string_app_assoc. change ("-" ++ ?t) with (String "-" t).
    rewrite parseFloat_minus.
    change (Fin (Zneg p) e) with (neg (Fin (Zpos p) e)).
    apply neg_Proper. now apply parseFloat_format_trailing.
Qed.

(** ** The characters of a printed number *)

Lemma lacks_digits (c0 : ascii) (t : string) :
  is_digit c0 = false -> all_digits t = true -> lacks c0 t = true.
Proof.
  intros Hc0. induction t as [|d t IH]; cbn [all_digits lacks]; [reflexivity|].
  intros [Hd Ht]%andb_true_iff. rewrite IH by exact Ht.
  destruct (Ascii.eqb_spec d c0) as [->|_]; [congruence | reflexivity].
Qed.

Lemma lacks_take_drop (c0 : ascii) (n : nat) (t : string) :
  lacks c0 t = true -> lacks c0 (take n t) = true /\ lacks c0 (drop n t) = true.
Proof.
  intros Ht. rewrite <- (take_drop n t), lacks_app in Ht.
  now apply andb_true_iff in Ht.
Qed.

Lemma lacks_mantissa_text (c0 : ascii) (t : string) :
  lacks c0 "." = true -> lacks c0 t = true -> lacks c0 (mantissa_text t) = true.
Proof.
  intros Hdot Ht. destruct t as [|c [|d r]]; try exact Ht.
  cbn [mantissa_text]. change (String c ("." ++ String d r))
    with (String c "" ++ "." ++ String d r).
  change (String c (String d r)) with (String c "" ++ String d r) in Ht.
  rewrite lacks_app in *. apply andb_true_iff in Ht. destruct Ht as [-> Hr].
  now rewrite lacks_app, Hdot, Hr.
Qed.

Lemma lacks_exponent_text (c0 : ascii) (ex : Z) :
  is_digit c0 = false -> lacks c0 "-" = true -> lacks c0 "+" = true ->
  lacks c0 (exponent_text ex) = true.
Proof.
  intros Hc0 Hm Hp. unfold exponent_text.
  rewrite lacks_app, (lacks_digits c0 (digits _)) by (auto; apply digits_spec; lia).
  now destruct (ex <? 0); rewrite ?Hm, ?Hp.
Qed.

(** A character that is not a digit, a point, a sign or [e] does not occur
    in the text of a finite number. *)
Lemma lacks_format (c0 : ascii) (D : string) (e : nat) :
  is_digit c0 = false -> lacks c0 ".e-+" = true ->
  all_digits D = true -> lacks c0 (format D e) = true.
Proof.
  intros Hc0 Hchars HD.
  assert (Hs : lacks c0 (strip_zeros D) = true)
    by auto using lacks_digits, all_digits_strip_zeros.
  assert (Hz : forall k, lacks c0 (zeros k) = true)
    by auto using lacks_digits, all_digits_zeros.
  assert (Hdot : lacks c0 "." = true /\ lacks c0 "e" = true
                 /\ lacks c0 "-" = true /\ lacks c0 "+" = true).
  { cbn [lacks] in *. destruct (Ascii.eqb "." c0), (Ascii.eqb "e" c0),
      (Ascii.eqb "-" c0), (Ascii.eqb "+" c0); try discriminate; auto. }
  destruct Hdot as (Hp & He & Hm & Hpl).
  assert (H0 : lacks c0 "0." = true).
  { change "0." with ("0" ++ "."). now rewrite lacks_app, (lacks_digits c0 "0"), Hp. }
  pose proof (lacks_mantissa_text c0 _ Hp Hs) as Hman.
  pose proof (fun ex => lacks_exponent_text c0 ex Hc0 Hm Hpl) as Hexp.
  destruct (lacks_take_drop c0 (Z.to_nat (Z.of_nat (String.length D) - Z.of_nat e))
              _ Hs) as [Ht Hd].
  unfold format. repeat case_if; rewrite ?lacks_app;
    rewrite ?Hs, ?Hz, ?Ht, ?Hd, ?Hp, ?He, ?H0, ?Hman, ?Hexp; reflexivity.
Qed.

Lemma lacks_Number_toString (c0 : ascii) (x : number) :
  is_digit c0 = false -> lacks c0 ".e-+" = true -> lacks c0 "NaInfity" = true ->
  lacks c0 (Number_prototype_toString x) = true.
Proof.
  intros Hc0 Hfmt Hword.
  assert (Hminus : lacks c0 "-" = true).
  { cbn [lacks] in *. destruct (Ascii.eqb "-" c0); [|reflexivity].
    now rewrite ?andb_false_r in Hfmt. }
  assert (Hzero : lacks c0 "0" = true) by now apply lacks_digits.
  assert (Hwords : lacks c0 "NaN" = true /\ lacks c0 "Infinity" = true).
  { cbn [lacks] in *. destruct (Ascii.eqb "N" c0), (Ascii.eqb "a" c0),
      (Ascii.eqb "I" c0), (Ascii.eqb "n" c0), (Ascii.eqb "f" c0), (Ascii.eqb "i" c0),
      (Ascii.eqb "t" c0), (Ascii.eqb "y" c0); try discriminate; auto. }
  destruct Hwords as [HNaN HInf].
  destruct x as [| [] | [|p|p] e]; cbn [Number_prototype_toString];
    try change "-Infinity" with ("-" ++ "Infinity");
    rewrite ?lacks_app, ?Hminus, ?HNaN, ?HInf, ?Hzero, ?lacks_format
      by (auto; apply digits_spec; lia); reflexivity.
Qed.

(** ** Equal numbers print alike *)

Lemma format_eqv_le (p1 p2 : positive) (e d : nat) :
  Zpos p1 * pow10 (e + d) = Zpos p2 * pow10 e ->
  format (digits (Zpos p1)) e = format (digits (Zpos p2)) (e + d).
Proof.
  intros Heq. pose proof (pow10_pos e) as He.
  rewrite pow10_add in Heq.
  assert (H2 : Zpos p2 = Zpos p1 * pow10 d).
  { apply (Z.mul_cancel_r _ _ (pow10 e)); lia. }
  now rewrite H2, digits_pow10, format_zeros by lia.
Qed.

Lemma format_eqv (p1 p2 : positive) (e1 e2 : nat) :
  Zpos p1 * pow10 e2 = Zpos p2 * pow10 e1 ->
  format (digits (Zpos p1)) e1 = format (digits (Zpos p2)) e2.
Proof.
  intros Heq. destruct (Nat.le_ge_cases e1 e2) as [Hle | Hge].
  - replace e2 with (e1 + (e2 - e1))%nat in * by lia. now apply format_eqv_le.
  - replace e1 with (e2 + (e1 - e2))%nat in * by lia. symmetry.
    now apply format_eqv_le.
Qed.

Lemma Number_toString_num_eqv (x y : number) :
  num_eqv x y -> Number_prototype_toString x = Number_prototype_toString y.
Proof.
  destruct x as [| s | m1 e1], y as [| t | m2 e2]; cbn [num_eqv]; try contradiction;
    try reflexivity.
  - now intros ->.
  - pose proof (pow10_pos e1). pose proof (pow10_pos e2).
    destruct m1 as [|p1|p1], m2 as [|p2|p2]; intros Heq; try nia;
      cbn [Number_prototype_toString]; [reflexivity | | f_equal]; apply format_eqv; lia.
Qed.

(** ** The instance *)

Lemma Number_toString_not_empty (x : number) : Number_prototype_toString x <> "".
Proof.
  intros He. pose proof (parseFloat_Number_toString x) as Hp. rewrite He in Hp.
  destruct x as [| [] | m e]; try discriminate. exact Hp.
Qed.

(** White space before the text is skipped. *)
Lemma parseFloat_blank (ws s : string) :
  blank ws = true -> Number_parseFloat (ws ++ s) = Number_parseFloat s.
Proof. intros Hws. unfold Number_parseFloat. now rewrite trimStart_blank. Qed.

#[export] Instance ecmascript : NumberText :=
  {| NumberText.Number_toString := Number_prototype_toString;
     NumberText.parseFloat := Number_parseFloat;
     NumberText.parseFloat_toString := parseFloat_Number_toString;
     NumberText.parseFloat_trailing := parseFloat_Number_toString_trailing;
     NumberText.parseFloat_leading := parseFloat_blank;
     NumberText.Number_toString_colon :=
       fun x => lacks_Number_toString ":" x eq_refl eq_refl eq_refl;
     NumberText.Number_toString_comma :=
       fun x => lacks_Number_toString "," x eq_refl eq_refl eq_refl;
     NumberText.Number_toString_nonempty := Number_toString_not_empty;
     NumberText.Number_toString_eqv := Number_toString_num_eqv |}.

(** ** The laws, for the two functions *)


(** [Number_toString_canonical]: two numbers have the same text exactly when
    they are equal as numbers: the text does not depend on the
    representation, and it determines the value. *)
Theorem Number_toString_canonical (x y : number) :
  Number_prototype_toString x = Number_prototype_toString y <-> num_eqv x y.
Proof.
  split; [|apply Number_toString_num_eqv]. intros Heq.
  rewrite <- (parseFloat_Number_toString x), <- (parseFloat_Number_toString y).
  now rewrite Heq.
Qed.

(** [digits_enough_fuel]: the fuel given to [digits] is enough: for every
    [z >= 0] the result is a non-empty string of decimal digits whose value
    is [z]. *)
Theorem digits_enough_fuel (z : Z) :
  0 <= z ->
  digits z <> "" /\ all_digits (digits z) = true /\ digits_value (digits z) = z.
Proof.
  intros Hz. split; [apply digits_nonempty | now apply digits_spec].
Qed.

(** [Number_toString_notations]: the four notations on examples: integers
    with their zeros, a point inside the digits, zeros after the point down
    to [1e-6], and the exponent notation from [1e21] and below [1e-6];
    trailing zeros of the representation do not show. *)
Example Number_toString_notations :
  Number_prototype_toString (dec 515074 4) = "51.5074"
  /\ Number_prototype_toString (dec (-1278) 4) = "-0.1278"
  /\ Number_prototype_toString (int 1200) = "1200"
  /\ Number_prototype_toString (dec 185000 4) = "18.5"
  /\ Number_prototype_toString (dec 1 6) = "0.000001"
  /\ Number_prototype_toString (dec 1 7) = "1e-7"
  /\ Number_prototype_toString (dec 15 8) = "1.5e-7"
  /\ Number_prototype_toString (int (10 ^ 21)) = "1e+21"
  /\ Number_prototype_toString (int (123 * 10 ^ 20)) = "1.23e+22"
  /\ Number_prototype_toString (dec 0 3) = "0".
Proof. vm_compute. repeat split. Qed.

(** [parseFloat_prefixes]: [Number_parseFloat] reads the longest prefix that is a
    decimal literal, after leading white space, and ignores what follows;
    it is [NaN] when no prefix is a literal. *)
Example parseFloat_prefixes :
  Number_parseFloat "51.5074" = dec 515074 4
  /\ Number_parseFloat "  -33.92584" = dec (-3392584) 5
  /\ Number_parseFloat "12abc" = int 12
  /\ Number_parseFloat "1e3" = int 1000
  /\ Number_parseFloat "1e" = int 1
  /\ Number_parseFloat "2.5e-3x" = dec 25 4
  /\ Number_parseFloat ".5" = dec 5 1
  /\ Number_parseFloat "5." = int 5
  /\ Number_parseFloat "-Infinity" = Inf true
  /\ Number_parseFloat "abc" = NaN
  /\ Number_parseFloat "." = NaN
  /\ Number_parseFloat "" = NaN.
Proof. vm_compute. repeat split. Qed.

(** ** Witnesses *)

Lemma digits_enough_fuel_witness :
  digits 515074 <> "" /\ all_digits (digits 515074) = true
  /\ digits_value (digits 515074) = 515074.
Proof. apply digits_enough_fuel. lia. Defined.
