(* ===== verification/Schema.v ===== *)
(** * Schema: [src/schema.graphql] and the coercion of results

    The schema declares six object types whose fields are all non-null.  A
    type of the schema is a [gtype]: a scalar, a list, a non-null type or an
    object type with its fields; the types of [src/schema.graphql] are the
    definitions [Activity_type], [City_type], [DailyForecast_type],
    [Weather_type], [CityWeather_type] and [Query_type].  A [value] is what
    a response carries: JSON.

    [conforms t v] decides whether a value has a type of the schema: an
    [Int] is an integer of 32 bits, a [Float] is a finite number, a
    non-null type excludes [null], an object has the fields of its type in
    their order.

    The generated TypeScript ([src/unnamed/part_002]) gives the results of
    the resolvers the types [number] for [Int] and [Float] and [string] for
    [String]; the execution engine coerces them when it completes a result:
    [serializeInt] throws on a number that is not an integer of 32 bits,
    [serializeFloat] on one that is not finite.  [complete_City],
    [complete_Weather] and the others complete a result of an object type,
    field by field in the order of the schema, for a query that selects
    every field; the first field that throws makes the whole object throw,
    because every field is non-null.  [Selection] has the completion for
    the fields a query selects, which is this one when it selects all.

    The theorems show that a completed result conforms to its type
    (soundness of the coercion), and on which results the coercion
    succeeds. *)

From Stdlib Require Import String Ascii List ZArith Bool Lia.
From S2P Require Import Prelude JsNumber JsString Types Constants Errors NumberText.
Import ListNotations.

Local Open Scope list_scope.
Local Open Scope string_scope.
Local Open Scope js_scope.

(** ** The types of the schema *)

(** [Scalars]: the built-in scalars. *)
Module Scalars.
Inductive t : Type := ID | String | Boolean | Int | Float.
End Scalars.

(** The names of the object types. *)
Module Typename.
Inductive t : Type := Activity | City | CityWeather | DailyForecast | Query | Weather.
End Typename.

#[warnings="-register-all"]
Inductive gtype : Type :=
| Scalar (s : Scalars.t)
| ListOf (t : gtype)
| NonNull (t : gtype)
| ObjectType (name : Typename.t) (fields : list (string * gtype)).

Definition Activity_type : gtype :=
  ObjectType Typename.Activity
    [ ("name", NonNull (Scalar Scalars.String));
      ("suitabilityScore", NonNull (Scalar Scalars.Int));
      ("reasoning", NonNull (Scalar Scalars.String)) ].

Definition City_type : gtype :=
  ObjectType Typename.City
    [ ("id", NonNull (Scalar Scalars.String));
      ("name", NonNull (Scalar Scalars.String));
      ("country", NonNull (Scalar Scalars.String));
      ("latitude", NonNull (Scalar Scalars.Float));
      ("longitude", NonNull (Scalar Scalars.Float)) ].

Definition DailyForecast_type : gtype :=
  ObjectType Typename.DailyForecast
    [ ("date", NonNull (Scalar Scalars.String));
      ("maxTemp", NonNull (Scalar Scalars.Float));
      ("minTemp", NonNull (Scalar Scalars.Float));
      ("conditions", NonNull (Scalar Scalars.String));
      ("precipitation", NonNull (Scalar Scalars.Float));
      ("windSpeed", NonNull (Scalar Scalars.Float));
      ("activities", NonNull (ListOf (NonNull Activity_type))) ].

Definition Weather_type : gtype :=
  ObjectType Typename.Weather
    [ ("temperature", NonNull (Scalar Scalars.Float));
      ("conditions", NonNull (Scalar Scalars.String));
      ("humidity", NonNull (Scalar Scalars.Float));
      ("windSpeed", NonNull (Scalar Scalars.Float));
      ("precipitation", NonNull (Scalar Scalars.Float));
      ("forecast", NonNull (ListOf (NonNull DailyForecast_type))) ].

Definition CityWeather_type : gtype :=
  ObjectType Typename.CityWeather
    [ ("city", NonNull City_type);
      ("weather", NonNull Weather_type) ].

Definition Query_type : gtype :=
  ObjectType Typename.Query
    [ ("searchCities", NonNull (ListOf (NonNull City_type)));
      ("getCityWeather", NonNull CityWeather_type) ].

(** ** Values *)

#[warnings="-register-all"]
Inductive value : Type :=
| Null
| Boolean (b : bool)
| Number (x : number)
| Text (s : string)
| Array (items : list value)
| Object (properties : list (string * value)).

(** The bounds of [Int]. *)
Definition MIN_INT : Z := - 2 ^ 31.
Definition MAX_INT : Z := 2 ^ 31 - 1.

Definition is_int32 (x : number) : bool :=
  match as_integer x with
  | Some z => (MIN_INT <=? z)%Z && (z <=? MAX_INT)%Z
  | None => false
  end.

(** A value other than [null] is a value of the scalar. *)
Definition scalar_value (s : Scalars.t) (v : value) : bool :=
  match s, v with
  | Scalars.Int, Number x => is_int32 x
  | Scalars.Float, Number x => is_finite x
  | (Scalars.String | Scalars.ID), Text _ => true
  | Scalars.Boolean, Boolean _ => true
  | _, _ => false
  end.

(** [v] is a value of the type [t]. *)
Fixpoint conforms (t : gtype) (v : value) {struct t} : bool :=
  match t with
  | NonNull t' =>
      match v with
      | Null => false
      | _ => conforms t' v
      end
  | Scalar s =>
      match v with
      | Null => true
      | _ => scalar_value s v
      end
  | ListOf t' =>
      match v with
      | Null => true
      | Array items => forallb (conforms t') items
      | _ => false
      end
  | ObjectType _ fields =>
      match v with
      | Null => true
      | Object properties =>
          (fix fields_conform (fs : list (string * gtype)) (ps : list (string * value)) : bool :=
             match fs, ps with
             | [], [] => true
             | (f, ft) :: fs', (p, pv) :: ps' =>
                 (f =? p) && conforms ft pv && fields_conform fs' ps'
             | _, _ => false
             end) fields properties
      | _ => false
      end
  end.

(** An object with one field, and a list. *)
Lemma conforms_field (name : Typename.t) (f : string) (t : gtype) (v : value) :
  conforms (NonNull (ObjectType name [(f, t)])) (Object [(f, v)]) = conforms t v.
Proof. cbn [conforms]. now rewrite String.eqb_refl, andb_true_r. Qed.

Lemma conforms_list (t : gtype) (items : list value) :
  conforms (NonNull (ListOf t)) (Array items) = forallb (conforms t) items.
Proof. reflexivity. Qed.

(** ** Coercion of the results of the resolvers *)

(** A [GraphQLError] without extensions: no code and no service. *)
Definition plain_error (e : exn) : bool :=
  match e with
  | GraphQLError _ None None => true
  | _ => false
  end.

Section Coercion.
Context `{NumberText}.

(** [GraphQLInt.serialize] on a number. *)
Definition serializeInt (x : number) : result exn value :=
  match as_integer x with
  | Some z =>
      if (MIN_INT <=? z)%Z && (z <=? MAX_INT)%Z then Ok (Number x)
      else Err (GraphQLError
                  ("Int cannot represent non 32-bit signed integer value: "
                   ++ Number_toString x) None None)
  | None =>
      Err (GraphQLError
             ("Int cannot represent non-integer value: " ++ Number_toString x) None None)
  end.

(** [GraphQLFloat.serialize] on a number. *)
Definition serializeFloat (x : number) : result exn value :=
  if is_finite x then Ok (Number x)
  else Err (GraphQLError
              ("Float cannot represent non numeric value: " ++ Number_toString x) None None).

(** [GraphQLString.serialize] on a string. *)
Definition serializeString (s : string) : result exn value := Ok (Text s).

Definition complete_Activity (a : Activity.t) : result exn value :=
  name <- serializeString (Activity.name a) ;;
  suitabilityScore <- serializeInt (Activity.suitabilityScore a) ;;
  reasoning <- serializeString (Activity.reasoning a) ;;
  Ok (Object [ ("name", name); ("suitabilityScore", suitabilityScore);
               ("reasoning", reasoning) ]).

Definition complete_City (c : City.t) : result exn value :=
  id <- serializeString (City.id c) ;;
  name <- serializeString (City.name c) ;;
  country <- serializeString (City.country c) ;;
  latitude <- serializeFloat (City.latitude c) ;;
  longitude <- serializeFloat (City.longitude c) ;;
  Ok (Object [ ("id", id); ("name", name); ("country", country);
               ("latitude", latitude); ("longitude", longitude) ]).

Definition complete_DailyForecast (d : DailyForecast.t) : result exn value :=
  date <- serializeString (DailyForecast.date d) ;;
  maxTemp <- serializeFloat (DailyForecast.maxTemp d) ;;
  minTemp <- serializeFloat (DailyForecast.minTemp d) ;;
  conditions <- serializeString (DailyForecast.conditions d) ;;
  precipitation <- serializeFloat (DailyForecast.precipitation d) ;;
  windSpeed <- serializeFloat (DailyForecast.windSpeed d) ;;
  activities <- traverse complete_Activity (DailyForecast.activities d) ;;
  Ok (Object [ ("date", date); ("maxTemp", maxTemp); ("minTemp", minTemp);
               ("conditions", conditions); ("precipitation", precipitation);
               ("windSpeed", windSpeed); ("activities", Array activities) ]).

Definition complete_Weather (w : Weather.t) : result exn value :=
  temperature <- serializeFloat (Weather.temperature w) ;;
  conditions <- serializeString (Weather.conditions w) ;;
  humidity <- serializeFloat (Weather.humidity w) ;;
  windSpeed <- serializeFloat (Weather.windSpeed w) ;;
  precipitation <- serializeFloat (Weather.precipitation w) ;;
  forecast <- traverse complete_DailyForecast (Weather.forecast w) ;;
  Ok (Object [ ("temperature", temperature); ("conditions", conditions);
               ("humidity", humidity); ("windSpeed", windSpeed);
               ("precipitation", precipitation); ("forecast", Array forecast) ]).

Definition complete_CityWeather (cw : CityWeather.t) : result exn value :=
  city <- complete_City (CityWeather.city cw) ;;
  weather <- complete_Weather (CityWeather.weather cw) ;;
  Ok (Object [ ("city", city); ("weather", weather) ]).

(** ** The results on which the coercion succeeds *)

Definition Activity_ok (a : Activity.t) : bool := is_int32 (Activity.suitabilityScore a).

Definition City_ok (c : City.t) : bool :=
  is_finite (City.latitude c) && is_finite (City.longitude c).

Definition DailyForecast_ok (d : DailyForecast.t) : bool :=
  is_finite (DailyForecast.maxTemp d) && is_finite (DailyForecast.minTemp d)
  && is_finite (DailyForecast.precipitation d) && is_finite (DailyForecast.windSpeed d)
  && forallb Activity_ok (DailyForecast.activities d).

Definition Weather_ok (w : Weather.t) : bool :=
  is_finite (Weather.temperature w) && is_finite (Weather.humidity w)
  && is_finite (Weather.windSpeed w) && is_finite (Weather.precipitation w)
  && forallb DailyForecast_ok (Weather.forecast w).

Definition CityWeather_ok (cw : CityWeather.t) : bool :=
  City_ok (CityWeather.city cw) && Weather_ok (CityWeather.weather cw).

(** ** Scalars *)

Lemma serializeInt_is_ok (x : number) : is_ok (serializeInt x) = is_int32 x.
Proof.
  unfold serializeInt, is_int32. destruct (as_integer x); [|reflexivity].
  now destruct (_ && _).
Qed.

Lemma serializeInt_Ok (x : number) (v : value) :
  serializeInt x = Ok v -> v = Number x /\ is_int32 x = true.
Proof.
  intros Hs. pose proof (serializeInt_is_ok x) as Hok. rewrite Hs in Hok.
  split; [|now rewrite <- Hok]. unfold serializeInt in Hs.
  destruct (as_integer x); [|discriminate]. destruct (_ && _); congruence.
Qed.

Lemma serializeFloat_is_ok (x : number) : is_ok (serializeFloat x) = is_finite x.
Proof. unfold serializeFloat. now destruct (is_finite x). Qed.

Lemma serializeFloat_Ok (x : number) (v : value) :
  serializeFloat x = Ok v -> v = Number x /\ is_finite x = true.
Proof. unfold serializeFloat. destruct (is_finite x); [|discriminate]. now intros [= <-]. Qed.

(** ** Objects *)

(** Case analysis on every coercion of the goal. *)
Ltac coercions :=
  repeat match goal with
  | |- context [bind ?c _] => destruct c; cbn [bind is_ok andb]
  end.

Lemma complete_Activity_is_ok (a : Activity.t) :
  is_ok (complete_Activity a) = Activity_ok a.
Proof.
  unfold complete_Activity, Activity_ok, serializeString. cbn [bind].
  rewrite <- serializeInt_is_ok. now coercions.
Qed.

Lemma complete_City_is_ok (c : City.t) : is_ok (complete_City c) = City_ok c.
Proof.
  unfold complete_City, City_ok, serializeString. cbn [bind].
  rewrite <- !serializeFloat_is_ok. now coercions.
Qed.

Lemma complete_DailyForecast_is_ok (d : DailyForecast.t) :
  is_ok (complete_DailyForecast d) = DailyForecast_ok d.
Proof.
  unfold complete_DailyForecast, DailyForecast_ok, serializeString. cbn [bind].
  rewrite <- !serializeFloat_is_ok, <- (traverse_is_ok_ext _ _ _ complete_Activity_is_ok).
  now coercions.
Qed.

Lemma complete_Weather_is_ok (w : Weather.t) : is_ok (complete_Weather w) = Weather_ok w.
Proof.
  unfold complete_Weather, Weather_ok, serializeString. cbn [bind].
  rewrite <- !serializeFloat_is_ok,
    <- (traverse_is_ok_ext _ _ _ complete_DailyForecast_is_ok).
  now coercions.
Qed.

Lemma complete_CityWeather_is_ok (cw : CityWeather.t) :
  is_ok (complete_CityWeather cw) = CityWeather_ok cw.
Proof.
  unfold complete_CityWeather, CityWeather_ok.
  rewrite <- complete_City_is_ok, <- complete_Weather_is_ok. now coercions.
Qed.

(** ** Soundness of the coercion *)

(** The bindings of a completion that returns, one after the other. *)
Ltac completed H :=
  repeat match type of H with
  | bind (serializeString _) _ = Ok _ => cbn [serializeString bind] in H
  | bind ?c _ = Ok _ =>
      let E := fresh "E" in
      destruct c eqn:E; cbn [bind] in H; [|discriminate H]
  end;
  injection H as <-;
  repeat match goal with
  | E : serializeInt _ = Ok _ |- _ => apply serializeInt_Ok in E; destruct E as [-> ?]
  | E : serializeFloat _ = Ok _ |- _ => apply serializeFloat_Ok in E; destruct E as [-> ?]
  end.

Ltac conforms_fields T :=
  unfold T; cbn [conforms scalar_value String.eqb Ascii.eqb Bool.eqb andb] in *;
  repeat match goal with
  | H : _ = true |- _ => rewrite H
  end;
  cbn [andb]; try reflexivity.

Lemma complete_Activity_conforms (a : Activity.t) (v : value) :
  complete_Activity a = Ok v -> conforms (NonNull Activity_type) v = true.
Proof. unfold complete_Activity. intros Hc. completed Hc. now conforms_fields Activity_type. Qed.

Lemma complete_City_conforms (c : City.t) (v : value) :
  complete_City c = Ok v -> conforms (NonNull City_type) v = true.
Proof. unfold complete_City. intros Hc. completed Hc. now conforms_fields City_type. Qed.

Lemma complete_DailyForecast_conforms (d : DailyForecast.t) (v : value) :
  complete_DailyForecast d = Ok v -> conforms (NonNull DailyForecast_type) v = true.
Proof.
  unfold complete_DailyForecast. intros Hc. completed Hc.
  apply (traverse_Ok_forallb _ _ _ _ complete_Activity_conforms) in E3.
  now conforms_fields DailyForecast_type.
Qed.

Lemma complete_Weather_conforms (w : Weather.t) (v : value) :
  complete_Weather w = Ok v -> conforms (NonNull Weather_type) v = true.
Proof.
  unfold complete_Weather. intros Hc. completed Hc.
  apply (traverse_Ok_forallb _ _ _ _ complete_DailyForecast_conforms) in E3.
  now conforms_fields Weather_type.
Qed.

Lemma complete_CityWeather_conforms (cw : CityWeather.t) (v : value) :
  complete_CityWeather cw = Ok v -> conforms (NonNull CityWeather_type) v = true.
Proof.
  unfold complete_CityWeather. intros Hc. completed Hc.
  apply complete_City_conforms in E. apply complete_Weather_conforms in E0.
  now conforms_fields CityWeather_type.
Qed.

(** ** The errors of the coercion *)

Lemma serializeInt_Err (x : number) (e : exn) :
  serializeInt x = Err e -> plain_error e = true.
Proof.
  unfold serializeInt. destruct (as_integer x); [destruct (_ && _)|];
    intros [= <-]; reflexivity.
Qed.

Lemma serializeFloat_Err (x : number) (e : exn) :
  serializeFloat x = Err e -> plain_error e = true.
Proof. unfold serializeFloat. destruct (is_finite x); intros [= <-]; reflexivity. Qed.

Lemma traverse_plain_error {A : Type} (f : A -> result exn value) (l : list A) (e : exn) :
  (forall a e, f a = Err e -> plain_error e = true) ->
  traverse f l = Err e -> plain_error e = true.
Proof. intros Hf (a & _ & Ha)%traverse_Err. eauto. Qed.

(** The binding of a completion that throws. *)
Ltac thrown :=
  repeat match goal with
  | H : bind (serializeString _) _ = Err _ |- _ => cbn [serializeString bind] in H
  | H : bind ?c _ = Err _ |- _ =>
      let E := fresh "E" in
      destruct c eqn:E; cbn [bind] in H; [|injection H as <-]
  end;
  try discriminate;
  eauto using serializeInt_Err, serializeFloat_Err, traverse_plain_error.

Lemma complete_Activity_Err (a : Activity.t) (e : exn) :
  complete_Activity a = Err e -> plain_error e = true.
Proof. unfold complete_Activity. intros Hc. thrown. Qed.

Lemma complete_City_Err (c : City.t) (e : exn) :
  complete_City c = Err e -> plain_error e = true.
Proof. unfold complete_City. intros Hc. thrown. Qed.

Lemma complete_DailyForecast_Err (d : DailyForecast.t) (e : exn) :
  complete_DailyForecast d = Err e -> plain_error e = true.
Proof.
  unfold complete_DailyForecast. intros Hc. pose proof complete_Activity_Err. thrown.
Qed.

Lemma complete_Weather_Err (w : Weather.t) (e : exn) :
  complete_Weather w = Err e -> plain_error e = true.
Proof.
  unfold complete_Weather. intros Hc. pose proof complete_DailyForecast_Err. thrown.
Qed.

Lemma complete_CityWeather_Err (cw : CityWeather.t) (e : exn) :
  complete_CityWeather cw = Err e -> plain_error e = true.
Proof.
  unfold complete_CityWeather. intros Hc.
  pose proof complete_City_Err. pose proof complete_Weather_Err. thrown.
Qed.

End Coercion.

(** The integers of [0..100] are values of [Int]. *)
Lemma int_between_int32 (lo hi : Z) (x : number) :
  (MIN_INT <= lo)%Z -> (hi <= MAX_INT)%Z -> int_between lo hi x -> is_int32 x = true.
Proof.
  intros Hlo Hhi (z & -> & Hz). unfold is_int32.
  change (Fin z 0) with (int z). rewrite as_integer_int.
  apply andb_true_iff. split; apply Z.leb_le; lia.
Qed.
