(* ===== verification/Selection.v ===== *)
(** * Selection: the fields a query selects

    A query names the fields it wants of every object it reaches: the
    queries of [src/src/__tests__/openMeteoAPI.test.ts] select every field
    of a city and of the weather, or only some of them.  A [selection] is
    the selection set of a field as the engine collects it: the selected
    fields in their order, fields of the same name merged, each with the
    selection set below it (empty for a scalar).

    [restrict t sel] is the type of the response for a field of type [t]
    queried with [sel]: the objects keep the selected fields, in the order
    of the selection.  [everything t] selects every field of [t].

    The engine completes a result of an object type field by field, in the
    order of the selection: [select_fields] looks each selected field up in
    the fields of the object ([field_table]: the name of the field and the
    completion of its value for the selection below it), skips a field the
    type does not have, and throws what the first failing field throws,
    because every field of the schema is non-null.  [select_Activity],
    [select_City] and the others are the completions of the object types of
    the schema.

    The theorems show that the completed value of every selection has the
    restricted type ([sound]), that the completion for the selection of
    every field is the completion of [Schema], which errors can be thrown,
    and that a selection of fewer fields succeeds whenever a selection of
    more fields does. *)

From Stdlib Require Import String Ascii List Bool Lia.
From S2P Require Import Prelude JsNumber Types Errors NumberText Schema.
Import ListNotations.

Local Open Scope list_scope.
Local Open Scope string_scope.
Local Open Scope js_scope.

(** ** Selection sets *)

Unset Elimination Schemes.
Inductive selection : Type :=
| Select (fields : list (string * selection)).
Set Elimination Schemes.

(** Induction with a hypothesis for the selection below every field. *)
Definition selection_ind (P : selection -> Prop)
    (step : forall fields, Forall (fun fs => P (snd fs)) fields -> P (Select fields)) :
    forall sel, P sel :=
  fix F (sel : selection) : P sel :=
    match sel with
    | Select fields =>
        step fields
          ((fix G (l : list (string * selection)) : Forall (fun fs => P (snd fs)) l :=
              match l with
              | [] => Forall_nil _
              | fs :: l' => Forall_cons fs (F (snd fs)) (G l')
              end) fields)
    end.

Definition fields_of (sel : selection) : list (string * selection) :=
  match sel with
  | Select fields => fields
  end.

Definition is_nil {A : Type} (l : list A) : bool :=
  match l with
  | [] => true
  | _ :: _ => false
  end.

(** The selection of a scalar. *)
Definition leaf : selection := Select [].

(** The first entry of a name in a list of named things. *)
Fixpoint lookup {V : Type} (f : string) (l : list (string * V)) : option V :=
  match l with
  | [] => None
  | (g, v) :: l' => if f =? g then Some v else lookup f l'
  end.

(** The named type below the wrappers of a type, and the wrappers around
    another type. *)
Fixpoint named (t : gtype) : gtype :=
  match t with
  | ListOf t' | NonNull t' => named t'
  | _ => t
  end.

Fixpoint rewrap (t inner : gtype) : gtype :=
  match t with
  | ListOf t' => ListOf (rewrap t' inner)
  | NonNull t' => NonNull (rewrap t' inner)
  | _ => inner
  end.

(** Every field of the type, and every field below. *)
Fixpoint everything (t : gtype) : selection :=
  match t with
  | Scalar _ => leaf
  | ListOf t' | NonNull t' => everything t'
  | ObjectType _ fields =>
      Select ((fix all (l : list (string * gtype)) : list (string * selection) :=
                 match l with
                 | [] => []
                 | (f, ft) :: l' => (f, everything ft) :: all l'
                 end) fields)
  end.

(** The type of the response for a field of type [t] queried with [sel]. *)
Fixpoint restrict (t : gtype) (sel : selection) {struct sel} : gtype :=
  match sel with
  | Select fields =>
      rewrap t
        match named t with
        | ObjectType name declared =>
            ObjectType name
              ((fix selected (l : list (string * selection)) : list (string * gtype) :=
                  match l with
                  | [] => []
                  | (f, sub) :: l' =>
                      match lookup f declared with
                      | Some ft => (f, restrict ft sub) :: selected l'
                      | None => selected l'
                      end
                  end) fields)
        | s => s
        end
  end.

(** The selected fields of an object with the fields [declared]. *)
Fixpoint restrict_fields (declared : list (string * gtype))
    (fields : list (string * selection)) : list (string * gtype) :=
  match fields with
  | [] => []
  | (f, sub) :: fields' =>
      match lookup f declared with
      | Some ft => (f, restrict ft sub) :: restrict_fields declared fields'
      | None => restrict_fields declared fields'
      end
  end.

(** The query is valid for the type: every selected field is a field of the
    type, an object has a selection and a scalar has none. *)
Fixpoint valid (t : gtype) (sel : selection) {struct sel} : bool :=
  match sel with
  | Select fields =>
      match named t with
      | ObjectType _ declared =>
          negb (is_nil fields)
          && (fix all (l : list (string * selection)) : bool :=
                match l with
                | [] => true
                | (f, sub) :: l' =>
                    match lookup f declared with
                    | Some ft => valid ft sub && all l'
                    | None => false
                    end
                end) fields
      | _ => is_nil fields
      end
  end.

(** [sel'] selects fewer fields than [sel]: every field of [sel'] is a
    field of [sel], with fewer fields below. *)
Fixpoint within (sel' sel : selection) {struct sel'} : bool :=
  match sel' with
  | Select fields' =>
      (fix all (l : list (string * selection)) : bool :=
         match l with
         | [] => true
         | (f, sub') :: l' =>
             match lookup f (fields_of sel) with
             | Some sub => within sub' sub && all l'
             | None => false
             end
         end) fields'
  end.

(** ** Completion of the selected fields *)

(** The fields of an object: the name of each and the completion of its
    value for the selection below it. *)
Definition field_table : Type := list (string * (selection -> result exn value)).

Fixpoint select_fields (table : field_table) (fields : list (string * selection)) :
    result exn (list (string * value)) :=
  match fields with
  | [] => Ok []
  | (f, sub) :: fields' =>
      match lookup f table with
      | Some complete_field =>
          v <- complete_field sub ;;
          properties <- select_fields table fields' ;;
          Ok ((f, v) :: properties)
      | None => select_fields table fields'
      end
  end.

Definition select_object (table : field_table) (sel : selection) : result exn value :=
  properties <- select_fields table (fields_of sel) ;;
  Ok (Object properties).

(** A list whose items are completed by [select]. *)
Definition select_list {A : Type} (select : selection -> A -> result exn value)
    (l : list A) (sel : selection) : result exn value :=
  items <- traverse (select sel) l ;;
  Ok (Array items).

Section Completion.
Context `{NumberText}.

Definition Activity_fields (a : Activity.t) : field_table :=
  [ ("name", fun _ => serializeString (Activity.name a));
    ("suitabilityScore", fun _ => serializeInt (Activity.suitabilityScore a));
    ("reasoning", fun _ => serializeString (Activity.reasoning a)) ].

Definition select_Activity (sel : selection) (a : Activity.t) : result exn value :=
  select_object (Activity_fields a) sel.

Definition City_fields (c : City.t) : field_table :=
  [ ("id", fun _ => serializeString (City.id c));
    ("name", fun _ => serializeString (City.name c));
    ("country", fun _ => serializeString (City.country c));
    ("latitude", fun _ => serializeFloat (City.latitude c));
    ("longitude", fun _ => serializeFloat (City.longitude c)) ].

Definition select_City (sel : selection) (c : City.t) : result exn value :=
  select_object (City_fields c) sel.

Definition DailyForecast_fields (d : DailyForecast.t) : field_table :=
  [ ("date", fun _ => serializeString (DailyForecast.date d));
    ("maxTemp", fun _ => serializeFloat (DailyForecast.maxTemp d));
    ("minTemp", fun _ => serializeFloat (DailyForecast.minTemp d));
    ("conditions", fun _ => serializeString (DailyForecast.conditions d));
    ("precipitation", fun _ => serializeFloat (DailyForecast.precipitation d));
    ("windSpeed", fun _ => serializeFloat (DailyForecast.windSpeed d));
    ("activities", select_list select_Activity (DailyForecast.activities d)) ].

Definition select_DailyForecast (sel : selection) (d : DailyForecast.t) : result exn value :=
  select_object (DailyForecast_fields d) sel.

Definition Weather_fields (w : Weather.t) : field_table :=
  [ ("temperature", fun _ => serializeFloat (Weather.temperature w));
    ("conditions", fun _ => serializeString (Weather.conditions w));
    ("humidity", fun _ => serializeFloat (Weather.humidity w));
    ("windSpeed", fun _ => serializeFloat (Weather.windSpeed w));
    ("precipitation", fun _ => serializeFloat (Weather.precipitation w));
    ("forecast", select_list select_DailyForecast (Weather.forecast w)) ].

Definition select_Weather (sel : selection) (w : Weather.t) : result exn value :=
  select_object (Weather_fields w) sel.

Definition CityWeather_fields (cw : CityWeather.t) : field_table :=
  [ ("city", fun sel => select_City sel (CityWeather.city cw));
    ("weather", fun sel => select_Weather sel (CityWeather.weather cw)) ].

Definition select_CityWeather (sel : selection) (cw : CityWeather.t) : result exn value :=
  select_object (CityWeather_fields cw) sel.

End Completion.

(** ** The restricted type *)

Lemma restrict_NonNull (t : gtype) (sel : selection) :
  restrict (NonNull t) sel = NonNull (restrict t sel).
Proof. now destruct sel. Qed.

Lemma restrict_ListOf (t : gtype) (sel : selection) :
  restrict (ListOf t) sel = ListOf (restrict t sel).
Proof. now destruct sel. Qed.

Lemma restrict_Scalar (s : Scalars.t) (sel : selection) : restrict (Scalar s) sel = Scalar s.
Proof. now destruct sel. Qed.

Lemma restrict_Object (name : Typename.t) (declared : list (string * gtype))
  (sel : selection) :
  restrict (ObjectType name declared) sel
  = ObjectType name (restrict_fields declared (fields_of sel)).
Proof.
  destruct sel as [fields]. cbn [restrict named rewrap fields_of]. f_equal.
  induction fields as [|[f sub] fields IH]; [reflexivity|].
  cbn [restrict_fields]. now destruct (lookup f declared); rewrite IH.
Qed.

Create Rewrite HintDb restrict.
#[export] Hint Rewrite restrict_NonNull restrict_ListOf restrict_Scalar restrict_Object : restrict.

Lemma conforms_Object_cons (name : Typename.t) (f p : string) (ft : gtype) (pv : value)
  (fields : list (string * gtype)) (properties : list (string * value)) :
  conforms (NonNull (ObjectType name ((f, ft) :: fields))) (Object ((p, pv) :: properties))
  = (f =? p) && conforms ft pv && conforms (NonNull (ObjectType name fields)) (Object properties).
Proof. reflexivity. Qed.

(** Every field of the type is selected by [everything]. *)
Lemma everything_Object (name : Typename.t) (declared : list (string * gtype)) :
  everything (ObjectType name declared)
  = Select (map (fun ft => (fst ft, everything (snd ft))) declared).
Proof.
  cbn [everything]. f_equal.
  induction declared as [|[f ft] declared IH]; [reflexivity|]. now rewrite IH.
Qed.

(** ** Soundness of the completion *)

(** The completion [k] of a field of type [t] returns values of the type
    the selection leaves. *)
Definition sound (t : gtype) (k : selection -> result exn value) : Prop :=
  forall sel v, k sel = Ok v -> conforms (restrict t sel) v = true.

(** The table has the fields of the type, in their order, and completes
    each soundly. *)
Definition implements (declared : list (string * gtype)) (table : field_table) : Prop :=
  Forall2 (fun ft fk => fst ft = fst fk /\ sound (snd ft) (snd fk)) declared table.

Lemma implements_lookup (declared : list (string * gtype)) (table : field_table)
  (f : string) :
  implements declared table ->
  match lookup f declared, lookup f table with
  | Some ft, Some k => sound ft k
  | None, None => True
  | _, _ => False
  end.
Proof.
  induction 1 as [|[g ft] [g' k] declared table [Hg Hk] _ IH]; [exact I|].
  cbn in Hg, Hk. subst g'. cbn [lookup]. now destruct (f =? g).
Qed.

Lemma select_fields_conforms (name : Typename.t) (declared : list (string * gtype))
  (table : field_table) (fields : list (string * selection))
  (properties : list (string * value)) :
  implements declared table ->
  select_fields table fields = Ok properties ->
  conforms (NonNull (ObjectType name (restrict_fields declared fields))) (Object properties)
  = true.
Proof.
  intros Hi. revert properties.
  induction fields as [|[f sub] fields IH]; intros properties; cbn [select_fields restrict_fields].
  - now intros [= <-].
  - pose proof (implements_lookup _ _ f Hi) as Hf.
    destruct (lookup f declared) as [ft|], (lookup f table) as [k|]; try contradiction; [|apply IH].
    destruct (k sub) as [v|] eqn:Ek; [|discriminate]. cbn [bind].
    destruct (select_fields table fields) as [rest|]; [|discriminate]. intros [= <-].
    now rewrite conforms_Object_cons, String.eqb_refl, (Hf _ _ Ek), IH.
Qed.

(** An object whose fields are completed soundly is completed soundly. *)
Lemma select_object_sound (name : Typename.t) (declared : list (string * gtype))
  (table : field_table) :
  implements declared table ->
  sound (NonNull (ObjectType name declared)) (select_object table).
Proof.
  intros Hi sel v. unfold select_object.
  destruct (select_fields table (fields_of sel)) as [properties|] eqn:Es; [|discriminate].
  intros [= <-]. autorewrite with restrict. now apply select_fields_conforms with table.
Qed.

Lemma select_list_sound {A : Type} (t : gtype) (select : selection -> A -> result exn value)
  (l : list A) :
  (forall a, sound (NonNull t) (fun sel => select sel a)) ->
  sound (NonNull (ListOf (NonNull t))) (select_list select l).
Proof.
  intros Hs sel v. unfold select_list.
  destruct (traverse (select sel) l) as [items|] eqn:Et; [|discriminate].
  intros [= <-]. autorewrite with restrict. rewrite conforms_list.
  revert Et. apply traverse_Ok_forallb. intros a b Hab.
  rewrite <- restrict_NonNull. now apply (Hs a).
Qed.

Section Soundness.
Context `{NumberText}.

Lemma serializeString_sound (s : string) :
  sound (NonNull (Scalar Scalars.String)) (fun _ => serializeString s).
Proof. intros sel v [= <-]. now autorewrite with restrict. Qed.

Lemma serializeInt_sound (x : number) :
  sound (NonNull (Scalar Scalars.Int)) (fun _ => serializeInt x).
Proof. intros sel v [-> Hx]%serializeInt_Ok. now autorewrite with restrict. Qed.

Lemma serializeFloat_sound (x : number) :
  sound (NonNull (Scalar Scalars.Float)) (fun _ => serializeFloat x).
Proof. intros sel v [-> Hx]%serializeFloat_Ok. now autorewrite with restrict. Qed.

(** The fields of a table, one after the other. *)
Ltac implemented :=
  repeat (apply Forall2_cons; [split; [reflexivity|cbn [snd]]|]);
  try apply Forall2_nil;
  auto using serializeString_sound, serializeInt_sound, serializeFloat_sound.

Lemma select_Activity_sound (a : Activity.t) :
  sound (NonNull Activity_type) (fun sel => select_Activity sel a).
Proof. apply select_object_sound. implemented. Qed.

Lemma select_City_sound (c : City.t) :
  sound (NonNull City_type) (fun sel => select_City sel c).
Proof. apply select_object_sound. implemented. Qed.

Lemma select_DailyForecast_sound (d : DailyForecast.t) :
  sound (NonNull DailyForecast_type) (fun sel => select_DailyForecast sel d).
Proof.
  apply select_object_sound. implemented.
  apply select_list_sound, select_Activity_sound.
Qed.

Lemma select_Weather_sound (w : Weather.t) :
  sound (NonNull Weather_type) (fun sel => select_Weather sel w).
Proof.
  apply select_object_sound. implemented.
  apply select_list_sound, select_DailyForecast_sound.
Qed.

Lemma select_CityWeather_sound (cw : CityWeather.t) :
  sound (NonNull CityWeather_type) (fun sel => select_CityWeather sel cw).
Proof.
  apply select_object_sound. implemented;
    [apply select_City_sound | apply select_Weather_sound].
Qed.

End Soundness.

(** ** The fields of a table *)

Lemma lookup_In {V : Type} (f : string) (l : list (string * V)) (v : V) :
  lookup f l = Some v -> In (f, v) l.
Proof.
  induction l as [|[g w] l IH]; cbn [lookup]; [discriminate|].
  destruct (f =? g) eqn:Eg; [|right; auto].
  apply String.eqb_eq in Eg as ->. intros [= ->]. now left.
Qed.

Lemma lookup_Forall {V : Type} (P : V -> Prop) (f : string) (l : list (string * V)) (v : V) :
  Forall (fun fv => P (snd fv)) l -> lookup f l = Some v -> P v.
Proof. rewrite Forall_forall. intros HP Hf%lookup_In. exact (HP _ Hf). Qed.

Lemma select_fields_is_ok (table : field_table) (fields : list (string * selection)) :
  is_ok (select_fields table fields)
  = forallb (fun fs => match lookup (fst fs) table with
                       | Some k => is_ok (k (snd fs))
                       | None => true
                       end) fields.
Proof.
  induction fields as [|[f sub] fields IH]; [reflexivity|]. cbn [select_fields forallb fst snd].
  rewrite <- IH. destruct (lookup f table) as [k|]; [|reflexivity].
  destruct (k sub); [|reflexivity]. cbn [bind is_ok andb].
  now destruct (select_fields table fields).
Qed.

Lemma select_object_is_ok (table : field_table) (sel : selection) :
  is_ok (select_object table sel) = is_ok (select_fields table (fields_of sel)).
Proof. unfold select_object. now destruct (select_fields _ _). Qed.

(** ** The errors of the completion *)

Definition throws_plain (k : selection -> result exn value) : Prop :=
  forall sel e, k sel = Err e -> plain_error e = true.

Lemma select_object_Err (table : field_table) :
  Forall (fun fk => throws_plain (snd fk)) table -> throws_plain (select_object table).
Proof.
  intros Ht sel e. unfold select_object.
  destruct (select_fields table (fields_of sel)) as [|e'] eqn:Es; [discriminate|].
  intros [= <-]. revert Es.
  induction (fields_of sel) as [|[f sub] fields IH]; cbn [select_fields]; [discriminate|].
  destruct (lookup f table) as [k|] eqn:Ek; [|exact IH].
  destruct (k sub) as [v|e''] eqn:Ev; cbn [bind].
  - destruct (select_fields table fields); [discriminate|]. intros [= <-]. auto.
  - intros [= <-]. exact (lookup_Forall _ _ _ _ Ht Ek _ _ Ev).
Qed.

Lemma select_list_Err {A : Type} (select : selection -> A -> result exn value) (l : list A) :
  (forall a, throws_plain (fun sel => select sel a)) -> throws_plain (select_list select l).
Proof.
  intros Hs sel e. unfold select_list.
  destruct (traverse (select sel) l) eqn:Et; [discriminate|]. intros [= <-].
  revert Et. apply traverse_plain_error. intros a e'. apply (Hs a).
Qed.

(** ** Fewer fields *)

Lemma within_Select (fields' : list (string * selection)) (sel : selection) :
  within (Select fields') sel
  = forallb (fun fs => match lookup (fst fs) (fields_of sel) with
                       | Some sub => within (snd fs) sub
                       | None => false
                       end) fields'.
Proof.
  cbn [within]. induction fields' as [|[f sub'] fields' IH]; [reflexivity|].
  cbn [forallb fst snd]. rewrite <- IH. now destruct (lookup f (fields_of sel)).
Qed.


(** The completion [k] succeeds on fewer fields when it succeeds on more. *)
Definition monotone (k : selection -> result exn value) : Prop :=
  forall sel' sel, within sel' sel = true -> is_ok (k sel) = true -> is_ok (k sel') = true.

Lemma select_object_monotone (table : field_table) :
  Forall (fun fk => monotone (snd fk)) table -> monotone (select_object table).
Proof.
  intros Ht [fields'] sel Hw. rewrite !select_object_is_ok, !select_fields_is_ok.
  rewrite within_Select in Hw. rewrite !forallb_forall in *. intros Hsel [f sub'] Hf'.
  cbn [fst snd fields_of]. destruct (lookup f table) as [k|] eqn:Ek; [|reflexivity].
  specialize (Hw _ Hf'). cbn [fst snd] in Hw.
  destruct (lookup f (fields_of sel)) as [sub|] eqn:Ef; [|discriminate].
  apply lookup_In, Hsel in Ef. cbn [fst snd] in Ef. rewrite Ek in Ef.
  exact (lookup_Forall _ _ _ _ Ht Ek _ _ Hw Ef).
Qed.

Lemma select_list_monotone {A : Type} (select : selection -> A -> result exn value)
  (l : list A) :
  (forall a, monotone (fun sel => select sel a)) -> monotone (select_list select l).
Proof.
  intros Hs sel' sel Hw. unfold select_list.
  assert (Hl : forall s, is_ok (items <- traverse (select s) l ;; Ok (Array items))
                         = is_ok (traverse (select s) l)).
  { intros s. now destruct (traverse _ _). }
  rewrite !Hl, !traverse_is_ok, !forallb_forall. intros Hsel a Ha.
  exact (Hs a _ _ Hw (Hsel a Ha)).
Qed.

Lemma leaf_monotone (r : result exn value) : monotone (fun _ => r).
Proof. now intros sel' sel _. Qed.

(** ** The object types of the schema *)

Section Objects.
Context `{NumberText}.

Lemma serializeString_throws (s : string) : throws_plain (fun _ => serializeString s).
Proof. intros sel e. discriminate. Qed.

Lemma serializeInt_throws (x : number) : throws_plain (fun _ => serializeInt x).
Proof. intros sel e. apply serializeInt_Err. Qed.

Lemma serializeFloat_throws (x : number) : throws_plain (fun _ => serializeFloat x).
Proof. intros sel e. apply serializeFloat_Err. Qed.

(** The fields of a table whose values are scalars, one after the other. *)
Ltac scalars :=
  repeat (apply Forall_cons; [cbn [snd]|]); try apply Forall_nil;
  auto using serializeString_throws, serializeInt_throws, serializeFloat_throws,
    leaf_monotone.

Lemma select_Activity_Err (a : Activity.t) : throws_plain (fun sel => select_Activity sel a).
Proof. apply select_object_Err. scalars. Qed.

Lemma select_City_Err (c : City.t) : throws_plain (fun sel => select_City sel c).
Proof. apply select_object_Err. scalars. Qed.

Lemma select_DailyForecast_Err (d : DailyForecast.t) :
  throws_plain (fun sel => select_DailyForecast sel d).
Proof. apply select_object_Err. scalars. apply select_list_Err, select_Activity_Err. Qed.

Lemma select_Weather_Err (w : Weather.t) : throws_plain (fun sel => select_Weather sel w).
Proof. apply select_object_Err. scalars. apply select_list_Err, select_DailyForecast_Err. Qed.

Lemma select_CityWeather_Err (cw : CityWeather.t) :
  throws_plain (fun sel => select_CityWeather sel cw).
Proof.
  apply select_object_Err. scalars; [apply select_City_Err | apply select_Weather_Err].
Qed.

Lemma select_Activity_monotone (a : Activity.t) : monotone (fun sel => select_Activity sel a).
Proof. apply select_object_monotone. scalars. Qed.

Lemma select_City_monotone (c : City.t) : monotone (fun sel => select_City sel c).
Proof. apply select_object_monotone. scalars. Qed.

Lemma select_DailyForecast_monotone (d : DailyForecast.t) :
  monotone (fun sel => select_DailyForecast sel d).
Proof.
  apply select_object_monotone. scalars.
  apply select_list_monotone, select_Activity_monotone.
Qed.

Lemma select_Weather_monotone (w : Weather.t) : monotone (fun sel => select_Weather sel w).
Proof.
  apply select_object_monotone. scalars.
  apply select_list_monotone, select_DailyForecast_monotone.
Qed.

Lemma select_CityWeather_monotone (cw : CityWeather.t) :
  monotone (fun sel => select_CityWeather sel cw).
Proof.
  apply select_object_monotone. scalars;
    [apply select_City_monotone | apply select_Weather_monotone].
Qed.

(** *** The selection of every field *)

(** Case analysis on every coercion of the goal. *)
Ltac coerced :=
  cbn; unfold select_list; cbn;
  repeat match goal with
  | |- context [serializeInt ?x] => destruct (serializeInt x); cbn
  | |- context [serializeFloat ?x] => destruct (serializeFloat x); cbn
  | |- context [traverse ?f ?l] => destruct (traverse f l); cbn
  | |- context [select_City ?sel ?c] => destruct (select_City sel c); cbn
  | |- context [select_Weather ?sel ?w] => destruct (select_Weather sel w); cbn
  end;
  reflexivity.

Lemma select_Activity_everything (a : Activity.t) :
  select_Activity (everything Activity_type) a = complete_Activity a.
Proof. unfold select_Activity, select_object, complete_Activity. coerced. Qed.

Lemma select_City_everything (c : City.t) :
  select_City (everything City_type) c = complete_City c.
Proof. unfold select_City, select_object, complete_City. coerced. Qed.

Lemma select_DailyForecast_everything (d : DailyForecast.t) :
  select_DailyForecast (everything DailyForecast_type) d = complete_DailyForecast d.
Proof.
  unfold select_DailyForecast, select_object, complete_DailyForecast.
  rewrite <- (traverse_ext _ _ _ select_Activity_everything). coerced.
Qed.

Lemma select_Weather_everything (w : Weather.t) :
  select_Weather (everything Weather_type) w = complete_Weather w.
Proof.
  unfold select_Weather, select_object, complete_Weather.
  rewrite <- (traverse_ext _ _ _ select_DailyForecast_everything). coerced.
Qed.

Lemma select_CityWeather_everything (cw : CityWeather.t) :
  select_CityWeather (everything CityWeather_type) cw = complete_CityWeather cw.
Proof.
  unfold select_CityWeather, select_object, complete_CityWeather.
  rewrite <- select_City_everything, <- select_Weather_everything. coerced.
Qed.

End Objects.

(** ** Valid queries *)

(** The type has exactly the fields of the selection, in its order, at
    every level. *)
Fixpoint exact (t : gtype) (sel : selection) {struct sel} : bool :=
  match sel with
  | Select fields =>
      match named t with
      | ObjectType _ declared =>
          (fix all (l : list (string * selection)) (d : list (string * gtype)) : bool :=
             match l, d with
             | [], [] => true
             | (f, sub) :: l', (g, ft) :: d' => (f =? g) && exact ft sub && all l' d'
             | _, _ => false
             end) fields declared
      | _ => is_nil fields
      end
  end.

Lemma named_cases (t : gtype) :
  (exists s, named t = Scalar s) \/ (exists name declared, named t = ObjectType name declared).
Proof. induction t; cbn [named]; eauto. Qed.

Lemma named_rewrap (t inner : gtype) : named inner = inner -> named (rewrap t inner) = inner.
Proof. intros Hi. induction t; cbn [rewrap named]; auto. Qed.

(** For a valid query no selected field is skipped: the type of the
    response has exactly the selected fields. *)
Lemma valid_exact (sel : selection) (t : gtype) :
  valid t sel = true -> exact (restrict t sel) sel = true.
Proof.
  revert t. induction sel as [fields IH] using selection_ind. intros t.
  cbn [valid restrict exact].
  destruct (named_cases t) as [[s ->] | (name & declared & ->)];
    [now rewrite named_rewrap|].
  rewrite named_rewrap by reflexivity. intros [_ Hall]%andb_true_iff. revert Hall.
  induction IH as [|[f sub] fields Hsub _ IHfields]; [reflexivity|].
  destruct (lookup f declared) as [ft|]; [|discriminate].
  intros [Hv Hall]%andb_true_iff. cbn [snd] in Hsub.
  now rewrite String.eqb_refl, (Hsub _ Hv), IHfields.
Qed.

Lemma everything_named (t : gtype) : everything (named t) = everything t.
Proof. induction t; cbn [named everything]; auto. Qed.

Lemma lookup_map {V W : Type} (g : V -> W) (f : string) (l : list (string * V)) :
  lookup f (map (fun fv => (fst fv, g (snd fv))) l) = option_map g (lookup f l).
Proof.
  induction l as [|[f' v] l IH]; [reflexivity|]. cbn [map lookup fst snd].
  now destruct (f =? f').
Qed.

(** A valid query selects fewer fields than the query of every field. *)
Lemma valid_within_everything (sel : selection) (t : gtype) :
  valid t sel = true -> within sel (everything t) = true.
Proof.
  revert t. induction sel as [fields IH] using selection_ind. intros t.
  rewrite within_Select, <- everything_named. cbn [valid].
  destruct (named_cases t) as [[s ->] | (name & declared & ->)];
    [now destruct fields|].
  rewrite everything_Object. cbn [fields_of]. intros [_ Hall]%andb_true_iff. revert Hall.
  induction IH as [|[f sub] fields Hsub _ IHfields]; [reflexivity|].
  cbn [forallb fst snd] in *. rewrite lookup_map.
  destruct (lookup f declared) as [ft|]; [|discriminate].
  intros [Hv Hall]%andb_true_iff. cbn [option_map]. now rewrite (Hsub _ Hv), IHfields.
Qed.
