(* ===== verification/OpenMeteoAPI.v ===== *)
(** * OpenMeteoAPI: [src/unnamed/part_001], the client of the Open-Meteo services

    The class [OpenMeteoAPI] of the source: the city identifier codec
    ([cityId] built by [searchCities], [parseCityId], [isValidCoordinate]),
    the weather-code vocabulary ([getWeatherCondition]), and the three
    asynchronous methods [searchCities], [getWeatherData] and
    [getWeatherByCityId].

    A method is a program of [Http.prog] over the two requests of [api]; it
    ends in [Ok v] when the method returns [v] and in [Err e] when it throws
    [e].  The outcome of a request is an input of the model: [Fulfilled
    (Some data)] for a response with a body, [Fulfilled None] for a response
    whose body is [undefined] (the first property access on it throws a
    [TypeError]), [Rejected e] for a rejected request.

    An array read out of range is [undefined] in the source: a numeric field
    read so is [NaN] here (every use of such a field is arithmetic or a
    comparison, where [undefined] behaves as [NaN]), and a weather code read
    so is [None], which [getWeatherCondition] prints as [undefined].

    Of the response types only the fields the methods read are kept.  The
    texts of numbers come from the interface [NumberText] and the ranking
    of a day from the interface [RankingService] of [Ranking]: the section
    [Service] holds for any instance of the first and any lawful instance
    of the second, the section [Decimal] for the ranking in exact decimal
    arithmetic, and the section [Rankings] compares the results with two
    ranking services.  Logging is not modelled. *)

From Stdlib Require Import String Ascii List ZArith Bool Lia Morphisms QArith.
From S2P Require Import Prelude JsNumber JsString JsArray Types Constants.
From S2P Require Import ActivityRanking Ranking Http Errors NumberText.
Import ListNotations.

Local Open Scope list_scope.
Local Open Scope string_scope.
Local Open Scope js_scope.

(** ** The responses of the two services *)

Module GeocodingResult.
Record t : Type := mk {
  name : string;
  latitude : number;
  longitude : number;
  feature_code : string;
  country : string
}.
End GeocodingResult.

Module GeocodingResponse.
Record t : Type := mk {
  results : option (list GeocodingResult.t)
}.
End GeocodingResponse.

Module CurrentWeather.
Record t : Type := mk {
  temperature_2m : number;
  relative_humidity_2m : number;
  precipitation : number;
  weather_code : number;
  wind_speed_10m : number
}.
End CurrentWeather.

Module DailyWeather.
Record t : Type := mk {
  time : list string;
  weather_code : list number;
  temperature_2m_max : list number;
  temperature_2m_min : list number;
  precipitation_sum : list number;
  wind_speed_10m_max : list number
}.
End DailyWeather.

Module WeatherResponse.
Record t : Type := mk {
  current : CurrentWeather.t;
  daily : DailyWeather.t
}.
End WeatherResponse.

(** ** The requests *)

Module SearchParams.
Record t : Type := mk {
  name : string;
  count : number;
  language : string;
  format : string
}.
End SearchParams.

Module ForecastParams.
Record t : Type := mk {
  latitude : number;
  longitude : number;
  current : string;
  daily : string;
  timezone : string;
  forecast_days : number
}.
End ForecastParams.

(** [axios.get<T>(url, { params, timeout })], by the type [T] of the body. *)
Inductive api : Type -> Type :=
| get_search (url : string) (params : SearchParams.t) (timeout : number) :
    api (settled exn GeocodingResponse.t)
| get_forecast (url : string) (params : ForecastParams.t) (timeout : number) :
    api (settled exn WeatherResponse.t).

Definition GEOCODING_BASE_URL : string := "https://geocoding-api.open-meteo.com/v1".
Definition WEATHER_BASE_URL : string := "https://api.open-meteo.com/v1".
Definition REQUEST_TIMEOUT_MS : number := int 10000.
Definition MAX_RESULTS : number := int 10.

(** [response.data] of a response whose body may be [undefined]: the
    property access that follows throws on [undefined]. *)
Definition data_of {T : Type} (data : option T) : result exn T :=
  match data with
  | Some d => Ok d
  | None => Err (Error "Cannot read properties of undefined")
  end.

(** ** Results of the methods *)

(** [{ latitude, longitude, name, country }], the result of [parseCityId]
    and the [cityInfo] of [getWeatherByCityId]. *)
Module CityInfo.
Record t : Type := mk {
  latitude : number;
  longitude : number;
  name : string;
  country : string
}.
End CityInfo.

Module WeatherByCityId.
Record t : Type := mk {
  weather : Weather.t;
  cityInfo : CityInfo.t
}.
End WeatherByCityId.

(** ** Coordinates *)

Definition isValidCoordinate (latitude longitude : number) : bool :=
  negb (is_NaN latitude) && negb (is_NaN longitude)
  && geb latitude (int (-90)) && leb latitude (int 90)
  && geb longitude (int (-180)) && leb longitude (int 180).

(** [a[index]] on an array of numbers. *)
Definition number_at (a : list number) (index : nat) : number :=
  match nth_error a index with
  | Some x => x
  | None => NaN
  end.

(** [WEATHER_CODES[code]]: the property whose name is the text of [code]. *)
Fixpoint assoc (k : Z) (table : list (Z * string)) : option string :=
  match table with
  | [] => None
  | (k', v) :: rest => if (k =? k')%Z then Some v else assoc k rest
  end.

Definition WEATHER_CODES_at (code : option number) : option string :=
  match code with
  | Some x =>
      match as_integer x with
      | Some k => assoc k WEATHER_CODES
      | None => None
      end
  | None => None
  end.

Section Service.
Context `{NumberText} {ranking : RankingService.service} {ranking_ok : RankingService.ok ranking}.

(** The text of [code] in a template literal. *)
Definition code_text (code : option number) : string :=
  match code with
  | Some x => Number_toString x
  | None => "undefined"
  end.

Definition getWeatherCondition (code : option number) : string :=
  let unknown := "Unknown condition (" ++ code_text code ++ ")" in
  match WEATHER_CODES_at code with
  | Some label => or_default label unknown
  | None => unknown
  end.

(** ** The city identifier *)

(** The template literal of [searchCities]. *)
Definition cityId (latitude longitude : number) (name country : string) : string :=
  Number_toString latitude ++ "," ++ Number_toString longitude
  ++ ":" ++ name ++ ":" ++ country.

(** The three errors of [parseCityId]. *)
Definition formatError : exn :=
  OpenMeteoAPIError
    ("Invalid city ID format. Expected format: " ++ quoted "lat,lon:name:country")
    (Some INVALID_COORDINATES) None.

Definition coordsError : exn :=
  OpenMeteoAPIError
    ("Invalid coordinates in city ID. Expected format: " ++ quoted "lat,lon")
    (Some INVALID_COORDINATES) None.

Definition rangeError : exn :=
  OpenMeteoAPIError
    ("Invalid coordinates in city ID. Expected valid coordinates in the format: "
     ++ quoted "lat,lon")
    (Some INVALID_COORDINATES) None.

Definition parseCityId (cityId : string) : result exn CityInfo.t :=
  match split cityId ":" with
  | [coords; name; country] =>
      match split coords "," with
      | latStr :: lonStr :: _ =>
          if (latStr =? "") || (lonStr =? "") then Err coordsError
          else
            let latitude := parseFloat latStr in
            let longitude := parseFloat lonStr in
            if negb (isValidCoordinate latitude longitude) then Err rangeError
            else
              Ok {| CityInfo.latitude := latitude;
                    CityInfo.longitude := longitude;
                    CityInfo.name := name;
                    CityInfo.country := country |}
      | _ => Err coordsError
      end
  | _ => Err formatError
  end.

(** ** [searchCities] *)

Definition isPopulatedPlace (result : GeocodingResult.t) : bool :=
  let feature_code := GeocodingResult.feature_code result in
  (feature_code =? "PPLA") || (feature_code =? "PPLA2")
  || (feature_code =? "PPLA3") || (feature_code =? "PPLA4")
  || (feature_code =? "PPLC") || (feature_code =? "PPL")
  || (feature_code =? "PPLF") || (feature_code =? "PPLG")
  || (feature_code =? "PPLL") || (feature_code =? "PPLR")
  || (feature_code =? "PPLS") || (feature_code =? "PPLW").

Definition toCity (result : GeocodingResult.t) : City.t :=
  {| City.id := cityId (GeocodingResult.latitude result) (GeocodingResult.longitude result)
                  (GeocodingResult.name result) (GeocodingResult.country result);
     City.name := GeocodingResult.name result;
     City.country := GeocodingResult.country result;
     City.latitude := GeocodingResult.latitude result;
     City.longitude := GeocodingResult.longitude result |}.

(** [error.code === 'ECONNABORTED'] *)
Definition isTimeout (code : option string) : bool :=
  match code with
  | Some c => c =? "ECONNABORTED"
  | None => false
  end.

(** [error.response?.status === 429] *)
Definition isRateLimited (response : option AxiosResponse.t) : bool :=
  match response with
  | Some r => eqb (AxiosResponse.status r) (int 429)
  | None => false
  end.

(** [error.response?.statusText || error.message] *)
Definition statusTextOrMessage (response : option AxiosResponse.t) (message : string) : string :=
  match response with
  | Some r => or_default (AxiosResponse.statusText r) message
  | None => message
  end.

(** The [catch] block of [searchCities]: the error thrown for the error
    caught. *)
Definition searchCities_catch (error : exn) : exn :=
  match error with
  | AxiosError code response message =>
      if isTimeout code then
        OpenMeteoAPIError "Request timeout while searching cities" (Some TIMEOUT) None
      else if isRateLimited response then
        OpenMeteoAPIError "Rate limit exceeded. Please try again later."
          (Some RATE_LIMIT_EXCEEDED) None
      else
        OpenMeteoAPIError
          ("Failed to search cities: " ++ statusTextOrMessage response message)
          (Some UNKNOWN_ERROR) (Some error)
  | _ =>
      OpenMeteoAPIError "Unknown error occurred while searching cities"
        (Some UNKNOWN_ERROR) (Some error)
  end.

(** The [try] block of [searchCities] after the request has settled. *)
Definition searchCities_try (response : settled exn GeocodingResponse.t) :
  result exn (list City.t) :=
  data <- await response ;;
  data <- data_of data ;;
  match GeocodingResponse.results data with
  | None => Ok []
  | Some results =>
      let filteredResults := filter isPopulatedPlace results in
      Ok (map toCity filteredResults)
  end.

Definition searchParams (query : string) : SearchParams.t :=
  {| SearchParams.name := trim query;
     SearchParams.count := MAX_RESULTS;
     SearchParams.language := "en";
     SearchParams.format := "json" |}.

Definition searchCities (query : string) : prog api (result exn (list City.t)) :=
  if (query =? "") || (String.length (trim query) <? 2)%nat then
    Ret (Err (OpenMeteoAPIError "Query must be at least 2 characters long"
                (Some BAD_USER_INPUT) None))
  else
    Vis (get_search (GEOCODING_BASE_URL ++ "/search") (searchParams query) REQUEST_TIMEOUT_MS)
      (fun response =>
         Ret (catch_result (searchCities_try response)
                (fun error => Err (searchCities_catch error)))).

(** ** [getWeatherData] *)

(** The object [forecastDay] built for the day at [index]. *)
Definition forecastDay (daily : DailyWeather.t) (date : string) (index : nat) :
  ForecastDay.t :=
  {| ForecastDay.date := date;
     ForecastDay.maxTemp := number_at (DailyWeather.temperature_2m_max daily) index;
     ForecastDay.minTemp := number_at (DailyWeather.temperature_2m_min daily) index;
     ForecastDay.conditions :=
       getWeatherCondition (nth_error (DailyWeather.weather_code daily) index);
     ForecastDay.precipitation := number_at (DailyWeather.precipitation_sum daily) index;
     ForecastDay.windSpeed := number_at (DailyWeather.wind_speed_10m_max daily) index |}.

(** The callback of [daily.time.map]. *)
Definition dailyForecast (daily : DailyWeather.t) (index : nat) (date : string) :
  DailyForecast.t :=
  let forecastDay := forecastDay daily date index in
  let activities := RankingService.rankActivitiesForDay forecastDay (Some (int 1)) in
  DailyForecast.of_day forecastDay activities.

Definition getWeatherData_catch (error : exn) : exn :=
  match error with
  | AxiosError code response message =>
      if isTimeout code then
        OpenMeteoAPIError "Request timeout while fetching weather data" (Some TIMEOUT) None
      else if isRateLimited response then
        OpenMeteoAPIError "Rate limit exceeded. Please try again later."
          (Some RATE_LIMIT_EXCEEDED) None
      else
        OpenMeteoAPIError
          ("Failed to fetch weather data: " ++ statusTextOrMessage response message)
          (Some UNKNOWN_ERROR) (Some error)
  | _ =>
      OpenMeteoAPIError "Unknown error occurred while fetching weather data"
        (Some UNKNOWN_ERROR) (Some error)
  end.

Definition getWeatherData_try (response : settled exn WeatherResponse.t) :
  result exn Weather.t :=
  data <- await response ;;
  data <- data_of data ;;
  let current := WeatherResponse.current data in
  let daily := WeatherResponse.daily data in
  let forecast := Array_mapi (dailyForecast daily) (DailyWeather.time daily) in
  Ok {| Weather.temperature := CurrentWeather.temperature_2m current;
        Weather.conditions := getWeatherCondition (Some (CurrentWeather.weather_code current));
        Weather.humidity := CurrentWeather.relative_humidity_2m current;
        Weather.windSpeed := CurrentWeather.wind_speed_10m current;
        Weather.precipitation := CurrentWeather.precipitation current;
        Weather.forecast := forecast |}.

Definition forecastParams (latitude longitude : number) : ForecastParams.t :=
  {| ForecastParams.latitude := latitude;
     ForecastParams.longitude := longitude;
     ForecastParams.current :=
       join ["temperature_2m"; "relative_humidity_2m"; "precipitation"; "weather_code";
             "wind_speed_10m"] ",";
     ForecastParams.daily :=
       join ["weather_code"; "temperature_2m_max"; "temperature_2m_min"; "precipitation_sum";
             "wind_speed_10m_max"] ",";
     ForecastParams.timezone := "auto";
     ForecastParams.forecast_days := int 7 |}.

Definition getWeatherData (latitude longitude : number) : prog api (result exn Weather.t) :=
  if negb (isValidCoordinate latitude longitude) then
    Ret (Err (OpenMeteoAPIError "Invalid coordinates provided"
                (Some INVALID_COORDINATES) None))
  else
    Vis (get_forecast (WEATHER_BASE_URL ++ "/forecast") (forecastParams latitude longitude)
           REQUEST_TIMEOUT_MS)
      (fun response =>
         Ret (catch_result (getWeatherData_try response)
                (fun error => Err (getWeatherData_catch error)))).

(** ** [getWeatherByCityId] *)

Definition getWeatherByCityId (cityId : string) : prog api (result exn WeatherByCityId.t) :=
  await_bind (Ret (parseCityId cityId)) (fun parsed =>
  await_bind (getWeatherData (CityInfo.latitude parsed) (CityInfo.longitude parsed))
    (fun weather =>
  Ret (Ok {| WeatherByCityId.weather := weather;
             WeatherByCityId.cityInfo :=
               {| CityInfo.name := CityInfo.name parsed;
                  CityInfo.country := CityInfo.country parsed;
                  CityInfo.latitude := CityInfo.latitude parsed;
                  CityInfo.longitude := CityInfo.longitude parsed |} |}))).

(** ** Coordinates *)

Lemma isValidCoordinate_within (latitude longitude : number) :
  isValidCoordinate latitude longitude
  = within (-90) 90 latitude && within (-180) 180 longitude.
Proof.
  unfold isValidCoordinate, within.
  destruct (is_NaN latitude), (is_NaN longitude), (geb latitude _), (leb latitude _);
    reflexivity.
Qed.

Lemma isValidCoordinate_finite (latitude longitude : number) :
  isValidCoordinate latitude longitude = true ->
  is_finite latitude = true /\ is_finite longitude = true.
Proof.
  rewrite isValidCoordinate_within. intros [Hlat Hlon]%andb_true_iff.
  split; eapply within_finite; eassumption.
Qed.

#[export] Instance isValidCoordinate_Proper :
  Proper (num_eqv ==> num_eqv ==> eq) isValidCoordinate.
Proof.
  intros a a' Ha b b' Hb. rewrite !isValidCoordinate_within. now rewrite Ha, Hb.
Qed.

(** [isValidCoordinate_spec]: [isValidCoordinate] accepts exactly the pairs of
    finite numbers with the latitude in [-90, 90] and the longitude in
    [-180, 180], bounds included; [NaN] and the infinities are rejected. *)
Theorem isValidCoordinate_spec (latitude longitude : number) :
  isValidCoordinate latitude longitude = true
  <-> (is_finite latitude = true /\ is_finite longitude = true)
      /\ (inject_Z (-90) <= toQ latitude <= inject_Z 90)%Q
      /\ (inject_Z (-180) <= toQ longitude <= inject_Z 180)%Q.
Proof.
  rewrite isValidCoordinate_within, andb_true_iff, !within_spec. tauto.
Qed.

(** ** The weather-code vocabulary *)

Lemma assoc_In (k : Z) (table : list (Z * string)) (v : string) :
  assoc k table = Some v -> In (k, v) table.
Proof.
  induction table as [|[k' v'] rest IH]; cbn [assoc]; [discriminate|].
  destruct (Z.eqb_spec k k') as [->|_]; [intros [= ->]; now left | right; auto].
Qed.

Lemma In_assoc (k : Z) (table : list (Z * string)) (v : string) :
  NoDup (map fst table) -> In (k, v) table -> assoc k table = Some v.
Proof.
  induction table as [|[k' v'] rest IH]; cbn [assoc map fst]; [intros _ []|].
  intros Hnd [[= -> ->] | Hin]; [now rewrite Z.eqb_refl|]. inv Hnd.
  destruct (Z.eqb_spec k k') as [->|_]; [|auto].
  exfalso. apply H2. now apply (in_map fst) in Hin.
Qed.

Lemma WEATHER_CODES_at_eqv (x y : number) :
  x ==n y -> WEATHER_CODES_at (Some x) = WEATHER_CODES_at (Some y).
Proof. intros Hxy. unfold WEATHER_CODES_at. now rewrite Hxy. Qed.

(** The lookup is the lookup of a property by the text of the code: a
    label is found exactly when the code prints as one of the keys. *)
Lemma WEATHER_CODES_at_text (x : number) (label : string) :
  WEATHER_CODES_at (Some x) = Some label
  <-> exists k, In (k, label) WEATHER_CODES
                /\ Number_toString x = Number_toString (int k).
Proof.
  unfold WEATHER_CODES_at. split.
  - destruct (as_integer x) as [k|] eqn:E; [|discriminate]. intros Hk.
    exists k. split; [now apply assoc_In|].
    apply Number_toString_eqv. now apply as_integer_Some.
  - intros (k & Hin & Htext). apply Number_toString_inj, as_integer_Some in Htext.
    rewrite Htext. apply In_assoc; [apply WEATHER_CODES_keys_NoDup | exact Hin].
Qed.

Lemma WEATHER_CODES_at_nonempty (code : option number) (label : string) :
  WEATHER_CODES_at code = Some label -> label <> "".
Proof.
  destruct code as [x|]; [|discriminate]. unfold WEATHER_CODES_at.
  destruct (as_integer x) as [k|]; [|discriminate]. intros Hk%assoc_In.
  pose proof WEATHER_CODES_labels_nonempty as Hl.
  rewrite Forall_forall in Hl. exact (Hl _ Hk).
Qed.

(** [getWeatherCondition_known]: a code that is one of the keys of
    [WEATHER_CODES] is translated to the label of that key. *)
Theorem getWeatherCondition_known (k : Z) (label : string) :
  In (k, label) WEATHER_CODES -> getWeatherCondition (Some (int k)) = label.
Proof.
  intros Hin. unfold getWeatherCondition.
  assert (Hat : WEATHER_CODES_at (Some (int k)) = Some label)
    by (apply WEATHER_CODES_at_text; eauto).
  rewrite Hat. apply or_default_nonempty. eapply WEATHER_CODES_at_nonempty, Hat.
Qed.

(** [getWeatherCondition_unknown]: a number that is not one of the keys of
    [WEATHER_CODES] (a fraction, [NaN], an integer outside the table) is
    translated to [Unknown condition (<code>)] with the text of the number,
    and no label of the table is returned for it. *)
Theorem getWeatherCondition_unknown (x : number) :
  (forall k label, In (k, label) WEATHER_CODES -> ~ x ==n int k) ->
  getWeatherCondition (Some x) = "Unknown condition (" ++ Number_toString x ++ ")".
Proof.
  intros Hnot. unfold getWeatherCondition.
  destruct (WEATHER_CODES_at (Some x)) as [label|] eqn:E; [|reflexivity].
  apply WEATHER_CODES_at_text in E. destruct E as (k & Hin & Htext).
  now apply Number_toString_inj, (Hnot k label) in Htext.
Qed.

Lemma getWeatherCondition_nonempty (code : option number) :
  getWeatherCondition code <> "".
Proof.
  unfold getWeatherCondition.
  destruct (WEATHER_CODES_at code); [apply or_default_not_empty|]; discriminate.
Qed.

(** ** The city identifier *)

(** The first part of an identifier. *)
Definition coordsText (latitude longitude : number) : string :=
  Number_toString latitude ++ "," ++ Number_toString longitude.

Lemma cityId_parts (latitude longitude : number) (name country : string) :
  cityId latitude longitude name country
  = coordsText latitude longitude ++ String ":" (name ++ String ":" country).
Proof. unfold cityId, coordsText. rewrite !string_app_assoc. reflexivity. Qed.

Lemma coordsText_colon (latitude longitude : number) :
  lacks ":" (coordsText latitude longitude) = true.
Proof.
  unfold coordsText. rewrite !lacks_app, !Number_toString_colon. reflexivity.
Qed.

Lemma split_coordsText (latitude longitude : number) (rest : string) :
  exists pieces,
    split (coordsText latitude longitude ++ rest) ","
    = Number_toString latitude :: pieces
    /\ (rest = "" -> pieces = [Number_toString longitude])
    /\ (forall junk, rest = String "," junk ->
        exists more, pieces = Number_toString longitude :: more).
Proof.
  unfold coordsText. rewrite !string_app_assoc.
  change ("," ++ ?x) with (String "," x).
  rewrite split_app by apply Number_toString_comma.
  eexists. split; [reflexivity|]. split.
  - intros ->. rewrite string_app_nil_r. apply split_lacks, Number_toString_comma.
  - intros junk ->. rewrite split_app by apply Number_toString_comma. eauto.
Qed.

Lemma split_cityId (coords name country : string) :
  lacks ":" coords = true -> lacks ":" name = true -> lacks ":" country = true ->
  split (coords ++ String ":" (name ++ String ":" country)) ":" = [coords; name; country].
Proof. intros Hc Hn Hy. rewrite split_app by exact Hc. f_equal. now apply split_two. Qed.

(** [parseCityId] once the two splits are known. *)
Lemma parseCityId_pieces (s coords name country latStr lonStr : string)
  (more : list string) :
  split s ":" = [coords; name; country] ->
  split coords "," = latStr :: lonStr :: more ->
  latStr <> "" -> lonStr <> "" ->
  parseCityId s
  = if isValidCoordinate (parseFloat latStr) (parseFloat lonStr)
    then Ok {| CityInfo.latitude := parseFloat latStr;
               CityInfo.longitude := parseFloat lonStr;
               CityInfo.name := name;
               CityInfo.country := country |}
    else Err rangeError.
Proof.
  intros Hs Hc Hlat%eqb_empty Hlon%eqb_empty. unfold parseCityId.
  rewrite Hs, Hc, Hlat, Hlon. cbn [orb].
  now destruct (isValidCoordinate _ _).
Qed.

Lemma parseCityId_not_three (s : string) :
  List.length (split s ":") <> 3%nat -> parseCityId s = Err formatError.
Proof.
  intros Hlen. unfold parseCityId.
  destruct (split s ":") as [|a [|b [|c [|d l]]]]; cbn in Hlen; congruence.
Qed.

(** The identifier of a city decodes to [coords], whatever follows the two
    numbers in its first part. *)
Lemma parseCityId_coordsText (latitude longitude : number)
  (rest name country : string) :
  rest = "" \/ (exists junk, rest = String "," junk) ->
  lacks ":" rest = true -> lacks ":" name = true -> lacks ":" country = true ->
  parseCityId ((coordsText latitude longitude ++ rest)
               ++ String ":" (name ++ String ":" country))
  = if isValidCoordinate latitude longitude
    then Ok {| CityInfo.latitude := parseFloat (Number_toString latitude);
               CityInfo.longitude := parseFloat (Number_toString longitude);
               CityInfo.name := name;
               CityInfo.country := country |}
    else Err rangeError.
Proof.
  intros Hrest Hr Hn Hc.
  destruct (split_coordsText latitude longitude rest) as (pieces & Hsplit & H0 & H1).
  assert (Hp : exists more, pieces = Number_toString longitude :: more).
  { destruct Hrest as [-> | (junk & ->)]; [exists []; auto | eauto]. }
  destruct Hp as (more & ->).
  assert (Hcoords : lacks ":" (coordsText latitude longitude ++ rest) = true)
    by (rewrite lacks_app, coordsText_colon, Hr; reflexivity).
  rewrite (parseCityId_pieces _ _ name country _ _ more
             (split_cityId _ _ _ Hcoords Hn Hc) Hsplit)
    by apply Number_toString_nonempty.
  now rewrite (isValidCoordinate_Proper _ _ (parseFloat_toString latitude)
                 _ _ (parseFloat_toString longitude)).
Qed.

(** The identifier of a city with valid coordinates decodes to the parsed
    texts of its coordinates and to its name and country. *)
Lemma parseCityId_cityId_Ok (latitude longitude : number) (name country : string) :
  isValidCoordinate latitude longitude = true ->
  lacks ":" name = true -> lacks ":" country = true ->
  parseCityId (cityId latitude longitude name country)
  = Ok {| CityInfo.latitude := parseFloat (Number_toString latitude);
          CityInfo.longitude := parseFloat (Number_toString longitude);
          CityInfo.name := name;
          CityInfo.country := country |}.
Proof.
  intros Hv Hn Hc. rewrite cityId_parts, <- (string_app_nil_r (coordsText _ _)).
  now rewrite parseCityId_coordsText, Hv by auto.
Qed.

(** C2: decoding the identifier built from valid coordinates
    and a name and a country without a colon returns the same name and
    country and coordinates equal to the encoded ones. *)
Theorem parseCityId_cityId (latitude longitude : number) (name country : string) :
  isValidCoordinate latitude longitude = true ->
  lacks ":" name = true -> lacks ":" country = true ->
  exists parsed,
    parseCityId (cityId latitude longitude name country) = Ok parsed
    /\ CityInfo.latitude parsed ==n latitude
    /\ CityInfo.longitude parsed ==n longitude
    /\ CityInfo.name parsed = name
    /\ CityInfo.country parsed = country.
Proof.
  intros Hv Hn Hc. eexists. split; [now apply parseCityId_cityId_Ok|].
  cbn. auto using parseFloat_toString.
Qed.

(** [parseCityId_cityId_invalid]: the identifier built from coordinates that
    are out of range, infinite or [NaN] is rejected with the code
    [INVALID_COORDINATES]. *)
Theorem parseCityId_cityId_invalid (latitude longitude : number) (name country : string) :
  isValidCoordinate latitude longitude = false ->
  lacks ":" name = true -> lacks ":" country = true ->
  parseCityId (cityId latitude longitude name country) = Err rangeError.
Proof.
  intros Hv Hn Hc. rewrite cityId_parts, <- (string_app_nil_r (coordsText _ _)).
  now rewrite parseCityId_coordsText, Hv by auto.
Qed.

(** C36: a first part with more than two
    comma-separated pieces is accepted: the pieces after the second are
    ignored. *)
Theorem parseCityId_extra_coordinates (latitude longitude : number)
  (junk name country : string) :
  isValidCoordinate latitude longitude = true ->
  lacks ":" junk = true -> lacks ":" name = true -> lacks ":" country = true ->
  is_ok (parseCityId (Number_toString latitude ++ "," ++ Number_toString longitude
                      ++ "," ++ junk ++ ":" ++ name ++ ":" ++ country)) = true.
Proof.
  intros Hv Hj Hn Hc.
  replace (Number_toString latitude ++ _)
    with ((coordsText latitude longitude ++ String "," junk)
          ++ String ":" (name ++ String ":" country))
    by (unfold coordsText; rewrite !string_app_assoc; reflexivity).
  rewrite parseCityId_coordsText, Hv; eauto.
Qed.

(** Text after a coordinate that [parseFloat] does not read and that holds
    no separator of the identifier. *)
Definition ignored (t : string) : bool :=
  trailing t && lacks ":" t && lacks "," t.

(** A piece of the first part of an identifier that is read as [x]. *)
Definition piece_of (x : number) (s : string) : Prop :=
  parseFloat s ==n x /\ lacks ":" s = true /\ lacks "," s = true /\ s <> "".

(** An identifier whose two pieces are read as valid coordinates decodes
    to them. *)
Lemma parseCityId_of_pieces (latitude longitude : number)
  (latStr lonStr name country : string) :
  isValidCoordinate latitude longitude = true ->
  piece_of latitude latStr -> piece_of longitude lonStr ->
  lacks ":" name = true -> lacks ":" country = true ->
  exists parsed,
    parseCityId (latStr ++ "," ++ lonStr ++ ":" ++ name ++ ":" ++ country) = Ok parsed
    /\ CityInfo.latitude parsed ==n latitude
    /\ CityInfo.longitude parsed ==n longitude
    /\ CityInfo.name parsed = name
    /\ CityInfo.country parsed = country.
Proof.
  intros Hv (Hlat & Hc1 & Hm1 & Hn1) (Hlon & Hc2 & Hm2 & Hn2) Hn Hc.
  replace (latStr ++ _)
    with ((latStr ++ String "," lonStr) ++ String ":" (name ++ String ":" country))
    by (rewrite !string_app_assoc; reflexivity).
  assert (Hcoords : lacks ":" (latStr ++ String "," lonStr) = true)
    by (rewrite lacks_app; cbn [lacks]; now rewrite Hc1, Hc2).
  rewrite (parseCityId_pieces _ _ name country latStr lonStr []
             (split_cityId _ _ _ Hcoords Hn Hc) (split_two _ _ _ Hm1 Hm2) Hn1 Hn2).
  rewrite (isValidCoordinate_Proper _ _ Hlat _ _ Hlon), Hv. eexists. split; [reflexivity|].
  cbn. auto.
Qed.

Lemma ignored_piece (x : number) (t : string) :
  ignored t = true -> piece_of x (Number_toString x ++ t).
Proof.
  unfold ignored, piece_of. intros [[Ht Hc]%andb_true_iff Hm]%andb_true_iff.
  split; [now apply parseFloat_trailing|].
  rewrite !lacks_app, Hc, Hm, Number_toString_colon, Number_toString_comma.
  repeat split. intros [E _]%app_empty_inv. now apply Number_toString_nonempty in E.
Qed.

(** C35: coordinates followed by other text are
    accepted: of each of the two pieces [parseFloat] reads the number at its
    start, and whatever follows that cannot continue the number is ignored,
    so identifiers that [searchCities] never builds decode to a city. *)
Theorem parseCityId_trailing_text (latitude longitude : number)
  (t1 t2 name country : string) :
  isValidCoordinate latitude longitude = true ->
  ignored t1 = true -> ignored t2 = true ->
  lacks ":" name = true -> lacks ":" country = true ->
  exists parsed,
    parseCityId ((Number_toString latitude ++ t1) ++ ","
                 ++ (Number_toString longitude ++ t2) ++ ":" ++ name ++ ":" ++ country)
    = Ok parsed
    /\ CityInfo.latitude parsed ==n latitude
    /\ CityInfo.longitude parsed ==n longitude
    /\ CityInfo.name parsed = name
    /\ CityInfo.country parsed = country.
Proof.
  intros Hv H1 H2. apply parseCityId_of_pieces; auto using ignored_piece.
Qed.

(** White space before a coordinate, which [parseFloat] skips. *)
Lemma blank_piece (x : number) (ws : string) :
  blank ws = true -> piece_of x (ws ++ Number_toString x).
Proof.
  intros Hws. unfold piece_of. split; [rewrite parseFloat_leading by exact Hws; apply parseFloat_toString|].
  rewrite !lacks_app, !(blank_lacks _ ws) by (reflexivity || exact Hws).
  rewrite Number_toString_colon, Number_toString_comma.
  repeat split. intros [_ E]%app_empty_inv. now apply Number_toString_nonempty in E.
Qed.

(** [parseCityId_leading_space]: white space before a coordinate is
    accepted: [parseFloat] skips it, so an identifier with a space after
    the comma, which [searchCities] never builds, decodes to the city. *)
Theorem parseCityId_leading_space (latitude longitude : number)
  (ws1 ws2 name country : string) :
  isValidCoordinate latitude longitude = true ->
  blank ws1 = true -> blank ws2 = true ->
  lacks ":" name = true -> lacks ":" country = true ->
  exists parsed,
    parseCityId ((ws1 ++ Number_toString latitude) ++ ","
                 ++ (ws2 ++ Number_toString longitude) ++ ":" ++ name ++ ":" ++ country)
    = Ok parsed
    /\ CityInfo.latitude parsed ==n latitude
    /\ CityInfo.longitude parsed ==n longitude
    /\ CityInfo.name parsed = name
    /\ CityInfo.country parsed = country.
Proof.
  intros Hv H1 H2. apply parseCityId_of_pieces; auto using blank_piece.
Qed.

(** C37: the identifier of a city whose name or country
    contains a colon does not decode to another city: it is rejected as
    malformed. *)
Theorem parseCityId_colon_in_name (latitude longitude : number) (name country : string) :
  lacks ":" name = false \/ lacks ":" country = false ->
  parseCityId (cityId latitude longitude name country) = Err formatError.
Proof.
  intros Hcolon. apply parseCityId_not_three.
  rewrite split_length, cityId_parts, count_char_app. cbn [count_char].
  rewrite count_char_app. cbn [count_char Ascii.eqb Bool.eqb].
  assert (count_char ":" name + count_char ":" country <> 0)%nat; [|lia].
  intros H0. destruct Hcolon as [Hx | Hx];
    apply not_true_iff_false in Hx; apply Hx, count_char_lacks; lia.
Qed.

Lemma parseCityId_error_cases (s : string) (e : exn) :
  parseCityId s = Err e -> e = formatError \/ e = coordsError \/ e = rangeError.
Proof.
  unfold parseCityId.
  repeat (case_match_goal; try (intros [= <-]; auto; fail)); discriminate.
Qed.

Lemma parseCityId_error_api (s : string) (e : exn) :
  parseCityId s = Err e -> api_error_in [INVALID_COORDINATES] e.
Proof.
  intros [-> | [-> | ->]]%parseCityId_error_cases; repeat eexists; now left.
Qed.

Lemma parseCityId_Ok_valid (s : string) (parsed : CityInfo.t) :
  parseCityId s = Ok parsed ->
  isValidCoordinate (CityInfo.latitude parsed) (CityInfo.longitude parsed) = true.
Proof.
  unfold parseCityId.
  repeat (case_match_goal; try discriminate). intros [= <-]. cbn.
  now apply negb_false_iff.
Qed.

(** C34: whatever the input, a failure of [parseCityId] is one
    of the three errors of the function, each an [OpenMeteoAPIError] with
    the code [INVALID_COORDINATES] and without a cause. *)
Theorem parseCityId_error (s : string) (e : exn) :
  parseCityId s = Err e ->
  (e = formatError \/ e = coordsError \/ e = rangeError)
  /\ code_of e = Some INVALID_COORDINATES.
Proof.
  intros He%parseCityId_error_cases. split; [exact He|].
  now destruct He as [-> | [-> | ->]].
Qed.

(** [parseCityId_Ok]: an identifier that decodes has exactly two colons, and
    the decoded name and country are its second and third parts; the
    decoded coordinates are valid. *)
Theorem parseCityId_Ok (s : string) (parsed : CityInfo.t) :
  parseCityId s = Ok parsed ->
  isValidCoordinate (CityInfo.latitude parsed) (CityInfo.longitude parsed) = true
  /\ exists coords,
       s = coords ++ ":" ++ CityInfo.name parsed ++ ":" ++ CityInfo.country parsed
       /\ lacks ":" coords = true
       /\ lacks ":" (CityInfo.name parsed) = true
       /\ lacks ":" (CityInfo.country parsed) = true.
Proof.
  unfold parseCityId. pose proof (join_split s ":") as Hjoin.
  pose proof (split_pieces_lack s ":") as Hlack.
  destruct (split s ":") as [|coords [|name [|country [|d l]]]]; try discriminate.
  destruct (split coords ",") as [|latStr [|lonStr more]]; try discriminate.
  destruct (_ || _); [discriminate|].
  destruct (isValidCoordinate _ _) eqn:Hv; [|discriminate].
  intros [= <-]. cbn. split; [exact Hv|]. exists coords.
  inv Hlack. inv H3. inv H5. auto.
Qed.

(** ** The classification of failures *)

Lemma isTimeout_spec (code : option string) :
  isTimeout code = true <-> code = Some "ECONNABORTED".
Proof.
  destruct code as [c|]; cbn [isTimeout]; [|split; discriminate].
  rewrite String.eqb_eq. split; [now intros -> | now intros [= ->]].
Qed.

Lemma isRateLimited_spec (response : option AxiosResponse.t) :
  isRateLimited response = true
  <-> exists r, response = Some r /\ AxiosResponse.status r ==n int 429.
Proof.
  destruct response as [r|]; cbn [isRateLimited].
  - rewrite eqb_int. split; [eauto | now intros (r' & [= <-] & Hr)].
  - split; [discriminate | now intros (r & [=] & _)].
Qed.

(** The code the two [catch] blocks give to a caught error. *)
Definition transportCode (error : exn) : error_code :=
  match error with
  | AxiosError code response _ =>
      if isTimeout code then TIMEOUT
      else if isRateLimited response then RATE_LIMIT_EXCEEDED
      else UNKNOWN_ERROR
  | _ => UNKNOWN_ERROR
  end.

Lemma searchCities_catch_code (error : exn) :
  code_of (searchCities_catch error) = Some (transportCode error).
Proof.
  destruct error as [| code response m | |]; cbn; try reflexivity.
  now destruct (isTimeout code), (isRateLimited response).
Qed.

Lemma getWeatherData_catch_code (error : exn) :
  code_of (getWeatherData_catch error) = Some (transportCode error).
Proof.
  destruct error as [| code response m | |]; cbn; try reflexivity.
  now destruct (isTimeout code), (isRateLimited response).
Qed.

Lemma searchCities_catch_api (error : exn) :
  api_error_in [TIMEOUT; RATE_LIMIT_EXCEEDED; UNKNOWN_ERROR] (searchCities_catch error).
Proof.
  destruct error as [| code response m | |]; cbn;
    try destruct (isTimeout code); try destruct (isRateLimited response);
    repeat eexists; cbn; auto.
Qed.

Lemma getWeatherData_catch_api (error : exn) :
  api_error_in [TIMEOUT; RATE_LIMIT_EXCEEDED; UNKNOWN_ERROR] (getWeatherData_catch error).
Proof.
  destruct error as [| code response m | |]; cbn;
    try destruct (isTimeout code); try destruct (isRateLimited response);
    repeat eexists; cbn; auto.
Qed.

Lemma API_ERROR_codes :
  incl [TIMEOUT; RATE_LIMIT_EXCEEDED; UNKNOWN_ERROR] (ERROR_CODES API_ERROR).
Proof. intros c [<-|[<-|[<-|[]]]]; cbn; auto. Qed.

Lemma transportCode_TIMEOUT (error : exn) :
  transportCode error = TIMEOUT
  <-> exists response m, error = AxiosError (Some "ECONNABORTED") response m.
Proof.
  destruct error as [| code response m | |]; cbn [transportCode];
    try (split; [discriminate | intros (? & ? & [=])]).
  destruct (isTimeout code) eqn:E.
  - apply isTimeout_spec in E. subst. split; eauto.
  - split; [destruct (isRateLimited response); discriminate|].
    intros (r & m' & [= -> _ _]). discriminate.
Qed.

Lemma transportCode_RATE_LIMIT (error : exn) :
  transportCode error = RATE_LIMIT_EXCEEDED
  <-> exists code r m, error = AxiosError code (Some r) m
        /\ code <> Some "ECONNABORTED" /\ AxiosResponse.status r ==n int 429.
Proof.
  destruct error as [| code response m | |]; cbn [transportCode];
    try (split; [discriminate | intros (? & ? & ? & [=] & _)]).
  destruct (isTimeout code) eqn:E.
  - apply isTimeout_spec in E. subst.
    split; [discriminate | intros (c & r & m' & [= <- _ _] & Hc & _); congruence].
  - assert (Hcode : code <> Some "ECONNABORTED")
      by (intros Hc%isTimeout_spec; congruence).
    destruct (isRateLimited response) eqn:R.
    + apply isRateLimited_spec in R. destruct R as (r & -> & Hr).
      split; [intros _; exists code, r, m; repeat split; congruence | reflexivity].
    + split; [discriminate | intros (c & r & m' & [= <- -> _] & _ & Hr)].
      apply not_true_iff_false in R. exfalso. apply R, isRateLimited_spec. eauto.
Qed.

(** [searchCities_catch_classification]: the error thrown for a caught error
    carries [TIMEOUT] exactly when the caught error is an axios error with
    the code [ECONNABORTED], whatever its response; it carries
    [RATE_LIMIT_EXCEEDED] exactly when it is an axios error that is not a
    timeout and has a response of status 429; in every other case it carries
    [UNKNOWN_ERROR]. *)
Theorem searchCities_catch_classification (error : exn) :
  exists code,
    code_of (searchCities_catch error) = Some code
    /\ (code = TIMEOUT
        <-> exists response m, error = AxiosError (Some "ECONNABORTED") response m)
    /\ (code = RATE_LIMIT_EXCEEDED
        <-> exists c r m, error = AxiosError c (Some r) m
              /\ c <> Some "ECONNABORTED" /\ AxiosResponse.status r ==n int 429)
    /\ In code [TIMEOUT; RATE_LIMIT_EXCEEDED; UNKNOWN_ERROR].
Proof.
  exists (transportCode error).
  split; [apply searchCities_catch_code|].
  split; [apply transportCode_TIMEOUT|].
  split; [apply transportCode_RATE_LIMIT|].
  destruct error as [| code response m | |]; cbn; auto.
  destruct (isTimeout code), (isRateLimited response); auto.
Qed.

(** [catch_blocks_agree]: the [catch] blocks of [searchCities] and
    [getWeatherData] give the same code to every caught error, and both keep
    the caught error as the cause exactly when the code is [UNKNOWN_ERROR]. *)
Theorem catch_blocks_agree (error : exn) :
  code_of (searchCities_catch error) = code_of (getWeatherData_catch error)
  /\ forall m c cause,
       (searchCities_catch error = OpenMeteoAPIError m (Some c) cause
        \/ getWeatherData_catch error = OpenMeteoAPIError m (Some c) cause) ->
       cause = if error_code_eqb c UNKNOWN_ERROR then Some error else None.
Proof.
  split; [now rewrite searchCities_catch_code, getWeatherData_catch_code|].
  intros m c cause.
  destruct error as [| code response msg | |]; cbn;
    try destruct (isTimeout code); try destruct (isRateLimited response);
    intros [[= <- <- <-] | [= <- <- <-]]; reflexivity.
Qed.

(** Of an axios error without status text the message is reported. *)
Lemma statusTextOrMessage_nonempty (response : option AxiosResponse.t) (message : string) :
  message <> "" -> statusTextOrMessage response message <> "".
Proof.
  intros Hm. destruct response as [r|]; cbn; [now apply or_default_not_empty | exact Hm].
Qed.

(** ** [searchCities] *)

(** The feature codes of populated places. *)
Definition POPULATED_PLACES : list string :=
  ["PPLA"; "PPLA2"; "PPLA3"; "PPLA4"; "PPLC"; "PPL"; "PPLF"; "PPLG"; "PPLL"; "PPLR";
   "PPLS"; "PPLW"].

Lemma isPopulatedPlace_spec (result : GeocodingResult.t) :
  isPopulatedPlace result = true
  <-> In (GeocodingResult.feature_code result) POPULATED_PLACES.
Proof.
  unfold isPopulatedPlace, POPULATED_PLACES. cbn [In].
  rewrite !orb_true_iff, !String.eqb_eq. intuition auto.
Qed.

Lemma isPopulatedPlace_dec (result : GeocodingResult.t) :
  isPopulatedPlace result
  = if in_dec string_dec (GeocodingResult.feature_code result) POPULATED_PLACES
    then true else false.
Proof.
  apply eq_true_iff_eq. rewrite isPopulatedPlace_spec.
  destruct (in_dec _ _ _); intuition congruence.
Qed.

(** The one request of [searchCities]. *)
Definition searchRequest (query : string) : api (settled exn GeocodingResponse.t) :=
  get_search "https://geocoding-api.open-meteo.com/v1/search"
    {| SearchParams.name := trim query;
       SearchParams.count := int 10;
       SearchParams.language := "en";
       SearchParams.format := "json" |}
    (int 10000).

Definition queryError : exn :=
  OpenMeteoAPIError "Query must be at least 2 characters long" (Some BAD_USER_INPUT) None.

Lemma searchCities_guard (query : string) :
  (query =? "") || (String.length (trim query) <? 2)%nat
  = (String.length (trim query) <? 2)%nat.
Proof. destruct (String.eqb_spec query "") as [->|_]; reflexivity. Qed.

Lemma searchCities_long (query : string) :
  (2 <= String.length (trim query))%nat ->
  searchCities query
  = Vis (searchRequest query)
      (fun response =>
         Ret (catch_result (searchCities_try response)
                (fun error => Err (searchCities_catch error)))).
Proof.
  intros Hlen. unfold searchCities. rewrite searchCities_guard.
  apply Nat.ltb_ge in Hlen. now rewrite Hlen.
Qed.

(** [searchCities_short_query]: a query whose trimmed length is below 2 is
    rejected with [BAD_USER_INPUT] and the program is the thrown error
    itself: no request is performed. *)
Theorem searchCities_short_query (query : string) :
  (String.length (trim query) < 2)%nat ->
  searchCities query = Ret (Err queryError).
Proof.
  intros Hlen. unfold searchCities. rewrite searchCities_guard.
  apply Nat.ltb_lt in Hlen. now rewrite Hlen.
Qed.

(** [searchCities_request]: for a query of trimmed length at least 2, and
    whatever the service answers, exactly one request is performed: a
    geocoding search for the trimmed query, for at most 10 results in
    English as JSON, with a timeout of 10000 ms. *)
Theorem searchCities_request (h : handler api) (query : string) :
  (2 <= String.length (trim query))%nat ->
  trace h (searchCities query) = [Request (searchRequest query)].
Proof. intros Hlen. now rewrite searchCities_long. Qed.

Lemma searchCities_at_most_1 (query : string) : at_most 1 (searchCities query).
Proof.
  unfold searchCities. case_if; repeat constructor.
Qed.

(** What [searchCities] returns when it returns. *)
Lemma searchCities_try_Ok (response : settled exn GeocodingResponse.t)
  (cities : list City.t) :
  searchCities_try response = Ok cities ->
  exists data, response = Fulfilled (Some data)
    /\ cities = match GeocodingResponse.results data with
                | None => []
                | Some results => map toCity (filter isPopulatedPlace results)
                end.
Proof.
  destruct response as [[data|]|e]; cbn; try discriminate.
  intros Hc. exists data. split; [reflexivity|].
  destruct (GeocodingResponse.results data); now inv Hc.
Qed.

Lemma searchCities_run (h : handler api) (query : string) :
  run h (searchCities query)
  = if (String.length (trim query) <? 2)%nat then Err queryError
    else catch_result (searchCities_try (h _ (searchRequest query)))
           (fun error => Err (searchCities_catch error)).
Proof.
  destruct (Nat.ltb_spec (String.length (trim query)) 2) as [Hlt | Hge].
  - now rewrite searchCities_short_query.
  - now rewrite searchCities_long.
Qed.

(** [searchCities_absent_results]: when the service answers with a body
    without a [results] field, [searchCities] returns the empty list and
    throws nothing. *)
Theorem searchCities_absent_results (h : handler api) (query : string) :
  (2 <= String.length (trim query))%nat ->
  h _ (searchRequest query) = Fulfilled (Some {| GeocodingResponse.results := None |}) ->
  run h (searchCities query) = Ok [].
Proof.
  intros Hlen Hh. rewrite searchCities_run, Hh.
  apply Nat.ltb_ge in Hlen. now rewrite Hlen.
Qed.

(** C25: when the service answers with results,
    [searchCities] returns one city for each result whose feature code is a
    populated place, in the order of the results, with the name, country
    and coordinates of the result. *)
Theorem searchCities_results (h : handler api) (query : string)
  (results : list GeocodingResult.t) :
  (2 <= String.length (trim query))%nat ->
  h _ (searchRequest query)
  = Fulfilled (Some {| GeocodingResponse.results := Some results |}) ->
  exists cities kept,
    run h (searchCities query) = Ok cities
    /\ kept = filter (fun r => if in_dec string_dec (GeocodingResult.feature_code r)
                                    POPULATED_PLACES then true else false) results
    /\ map City.name cities = map GeocodingResult.name kept
    /\ map City.country cities = map GeocodingResult.country kept
    /\ map City.latitude cities = map GeocodingResult.latitude kept
    /\ map City.longitude cities = map GeocodingResult.longitude kept
    /\ map City.id cities
       = map (fun r => cityId (GeocodingResult.latitude r) (GeocodingResult.longitude r)
                         (GeocodingResult.name r) (GeocodingResult.country r)) kept.
Proof.
  intros Hlen Hh. rewrite searchCities_run, Hh.
  apply Nat.ltb_ge in Hlen. rewrite Hlen. cbn.
  eexists _, _. split; [reflexivity|]. split; [reflexivity|].
  rewrite <- (filter_ext _ _ isPopulatedPlace_dec), !map_map.
  repeat split; reflexivity.
Qed.

Lemma searchCities_errors_api (h : handler api) (query : string) (e : exn) :
  run h (searchCities query) = Err e ->
  api_error_in [BAD_USER_INPUT; TIMEOUT; RATE_LIMIT_EXCEEDED; UNKNOWN_ERROR] e.
Proof.
  rewrite searchCities_run. case_if.
  - intros [= <-]. repeat eexists. cbn. auto.
  - destruct (searchCities_try _); cbn; [discriminate|]. intros [= <-].
    eapply api_error_in_incl; [|apply searchCities_catch_api].
    intros c Hc. now right.
Qed.

(** C6: whatever the query and whatever the service
    answers, an error thrown by [searchCities] is an [OpenMeteoAPIError]
    with one of the codes [BAD_USER_INPUT], [TIMEOUT],
    [RATE_LIMIT_EXCEEDED], [UNKNOWN_ERROR], and the code is
    [BAD_USER_INPUT] exactly when the trimmed query is shorter than 2. *)
Theorem searchCities_errors (h : handler api) (query : string) (e : exn) :
  run h (searchCities query) = Err e ->
  exists m c cause,
    e = OpenMeteoAPIError m (Some c) cause
    /\ In c [BAD_USER_INPUT; TIMEOUT; RATE_LIMIT_EXCEEDED; UNKNOWN_ERROR]
    /\ (c = BAD_USER_INPUT <-> (String.length (trim query) < 2)%nat).
Proof.
  intros Hrun. destruct (searchCities_errors_api h query e Hrun) as (m & c & cause & -> & Hc).
  exists m, c, cause. split; [reflexivity|]. split; [exact Hc|].
  rewrite searchCities_run in Hrun.
  destruct (Nat.ltb_spec (String.length (trim query)) 2) as [Hlt | Hge].
  - inv Hrun. tauto.
  - destruct (searchCities_try _) as [cs | e0]; cbn in Hrun; [discriminate|].
    injection Hrun as Hcatch.
    pose proof (searchCities_catch_api e0) as (m' & c' & cause' & He & Hc').
    rewrite Hcatch in He. injection He as -> -> ->.
    split; [intros -> | lia]. destruct Hc' as [|[|[|[]]]]; discriminate.
Qed.

(** [searchCities_fail_fast]: a failure of [searchCities] is either a user
    error reported without any request, or an error of the API category
    reported after the one geocoding request; there is no second request. *)
Theorem searchCities_fail_fast (h : handler api) (query : string) (e : exn) :
  run h (searchCities query) = Err e ->
  (trace h (searchCities query) = [] /\ api_error_in [BAD_USER_INPUT] e)
  \/ (trace h (searchCities query) = [Request (searchRequest query)]
      /\ api_error_in (ERROR_CODES API_ERROR) e).
Proof.
  rewrite searchCities_run.
  destruct (Nat.ltb_spec (String.length (trim query)) 2) as [Hlt | Hge].
  - intros [= <-]. left. split; [|repeat eexists; now left].
    unfold searchCities. rewrite searchCities_guard.
    now destruct (Nat.ltb_spec (String.length (trim query)) 2); [|lia].
  - rewrite searchCities_long by exact Hge.
    destruct (searchCities_try _); cbn [catch_result]; [discriminate|].
    intros [= <-]. right. split; [reflexivity|].
    eapply api_error_in_incl; [apply API_ERROR_codes | apply searchCities_catch_api].
Qed.

(** [searchCities_timeout_with_429]: a request rejected with the code
    [ECONNABORTED] is reported as a timeout, also when the rejection
    carries a response of status 429. *)
Theorem searchCities_timeout_with_429 (h : handler api) (query : string)
  (response : option AxiosResponse.t) (message : string) :
  (2 <= String.length (trim query))%nat ->
  h _ (searchRequest query)
  = Rejected (AxiosError (Some "ECONNABORTED") response message) ->
  run h (searchCities query)
  = Err (OpenMeteoAPIError "Request timeout while searching cities" (Some TIMEOUT) None).
Proof.
  intros Hlen Hh. rewrite searchCities_run, Hh.
  apply Nat.ltb_ge in Hlen. now rewrite Hlen.
Qed.

(** [searchCities_ids_decode]: every city that [searchCities] returns, whose
    coordinates are valid and whose name and country hold no colon, has an
    identifier that [parseCityId] decodes to the name, country and
    coordinates of that city. *)
Theorem searchCities_ids_decode (h : handler api) (query : string)
  (cities : list City.t) (city : City.t) :
  run h (searchCities query) = Ok cities -> In city cities ->
  isValidCoordinate (City.latitude city) (City.longitude city) = true ->
  lacks ":" (City.name city) = true -> lacks ":" (City.country city) = true ->
  exists parsed,
    parseCityId (City.id city) = Ok parsed
    /\ CityInfo.latitude parsed ==n City.latitude city
    /\ CityInfo.longitude parsed ==n City.longitude city
    /\ CityInfo.name parsed = City.name city
    /\ CityInfo.country parsed = City.country city.
Proof.
  rewrite searchCities_run. case_if; [discriminate|].
  destruct (searchCities_try _) as [cs|] eqn:E; cbn; [|discriminate].
  intros [= ->] Hin. apply searchCities_try_Ok in E. destruct E as (data & _ & ->).
  destruct (GeocodingResponse.results data) as [results|]; [|destruct Hin].
  apply in_map_iff in Hin. destruct Hin as (r & <- & _). cbn.
  intros Hv Hn Hc. eexists. split; [now apply parseCityId_cityId_Ok|].
  cbn. auto using parseFloat_toString.
Qed.

(** ** [getWeatherData] *)

(** The one request of [getWeatherData]. *)
Definition forecastRequest (latitude longitude : number) :
  api (settled exn WeatherResponse.t) :=
  get_forecast "https://api.open-meteo.com/v1/forecast"
    {| ForecastParams.latitude := latitude;
       ForecastParams.longitude := longitude;
       ForecastParams.current :=
         "temperature_2m,relative_humidity_2m,precipitation,weather_code,wind_speed_10m";
       ForecastParams.daily :=
         "weather_code,temperature_2m_max,temperature_2m_min,precipitation_sum,wind_speed_10m_max";
       ForecastParams.timezone := "auto";
       ForecastParams.forecast_days := int 7 |}
    (int 10000).

Definition coordinatesError : exn :=
  OpenMeteoAPIError "Invalid coordinates provided" (Some INVALID_COORDINATES) None.

(** The day summary a forecast day was built from. *)
Definition summary (d : DailyForecast.t) : ForecastDay.t :=
  {| ForecastDay.date := DailyForecast.date d;
     ForecastDay.maxTemp := DailyForecast.maxTemp d;
     ForecastDay.minTemp := DailyForecast.minTemp d;
     ForecastDay.conditions := DailyForecast.conditions d;
     ForecastDay.precipitation := DailyForecast.precipitation d;
     ForecastDay.windSpeed := DailyForecast.windSpeed d |}.

Lemma summary_dailyForecast (daily : DailyWeather.t) (index : nat) (date : string) :
  summary (dailyForecast daily index date) = forecastDay daily date index.
Proof. reflexivity. Qed.

Lemma dailyForecast_rank (daily : DailyWeather.t) (index : nat) (date : string) :
  DailyForecast.activities (dailyForecast daily index date)
  = RankingService.rankActivitiesForDay (forecastDay daily date index) (Some (int 1)).
Proof. reflexivity. Qed.

Lemma getWeatherData_valid (latitude longitude : number) :
  isValidCoordinate latitude longitude = true ->
  getWeatherData latitude longitude
  = Vis (forecastRequest latitude longitude)
      (fun response =>
         Ret (catch_result (getWeatherData_try response)
                (fun error => Err (getWeatherData_catch error)))).
Proof. intros Hv. unfold getWeatherData. now rewrite Hv. Qed.

Lemma getWeatherData_run (h : handler api) (latitude longitude : number) :
  run h (getWeatherData latitude longitude)
  = if isValidCoordinate latitude longitude
    then catch_result (getWeatherData_try (h _ (forecastRequest latitude longitude)))
           (fun error => Err (getWeatherData_catch error))
    else Err coordinatesError.
Proof.
  destruct (isValidCoordinate latitude longitude) eqn:Hv.
  - now rewrite getWeatherData_valid.
  - unfold getWeatherData. now rewrite Hv.
Qed.

(** [getWeatherData_invalid_coordinates]: coordinates that are out of
    range, infinite or [NaN] are rejected with [INVALID_COORDINATES] and
    the program is the thrown error itself: no request is performed. *)
Theorem getWeatherData_invalid_coordinates (latitude longitude : number) :
  isValidCoordinate latitude longitude = false ->
  getWeatherData latitude longitude = Ret (Err coordinatesError).
Proof. intros Hv. unfold getWeatherData. now rewrite Hv. Qed.

(** [getWeatherData_request]: for valid coordinates, and whatever the
    service answers, exactly one request is performed: a forecast for the
    coordinates as given, with the five current and the five daily
    variables, the automatic time zone, 7 days, and a timeout of 10000 ms. *)
Theorem getWeatherData_request (h : handler api) (latitude longitude : number) :
  isValidCoordinate latitude longitude = true ->
  trace h (getWeatherData latitude longitude)
  = [Request (forecastRequest latitude longitude)].
Proof. intros Hv. now rewrite getWeatherData_valid. Qed.

Lemma getWeatherData_at_most_1 (latitude longitude : number) :
  at_most 1 (getWeatherData latitude longitude).
Proof. unfold getWeatherData. case_if; repeat constructor. Qed.

Lemma getWeatherData_try_Ok (response : settled exn WeatherResponse.t)
  (weather : Weather.t) :
  getWeatherData_try response = Ok weather ->
  exists data, response = Fulfilled (Some data)
    /\ getWeatherData_try (Fulfilled (Some data)) = Ok weather.
Proof. destruct response as [[data|]|e]; cbn; try discriminate. eauto. Qed.

Section Answer.
Variable h : handler api.
Variables latitude longitude : number.
Variable data : WeatherResponse.t.
Hypothesis Hvalid : isValidCoordinate latitude longitude = true.
Hypothesis Hanswer : h _ (forecastRequest latitude longitude) = Fulfilled (Some data).

Let daily : DailyWeather.t := WeatherResponse.daily data.
Let current : CurrentWeather.t := WeatherResponse.current data.

Lemma getWeatherData_answer :
  run h (getWeatherData latitude longitude)
  = Ok {| Weather.temperature := CurrentWeather.temperature_2m current;
          Weather.conditions :=
            getWeatherCondition (Some (CurrentWeather.weather_code current));
          Weather.humidity := CurrentWeather.relative_humidity_2m current;
          Weather.windSpeed := CurrentWeather.wind_speed_10m current;
          Weather.precipitation := CurrentWeather.precipitation current;
          Weather.forecast := Array_mapi (dailyForecast daily) (DailyWeather.time daily) |}.
Proof. now rewrite getWeatherData_run, Hvalid, Hanswer. Qed.

(** C18: when the service answers with a body,
    the forecast has one day for each date of [daily.time], in that order,
    and every day carries exactly one activity, taken from the four
    profiles. *)
Theorem getWeatherData_forecast_days :
  exists weather,
    run h (getWeatherData latitude longitude) = Ok weather
    /\ map DailyForecast.date (Weather.forecast weather)
       = DailyWeather.time (WeatherResponse.daily data)
    /\ Forall (fun d => exists a, DailyForecast.activities d = [a]
                 /\ In (Activity.name a) (map ActivityConfig.name ACTIVITY_CONFIGS))
         (Weather.forecast weather).
Proof.
  eexists. split; [apply getWeatherData_answer|]. cbn [Weather.forecast]. split.
  - now apply mapi_from_map.
  - apply Array_mapi_Forall. intros index date.
    rewrite dailyForecast_rank.
    destruct (rank_one (forecastDay daily date index)) as (a & -> & Ha & _).
    now exists a.
Qed.

(** [getWeatherData_day]: the day at position [index] of the forecast is
    built from the entries at [index] of the daily arrays, its conditions
    are the translation of the weather code at [index], and its activities
    are the ranking of that day summary with [top = 1]. *)
Theorem getWeatherData_day (index : nat) (date : string) :
  nth_error (DailyWeather.time (WeatherResponse.daily data)) index = Some date ->
  exists weather d,
    run h (getWeatherData latitude longitude) = Ok weather
    /\ nth_error (Weather.forecast weather) index = Some d
    /\ DailyForecast.date d = date
    /\ DailyForecast.maxTemp d = number_at (DailyWeather.temperature_2m_max daily) index
    /\ DailyForecast.minTemp d = number_at (DailyWeather.temperature_2m_min daily) index
    /\ DailyForecast.precipitation d = number_at (DailyWeather.precipitation_sum daily) index
    /\ DailyForecast.windSpeed d = number_at (DailyWeather.wind_speed_10m_max daily) index
    /\ DailyForecast.conditions d
       = getWeatherCondition (nth_error (DailyWeather.weather_code daily) index)
    /\ DailyForecast.activities d
       = RankingService.rankActivitiesForDay (summary d) (Some (int 1)).
Proof.
  intros Hdate. eexists _, (dailyForecast daily index date).
  split; [apply getWeatherData_answer|]. cbn [Weather.forecast].
  rewrite Array_mapi_nth. fold daily in Hdate. rewrite Hdate.
  do 7 (split; [reflexivity|]).
  rewrite summary_dailyForecast. apply dailyForecast_rank.
Qed.

(** [getWeatherData_current]: the current conditions of the result are the
    fields of [current] in the answer, with the conditions translated from
    its weather code. *)
Theorem getWeatherData_current :
  exists weather,
    run h (getWeatherData latitude longitude) = Ok weather
    /\ Weather.temperature weather = CurrentWeather.temperature_2m current
    /\ Weather.humidity weather = CurrentWeather.relative_humidity_2m current
    /\ Weather.windSpeed weather = CurrentWeather.wind_speed_10m current
    /\ Weather.precipitation weather = CurrentWeather.precipitation current
    /\ Weather.conditions weather
       = getWeatherCondition (Some (CurrentWeather.weather_code current)).
Proof.
  eexists. split; [apply getWeatherData_answer|]. repeat split; reflexivity.
Qed.

End Answer.

Lemma getWeatherData_errors_api (h : handler api) (latitude longitude : number)
  (e : exn) :
  run h (getWeatherData latitude longitude) = Err e ->
  api_error_in [INVALID_COORDINATES; TIMEOUT; RATE_LIMIT_EXCEEDED; UNKNOWN_ERROR] e.
Proof.
  rewrite getWeatherData_run. case_if.
  - destruct (getWeatherData_try _); cbn; [discriminate|]. intros [= <-].
    eapply api_error_in_incl; [|apply getWeatherData_catch_api].
    intros c Hc. now right.
  - intros [= <-]. repeat eexists. cbn. auto.
Qed.

(** [getWeatherData_errors]: a failure of [getWeatherData] is either the
    error [INVALID_COORDINATES] reported without any request, or an error of
    the API category reported after the one forecast request. *)
Theorem getWeatherData_errors (h : handler api) (latitude longitude : number) (e : exn) :
  run h (getWeatherData latitude longitude) = Err e ->
  (trace h (getWeatherData latitude longitude) = [] /\ api_error_in [INVALID_COORDINATES] e)
  \/ (trace h (getWeatherData latitude longitude)
       = [Request (forecastRequest latitude longitude)]
      /\ api_error_in (ERROR_CODES API_ERROR) e).
Proof.
  rewrite getWeatherData_run. destruct (isValidCoordinate latitude longitude) eqn:Hv.
  - rewrite getWeatherData_valid by exact Hv.
    destruct (getWeatherData_try _); cbn [catch_result]; [discriminate|].
    intros [= <-]. right. split; [reflexivity|].
    eapply api_error_in_incl; [apply API_ERROR_codes | apply getWeatherData_catch_api].
  - intros [= <-]. left. unfold getWeatherData. rewrite Hv.
    split; [reflexivity | repeat eexists; now left].
Qed.

(** ** [getWeatherByCityId] *)

Lemma CityInfo_eta (parsed : CityInfo.t) :
  {| CityInfo.name := CityInfo.name parsed;
     CityInfo.country := CityInfo.country parsed;
     CityInfo.latitude := CityInfo.latitude parsed;
     CityInfo.longitude := CityInfo.longitude parsed |} = parsed.
Proof. now destruct parsed. Qed.

Lemma getWeatherByCityId_run (h : handler api) (cityId : string) :
  run h (getWeatherByCityId cityId)
  = parsed <- parseCityId cityId ;;
    weather <- run h (getWeatherData (CityInfo.latitude parsed) (CityInfo.longitude parsed)) ;;
    Ok {| WeatherByCityId.weather := weather; WeatherByCityId.cityInfo := parsed |}.
Proof.
  unfold getWeatherByCityId. rewrite run_await_bind. cbn [run].
  destruct (parseCityId cityId) as [parsed|e]; [|reflexivity].
  rewrite run_await_bind. cbn [bind].
  destruct (run h (getWeatherData _ _)); cbn [run bind]; [|reflexivity].
  now rewrite CityInfo_eta.
Qed.

Lemma getWeatherByCityId_at_most_1 (cityId : string) :
  at_most 1 (getWeatherByCityId cityId).
Proof.
  unfold getWeatherByCityId. apply (at_most_await_bind 0 1); [constructor|].
  intros parsed. apply (at_most_await_bind 1 0); [|constructor].
  apply getWeatherData_at_most_1.
Qed.

(** [getWeatherByCityId_invalid_id]: an identifier that [parseCityId]
    rejects makes [getWeatherByCityId] throw the error of [parseCityId], and
    the program is the thrown error itself: no request is performed. *)
Theorem getWeatherByCityId_invalid_id (cityId : string) (e : exn) :
  parseCityId cityId = Err e -> getWeatherByCityId cityId = Ret (Err e).
Proof. intros Hp. unfold getWeatherByCityId. now rewrite Hp. Qed.

Lemma getWeatherByCityId_trace (h : handler api) (cityId : string)
  (parsed : CityInfo.t) :
  parseCityId cityId = Ok parsed ->
  trace h (getWeatherByCityId cityId)
  = [Request (forecastRequest (CityInfo.latitude parsed) (CityInfo.longitude parsed))].
Proof.
  intros Hp. pose proof (parseCityId_Ok_valid _ _ Hp) as Hv.
  unfold getWeatherByCityId. rewrite Hp. unfold await_bind at 1. cbn [pbind].
  unfold await_bind. rewrite trace_pbind, getWeatherData_request by exact Hv.
  destruct (run h (getWeatherData _ _)); reflexivity.
Qed.

Lemma getWeatherByCityId_errors_api (h : handler api) (cityId : string) (e : exn) :
  run h (getWeatherByCityId cityId) = Err e ->
  api_error_in [INVALID_COORDINATES; TIMEOUT; RATE_LIMIT_EXCEEDED; UNKNOWN_ERROR] e.
Proof.
  rewrite getWeatherByCityId_run.
  destruct (parseCityId cityId) as [parsed|e'] eqn:Hp; cbn [bind].
  - destruct (run h (getWeatherData _ _)) as [w|e'] eqn:Hw; cbn [bind]; [discriminate|].
    intros [= <-]. exact (getWeatherData_errors_api _ _ _ _ Hw).
  - intros [= <-]. apply parseCityId_error_api in Hp.
    eapply api_error_in_incl; [|exact Hp]. intros c [<-|[]]. now left.
Qed.

(** [getWeatherByCityId_valid_id]: for an identifier that decodes, exactly
    one request is performed, the forecast request for the decoded
    coordinates, and the result is the result of [getWeatherData] for these
    coordinates together with the decoded name, country and coordinates. *)
Theorem getWeatherByCityId_valid_id (h : handler api) (cityId : string)
  (parsed : CityInfo.t) :
  parseCityId cityId = Ok parsed ->
  trace h (getWeatherByCityId cityId)
  = [Request (forecastRequest (CityInfo.latitude parsed) (CityInfo.longitude parsed))]
  /\ run h (getWeatherByCityId cityId)
     = weather <- run h (getWeatherData (CityInfo.latitude parsed)
                           (CityInfo.longitude parsed)) ;;
       Ok {| WeatherByCityId.weather := weather; WeatherByCityId.cityInfo := parsed |}.
Proof.
  intros Hp. split; [now apply getWeatherByCityId_trace|].
  now rewrite getWeatherByCityId_run, Hp.
Qed.

(** [getWeatherByCityId_errors]: a failure of [getWeatherByCityId] is
    either the error [INVALID_COORDINATES] reported without any request (the
    identifier does not decode), or an error of the API category reported
    after the one forecast request. *)
Theorem getWeatherByCityId_errors (h : handler api) (cityId : string) (e : exn) :
  run h (getWeatherByCityId cityId) = Err e ->
  (trace h (getWeatherByCityId cityId) = [] /\ api_error_in [INVALID_COORDINATES] e)
  \/ (length (trace h (getWeatherByCityId cityId)) = 1%nat
      /\ api_error_in (ERROR_CODES API_ERROR) e).
Proof.
  destruct (parseCityId cityId) as [parsed | e'] eqn:Hp.
  - rewrite (getWeatherByCityId_trace h _ _ Hp), getWeatherByCityId_run, Hp. cbn [bind].
    destruct (run h (getWeatherData _ _)) as [w | e0] eqn:Hw; cbn [bind]; [discriminate|].
    intros [= <-]. right. split; [reflexivity|].
    destruct (getWeatherData_errors _ _ _ _ Hw) as [[Ht _] | [_ He]]; [|exact He].
    now rewrite getWeatherData_valid in Ht by exact (parseCityId_Ok_valid _ _ Hp).
  - rewrite (getWeatherByCityId_invalid_id _ _ Hp). intros [= <-]. left.
    split; [reflexivity | exact (parseCityId_error_api _ _ Hp)].
Qed.

End Service.

(** ** The forecast with the ranking of exact arithmetic *)

Section Decimal.
Context `{NumberText}.

Lemma dailyForecast_activities (daily : DailyWeather.t) (index : nat) (date : string) :
  DailyForecast.activities (dailyForecast daily index date)
  = firstn 1 (sortedActivities (forecastDay daily date index)).
Proof.
  rewrite dailyForecast_rank. cbn [RankingService.rankActivitiesForDay decimal_service].
  rewrite Literal_rankActivitiesForDay_eq. apply rankActivitiesForDay_one.
Qed.

(** A day of the forecast and the arrays it was read from. *)
Lemma dailyForecast_best (daily : DailyWeather.t) (index : nat) (date : string) :
  is_NaN (averageTemp (forecastDay daily date index)) = false ->
  exists a, DailyForecast.activities (dailyForecast daily index date) = [a]
    /\ int_between 0 100 (Activity.suitabilityScore a)
    /\ Forall (fun b => leb (Activity.suitabilityScore b) (Activity.suitabilityScore a) = true)
         (scoreAll ACTIVITY_CONFIGS (forecastDay daily date index)).
Proof.
  intros Ht. rewrite dailyForecast_activities.
  pose proof (sortedActivities_length (forecastDay daily date index)) as Hlen.
  destruct (sortedActivities _) as [|a t] eqn:Es; [discriminate|].
  exists a. split; [reflexivity|].
  destruct (sortedActivities_head_best _ a t Ht Es) as (l1 & l2 & Hl & H1 & H2).
  pose proof (scoreAll_range _ _ ACTIVITY_CONFIGS_Forall_wf Ht) as Hr.
  rewrite Hl in *. apply Forall_app in Hr. destruct Hr as [_ Hr].
  inversion Hr as [|? ? Ha _]; subst. split; [exact Ha|]. apply Forall_app. split.
  - eapply Forall_impl; [|exact H1]. intros b. apply ltb_leb_incl.
  - constructor; [|exact H2]. destruct Ha as (z & -> & _). cbn. apply Z.leb_refl.
Qed.

(** C28: on every day of the forecast whose
    maximum and minimum temperatures are numbers, the one activity attached
    has an integer score between 0 and 100, and no profile scores higher on
    that day. *)
Theorem getWeatherData_best_activity (h : handler api) (latitude longitude : number)
  (weather : Weather.t) (d : DailyForecast.t) :
  run h (getWeatherData latitude longitude) = Ok weather ->
  In d (Weather.forecast weather) ->
  is_NaN (averageTemp (summary d)) = false ->
  exists a, DailyForecast.activities d = [a]
    /\ int_between 0 100 (Activity.suitabilityScore a)
    /\ Forall (fun b => leb (Activity.suitabilityScore b) (Activity.suitabilityScore a) = true)
         (scoreAll ACTIVITY_CONFIGS (summary d)).
Proof.
  rewrite getWeatherData_run. case_if; [|discriminate].
  destruct (getWeatherData_try _) as [w|] eqn:E; cbn; [|discriminate].
  intros [= ->]. apply getWeatherData_try_Ok in E. destruct E as (data & _ & [= <-]).
  cbn [Weather.forecast]. intros Hin%(In_nth_error _ _). destruct Hin as (index & Hin).
  rewrite Array_mapi_nth in Hin.
  destruct (nth_error _ index) as [date|]; [|discriminate]. cbn in Hin. inv Hin.
  rewrite summary_dailyForecast. apply dailyForecast_best.
Qed.

(** C38: a day for which the answer holds a
    date but no maximum temperature (the array is shorter than [daily.time])
    is not rejected: its one activity is the first profile of the table,
    with the score [NaN]. *)
Theorem getWeatherData_missing_temperature (h : handler api)
  (latitude longitude : number) (data : WeatherResponse.t) (index : nat) (date : string) :
  isValidCoordinate latitude longitude = true ->
  h _ (forecastRequest latitude longitude) = Fulfilled (Some data) ->
  nth_error (DailyWeather.time (WeatherResponse.daily data)) index = Some date ->
  nth_error (DailyWeather.temperature_2m_max (WeatherResponse.daily data)) index = None ->
  exists weather d a,
    run h (getWeatherData latitude longitude) = Ok weather
    /\ nth_error (Weather.forecast weather) index = Some d
    /\ DailyForecast.activities d = [a]
    /\ Activity.name a = "skiing"
    /\ Activity.suitabilityScore a = NaN.
Proof.
  intros Hv Hh Hdate Hmax.
  set (day := forecastDay (WeatherResponse.daily data) date index).
  assert (Ht : is_NaN (averageTemp day) = true).
  { unfold averageTemp, day. cbn [forecastDay ForecastDay.maxTemp].
    unfold number_at at 1. now rewrite Hmax. }
  eexists _, _, _.
  split; [exact (getWeatherData_answer h latitude longitude data Hv Hh)|].
  cbn [Weather.forecast]. rewrite Array_mapi_nth, Hdate. cbn [option_map].
  split; [reflexivity|]. rewrite dailyForecast_activities. fold day.
  rewrite (sortedActivities_NaN day Ht). cbn [scoreAll ACTIVITY_CONFIGS map firstn].
  split; [reflexivity|]. split; [reflexivity|].
  now rewrite suitabilityScore_clamp, scoreBlocks_NaN.
Qed.

End Decimal.

(** ** Two ranking services *)

(** The weather service uses the ranking only on the days of the answer:
    with two ranking services that agree on those days it returns the same
    result. *)
Section Rankings.
Context `{NumberText}.
Variables S1 S2 : RankingService.service.

Definition same_rankings (daily : DailyWeather.t) : Prop :=
  forall index date,
    nth_error (DailyWeather.time daily) index = Some date ->
    RankingService.rankActivitiesForDay (service := S1)
      (forecastDay daily date index) (Some (int 1))
    = RankingService.rankActivitiesForDay (service := S2)
        (forecastDay daily date index) (Some (int 1)).

Lemma getWeatherData_try_ext (response : settled exn WeatherResponse.t) :
  (forall data, response = Fulfilled (Some data) ->
                same_rankings (WeatherResponse.daily data)) ->
  getWeatherData_try (ranking := S1) response = getWeatherData_try (ranking := S2) response.
Proof.
  destruct response as [[data|]|e]; cbn; [|reflexivity..]. intros Hsame.
  do 2 f_equal. apply Array_mapi_ext. intros index date Hdate.
  unfold dailyForecast. f_equal. now apply Hsame.
Qed.

Lemma getWeatherData_ext (h : handler api) (latitude longitude : number) :
  (forall data, h _ (forecastRequest latitude longitude) = Fulfilled (Some data) ->
                same_rankings (WeatherResponse.daily data)) ->
  run h (getWeatherData (ranking := S1) latitude longitude)
  = run h (getWeatherData (ranking := S2) latitude longitude).
Proof.
  intros Hsame. rewrite !getWeatherData_run. now rewrite getWeatherData_try_ext.
Qed.

Lemma getWeatherByCityId_ext (h : handler api) (cityId : string) :
  (forall latitude longitude data,
     h _ (forecastRequest latitude longitude) = Fulfilled (Some data) ->
     same_rankings (WeatherResponse.daily data)) ->
  run h (getWeatherByCityId (ranking := S1) cityId)
  = run h (getWeatherByCityId (ranking := S2) cityId).
Proof.
  intros Hsame. rewrite !getWeatherByCityId_run.
  destruct (parseCityId cityId) as [parsed|e]; [|reflexivity]. cbn [bind].
  now rewrite getWeatherData_ext by apply Hsame.
Qed.

End Rankings.

(** ** Witnesses *)

From S2P Require Import JsNumberText.

(** A service that answers every geocoding request with [geo] and every
    forecast request with [fc]. *)
Definition answer (geo : settled exn GeocodingResponse.t)
  (fc : settled exn WeatherResponse.t) : handler api :=
  fun X e =>
    match e in api T return T with
    | get_search _ _ _ => geo
    | get_forecast _ _ _ => fc
    end.

Definition london : GeocodingResult.t :=
  {| GeocodingResult.name := "London";
     GeocodingResult.latitude := dec 515074 4;
     GeocodingResult.longitude := dec (-1278) 4;
     GeocodingResult.feature_code := "PPLC";
     GeocodingResult.country := "United Kingdom" |}.

Definition hyde_park : GeocodingResult.t :=
  {| GeocodingResult.name := "Hyde Park";
     GeocodingResult.latitude := dec 515073 4;
     GeocodingResult.longitude := dec (-1657) 4;
     GeocodingResult.feature_code := "PRK";
     GeocodingResult.country := "United Kingdom" |}.

Definition london_city : City.t := toCity london.

Definition found (results : list GeocodingResult.t) : settled exn GeocodingResponse.t :=
  Fulfilled (Some {| GeocodingResponse.results := Some results |}).

Definition no_results : settled exn GeocodingResponse.t :=
  Fulfilled (Some {| GeocodingResponse.results := None |}).

Definition rate_limited {T : Type} : settled exn T :=
  Rejected (AxiosError (Some "ERR_BAD_REQUEST")
              (Some {| AxiosResponse.status := int 429;
                       AxiosResponse.statusText := "Too Many Requests" |})
              "Request failed with status code 429").

Definition timed_out {T : Type} : settled exn T :=
  Rejected (AxiosError (Some "ECONNABORTED")
              (Some {| AxiosResponse.status := int 429;
                       AxiosResponse.statusText := "Too Many Requests" |})
              "timeout of 10000ms exceeded").

Definition current_weather : CurrentWeather.t :=
  {| CurrentWeather.temperature_2m := dec 185 1;
     CurrentWeather.relative_humidity_2m := int 60;
     CurrentWeather.precipitation := int 0;
     CurrentWeather.weather_code := int 2;
     CurrentWeather.wind_speed_10m := dec 123 1 |}.

(** Two days: the mild dry day and the rainy day of the tests. *)
Definition two_days : WeatherResponse.t :=
  {| WeatherResponse.current := current_weather;
     WeatherResponse.daily :=
       {| DailyWeather.time := ["2026-01-01"; "2026-01-02"];
          DailyWeather.weather_code := [int 0; int 61];
          DailyWeather.temperature_2m_max := [int 22; int 18];
          DailyWeather.temperature_2m_min := [int 18; int 15];
          DailyWeather.precipitation_sum := [int 0; int 15];
          DailyWeather.wind_speed_10m_max := [int 5; int 10] |} |}.

(** The same answer with the second maximum temperature missing. *)
Definition ragged : WeatherResponse.t :=
  {| WeatherResponse.current := current_weather;
     WeatherResponse.daily :=
       {| DailyWeather.time := ["2026-01-01"; "2026-01-02"];
          DailyWeather.weather_code := [int 0; int 61];
          DailyWeather.temperature_2m_max := [int 22];
          DailyWeather.temperature_2m_min := [int 18; int 15];
          DailyWeather.precipitation_sum := [int 0; int 15];
          DailyWeather.wind_speed_10m_max := [int 5; int 10] |} |}.

Definition geocoding_only (geo : settled exn GeocodingResponse.t) : handler api :=
  answer geo (Fulfilled None).

Definition forecast_only (fc : settled exn WeatherResponse.t) : handler api :=
  answer (Fulfilled None) fc.

Definition london_id : string := "51.5074,-0.1278:London:United Kingdom".

Lemma parseCityId_cityId_witness :
  exists parsed,
    parseCityId (cityId (dec 515074 4) (dec (-1278) 4) "London" "United Kingdom")
    = Ok parsed
    /\ CityInfo.latitude parsed ==n dec 515074 4
    /\ CityInfo.longitude parsed ==n dec (-1278) 4
    /\ CityInfo.name parsed = "London"
    /\ CityInfo.country parsed = "United Kingdom".
Proof. apply parseCityId_cityId; reflexivity. Defined.

Lemma parseCityId_cityId_invalid_witness :
  parseCityId (cityId (int 999) (int 999) "Atlantis" "Ocean") = Err rangeError.
Proof. apply parseCityId_cityId_invalid; reflexivity. Defined.

Lemma parseCityId_extra_coordinates_witness :
  is_ok (parseCityId "51.5074,-0.1278,77:London:United Kingdom") = true.
Proof.
  exact (parseCityId_extra_coordinates (dec 515074 4) (dec (-1278) 4) "77" "London"
           "United Kingdom" eq_refl eq_refl eq_refl eq_refl).
Defined.

Lemma parseCityId_colon_in_name_witness :
  parseCityId (cityId (dec 515074 4) (dec (-1278) 4) "London: City" "United Kingdom")
  = Err formatError.
Proof. apply parseCityId_colon_in_name. left. reflexivity. Defined.

Lemma parseCityId_error_witness :
  (formatError = formatError \/ formatError = coordsError \/ formatError = rangeError)
  /\ code_of formatError = Some INVALID_COORDINATES.
Proof. apply (parseCityId_error "invalid-format"). reflexivity. Defined.

Lemma parseCityId_Ok_witness :
  isValidCoordinate (dec 515074 4) (dec (-1278) 4) = true
  /\ exists coords,
       london_id = coords ++ ":" ++ "London" ++ ":" ++ "United Kingdom"
       /\ lacks ":" coords = true
       /\ lacks ":" "London" = true
       /\ lacks ":" "United Kingdom" = true.
Proof.
  exact (parseCityId_Ok london_id
           {| CityInfo.latitude := dec 515074 4; CityInfo.longitude := dec (-1278) 4;
              CityInfo.name := "London"; CityInfo.country := "United Kingdom" |}
           eq_refl).
Defined.

Lemma getWeatherCondition_known_witness :
  getWeatherCondition (Some (int 61)) = "Slight rain".
Proof. apply getWeatherCondition_known. vm_compute. tauto. Defined.

Lemma getWeatherCondition_unknown_witness :
  getWeatherCondition (Some (dec 15 1)) = "Unknown condition (1.5)".
Proof.
  rewrite (getWeatherCondition_unknown (dec 15 1)); [reflexivity|].
  intros k label Hin. cbn [num_eqv dec int pow10]. lia.
Defined.

Lemma searchCities_short_query_witness : searchCities " a " = Ret (Err queryError).
Proof. apply searchCities_short_query. vm_compute. lia. Defined.

Lemma searchCities_request_witness :
  trace (geocoding_only no_results) (searchCities " Lon ") = [Request (searchRequest " Lon ")].
Proof. apply searchCities_request. vm_compute. lia. Defined.

Lemma searchCities_absent_results_witness :
  run (geocoding_only no_results) (searchCities "London") = Ok [].
Proof. apply searchCities_absent_results; [vm_compute; lia | reflexivity]. Defined.

Lemma searchCities_results_witness :
  exists cities,
    run (geocoding_only (found [hyde_park; london])) (searchCities "London") = Ok cities
    /\ map City.name cities = ["London"]
    /\ map City.id cities = [london_id].
Proof.
  destruct (searchCities_results (geocoding_only (found [hyde_park; london])) "London"
              [hyde_park; london]) as (cities & kept & Hrun & -> & Hn & _ & _ & _ & Hid);
    [vm_compute; lia | reflexivity |].
  exists cities. split; [exact Hrun|]. split; [exact Hn | exact Hid].
Defined.

Lemma searchCities_errors_witness :
  exists m c cause,
    OpenMeteoAPIError "Rate limit exceeded. Please try again later."
      (Some RATE_LIMIT_EXCEEDED) None
    = OpenMeteoAPIError m (Some c) cause
    /\ In c [BAD_USER_INPUT; TIMEOUT; RATE_LIMIT_EXCEEDED; UNKNOWN_ERROR]
    /\ (c = BAD_USER_INPUT <-> (String.length (trim "London") < 2)%nat).
Proof.
  apply (searchCities_errors (geocoding_only rate_limited) "London"). reflexivity.
Defined.

Lemma searchCities_timeout_with_429_witness :
  run (geocoding_only timed_out) (searchCities "London")
  = Err (OpenMeteoAPIError "Request timeout while searching cities" (Some TIMEOUT) None).
Proof.
  eapply searchCities_timeout_with_429; [vm_compute; lia | reflexivity].
Defined.

Lemma searchCities_ids_decode_witness :
  exists parsed,
    parseCityId london_id = Ok parsed
    /\ CityInfo.latitude parsed ==n dec 515074 4
    /\ CityInfo.longitude parsed ==n dec (-1278) 4
    /\ CityInfo.name parsed = "London"
    /\ CityInfo.country parsed = "United Kingdom".
Proof.
  apply (searchCities_ids_decode (geocoding_only (found [hyde_park; london])) "London"
           [london_city] london_city); try reflexivity.
  now left.
Defined.

Lemma getWeatherData_invalid_coordinates_witness :
  getWeatherData (int 91) (int 0) = Ret (Err coordinatesError).
Proof. apply getWeatherData_invalid_coordinates. reflexivity. Defined.

Lemma getWeatherData_request_witness :
  trace (forecast_only rate_limited) (getWeatherData (dec 515074 4) (dec (-1278) 4))
  = [Request (forecastRequest (dec 515074 4) (dec (-1278) 4))].
Proof. apply getWeatherData_request. reflexivity. Defined.

Lemma getWeatherData_forecast_days_witness :
  exists weather,
    run (forecast_only (Fulfilled (Some two_days)))
      (getWeatherData (dec 515074 4) (dec (-1278) 4)) = Ok weather
    /\ map DailyForecast.date (Weather.forecast weather) = ["2026-01-01"; "2026-01-02"]
    /\ Forall (fun d => exists a, DailyForecast.activities d = [a]
                 /\ In (Activity.name a) (map ActivityConfig.name ACTIVITY_CONFIGS))
         (Weather.forecast weather).
Proof.
  exact (getWeatherData_forecast_days (forecast_only (Fulfilled (Some two_days)))
           (dec 515074 4) (dec (-1278) 4) two_days eq_refl eq_refl).
Defined.

Lemma getWeatherData_day_witness :
  exists weather d,
    run (forecast_only (Fulfilled (Some two_days)))
      (getWeatherData (dec 515074 4) (dec (-1278) 4)) = Ok weather
    /\ nth_error (Weather.forecast weather) 1 = Some d
    /\ DailyForecast.conditions d = "Slight rain"
    /\ DailyForecast.activities d
       = RankingService.rankActivitiesForDay (summary d) (Some (int 1)).
Proof.
  destruct (getWeatherData_day (forecast_only (Fulfilled (Some two_days)))
              (dec 515074 4) (dec (-1278) 4) two_days eq_refl eq_refl 1 "2026-01-02"
              eq_refl)
    as (weather & d & Hrun & Hd & _ & _ & _ & _ & _ & Hc & Ha).
  exists weather, d. repeat split; assumption.
Defined.

Lemma getWeatherData_current_witness :
  exists weather,
    run (forecast_only (Fulfilled (Some two_days)))
      (getWeatherData (dec 515074 4) (dec (-1278) 4)) = Ok weather
    /\ Weather.temperature weather = dec 185 1
    /\ Weather.conditions weather = "Partly cloudy".
Proof.
  destruct (getWeatherData_current (forecast_only (Fulfilled (Some two_days)))
              (dec 515074 4) (dec (-1278) 4) two_days eq_refl eq_refl)
    as (weather & Hrun & Ht & _ & _ & _ & Hc).
  exists weather. repeat split; assumption.
Defined.

Definition rainy_forecast : DailyForecast.t :=
  dailyForecast (WeatherResponse.daily two_days) 1 "2026-01-02".

Lemma getWeatherData_best_activity_witness :
  exists a, DailyForecast.activities rainy_forecast = [a]
    /\ int_between 0 100 (Activity.suitabilityScore a)
    /\ Forall (fun b => leb (Activity.suitabilityScore b) (Activity.suitabilityScore a) = true)
         (scoreAll ACTIVITY_CONFIGS (summary rainy_forecast)).
Proof.
  eapply (getWeatherData_best_activity (forecast_only (Fulfilled (Some two_days)))
            (dec 515074 4) (dec (-1278) 4)); [reflexivity | | reflexivity].
  right. left. reflexivity.
Defined.

Lemma getWeatherData_missing_temperature_witness :
  exists weather d a,
    run (forecast_only (Fulfilled (Some ragged)))
      (getWeatherData (dec 515074 4) (dec (-1278) 4)) = Ok weather
    /\ nth_error (Weather.forecast weather) 1 = Some d
    /\ DailyForecast.activities d = [a]
    /\ Activity.name a = "skiing"
    /\ Activity.suitabilityScore a = NaN.
Proof.
  exact (getWeatherData_missing_temperature (forecast_only (Fulfilled (Some ragged)))
           (dec 515074 4) (dec (-1278) 4) ragged 1 "2026-01-02"
           eq_refl eq_refl eq_refl eq_refl).
Defined.

Lemma getWeatherData_errors_witness :
  let e := OpenMeteoAPIError "Request timeout while fetching weather data" (Some TIMEOUT) None in
  let p := getWeatherData (dec 515074 4) (dec (-1278) 4) in
  (trace (forecast_only timed_out) p = [] /\ api_error_in [INVALID_COORDINATES] e)
  \/ (trace (forecast_only timed_out) p
       = [Request (forecastRequest (dec 515074 4) (dec (-1278) 4))]
      /\ api_error_in (ERROR_CODES API_ERROR) e).
Proof.
  apply (getWeatherData_errors (forecast_only timed_out) (dec 515074 4) (dec (-1278) 4)).
  reflexivity.
Defined.

Lemma getWeatherByCityId_invalid_id_witness :
  getWeatherByCityId "999,999:Atlantis:Ocean" = Ret (Err rangeError).
Proof. apply getWeatherByCityId_invalid_id. reflexivity. Defined.

Lemma getWeatherByCityId_valid_id_witness :
  trace (forecast_only (Fulfilled (Some two_days))) (getWeatherByCityId london_id)
  = [Request (forecastRequest (dec 515074 4) (dec (-1278) 4))].
Proof.
  apply (getWeatherByCityId_valid_id (forecast_only (Fulfilled (Some two_days))) london_id
           {| CityInfo.latitude := dec 515074 4; CityInfo.longitude := dec (-1278) 4;
              CityInfo.name := "London"; CityInfo.country := "United Kingdom" |}).
  reflexivity.
Defined.

Lemma getWeatherByCityId_errors_witness :
  let p := getWeatherByCityId "invalid-format" in
  (trace (forecast_only rate_limited) p = [] /\ api_error_in [INVALID_COORDINATES] formatError)
  \/ (length (trace (forecast_only rate_limited) p) = 1%nat
      /\ api_error_in (ERROR_CODES API_ERROR) formatError).
Proof.
  apply (getWeatherByCityId_errors (forecast_only rate_limited) "invalid-format").
  reflexivity.
Defined.

Lemma searchCities_fail_fast_witness :
  let e := OpenMeteoAPIError "Rate limit exceeded. Please try again later."
             (Some RATE_LIMIT_EXCEEDED) None in
  (trace (geocoding_only rate_limited) (searchCities "London") = []
   /\ api_error_in [BAD_USER_INPUT] e)
  \/ (trace (geocoding_only rate_limited) (searchCities "London")
       = [Request (searchRequest "London")]
      /\ api_error_in (ERROR_CODES API_ERROR) e).
Proof.
  apply (searchCities_fail_fast (geocoding_only rate_limited) "London"). reflexivity.
Defined.

Lemma parseCityId_trailing_text_witness :
  exists parsed,
    parseCityId "51.5abc,-0.12 west:London:United Kingdom" = Ok parsed
    /\ CityInfo.latitude parsed ==n dec 515 1
    /\ CityInfo.longitude parsed ==n dec (-12) 2
    /\ CityInfo.name parsed = "London"
    /\ CityInfo.country parsed = "United Kingdom".
Proof.
  exact (parseCityId_trailing_text (dec 515 1) (dec (-12) 2) "abc" " west"
           "London" "United Kingdom" eq_refl eq_refl eq_refl eq_refl eq_refl).
Defined.

(** ** Scenarios *)

(** [parseCityId_scenarios]: the identifiers of the repository's tests: a
    well-formed identifier decodes to its four fields, coordinates out of
    range are rejected as invalid coordinates, and a text without colons is
    rejected as malformed. *)
Example parseCityId_scenarios :
  parseCityId "-33.92584,18.42322:Cape Town:South Africa"
  = Ok {| CityInfo.latitude := dec (-3392584) 5;
          CityInfo.longitude := dec 1842322 5;
          CityInfo.name := "Cape Town";
          CityInfo.country := "South Africa" |}
  /\ parseCityId "999,999:Atlantis:Ocean" = Err rangeError
  /\ parseCityId "invalid-format" = Err formatError
  /\ parseCityId ",18.4:Cape Town:South Africa" = Err coordsError
  /\ parseCityId "18.4:Cape Town:South Africa" = Err coordsError.
Proof. vm_compute. repeat split. Qed.

(** [parseCityId_no_number]: a piece that does not start with a number is
    [NaN] and is rejected as invalid coordinates, while a piece with text
    after a number is accepted. *)
Example parseCityId_no_number :
  parseCityId "abc,-0.12:London:United Kingdom" = Err rangeError
  /\ is_ok (parseCityId "51.5abc,-0.12 west:London:United Kingdom") = true.
Proof. vm_compute. repeat split. Qed.

(** [parseCityId_space_after_comma]: an identifier written with spaces
    around the coordinates decodes like the identifier without them. *)
Example parseCityId_space_after_comma :
  parseCityId " 51.5074, -0.1278:London:United Kingdom"
  = parseCityId "51.5074,-0.1278:London:United Kingdom"
  /\ is_ok (parseCityId " 51.5074, -0.1278:London:United Kingdom") = true.
Proof. vm_compute. repeat split. Qed.

(** [searchCities_scenarios]: the scenarios of the repository's tests for
    [searchCities]: a one-letter query is rejected, an answer without
    results gives the empty list, an answer with a capital and a park gives
    the capital with its identifier, and a rate-limited request is reported
    as such. *)
Example searchCities_scenarios :
  run (geocoding_only no_results) (searchCities "a") = Err queryError
  /\ run (geocoding_only no_results) (searchCities "NonexistentCity") = Ok []
  /\ run (geocoding_only (found [london; hyde_park])) (searchCities "London")
     = Ok [ {| City.id := "51.5074,-0.1278:London:United Kingdom";
               City.name := "London";
               City.country := "United Kingdom";
               City.latitude := dec 515074 4;
               City.longitude := dec (-1278) 4 |} ]
  /\ run (geocoding_only rate_limited) (searchCities "London")
     = Err (OpenMeteoAPIError "Rate limit exceeded. Please try again later."
              (Some RATE_LIMIT_EXCEEDED) None).
Proof. vm_compute. repeat split. Qed.
