(* ===== verification/ResolverTypes.v ===== *)
(** * ResolverTypes: the generated types of the resolvers

    [src/unnamed/part_002] is generated from [src/schema.graphql] and types
    the object [resolvers] of [src/src/schema/resolvers.ts].  [Maybe] is an
    optional value; [ResolversTypes] and [ResolversParentTypes] give every
    type of the schema the type of the values a resolver returns and
    receives for it; a [ResolverFn] is a function of the parent, the
    arguments, the context and the [GraphQLResolveInfo] that returns its
    result or a promise of it, here a [prog] ([Ret] for a result that is
    there already); a [Resolver] is such a function or an object that holds
    one; [ActivityResolvers], [CityResolvers] and the others have one
    optional resolver for every field of the type, and [Resolvers] one
    optional record for every type.

    The types are parameters of the context and of [GraphQLResolveInfo],
    which the resolvers of the program never read.  The types of the
    subscriptions and of the directives are not translated: the schema has
    no subscription and no directive. *)

From Stdlib Require Import String List.
From S2P Require Import Prelude JsNumber Types Http Errors OpenMeteoAPI.

Definition Maybe (T : Type) : Type := option T.
Definition InputMaybe (T : Type) : Type := Maybe T.

Module QueryGetCityWeatherArgs.
Record t : Type := mk { cityId : string }.
End QueryGetCityWeatherArgs.

Module QuerySearchCitiesArgs.
Record t : Type := mk { input : string }.
End QuerySearchCitiesArgs.

(** The keys of [ResolversTypes] and [ResolversParentTypes]. *)
Module Key.
Inductive t : Type :=
| Activity | Boolean | City | CityWeather | DailyForecast
| Float | Int | Query | String | Weather.
End Key.

(** [ResolverTypeWrapper<T>]: [Promise<T> | T]. *)
Definition ResolverTypeWrapper (T : Type) : Type := prog api (result exn T).

(** The type of the values of each key; the wrapper of [ResolversTypes] is
    in the result type of [ResolverFn]. *)
Definition ResolversTypes (k : Key.t) : Type :=
  match k with
  | Key.Activity => Activity.t
  | Key.Boolean => bool
  | Key.City => City.t
  | Key.CityWeather => CityWeather.t
  | Key.DailyForecast => DailyForecast.t
  | Key.Float => number
  | Key.Int => number
  | Key.Query => unit
  | Key.String => string
  | Key.Weather => Weather.t
  end.

Definition ResolversParentTypes (k : Key.t) : Type :=
  match k with
  | Key.Activity => Activity.t
  | Key.Boolean => bool
  | Key.City => City.t
  | Key.CityWeather => CityWeather.t
  | Key.DailyForecast => DailyForecast.t
  | Key.Float => number
  | Key.Int => number
  | Key.Query => unit
  | Key.String => string
  | Key.Weather => Weather.t
  end.

Definition ResolverFn (TResult TParent TContext TArgs GraphQLResolveInfo : Type) : Type :=
  TParent -> TArgs -> TContext -> GraphQLResolveInfo -> ResolverTypeWrapper TResult.

Module ResolverWithResolve.
Record t (TResult TParent TContext TArgs GraphQLResolveInfo : Type) : Type := mk {
  resolve : ResolverFn TResult TParent TContext TArgs GraphQLResolveInfo
}.
Arguments mk {TResult TParent TContext TArgs GraphQLResolveInfo} resolve.
Arguments resolve {TResult TParent TContext TArgs GraphQLResolveInfo} t.
End ResolverWithResolve.

Inductive Resolver (TResult TParent TContext TArgs GraphQLResolveInfo : Type) : Type :=
| Resolver_function (f : ResolverFn TResult TParent TContext TArgs GraphQLResolveInfo)
| Resolver_object
    (r : ResolverWithResolve.t TResult TParent TContext TArgs GraphQLResolveInfo).

Arguments Resolver_function {TResult TParent TContext TArgs GraphQLResolveInfo} f.
Arguments Resolver_object {TResult TParent TContext TArgs GraphQLResolveInfo} r.

(** The function of a resolver. *)
Definition resolver_function {TResult TParent TContext TArgs GraphQLResolveInfo : Type}
    (r : Resolver TResult TParent TContext TArgs GraphQLResolveInfo) :
    ResolverFn TResult TParent TContext TArgs GraphQLResolveInfo :=
  match r with
  | Resolver_function f => f
  | Resolver_object o => ResolverWithResolve.resolve o
  end.

Definition IsTypeOfResolverFn (T TContext GraphQLResolveInfo : Type) : Type :=
  T -> TContext -> GraphQLResolveInfo -> ResolverTypeWrapper bool.

(** An optional resolver of a field of the type [parent] whose values have
    the type of [result], without arguments. *)
Definition field (ContextType Info : Type) (parent : Key.t) (result : Type) : Type :=
  option (Resolver result (ResolversParentTypes parent) ContextType unit Info).

Module ActivityResolvers.
Record t (ContextType Info : Type) : Type := mk {
  name : field ContextType Info Key.Activity (ResolversTypes Key.String);
  reasoning : field ContextType Info Key.Activity (ResolversTypes Key.String);
  suitabilityScore : field ContextType Info Key.Activity (ResolversTypes Key.Int);
  __isTypeOf : option (IsTypeOfResolverFn (ResolversParentTypes Key.Activity) ContextType Info)
}.
End ActivityResolvers.

Module CityResolvers.
Record t (ContextType Info : Type) : Type := mk {
  country : field ContextType Info Key.City (ResolversTypes Key.String);
  id : field ContextType Info Key.City (ResolversTypes Key.String);
  latitude : field ContextType Info Key.City (ResolversTypes Key.Float);
  longitude : field ContextType Info Key.City (ResolversTypes Key.Float);
  name : field ContextType Info Key.City (ResolversTypes Key.String);
  __isTypeOf : option (IsTypeOfResolverFn (ResolversParentTypes Key.City) ContextType Info)
}.
End CityResolvers.

Module CityWeatherResolvers.
Record t (ContextType Info : Type) : Type := mk {
  city : field ContextType Info Key.CityWeather (ResolversTypes Key.City);
  weather : field ContextType Info Key.CityWeather (ResolversTypes Key.Weather);
  __isTypeOf :
    option (IsTypeOfResolverFn (ResolversParentTypes Key.CityWeather) ContextType Info)
}.
End CityWeatherResolvers.

Module DailyForecastResolvers.
Record t (ContextType Info : Type) : Type := mk {
  activities : field ContextType Info Key.DailyForecast (list (ResolversTypes Key.Activity));
  conditions : field ContextType Info Key.DailyForecast (ResolversTypes Key.String);
  date : field ContextType Info Key.DailyForecast (ResolversTypes Key.String);
  maxTemp : field ContextType Info Key.DailyForecast (ResolversTypes Key.Float);
  minTemp : field ContextType Info Key.DailyForecast (ResolversTypes Key.Float);
  precipitation : field ContextType Info Key.DailyForecast (ResolversTypes Key.Float);
  windSpeed : field ContextType Info Key.DailyForecast (ResolversTypes Key.Float);
  __isTypeOf :
    option (IsTypeOfResolverFn (ResolversParentTypes Key.DailyForecast) ContextType Info)
}.
End DailyForecastResolvers.

Module QueryResolvers.
Record t (ContextType Info : Type) : Type := mk {
  getCityWeather :
    option (Resolver (ResolversTypes Key.CityWeather) (ResolversParentTypes Key.Query)
              ContextType QueryGetCityWeatherArgs.t Info);
  searchCities :
    option (Resolver (list (ResolversTypes Key.City)) (ResolversParentTypes Key.Query)
              ContextType QuerySearchCitiesArgs.t Info)
}.
End QueryResolvers.

Module WeatherResolvers.
Record t (ContextType Info : Type) : Type := mk {
  conditions : field ContextType Info Key.Weather (ResolversTypes Key.String);
  forecast : field ContextType Info Key.Weather (list (ResolversTypes Key.DailyForecast));
  humidity : field ContextType Info Key.Weather (ResolversTypes Key.Float);
  precipitation : field ContextType Info Key.Weather (ResolversTypes Key.Float);
  temperature : field ContextType Info Key.Weather (ResolversTypes Key.Float);
  windSpeed : field ContextType Info Key.Weather (ResolversTypes Key.Float);
  __isTypeOf :
    option (IsTypeOfResolverFn (ResolversParentTypes Key.Weather) ContextType Info)
}.
End WeatherResolvers.

Record Resolvers (ContextType Info : Type) : Type := mk_Resolvers {
  Activity : option (ActivityResolvers.t ContextType Info);
  City : option (CityResolvers.t ContextType Info);
  CityWeather : option (CityWeatherResolvers.t ContextType Info);
  DailyForecast : option (DailyForecastResolvers.t ContextType Info);
  Query : option (QueryResolvers.t ContextType Info);
  Weather : option (WeatherResolvers.t ContextType Info)
}.

Arguments mk_Resolvers {ContextType Info}.
Arguments Activity {ContextType Info} r.
Arguments City {ContextType Info} r.
Arguments CityWeather {ContextType Info} r.
Arguments DailyForecast {ContextType Info} r.
Arguments Query {ContextType Info} r.
Arguments Weather {ContextType Info} r.
Arguments QueryResolvers.mk {ContextType Info}.
Arguments QueryResolvers.getCityWeather {ContextType Info} t.
Arguments QueryResolvers.searchCities {ContextType Info} t.
