(* ===== verification/Resolvers.v ===== *)
(** * Resolvers: [src/src/schema/resolvers.ts], the two GraphQL queries

    [Query.searchCities] and [Query.getCityWeather] call the service of
    [OpenMeteoAPI] inside a [try] block and translate what it throws into a
    [GraphQLError] whose extensions carry the code of the error and the name
    of the upstream service.  The definitions of this file leave the calls
    of [console.log] and [console.error] out; [Console] has the resolvers
    with them and proves that they are these when the calls are erased.

    [resolvers] is the exported object, of the generated type [Resolvers]:
    it has the two fields of [Query] and nothing for the other types.
    [resolve] is the call of a field of [resolvers.Query] for an
    [operation], a field of [type Query] with its argument.

    The theorems show that a resolver returns exactly what the service
    returns, performs the requests of the service and no other, and throws
    only [GraphQLError]s carrying a code of the user or API categories; the
    branch that reports [INTERNAL_SERVER_ERROR] is never taken, because the
    service already turns every failure into an [OpenMeteoAPIError].  For
    every operation, at most one request is issued, a user error is
    reported before any request and an API error after exactly one. *)

From Stdlib Require Import String Ascii List ZArith Bool Lia.
From S2P Require Import Prelude JsNumber JsString Types Constants Http Promise Errors.
From S2P Require Import Ranking NumberText OpenMeteoAPI ResolverTypes.
Import ListNotations.

Local Open Scope list_scope.
Local Open Scope string_scope.
Local Open Scope js_scope.

Module Query.
Section Resolvers.
Context `{NumberText} {ranking : RankingService.service} {ranking_ok : RankingService.ok ranking}.

(** The [catch] block of the resolver [searchCities]. *)
Definition searchCitiesError (error : exn) : exn :=
  if instanceof_OpenMeteoAPIError error then
    GraphQLError (message_of error) (code_of error) (Some "OpenMeteo Geocoding API")
  else
    GraphQLError "Failed to search cities" (Some INTERNAL_SERVER_ERROR) None.

Definition searchCities (input : string) : prog api (result exn (list City.t)) :=
  try_catch
    (await_bind (OpenMeteoAPI.searchCities input) (fun cities => Ret (Ok cities)))
    searchCitiesError.

(** The [catch] block of the resolver [getCityWeather]. *)
Definition getCityWeatherError (error : exn) : exn :=
  if instanceof_GraphQLError error then error
  else if instanceof_OpenMeteoAPIError error then
    GraphQLError (message_of error) (code_of error) (Some "OpenMeteo Weather API")
  else
    GraphQLError "Failed to get weather data" (Some INTERNAL_SERVER_ERROR) None.

(** [{ id: cityId, ...cityInfo }] *)
Definition cityOf (cityId : string) (cityInfo : CityInfo.t) : City.t :=
  {| City.id := cityId;
     City.name := CityInfo.name cityInfo;
     City.country := CityInfo.country cityInfo;
     City.latitude := CityInfo.latitude cityInfo;
     City.longitude := CityInfo.longitude cityInfo |}.

Definition getCityWeather (cityId : string) : prog api (result exn CityWeather.t) :=
  try_catch
    (await_bind (OpenMeteoAPI.getWeatherByCityId cityId) (fun r =>
       let weather := WeatherByCityId.weather r in
       let cityInfo := WeatherByCityId.cityInfo r in
       let city := cityOf cityId cityInfo in
       Ret (Ok {| CityWeather.city := city; CityWeather.weather := weather |})))
    getCityWeatherError.

End Resolvers.
End Query.

(** The object [resolvers]: the two fields of [Query], and no resolver for
    the fields of the other types. *)
Section Object.
Context `{NumberText} {ranking : RankingService.service} {ranking_ok : RankingService.ok ranking}.
Context {ContextType Info : Type}.

Definition resolvers : Resolvers ContextType Info :=
  {| Activity := None;
     City := None;
     CityWeather := None;
     DailyForecast := None;
     Query :=
       Some {| QueryResolvers.searchCities :=
                 Some (Resolver_function
                         (fun _parent args _ _ =>
                            Query.searchCities (QuerySearchCitiesArgs.input args)));
               QueryResolvers.getCityWeather :=
                 Some (Resolver_function
                         (fun _parent args _ _ =>
                            Query.getCityWeather (QueryGetCityWeatherArgs.cityId args))) |};
     Weather := None |}.

End Object.

(** ** The query surface: [resolvers.Query] *)

(** A field of [type Query] with its argument. *)
Inductive operation : Type :=
| SearchCities (input : string)
| GetCityWeather (cityId : string).

(** The value of the field: [Array<City>] or [CityWeather]. *)
Inductive payload : Type :=
| Cities (cities : list City.t)
| CityWeatherOf (cityWeather : CityWeather.t).

(** The [service] extension of the errors of a field. *)
Definition service_name (op : operation) : string :=
  match op with
  | SearchCities _ => "OpenMeteo Geocoding API"
  | GetCityWeather _ => "OpenMeteo Weather API"
  end.

Section Surface.
Context `{NumberText} {ranking : RankingService.service} {ranking_ok : RankingService.ok ranking}.

(** [resolvers.Query[field](_parent, args)] *)
Definition resolve (op : operation) : prog api (result exn payload) :=
  match op with
  | SearchCities input =>
      await_bind (Query.searchCities input) (fun cities => Ret (Ok (Cities cities)))
  | GetCityWeather cityId =>
      await_bind (Query.getCityWeather cityId) (fun r => Ret (Ok (CityWeatherOf r)))
  end.

End Surface.

(** ** What the resolvers compute *)

Section Theorems.
Context `{NumberText} {ranking : RankingService.service} {ranking_ok : RankingService.ok ranking}.

Lemma Query_searchCities_run (h : handler api) (input : string) :
  run h (Query.searchCities input)
  = catch_result (run h (OpenMeteoAPI.searchCities input))
      (fun error => Err (Query.searchCitiesError error)).
Proof.
  unfold Query.searchCities. rewrite run_try_catch, run_await_bind.
  now destruct (run h (OpenMeteoAPI.searchCities input)).
Qed.

Lemma Query_getCityWeather_run (h : handler api) (cityId : string) :
  run h (Query.getCityWeather cityId)
  = catch_result
      (r <- run h (getWeatherByCityId cityId) ;;
       Ok {| CityWeather.city := Query.cityOf cityId (WeatherByCityId.cityInfo r);
             CityWeather.weather := WeatherByCityId.weather r |})
      (fun error => Err (Query.getCityWeatherError error)).
Proof.
  unfold Query.getCityWeather. rewrite run_try_catch, run_await_bind.
  now destruct (run h (getWeatherByCityId cityId)).
Qed.

Lemma trace_await_Ret {A B : Type} (h : handler api) (p : prog api (result exn A))
  (f : A -> result exn B) :
  trace h (await_bind p (fun a => Ret (f a))) = trace h p.
Proof.
  unfold await_bind. rewrite trace_pbind.
  destruct (run h p); cbn [trace]; apply app_nil_r.
Qed.

Lemma Query_searchCities_catch_api (codes : list error_code) (e : exn) :
  api_error_in codes e ->
  Query.searchCitiesError e
  = GraphQLError (message_of e) (code_of e) (Some "OpenMeteo Geocoding API")
  /\ graphql_error_in codes (Query.searchCitiesError e).
Proof.
  intros (m & c & cause & -> & Hc). split; [reflexivity|]. cbn. repeat eexists. exact Hc.
Qed.

Lemma Query_getCityWeather_catch_api (codes : list error_code) (e : exn) :
  api_error_in codes e ->
  Query.getCityWeatherError e
  = GraphQLError (message_of e) (code_of e) (Some "OpenMeteo Weather API")
  /\ graphql_error_in codes (Query.getCityWeatherError e).
Proof.
  intros (m & c & cause & -> & Hc). split; [reflexivity|]. cbn. repeat eexists. exact Hc.
Qed.

(** ** [searchCities] *)

(** [Query_searchCities_returns]: the resolver [searchCities] returns a list
    of cities exactly when the service does, and then the same list; it
    performs the requests of the service and no other. *)
Theorem Query_searchCities_returns (h : handler api) (input : string)
  (cities : list City.t) :
  (run h (Query.searchCities input) = Ok cities
   <-> run h (OpenMeteoAPI.searchCities input) = Ok cities)
  /\ trace h (Query.searchCities input) = trace h (OpenMeteoAPI.searchCities input).
Proof.
  split.
  - rewrite Query_searchCities_run.
    destruct (run h (OpenMeteoAPI.searchCities input)); cbn; split; congruence.
  - unfold Query.searchCities. now rewrite trace_try_catch, trace_await_Ret.
Qed.

(** C33: whatever the input and whatever the
    service answers, what the resolver [searchCities] throws is a
    [GraphQLError] with the message and the code of the error of the
    service, the code being one of [BAD_USER_INPUT], [TIMEOUT],
    [RATE_LIMIT_EXCEEDED], [UNKNOWN_ERROR], and with the service name
    [OpenMeteo Geocoding API]: [INTERNAL_SERVER_ERROR] is never reported. *)
Theorem Query_searchCities_throws (h : handler api) (input : string) (e : exn) :
  run h (Query.searchCities input) = Err e ->
  exists e',
    run h (OpenMeteoAPI.searchCities input) = Err e'
    /\ e = GraphQLError (message_of e') (code_of e') (Some "OpenMeteo Geocoding API")
    /\ graphql_error_in [BAD_USER_INPUT; TIMEOUT; RATE_LIMIT_EXCEEDED; UNKNOWN_ERROR] e.
Proof.
  rewrite Query_searchCities_run.
  destruct (run h (OpenMeteoAPI.searchCities input)) as [cs|e'] eqn:E; cbn; [discriminate|].
  intros [= <-]. exists e'. split; [reflexivity|].
  now apply Query_searchCities_catch_api, (searchCities_errors_api h input).
Qed.

(** [Query_searchCities_short_input]: an input whose trimmed length is below
    2 makes the resolver throw a [GraphQLError] with the code
    [BAD_USER_INPUT], and no request is performed. *)
Theorem Query_searchCities_short_input (h : handler api) (input : string) :
  (String.length (trim input) < 2)%nat ->
  run h (Query.searchCities input)
  = Err (GraphQLError "Query must be at least 2 characters long" (Some BAD_USER_INPUT)
           (Some "OpenMeteo Geocoding API"))
  /\ trace h (Query.searchCities input) = [].
Proof.
  intros Hlen. unfold Query.searchCities.
  rewrite run_try_catch, run_await_bind, trace_try_catch, trace_await_Ret.
  unfold OpenMeteoAPI.searchCities. rewrite searchCities_guard.
  apply Nat.ltb_lt in Hlen. now rewrite Hlen.
Qed.

(** ** [getCityWeather] *)

(** [Query_getCityWeather_returns]: when the resolver [getCityWeather]
    returns, the identifier decodes, the city of the result has the
    identifier as given and the decoded name, country and coordinates, and
    the weather is what [getWeatherData] returns for the decoded
    coordinates. *)
Theorem Query_getCityWeather_returns (h : handler api) (cityId : string)
  (r : CityWeather.t) :
  run h (Query.getCityWeather cityId) = Ok r ->
  exists parsed,
    parseCityId cityId = Ok parsed
    /\ CityWeather.city r = Query.cityOf cityId parsed
    /\ run h (getWeatherData (CityInfo.latitude parsed) (CityInfo.longitude parsed))
       = Ok (CityWeather.weather r).
Proof.
  rewrite Query_getCityWeather_run, getWeatherByCityId_run.
  destruct (parseCityId cityId) as [parsed|e]; cbn [bind catch_result]; [|discriminate].
  destruct (run h (getWeatherData _ _)) as [w|e] eqn:Hw; cbn [bind catch_result];
    [|discriminate].
  intros [= <-]. exists parsed. repeat split. exact Hw.
Qed.

(** [Query_getCityWeather_throws]: whatever the identifier and whatever the
    service answers, what the resolver [getCityWeather] throws is a
    [GraphQLError] with the message and the code of the error of the
    service, the code being one of [INVALID_COORDINATES], [TIMEOUT],
    [RATE_LIMIT_EXCEEDED], [UNKNOWN_ERROR], and with the service name
    [OpenMeteo Weather API]: [INTERNAL_SERVER_ERROR] is never reported. *)
Theorem Query_getCityWeather_throws (h : handler api) (cityId : string) (e : exn) :
  run h (Query.getCityWeather cityId) = Err e ->
  exists e',
    run h (getWeatherByCityId cityId) = Err e'
    /\ e = GraphQLError (message_of e') (code_of e') (Some "OpenMeteo Weather API")
    /\ graphql_error_in [INVALID_COORDINATES; TIMEOUT; RATE_LIMIT_EXCEEDED; UNKNOWN_ERROR] e.
Proof.
  rewrite Query_getCityWeather_run.
  destruct (run h (getWeatherByCityId cityId)) as [w|e'] eqn:E; cbn; [discriminate|].
  intros [= <-]. exists e'. split; [reflexivity|].
  now apply Query_getCityWeather_catch_api, (getWeatherByCityId_errors_api h cityId).
Qed.

(** [Query_getCityWeather_invalid_id]: an identifier that does not decode
    makes the resolver throw a [GraphQLError] with the code
    [INVALID_COORDINATES] without any request; the error names the service
    [OpenMeteo Weather API], which was not called. *)
Theorem Query_getCityWeather_invalid_id (h : handler api) (cityId : string) (e : exn) :
  parseCityId cityId = Err e ->
  run h (Query.getCityWeather cityId)
  = Err (GraphQLError (message_of e) (Some INVALID_COORDINATES)
           (Some "OpenMeteo Weather API"))
  /\ trace h (Query.getCityWeather cityId) = [].
Proof.
  intros Hp. unfold Query.getCityWeather.
  rewrite run_try_catch, run_await_bind, trace_try_catch, trace_await_Ret.
  unfold getWeatherByCityId. rewrite Hp. cbn.
  apply parseCityId_error_cases in Hp. now destruct Hp as [-> | [-> | ->]].
Qed.

(** C24: the identifier of a city with valid
    coordinates and without a colon in its name and country, as
    [searchCities] builds it, makes [getCityWeather] perform exactly the
    forecast request for the coordinates the identifier decodes to, which
    equal those of the city; when the request succeeds the city of the
    result has that identifier, name and country. *)
Theorem Query_getCityWeather_of_search (h : handler api)
  (latitude longitude : number) (name country : string) :
  isValidCoordinate latitude longitude = true ->
  lacks ":" name = true -> lacks ":" country = true ->
  exists lat lon,
    lat ==n latitude /\ lon ==n longitude
    /\ trace h (Query.getCityWeather (cityId latitude longitude name country))
       = [Request (forecastRequest lat lon)]
    /\ forall r,
         run h (Query.getCityWeather (cityId latitude longitude name country)) = Ok r ->
         City.id (CityWeather.city r) = cityId latitude longitude name country
         /\ City.name (CityWeather.city r) = name
         /\ City.country (CityWeather.city r) = country
         /\ City.latitude (CityWeather.city r) = lat
         /\ City.longitude (CityWeather.city r) = lon.
Proof.
  intros Hv Hn Hc.
  pose proof (parseCityId_cityId_Ok _ _ _ _ Hv Hn Hc) as Hp.
  eexists _, _. split; [apply parseFloat_toString|].
  split; [apply parseFloat_toString|]. split.
  - unfold Query.getCityWeather. rewrite trace_try_catch, trace_await_Ret.
    now rewrite (getWeatherByCityId_trace _ _ _ Hp).
  - intros r Hr. rewrite Query_getCityWeather_run, getWeatherByCityId_run, Hp in Hr.
    cbn [bind] in Hr. destruct (run h (getWeatherData _ _)); [|discriminate].
    cbn in Hr. inv Hr. cbn. auto.
Qed.

(** ** The query surface *)

Lemma resolve_run (h : handler api) (op : operation) :
  run h (resolve op)
  = match op with
    | SearchCities input =>
        cities <- run h (Query.searchCities input) ;; Ok (Cities cities)
    | GetCityWeather cityId =>
        r <- run h (Query.getCityWeather cityId) ;; Ok (CityWeatherOf r)
    end.
Proof. destruct op; cbn [resolve]; now rewrite run_await_bind. Qed.

Lemma resolve_trace (h : handler api) (op : operation) :
  trace h (resolve op)
  = match op with
    | SearchCities input => trace h (OpenMeteoAPI.searchCities input)
    | GetCityWeather cityId => trace h (getWeatherByCityId cityId)
    end.
Proof.
  destruct op; cbn [resolve]; rewrite trace_await_Ret;
    [unfold Query.searchCities | unfold Query.getCityWeather];
    now rewrite trace_try_catch, trace_await_Ret.
Qed.

(** A failure of the service, as a [catch] block of a resolver reports it. *)
Lemma fail_fast_catch (t : list (request api)) (user : list error_code) (e : exn)
  (catch : exn -> exn) (service : string) :
  (forall m c cause,
      catch (OpenMeteoAPIError m (Some c) cause) = GraphQLError m (Some c) (Some service)) ->
  incl user (ERROR_CODES USER_ERROR) ->
  (t = [] /\ api_error_in user e)
  \/ (length t = 1%nat /\ api_error_in (ERROR_CODES API_ERROR) e) ->
  exists m c,
    catch e = GraphQLError m (Some c) (Some service)
    /\ ((t = [] /\ In c (ERROR_CODES USER_ERROR))
        \/ (length t = 1%nat /\ In c (ERROR_CODES API_ERROR))).
Proof.
  intros Hcatch Hincl [[Ht (m & c & cause & -> & Hc)] | [Ht (m & c & cause & -> & Hc)]];
    exists m, c; (split; [apply Hcatch|]); [left | right]; auto.
Qed.

Lemma resolve_at_most_1 (op : operation) : at_most 1 (resolve op).
Proof.
  destruct op as [input | cityId]; cbn [resolve];
    unfold Query.searchCities, Query.getCityWeather;
    apply (at_most_await_bind 1 0); try (intros; constructor);
    apply at_most_try_catch, (at_most_await_bind 1 0); try (intros; constructor);
    [apply searchCities_at_most_1 | apply getWeatherByCityId_at_most_1].
Qed.

Lemma resolve_trace_length (h : handler api) (op : operation) :
  (length (trace h (resolve op)) <= 1)%nat.
Proof.
  rewrite resolve_trace.
  destruct op; apply at_most_trace;
    [apply searchCities_at_most_1 | apply getWeatherByCityId_at_most_1].
Qed.

(** C19: an operation of the query surface issues
    at most one HTTP request, whatever its argument and whatever the
    services answer: there is no retry and no second call; its promise
    settles with the result after one turn of the event loop per request
    and one more. *)
Theorem resolve_at_most_one_request (h : handler api) (op : operation) :
  (length (trace h (resolve op)) <= 1)%nat
  /\ steps h (S (length (trace h (resolve op))))
       (Pending (resolve op)) (Settled (run h (resolve op))).
Proof. split; [apply resolve_trace_length | apply steps_run]. Qed.

(** C4: an operation that fails throws a [GraphQLError]
    carrying the message and the code of the service's error and the name
    of the upstream service of the operation; either the code is a user
    error and no request was made, or the code is an API error and exactly
    one request was made.  In particular [INTERNAL_SERVER_ERROR] is never
    reported. *)
Theorem resolve_fail_fast (h : handler api) (op : operation) (e : exn) :
  run h (resolve op) = Err e ->
  exists m c,
    e = GraphQLError m (Some c) (Some (service_name op))
    /\ ((trace h (resolve op) = [] /\ In c (ERROR_CODES USER_ERROR))
        \/ (length (trace h (resolve op)) = 1%nat /\ In c (ERROR_CODES API_ERROR))).
Proof.
  rewrite resolve_run, resolve_trace. destruct op as [input | cityId].
  - rewrite Query_searchCities_run.
    destruct (run h (OpenMeteoAPI.searchCities input)) as [cs | e0] eqn:Hs; [discriminate|].
    intros [= <-]. apply (fail_fast_catch _ [BAD_USER_INPUT]); [reflexivity | |].
    + intros c [<-|[]]; cbn; auto.
    + destruct (searchCities_fail_fast _ _ _ Hs) as [? | [-> ?]]; auto.
  - rewrite Query_getCityWeather_run.
    destruct (run h (getWeatherByCityId cityId)) as [r | e0] eqn:Hw; [discriminate|].
    intros [= <-].
    destruct (getWeatherByCityId_errors _ _ _ Hw) as [[Ht Ha] | [Ht Ha]];
      pose proof Ha as (m & c & cause & -> & _);
      apply (fail_fast_catch _ [INVALID_COORDINATES]); auto;
      intros c' [<-|[]]; cbn; auto.
Qed.

(** ** The promise of an operation *)

(** What a resolver throws is a [GraphQLError], whatever it caught. *)
Lemma Query_catch_GraphQLError (e : exn) :
  instanceof_GraphQLError (Query.searchCitiesError e) = true
  /\ instanceof_GraphQLError (Query.getCityWeatherError e) = true.
Proof. now destruct e. Qed.

Lemma resolve_Err_GraphQLError (h : handler api) (op : operation) (e : exn) :
  run h (resolve op) = Err e -> instanceof_GraphQLError e = true.
Proof.
  rewrite resolve_run. destruct op as [input | cityId].
  - rewrite Query_searchCities_run.
    destruct (run h (OpenMeteoAPI.searchCities input)); [discriminate|].
    intros [= <-]. apply Query_catch_GraphQLError.
  - rewrite Query_getCityWeather_run.
    destruct (run h (getWeatherByCityId cityId)); [discriminate|].
    intros [= <-]. apply Query_catch_GraphQLError.
Qed.

(** The promise of an operation is fulfilled with a payload or rejected
    with a [GraphQLError]. *)
Definition answered (c : promise api (result exn payload)) : Prop :=
  match c with
  | Settled (Ok _) => True
  | Settled (Err e) => instanceof_GraphQLError e = true
  | Pending _ => False
  end.


(** [resolve_settles]: whatever the services answer, the promise of an
    operation eventually settles, fulfilled with a payload or rejected with
    a [GraphQLError]: no operation stays pending once its request has been
    answered, and no other kind of error leaves the resolvers. *)
Theorem resolve_settles (h : handler api) (op : operation) :
  eventually h answered (Pending (resolve op)).
Proof.
  apply (eventually_weaken h (fun c => c = Settled (run h (resolve op))));
    [|apply pending_settles].
  intros c ->. cbn. destruct (run h (resolve op)) as [r | e] eqn:Hr; [exact I|].
  now apply (resolve_Err_GraphQLError h op).
Qed.

End Theorems.

(** ** Witnesses *)

From S2P Require Import JsNumberText.

Lemma Query_searchCities_throws_witness :
  exists e',
    run (geocoding_only rate_limited) (OpenMeteoAPI.searchCities "London") = Err e'
    /\ GraphQLError "Rate limit exceeded. Please try again later."
         (Some RATE_LIMIT_EXCEEDED) (Some "OpenMeteo Geocoding API")
       = GraphQLError (message_of e') (code_of e') (Some "OpenMeteo Geocoding API")
    /\ graphql_error_in [BAD_USER_INPUT; TIMEOUT; RATE_LIMIT_EXCEEDED; UNKNOWN_ERROR]
         (GraphQLError "Rate limit exceeded. Please try again later."
            (Some RATE_LIMIT_EXCEEDED) (Some "OpenMeteo Geocoding API")).
Proof.
  apply (Query_searchCities_throws (geocoding_only rate_limited) "London"). reflexivity.
Defined.

Lemma Query_searchCities_short_input_witness :
  run (geocoding_only no_results) (Query.searchCities "a")
  = Err (GraphQLError "Query must be at least 2 characters long" (Some BAD_USER_INPUT)
           (Some "OpenMeteo Geocoding API"))
  /\ trace (geocoding_only no_results) (Query.searchCities "a") = [].
Proof. apply Query_searchCities_short_input. vm_compute. lia. Defined.

Definition london_weather : CityWeather.t :=
  match run (forecast_only (Fulfilled (Some two_days))) (Query.getCityWeather london_id) with
  | Ok r => r
  | Err _ =>
      {| CityWeather.city := london_city;
         CityWeather.weather := Weather.mk "" [] NaN NaN NaN NaN |}
  end.

Lemma Query_getCityWeather_returns_witness :
  exists parsed,
    parseCityId london_id = Ok parsed
    /\ CityWeather.city london_weather = Query.cityOf london_id parsed
    /\ run (forecast_only (Fulfilled (Some two_days)))
         (getWeatherData (CityInfo.latitude parsed) (CityInfo.longitude parsed))
       = Ok (CityWeather.weather london_weather).
Proof.
  apply (Query_getCityWeather_returns (forecast_only (Fulfilled (Some two_days)))).
  reflexivity.
Defined.

Lemma Query_getCityWeather_throws_witness :
  exists e',
    run (forecast_only timed_out) (getWeatherByCityId london_id) = Err e'
    /\ GraphQLError "Request timeout while fetching weather data" (Some TIMEOUT)
         (Some "OpenMeteo Weather API")
       = GraphQLError (message_of e') (code_of e') (Some "OpenMeteo Weather API")
    /\ graphql_error_in [INVALID_COORDINATES; TIMEOUT; RATE_LIMIT_EXCEEDED; UNKNOWN_ERROR]
         (GraphQLError "Request timeout while fetching weather data" (Some TIMEOUT)
            (Some "OpenMeteo Weather API")).
Proof.
  apply (Query_getCityWeather_throws (forecast_only timed_out) london_id). reflexivity.
Defined.

Lemma Query_getCityWeather_invalid_id_witness :
  run (forecast_only (Fulfilled (Some two_days))) (Query.getCityWeather "invalid-format")
  = Err (GraphQLError (message_of formatError) (Some INVALID_COORDINATES)
           (Some "OpenMeteo Weather API"))
  /\ trace (forecast_only (Fulfilled (Some two_days))) (Query.getCityWeather "invalid-format")
     = [].
Proof. apply Query_getCityWeather_invalid_id. reflexivity. Defined.

Lemma Query_getCityWeather_of_search_witness :
  exists lat lon,
    lat ==n dec 515074 4 /\ lon ==n dec (-1278) 4
    /\ trace (forecast_only (Fulfilled (Some two_days)))
         (Query.getCityWeather (City.id london_city))
       = [Request (forecastRequest lat lon)]
    /\ forall r,
         run (forecast_only (Fulfilled (Some two_days)))
           (Query.getCityWeather (City.id london_city)) = Ok r ->
         City.id (CityWeather.city r) = City.id london_city
         /\ City.name (CityWeather.city r) = "London"
         /\ City.country (CityWeather.city r) = "United Kingdom"
         /\ City.latitude (CityWeather.city r) = lat
         /\ City.longitude (CityWeather.city r) = lon.
Proof.
  apply (Query_getCityWeather_of_search (forecast_only (Fulfilled (Some two_days)))
           (dec 515074 4) (dec (-1278) 4) "London" "United Kingdom"); reflexivity.
Defined.

Lemma resolve_fail_fast_witness :
  let h := forecast_only rate_limited in
  exists m c,
    GraphQLError "Rate limit exceeded. Please try again later." (Some RATE_LIMIT_EXCEEDED)
      (Some "OpenMeteo Weather API")
    = GraphQLError m (Some c) (Some (service_name (GetCityWeather london_id)))
    /\ ((trace h (resolve (GetCityWeather london_id)) = []
         /\ In c (ERROR_CODES USER_ERROR))
        \/ (length (trace h (resolve (GetCityWeather london_id))) = 1%nat
            /\ In c (ERROR_CODES API_ERROR))).
Proof.
  apply (resolve_fail_fast (forecast_only rate_limited) (GetCityWeather london_id)).
  reflexivity.
Defined.
