(* ===== verification/Console.v ===== *)
(** * Console: what the resolvers write to the console

    The two resolvers of [src/src/schema/resolvers.ts] write to the console:
    a line when a query is received, a line when the service has returned,
    and, in the [catch] block, the error that was caught.  Here the
    resolvers are translated with these calls: a program over [io], whose
    events are the requests of [api] and the calls of [console.log] and
    [console.error] ([Logged.searchCities], [Logged.getCityWeather],
    [Logged.resolve]).  An argument of a console call is a text or the
    caught error.

    [erase] removes the console calls from a program.  The theorems show
    that the resolvers of [Resolvers], on which the other files build, are
    the resolvers as written with the console calls erased: the same
    requests and the same results on every branch, so the console never
    changes what a query returns; and they give the events of a resolver in
    their order: the line of the query, then the requests of the service,
    then one line, the success line when the resolver returns and the
    caught error, as the service threw it, when it throws. *)

From Stdlib Require Import String Ascii List ZArith Bool Lia Morphisms.
From S2P Require Import Prelude JsNumber JsString Types Constants Http Errors.
From S2P Require Import Ranking NumberText OpenMeteoAPI ResolverTypes Resolvers.
Import ListNotations.

Local Open Scope list_scope.
Local Open Scope string_scope.
Local Open Scope js_scope.

(** ** Console calls *)

(** An argument of a console call. *)
Inductive printed : Type :=
| text (s : string)
| caught (error : exn).

Inductive console_call : Type :=
| console_log (args : list printed)
| console_error (args : list printed).

(** The events of a resolver: a request to a service or a console call. *)
Inductive io : Type -> Type :=
| http (X : Type) (e : api X) : io X
| console (c : console_call) : io unit.

Arguments http {X} e.

(** The double quote of a template literal. *)
Definition quote : string := String "034"%char EmptyString.

(** [console.log(...args)] and [console.error(...args)] as statements. *)
Definition log {A : Type} (args : list printed) (k : prog io A) : prog io A :=
  Vis (console (console_log args)) (fun _ => k).

Definition error {A : Type} (args : list printed) (k : prog io A) : prog io A :=
  Vis (console (console_error args)) (fun _ => k).

(** ** The resolvers as written *)

Module Logged.
Section Resolvers.
Context `{NumberText} {ranking : RankingService.service} {ranking_ok : RankingService.ok ranking}.

Definition searchCities (input : string) : prog io (result exn (list City.t)) :=
  log [text "Searching for cities with input:"; text input]
    (pbind (translate (@http) (OpenMeteoAPI.searchCities input)) (fun r =>
       match r with
       | Ok cities =>
           log [text ("Found " ++ Number_toString (int (Z.of_nat (length cities)))
                      ++ " cities for query: " ++ quote ++ input ++ quote)]
             (Ret (Ok cities))
       | Err e =>
           error [text "Error searching cities:"; caught e]
             (Ret (Err (Query.searchCitiesError e)))
       end)).

Definition getCityWeather (cityId : string) : prog io (result exn CityWeather.t) :=
  log [text "Getting weather for city ID:"; text cityId]
    (pbind (translate (@http) (OpenMeteoAPI.getWeatherByCityId cityId)) (fun r =>
       match r with
       | Ok r =>
           let weather := WeatherByCityId.weather r in
           let cityInfo := WeatherByCityId.cityInfo r in
           let city := Query.cityOf cityId cityInfo in
           log [text ("Successfully fetched weather for " ++ City.name city ++ ", "
                      ++ City.country city)]
             (Ret (Ok {| CityWeather.city := city; CityWeather.weather := weather |}))
       | Err e =>
           error [text "Error getting city weather:"; caught e]
             (Ret (Err (Query.getCityWeatherError e)))
       end)).

(** [resolvers.Query[field](_parent, args)] *)
Definition resolve (op : operation) : prog io (result exn payload) :=
  match op with
  | SearchCities input =>
      await_bind (searchCities input) (fun cities => Ret (Ok (Cities cities)))
  | GetCityWeather cityId =>
      await_bind (getCityWeather cityId) (fun r => Ret (Ok (CityWeatherOf r)))
  end.

End Resolvers.
End Logged.

(** ** Running a program that writes to the console *)

(** The program without its console calls. *)
Fixpoint erase {A : Type} (p : prog io A) : prog api A :=
  match p with
  | Ret a => Ret a
  | Vis e k =>
      match e in io X return (X -> prog io A) -> prog api A with
      | http e' => fun k => Vis e' (fun x => erase (k x))
      | console _ => fun k => erase (k tt)
      end k
  end.

(** The services answer the requests; a console call returns nothing. *)
Definition with_console (h : handler api) : handler io :=
  fun X e =>
    match e in io X return X with
    | http e' => h _ e'
    | console _ => tt
    end.

(** The console calls among the events, in their order. *)
Definition written (events : list (request io)) : list console_call :=
  flat_map (fun r => match r with
                     | Request (console c) => [c]
                     | Request (http _) => []
                     end) events.

(** What a run of the program writes to the console. *)
Definition output {A : Type} (h : handler api) (p : prog io A) : list console_call :=
  written (trace (with_console h) p).

(** A console call and a request, as events. *)
Definition printed_event (c : console_call) : request io := Request (console c).

Definition request_event (r : request api) : request io :=
  match r with
  | Request e => Request (http e)
  end.

(** The console call is a [console.log]. *)
Definition is_log (c : console_call) : bool :=
  match c with
  | console_log _ => true
  | console_error _ => false
  end.

(** The console call is a [console.error] of a label and of an error with
    the message and the code of [e]. *)
Definition logs_error (c : console_call) (e : exn) : Prop :=
  exists label error,
    c = console_error [text label; caught error]
    /\ instanceof_OpenMeteoAPIError error = true
    /\ message_of error = message_of e
    /\ code_of error = code_of e.

(** ** Erasing the console calls *)

Lemma pbind_assoc {E : Type -> Type} {A B C : Type} (p : prog E A) (f : A -> prog E B)
  (g : B -> prog E C) :
  pbind (pbind p f) g ~~ pbind p (fun a => pbind (f a) g).
Proof.
  induction p as [a | X e k IH]; cbn [pbind]; [reflexivity | now apply peq_Vis].
Qed.

Lemma erase_translate {A : Type} (p : prog api A) : erase (translate (@http) p) ~~ p.
Proof.
  induction p as [a | X e k IH]; cbn [translate erase]; [reflexivity | now apply peq_Vis].
Qed.

Lemma erase_pbind {A B : Type} (p : prog io A) (f : A -> prog io B) :
  erase (pbind p f) ~~ pbind (erase p) (fun a => erase (f a)).
Proof.
  induction p as [a | X e k IH]; cbn [pbind erase]; [reflexivity|].
  destruct e as [X e | c]; [now apply peq_Vis | apply IH].
Qed.

(** A call of a service followed by the rest of the resolver. *)
Lemma erase_call {A B : Type} (p : prog api A) (f : A -> prog io B) :
  erase (pbind (translate (@http) p) f) ~~ pbind p (fun a => erase (f a)).
Proof. rewrite erase_pbind. now rewrite erase_translate. Qed.

Lemma run_erase {A : Type} (h : handler api) (p : prog io A) :
  run h (erase p) = run (with_console h) p.
Proof.
  induction p as [a | X e k IH]; cbn [erase run]; [reflexivity|].
  destruct e as [X e | c]; cbn [run with_console]; apply IH.
Qed.

(** The requests of the erased program are the requests among the events. *)
Lemma trace_erase {A : Type} (h : handler api) (p : prog io A) :
  map request_event (trace h (erase p))
  = filter (fun r => match r with
                     | Request (http _) => true
                     | Request (console _) => false
                     end) (trace (with_console h) p).
Proof.
  induction p as [a | X e k IH]; cbn [erase trace]; [reflexivity|].
  destruct e as [X e | c]; cbn [trace map filter with_console request_event];
    [f_equal|]; apply IH.
Qed.

(** ** The events of a call of a service *)

Lemma run_call {A : Type} (h : handler api) (p : prog api A) :
  run (with_console h) (translate (@http) p) = run h p.
Proof. now rewrite run_translate. Qed.

Lemma trace_call {A : Type} (h : handler api) (p : prog api A) :
  trace (with_console h) (translate (@http) p) = map request_event (trace h p).
Proof. now rewrite trace_translate. Qed.

(** ** The resolvers of [Resolvers] are the resolvers as written *)

Section Refinement.
Context `{NumberText} {ranking : RankingService.service} {ranking_ok : RankingService.ok ranking}.

Lemma Logged_searchCities_erase (input : string) :
  erase (Logged.searchCities input) ~~ Query.searchCities input.
Proof.
  unfold Logged.searchCities, Query.searchCities, try_catch, await_bind, log.
  cbn [erase]. rewrite erase_call, pbind_assoc.
  apply pbind_Proper; [reflexivity|]. now intros [cities | e].
Qed.

Lemma Logged_getCityWeather_erase (cityId : string) :
  erase (Logged.getCityWeather cityId) ~~ Query.getCityWeather cityId.
Proof.
  unfold Logged.getCityWeather, Query.getCityWeather, try_catch, await_bind, log.
  cbn [erase]. rewrite erase_call, pbind_assoc.
  apply pbind_Proper; [reflexivity|]. now intros [r | e].
Qed.

Lemma Logged_resolve_erase (op : operation) : erase (Logged.resolve op) ~~ resolve op.
Proof.
  destruct op as [input | cityId]; unfold Logged.resolve, resolve, await_bind;
    rewrite erase_pbind;
    (apply pbind_Proper;
     [apply Logged_searchCities_erase || apply Logged_getCityWeather_erase
     |now intros [a | e]]).
Qed.


(** ** What is written, and when *)

(** The events of a resolver: the line of the query, the requests of the
    service, and a last line that depends on the outcome of the service. *)
Lemma Logged_searchCities_trace (h : handler api) (input : string) :
  trace (with_console h) (Logged.searchCities input)
  = printed_event (console_log [text "Searching for cities with input:"; text input])
    :: map request_event (trace h (OpenMeteoAPI.searchCities input))
    ++ [printed_event
          match run h (OpenMeteoAPI.searchCities input) with
          | Ok cities =>
              console_log
                [text ("Found " ++ Number_toString (int (Z.of_nat (length cities)))
                       ++ " cities for query: " ++ quote ++ input ++ quote)]
          | Err e => console_error [text "Error searching cities:"; caught e]
          end].
Proof.
  unfold Logged.searchCities, log. cbn [trace]. f_equal.
  rewrite trace_pbind, trace_call, run_call.
  now destruct (run h (OpenMeteoAPI.searchCities input)).
Qed.

Lemma Logged_getCityWeather_trace (h : handler api) (cityId : string) :
  trace (with_console h) (Logged.getCityWeather cityId)
  = printed_event (console_log [text "Getting weather for city ID:"; text cityId])
    :: map request_event (trace h (getWeatherByCityId cityId))
    ++ [printed_event
          match run h (getWeatherByCityId cityId) with
          | Ok r =>
              console_log
                [text ("Successfully fetched weather for "
                       ++ CityInfo.name (WeatherByCityId.cityInfo r) ++ ", "
                       ++ CityInfo.country (WeatherByCityId.cityInfo r))]
          | Err e => console_error [text "Error getting city weather:"; caught e]
          end].
Proof.
  unfold Logged.getCityWeather, log. cbn [trace]. f_equal.
  rewrite trace_pbind, trace_call, run_call.
  now destruct (run h (getWeatherByCityId cityId)).
Qed.

Lemma trace_await_bind_Ret {A B : Type} (h : handler io) (p : prog io (result exn A))
  (f : A -> result exn B) :
  trace h (await_bind p (fun a => Ret (f a))) = trace h p.
Proof.
  unfold await_bind. rewrite trace_pbind.
  destruct (run h p); cbn [trace]; apply app_nil_r.
Qed.

(** The error a [catch] block logs has the message and the code of the
    error it throws. *)
Lemma logs_error_api (codes : list error_code) (label : string) (error : exn)
  (translated : exn) :
  api_error_in codes error ->
  (exists service, translated = GraphQLError (message_of error) (code_of error) service) ->
  logs_error (console_error [text label; caught error]) translated.
Proof.
  intros Hapi [service ->]. exists label, error. repeat split.
  now apply api_error_in_instance in Hapi.
Qed.

(** C29: whatever the services answer, a call of a resolver
    writes exactly two lines to the console: a [console.log] of the query
    before any request, and, after the requests of the service, one more:
    a [console.log] when the resolver returns, and when it throws a
    [console.error] of the error of the service, an [OpenMeteoAPIError]
    with the message and the code of the [GraphQLError] the client
    receives.  Every failure a client sees is on the console with its
    code. *)
Theorem resolve_console (h : handler api) (op : operation) :
  exists first last,
    trace (with_console h) (Logged.resolve op)
    = printed_event first :: map request_event (trace h (resolve op))
      ++ [printed_event last]
    /\ is_log first = true
    /\ match run h (resolve op) with
       | Ok _ => is_log last = true
       | Err e => logs_error last e
       end.
Proof.
  rewrite resolve_run, resolve_trace.
  destruct op as [input | cityId]; cbn [Logged.resolve]; rewrite trace_await_bind_Ret.
  - rewrite Logged_searchCities_trace, Query_searchCities_run.
    do 2 eexists. split; [reflexivity|]. split; [reflexivity|].
    destruct (run h (OpenMeteoAPI.searchCities input)) as [cities | e] eqn:Er;
      cbn [catch_result bind]; [reflexivity|].
    destruct (Query_searchCities_catch_api _ e (searchCities_errors_api h _ _ Er)) as [-> _].
    eapply logs_error_api; [exact (searchCities_errors_api h _ _ Er) | now eexists].
  - rewrite Logged_getCityWeather_trace, Query_getCityWeather_run.
    do 2 eexists. split; [reflexivity|]. split; [reflexivity|].
    destruct (run h (getWeatherByCityId cityId)) as [r | e] eqn:Er;
      cbn [catch_result bind]; [reflexivity|].
    destruct (Query_getCityWeather_catch_api _ e (getWeatherByCityId_errors_api h _ _ Er))
      as [-> _].
    eapply logs_error_api; [exact (getWeatherByCityId_errors_api h _ _ Er) | now eexists].
Qed.

End Refinement.

(** ** Scenarios *)

From S2P Require Import JsNumberText.

(** A search that finds London, a search that is refused with the status
    429, and an identifier that is not one: the identifier is reported
    without any request. *)
Example console_scenarios :
  output (geocoding_only (found [london])) (Logged.resolve (SearchCities "London"))
  = [console_log [text "Searching for cities with input:"; text "London"];
     console_log [text ("Found 1 cities for query: " ++ quote ++ "London" ++ quote)]]
  /\ output (geocoding_only rate_limited) (Logged.resolve (SearchCities "London"))
     = [console_log [text "Searching for cities with input:"; text "London"];
        console_error
          [text "Error searching cities:";
           caught (OpenMeteoAPIError "Rate limit exceeded. Please try again later."
                     (Some RATE_LIMIT_EXCEEDED) None)]]
  /\ output (forecast_only (Fulfilled (Some two_days)))
       (Logged.resolve (GetCityWeather london_id))
     = [console_log [text "Getting weather for city ID:"; text london_id];
        console_log [text "Successfully fetched weather for London, United Kingdom"]]
  /\ trace (with_console (forecast_only (Fulfilled (Some two_days))))
       (Logged.resolve (GetCityWeather "London"))
     = [printed_event (console_log [text "Getting weather for city ID:"; text "London"]);
        printed_event (console_error [text "Error getting city weather:"; caught formatError])].
Proof. repeat split; vm_compute; reflexivity. Qed.
