(* ===== verification/Execute.v ===== *)
(** * Execute: a query, from the field of [Query] to the response

    The server executes a query against [src/schema.graphql] with the
    object [resolvers] of [src/src/schema/resolvers.ts].  A [request] is one
    field of [Query] with its arguments and the selection of fields below
    it.  The engine looks the resolver of the field up in [resolvers]
    ([field_resolver]; a field without a resolver is a property of the root
    value, which has none), calls it ([call]), completes what it returns
    against the type of the field for the selected fields ([complete],
    with the completions of [Selection]) and builds the [response]: [data]
    with the field, or, because every field of the schema is non-null,
    [data: null] and the one error that was thrown ([respond]).  [execute]
    is the whole path for [resolvers]; [full op] is the request for every
    field, the one of most tests.

    The lookup, the completion and the shape of the response are those of
    the execution engine, a library; they are modelled from its
    specification.  The engine validates a query before it executes it:
    [valid_request] is the condition, and the execution is defined for every
    request (a field the type does not have is skipped).  The context and
    the [GraphQLResolveInfo] are the unit type: no resolver reads them.
    [execute] calls the resolvers without their console calls;
    [execute_logged] calls them as written, and is [execute] when the
    console calls are erased, so every statement about the response of
    [execute] is one about the response of the server.

    The theorems show that every response is well typed, for every
    resolver object of the generated type and every selection
    ([execute_with_typed]); that a valid request is answered with exactly
    the selected fields; that a query of fewer fields has data whenever the
    query of more fields has; that the execution of a query always ends,
    within two steps of its promise, in a well-typed response; that the
    response to the full [getCityWeather] has data exactly when every
    number of the upstream answer is finite, the scores being integers
    between 0 and 100, and then every valid query has data; and what the
    response is when a number is missing.

    The file is written against the interface [RankingService] of
    [Ranking].  A statement about scores asks that the ranking service
    read the temperatures as finite numbers ([temperatures_complete],
    [temperatures_readable]); for the ranking in exact decimals every
    finite number is read so.  [execute_ext] compares the responses with
    two ranking services. *)

From Stdlib Require Import String Ascii List ZArith Bool Lia.
From S2P Require Import Prelude JsNumber JsString JsArray Types Constants ActivityRanking.
From S2P Require Import Ranking Http Promise Errors NumberText Schema Selection OpenMeteoAPI.
From S2P Require Import ResolverTypes Resolvers Console.
Import ListNotations.

Local Open Scope list_scope.
Local Open Scope string_scope.
Local Open Scope js_scope.

(** ** The response *)

Record response : Type := mk_response {
  data : option value;
  errors : list exn
}.

(** The name of the field of [Query] an operation selects. *)
Definition field_name (op : operation) : string :=
  match op with
  | SearchCities _ => "searchCities"
  | GetCityWeather _ => "getCityWeather"
  end.

(** A request: the field of [Query] with its arguments, and the fields
    selected below it. *)
Record request : Type := mk_request {
  operation_of : operation;
  selected : selection
}.

(** The selection set of the query: the one field of [Query]. *)
Definition document (q : request) : selection :=
  Select [(field_name (operation_of q), selected q)].

(** The request is valid against the schema. *)
Definition valid_request (q : request) : bool := valid Query_type (document q).

(** The request for every field below the field of [Query]. *)
Definition full (op : operation) : request :=
  {| operation_of := op;
     selected := match lookup (field_name op) (fields_of (everything Query_type)) with
                 | Some sel => sel
                 | None => leaf
                 end |}.

(** The type of the data of the response. *)
Definition response_type (q : request) : gtype := NonNull (restrict Query_type (document q)).

(** The response has the shape the schema promises: data of the selected
    type and no error, or no data and one [GraphQLError]. *)
Definition well_typed (q : request) (r : response) : bool :=
  match data r, errors r with
  | Some v, [] => conforms (response_type q) v
  | None, [e] => instanceof_GraphQLError e
  | _, _ => false
  end.

(** The response carries data. *)
Definition has_data (r : response) : bool :=
  match data r with
  | Some _ => true
  | None => false
  end.

(** ** Execution *)

Section Execution.
Context `{NumberText} {ranking : RankingService.service} {ranking_ok : RankingService.ok ranking}.

(** The resolver of the field in a resolver object, called with the
    argument of the operation. *)
Definition field_resolver (rs : Resolvers unit unit) (op : operation) :
  option (prog api (result exn payload)) :=
  match Query rs with
  | None => None
  | Some query =>
      match op with
      | SearchCities input =>
          option_map
            (fun r =>
               await_bind (resolver_function r tt (QuerySearchCitiesArgs.mk input) tt tt)
                 (fun cities => Ret (Ok (Cities cities))))
            (QueryResolvers.searchCities query)
      | GetCityWeather cityId =>
          option_map
            (fun r =>
               await_bind (resolver_function r tt (QueryGetCityWeatherArgs.mk cityId) tt tt)
                 (fun cityWeather => Ret (Ok (CityWeatherOf cityWeather))))
            (QueryResolvers.getCityWeather query)
      end
  end.

(** A non-null field whose value is [null] or [undefined]. *)
Definition nullError (op : operation) : exn :=
  GraphQLError ("Cannot return null for non-nullable field Query." ++ field_name op ++ ".")
    None None.

Definition call (rs : Resolvers unit unit) (op : operation) :
  prog api (result exn payload) :=
  match field_resolver rs op with
  | Some p => p
  | None => Ret (Err (nullError op))
  end.

(** What is thrown while a field is resolved is reported as a
    [GraphQLError]: itself, or a new one with its message. *)
Definition locatedError (e : exn) : exn :=
  if instanceof_GraphQLError e then e else GraphQLError (message_of e) None None.

(** The value of a field, completed against its type for the selection
    below it. *)
Definition complete (sel : selection) (p : payload) : result exn value :=
  match p with
  | Cities cities => select_list select_City cities sel
  | CityWeatherOf cityWeather => select_CityWeather sel cityWeather
  end.

Definition respond (q : request) (r : result exn payload) : response :=
  match p <- r ;; complete (selected q) p with
  | Ok v => {| data := Some (Object [(field_name (operation_of q), v)]); errors := [] |}
  | Err e => {| data := None; errors := [locatedError e] |}
  end.

Definition execute_with (rs : Resolvers unit unit) (q : request) : prog api response :=
  pbind (call rs (operation_of q)) (fun r => Ret (respond q r)).

(** The server: [resolvers] against the schema. *)
Definition execute (q : request) : prog api response := execute_with resolvers q.

(** ** The upstream answers the schema can carry *)

(** The four numbers of the day at [index] are there and finite. *)
Definition day_complete (daily : DailyWeather.t) (index : nat) : bool :=
  is_finite (number_at (DailyWeather.temperature_2m_max daily) index)
  && is_finite (number_at (DailyWeather.temperature_2m_min daily) index)
  && is_finite (number_at (DailyWeather.precipitation_sum daily) index)
  && is_finite (number_at (DailyWeather.wind_speed_10m_max daily) index).

(** Both temperatures of every day with a date are there, and the ranking
    service reads them as finite numbers. *)
Definition temperatures_complete (daily : DailyWeather.t) : bool :=
  forallb (fun index =>
             RankingService.finite (number_at (DailyWeather.temperature_2m_max daily) index)
             && RankingService.finite (number_at (DailyWeather.temperature_2m_min daily) index))
    (seq 0 (length (DailyWeather.time daily))).

(** A number the ranking service reads as finite when it is finite. *)
Definition readable (x : number) : bool := implb (is_finite x) (RankingService.finite x).

(** The ranking service reads the finite temperatures of the dated days as
    finite numbers. *)
Definition temperatures_readable (daily : DailyWeather.t) : bool :=
  forallb (fun index =>
             readable (number_at (DailyWeather.temperature_2m_max daily) index)
             && readable (number_at (DailyWeather.temperature_2m_min daily) index))
    (seq 0 (length (DailyWeather.time daily))).

(** The numbers of the current weather and of every day with a date are
    there and finite. *)
Definition body_complete (body : WeatherResponse.t) : bool :=
  let current := WeatherResponse.current body in
  let daily := WeatherResponse.daily body in
  is_finite (CurrentWeather.temperature_2m current)
  && is_finite (CurrentWeather.relative_humidity_2m current)
  && is_finite (CurrentWeather.wind_speed_10m current)
  && is_finite (CurrentWeather.precipitation current)
  && forallb (day_complete daily) (seq 0 (length (DailyWeather.time daily))).

End Execution.

(** ** Every response is well typed *)

(** The value a resolver of the field returns has the type of the field. *)
Definition payload_of (op : operation) (p : payload) : bool :=
  match op, p with
  | SearchCities _, Cities _ => true
  | GetCityWeather _, CityWeatherOf _ => true
  | _, _ => false
  end.

Section Typing.
Context `{NumberText} {ranking : RankingService.service} {ranking_ok : RankingService.ok ranking}.

Lemma run_execute_with (h : handler api) (rs : Resolvers unit unit) (q : request) :
  run h (execute_with rs q) = respond q (run h (call rs (operation_of q))).
Proof. unfold execute_with. now rewrite run_pbind. Qed.

Lemma trace_execute_with (h : handler api) (rs : Resolvers unit unit) (q : request) :
  trace h (execute_with rs q) = trace h (call rs (operation_of q)).
Proof. unfold execute_with. rewrite trace_pbind. apply app_nil_r. Qed.

(** The resolvers of the program: the call of the field is [resolve]. *)
Lemma call_resolvers (op : operation) : call resolvers op = resolve op.
Proof. now destruct op. Qed.

Lemma execute_run (h : handler api) (q : request) :
  run h (execute q) = respond q (run h (resolve (operation_of q))).
Proof. unfold execute. now rewrite run_execute_with, call_resolvers. Qed.

Lemma execute_trace (h : handler api) (q : request) :
  trace h (execute q) = trace h (resolve (operation_of q)).
Proof. unfold execute. now rewrite trace_execute_with, call_resolvers. Qed.

Lemma locatedError_GraphQLError (e : exn) :
  instanceof_GraphQLError (locatedError e) = true.
Proof. unfold locatedError. now destruct e. Qed.

Lemma locatedError_id (e : exn) : instanceof_GraphQLError e = true -> locatedError e = e.
Proof. unfold locatedError. now intros ->. Qed.

(** A resolver of the generated type returns a value of its field. *)
Lemma call_payload (h : handler api) (rs : Resolvers unit unit) (op : operation)
  (p : payload) :
  run h (call rs op) = Ok p -> payload_of op p = true.
Proof.
  unfold call, field_resolver.
  destruct (Query rs) as [query|]; [|discriminate].
  destruct op as [input | cityId];
    [destruct (QueryResolvers.searchCities query) as [r|]
    |destruct (QueryResolvers.getCityWeather query) as [r|]];
    cbn [option_map]; try discriminate;
    rewrite run_await_bind; destruct (run h _); try discriminate; now intros [= <-].
Qed.

(** The type of the response: [Query] with the field of the operation. *)
Lemma response_type_SearchCities (input : string) (sel : selection) :
  response_type (mk_request (SearchCities input) sel)
  = NonNull (ObjectType Typename.Query
               [("searchCities", restrict (NonNull (ListOf (NonNull City_type))) sel)]).
Proof. unfold response_type, Query_type. now rewrite restrict_Object. Qed.

Lemma response_type_GetCityWeather (cityId : string) (sel : selection) :
  response_type (mk_request (GetCityWeather cityId) sel)
  = NonNull (ObjectType Typename.Query
               [("getCityWeather", restrict (NonNull CityWeather_type) sel)]).
Proof. unfold response_type, Query_type. now rewrite restrict_Object. Qed.

Lemma complete_conforms (q : request) (p : payload) (v : value) :
  payload_of (operation_of q) p = true -> complete (selected q) p = Ok v ->
  conforms (response_type q) (Object [(field_name (operation_of q), v)]) = true.
Proof.
  destruct q as [[input | cityId] sel], p as [cities | cityWeather]; try discriminate;
    intros _ Hc; cbn [complete field_name operation_of selected] in *.
  - rewrite response_type_SearchCities, conforms_field.
    revert Hc. apply select_list_sound, select_City_sound.
  - rewrite response_type_GetCityWeather, conforms_field.
    revert Hc. apply select_CityWeather_sound.
Qed.

Lemma respond_typed (q : request) (r : result exn payload) :
  (forall p, r = Ok p -> payload_of (operation_of q) p = true) ->
  well_typed q (respond q r) = true.
Proof.
  intros Hp. unfold respond, well_typed. destruct r as [p | e]; cbn [bind].
  - destruct (complete (selected q) p) as [v|e] eqn:Ec; cbn [data errors].
    + apply (complete_conforms q p v); auto.
    + apply locatedError_GraphQLError.
  - apply locatedError_GraphQLError.
Qed.


End Typing.

(** ** The resolvers as written *)

Section Logged.
Context `{NumberText} {ranking : RankingService.service} {ranking_ok : RankingService.ok ranking}.

(** The execution of a request with the resolvers as written, console
    calls included. *)
Definition execute_logged (q : request) : prog io response :=
  pbind (Logged.resolve (operation_of q)) (fun r => Ret (respond q r)).

Lemma execute_logged_erase (q : request) : erase (execute_logged q) ~~ execute q.
Proof.
  unfold execute_logged, execute, execute_with. rewrite call_resolvers, erase_pbind.
  apply pbind_Proper; [apply Logged_resolve_erase | now intros r].
Qed.

(** The response with the resolvers as written is the response of
    [execute], so it is well typed. *)
Lemma execute_logged_run (h : handler api) (q : request) :
  run (with_console h) (execute_logged q) = run h (execute q).
Proof. rewrite <- run_erase. now rewrite execute_logged_erase. Qed.

Lemma execute_logged_typed (h : handler api) (q : request) :
  well_typed q (run (with_console h) (execute_logged q)) = true.
Proof.
  rewrite execute_logged_run. unfold execute.
  rewrite run_execute_with. apply respond_typed, call_payload.
Qed.

End Logged.

(** ** When the response has data *)

Section Data.
Context `{NumberText} {ranking : RankingService.service} {ranking_ok : RankingService.ok ranking}.

Lemma has_data_respond (q : request) (r : result exn payload) :
  has_data (respond q r) = is_ok (p <- r ;; complete (selected q) p).
Proof. unfold respond, has_data. now destruct (_ <- r ;; _). Qed.

(** The completion for the request of every field is the completion of
    [Schema]. *)
Lemma complete_full_Cities (input : string) (cities : list City.t) :
  complete (selected (full (SearchCities input))) (Cities cities)
  = (items <- traverse complete_City cities ;; Ok (Array items)).
Proof.
  cbn [complete]. unfold select_list.
  now rewrite <- (traverse_ext _ _ _ select_City_everything).
Qed.

Lemma complete_full_CityWeather (cityId : string) (cityWeather : CityWeather.t) :
  complete (selected (full (GetCityWeather cityId))) (CityWeatherOf cityWeather)
  = complete_CityWeather cityWeather.
Proof. cbn [complete]. now rewrite <- select_CityWeather_everything. Qed.

Lemma Activity_ok_between (a : Activity.t) :
  int_between 0 100 (Activity.suitabilityScore a) -> Activity_ok a = true.
Proof. apply int_between_int32; unfold MIN_INT, MAX_INT; lia. Qed.

(** The scores of a day with both temperatures fit [Int]. *)
Lemma dailyForecast_scores (daily : DailyWeather.t) (index : nat) (date : string) :
  RankingService.finite (number_at (DailyWeather.temperature_2m_max daily) index) = true ->
  RankingService.finite (number_at (DailyWeather.temperature_2m_min daily) index) = true ->
  Forall (fun a => int_between 0 100 (Activity.suitabilityScore a))
    (DailyForecast.activities (dailyForecast daily index date)).
Proof.
  intros Hmax Hmin. rewrite dailyForecast_rank. now apply RankingService.rank_defined.
Qed.

Lemma dailyForecast_numbers (daily : DailyWeather.t) (index : nat) (date : string) :
  let d := dailyForecast daily index date in
  DailyForecast.maxTemp d = number_at (DailyWeather.temperature_2m_max daily) index
  /\ DailyForecast.minTemp d = number_at (DailyWeather.temperature_2m_min daily) index
  /\ DailyForecast.precipitation d = number_at (DailyWeather.precipitation_sum daily) index
  /\ DailyForecast.windSpeed d = number_at (DailyWeather.wind_speed_10m_max daily) index.
Proof. now repeat split. Qed.

(** A day of the forecast can be completed only when its four numbers are
    finite, and exactly then when the ranking service reads the two
    temperatures as finite. *)
Lemma dailyForecast_complete (daily : DailyWeather.t) (index : nat) (date : string) :
  DailyForecast_ok (dailyForecast daily index date) = true -> day_complete daily index = true.
Proof.
  unfold DailyForecast_ok, day_complete.
  destruct (dailyForecast_numbers daily index date) as (-> & -> & -> & ->).
  now intros [Hn _]%andb_true_iff.
Qed.

Lemma dailyForecast_ok (daily : DailyWeather.t) (index : nat) (date : string) :
  readable (number_at (DailyWeather.temperature_2m_max daily) index) = true ->
  readable (number_at (DailyWeather.temperature_2m_min daily) index) = true ->
  DailyForecast_ok (dailyForecast daily index date) = day_complete daily index.
Proof.
  unfold DailyForecast_ok, day_complete, readable.
  destruct (dailyForecast_numbers daily index date) as (-> & -> & -> & ->).
  destruct (is_finite (number_at (DailyWeather.temperature_2m_max daily) index));
    [|reflexivity].
  destruct (is_finite (number_at (DailyWeather.temperature_2m_min daily) index));
    [|reflexivity].
  cbn [implb]. intros Hmax Hmin.
  pose proof (dailyForecast_scores daily index date Hmax Hmin) as Hs.
  apply (Forall_impl _ Activity_ok_between), Forall_forallb in Hs.
  rewrite Hs. apply andb_true_r.
Qed.

Lemma temperatures_readable_at (daily : DailyWeather.t) (index : nat) (date : string) :
  temperatures_readable daily = true ->
  nth_error (DailyWeather.time daily) index = Some date ->
  readable (number_at (DailyWeather.temperature_2m_max daily) index) = true
  /\ readable (number_at (DailyWeather.temperature_2m_min daily) index) = true.
Proof.
  unfold temperatures_readable. rewrite forallb_forall. intros Hall Hdate.
  apply andb_true_iff, Hall, in_seq. split; [lia | apply nth_error_Some; congruence].
Qed.

Lemma complete_Err (sel : selection) (p : payload) (e : exn) :
  complete sel p = Err e -> plain_error e = true.
Proof.
  destruct p as [cities | cityWeather]; cbn [complete];
    [apply select_list_Err, select_City_Err | apply select_CityWeather_Err].
Qed.

Lemma complete_monotone (p : payload) : monotone (fun sel => complete sel p).
Proof.
  destruct p as [cities | cityWeather]; cbn [complete];
    [apply select_list_monotone, select_City_monotone | apply select_CityWeather_monotone].
Qed.

Lemma plain_error_located (e : exn) : plain_error e = true -> locatedError e = e.
Proof. intros He. apply locatedError_id. now destruct e. Qed.

(** What a resolver throws is the one error of the response. *)
Lemma execute_resolver_error (h : handler api) (q : request) (e : exn) :
  run h (resolve (operation_of q)) = Err e ->
  run h (execute q) = {| data := None; errors := [e] |}.
Proof.
  intros Hr. rewrite execute_run, Hr. unfold respond. cbn [bind].
  now rewrite locatedError_id by apply (resolve_Err_GraphQLError h _ e Hr).
Qed.

(** What a resolver returns is completed. *)
Lemma execute_resolver_value (h : handler api) (q : request) (p : payload) :
  run h (resolve (operation_of q)) = Ok p ->
  run h (execute q)
  = match complete (selected q) p with
    | Ok v => {| data := Some (Object [(field_name (operation_of q), v)]); errors := [] |}
    | Err e => {| data := None; errors := [e] |}
    end.
Proof.
  intros Hr. rewrite execute_run, Hr. unfold respond. cbn [bind].
  destruct (complete (selected q) p) as [v|e] eqn:Ec; [reflexivity|].
  now rewrite plain_error_located by apply (complete_Err _ p e Ec).
Qed.

Lemma searchCities_has_data (h : handler api) (input : string) (cities : list City.t) :
  run h (resolve (SearchCities input)) = Ok (Cities cities) ->
  has_data (run h (execute (full (SearchCities input)))) = forallb City_ok cities.
Proof.
  intros Hr. rewrite execute_run, has_data_respond. cbn [full operation_of].
  rewrite Hr. cbn [bind]. rewrite (complete_full_Cities input).
  rewrite <- (traverse_is_ok_ext _ _ _ complete_City_is_ok).
  now destruct (traverse complete_City cities).
Qed.

(** ** Fewer fields *)

(** A valid request selects fewer fields than the request of every field. *)
Lemma valid_request_within (q : request) :
  valid_request q = true ->
  within (selected q) (selected (full (operation_of q))) = true.
Proof.
  destruct q as [[input | cityId] sel]; unfold valid_request, document;
    cbn [valid named Query_type lookup field_name operation_of selected is_nil negb andb
         String.eqb Ascii.eqb Bool.eqb];
    rewrite andb_true_r; apply valid_within_everything.
Qed.


(** For a valid request no selected field is skipped: the type of the
    response has exactly the selected fields, at every level. *)
Lemma valid_request_exact (q : request) :
  valid_request q = true -> exact (response_type q) (document q) = true.
Proof. intros Hv. unfold response_type. rewrite <- restrict_NonNull. now apply valid_exact. Qed.

End Data.

(** ** [getCityWeather] on an answer of the weather service *)

Section GetCityWeather.
Context `{NumberText} {ranking : RankingService.service} {ranking_ok : RankingService.ok ranking}.
Variable h : handler api.
Variable cityId : string.
Variable parsed : CityInfo.t.
Variable body : WeatherResponse.t.
Hypothesis Hparsed : parseCityId cityId = Ok parsed.
Hypothesis Hanswer :
  h _ (forecastRequest (CityInfo.latitude parsed) (CityInfo.longitude parsed))
  = Fulfilled (Some body).

(** The resolver returns the weather of the body; it can be completed only
    when the body is complete, and exactly then when the temperatures are
    readable. *)
Lemma getCityWeather_resolved :
  exists cityWeather,
    run h (resolve (GetCityWeather cityId)) = Ok (CityWeatherOf cityWeather)
    /\ (CityWeather_ok cityWeather = true -> body_complete body = true)
    /\ (temperatures_readable (WeatherResponse.daily body) = true ->
        CityWeather_ok cityWeather = body_complete body)
    /\ Weather.forecast (CityWeather.weather cityWeather)
       = Array_mapi (dailyForecast (WeatherResponse.daily body))
           (DailyWeather.time (WeatherResponse.daily body)).
Proof.
  pose proof (parseCityId_Ok_valid _ _ Hparsed) as Hvalid.
  rewrite resolve_run, Query_getCityWeather_run, getWeatherByCityId_run, Hparsed.
  cbn [bind]. rewrite (getWeatherData_answer h _ _ body Hvalid Hanswer).
  cbn [bind catch_result]. eexists. split; [reflexivity|].
  apply isValidCoordinate_finite in Hvalid as [Hlat Hlon].
  unfold CityWeather_ok, City_ok, Weather_ok, body_complete.
  cbn [CityWeather.city CityWeather.weather Query.cityOf City.latitude City.longitude
       Weather.temperature Weather.humidity Weather.windSpeed Weather.precipitation
       Weather.forecast WeatherByCityId.cityInfo WeatherByCityId.weather].
  rewrite Hlat, Hlon. cbn [andb]. split; [|split; [|reflexivity]].
  - rewrite !(andb_true_iff _ (forallb _ _)). intros [Hc Hf]. split; [exact Hc|].
    eapply Array_mapi_forallb_impl; [|exact Hf]. apply dailyForecast_complete.
  - intros Hr. f_equal. apply Array_mapi_forallb_index. intros index date Hdate.
    now apply dailyForecast_ok; apply (temperatures_readable_at _ index date).
Qed.

(** [getCityWeather_has_data]: for an identifier that [parseCityId] accepts and an answer of
    the weather service with a body, the response to [getCityWeather] has
    data exactly when the four numbers of the current weather and the four
    numbers of every dated day of the body are there and finite; the scores
    never stand in the way, because the score of a day with both
    temperatures is an integer between 0 and 100.  This holds for every
    ranking service that keeps the laws of [RankingService.ok] and reads the
    finite temperatures of the body as finite numbers, as exact arithmetic
    always does. *)
Theorem getCityWeather_has_data :
  temperatures_readable (WeatherResponse.daily body) = true ->
  has_data (run h (execute (full (GetCityWeather cityId)))) = body_complete body.
Proof.
  intros Hreadable. destruct getCityWeather_resolved as (cityWeather & Hr & _ & Hok & _).
  rewrite <- (Hok Hreadable), execute_run, has_data_respond. cbn [full operation_of]. rewrite Hr. cbn [bind].
  rewrite (complete_full_CityWeather cityId). apply complete_CityWeather_is_ok.
Qed.

(** [getCityWeather_valid_has_data]: for an answer of the weather service
    whose numbers are all there and finite, every valid query of
    [getCityWeather] has data, whatever fields it selects. *)
Theorem getCityWeather_valid_has_data (q : request) :
  operation_of q = GetCityWeather cityId ->
  valid_request q = true ->
  temperatures_readable (WeatherResponse.daily body) = true ->
  body_complete body = true ->
  has_data (run h (execute q)) = true.
Proof.
  intros Hop Hv Hreadable Hb.
  destruct getCityWeather_resolved as (cityWeather & Hr & _ & Hok & _).
  specialize (Hok Hreadable). rewrite execute_run, has_data_respond, Hop, Hr. cbn [bind].
  apply (complete_monotone _ _ (selected (full (operation_of q))));
    [now apply valid_request_within|].
  now rewrite Hop, complete_full_CityWeather, complete_CityWeather_is_ok, Hok.
Qed.

(** C30: for an answer of the weather service in which both
    temperatures of every dated day are there and finite, every
    [suitabilityScore] of the forecast [getCityWeather] returns is an
    integer between 0 and 100, hence a value of the 32-bit [Int] of the
    schema: the coercion of a score cannot fail. *)
Theorem getCityWeather_scores_fit_Int :
  temperatures_complete (WeatherResponse.daily body) = true ->
  exists cityWeather,
    run h (resolve (GetCityWeather cityId)) = Ok (CityWeatherOf cityWeather)
    /\ Forall (fun d =>
                Forall (fun a => int_between 0 100 (Activity.suitabilityScore a)
                                 /\ is_ok (serializeInt (Activity.suitabilityScore a)) = true)
                  (DailyForecast.activities d))
         (Weather.forecast (CityWeather.weather cityWeather)).
Proof.
  intros Htemps. destruct getCityWeather_resolved as (cityWeather & Hr & _ & _ & Hf).
  exists cityWeather. split; [exact Hr|]. rewrite Hf.
  apply Array_mapi_Forall_index. intros index date Hdate.
  unfold temperatures_complete in Htemps. rewrite forallb_forall in Htemps.
  assert (Hin : In index (seq 0 (length (DailyWeather.time (WeatherResponse.daily body))))).
  { apply in_seq. split; [lia | apply nth_error_Some; congruence]. }
  apply Htemps, andb_true_iff in Hin as [Hmax Hmin].
  eapply Forall_impl; [|exact (dailyForecast_scores _ index date Hmax Hmin)].
  intros a Ha. split; [exact Ha|].
  rewrite serializeInt_is_ok. now apply Activity_ok_between.
Qed.

(** C27: when one of the four numbers of a dated day is missing
    or not finite in the answer of the weather service (an array shorter
    than [daily.time], for instance), the whole response to
    [getCityWeather] is [data: null] with one error of the coercion, a
    [GraphQLError] that carries neither a code nor a service: the current
    weather and the other days are lost with it. *)
Theorem getCityWeather_missing_number (index : nat) :
  (index < length (DailyWeather.time (WeatherResponse.daily body)))%nat ->
  day_complete (WeatherResponse.daily body) index = false ->
  exists e,
    run h (execute (full (GetCityWeather cityId))) = {| data := None; errors := [e] |}
    /\ plain_error e = true.
Proof.
  intros Hindex Hday.
  assert (Hbody : body_complete body = false).
  { unfold body_complete. apply andb_false_iff. right.
    apply not_true_is_false. intros Hall.
    rewrite forallb_forall in Hall. rewrite Hall in Hday; [discriminate|].
    apply in_seq. lia. }
  destruct getCityWeather_resolved as (cityWeather & Hr & Hok & _).
  rewrite (execute_resolver_value h (full (GetCityWeather cityId)) _ Hr).
  rewrite (complete_full_CityWeather cityId).
  rewrite Hbody, <- complete_CityWeather_is_ok in Hok.
  destruct (complete_CityWeather cityWeather) as [v|e] eqn:Ec; [now specialize (Hok eq_refl)|].
  exists e. split; [reflexivity | now apply complete_CityWeather_Err in Ec].
Qed.

End GetCityWeather.

(** ** Every query is answered *)

(** The promise of a query is settled with a well-typed response. *)
Definition delivered (q : request) (c : promise api response) : Prop :=
  match c with
  | Settled r => well_typed q r = true
  | Pending _ => False
  end.

Section Answered.
Context `{NumberText} {ranking : RankingService.service} {ranking_ok : RankingService.ok ranking}.

Lemma execute_at_most_1 (q : request) : at_most 1 (execute q).
Proof.
  unfold execute, execute_with. rewrite call_resolvers.
  apply (at_most_pbind _ 1 0); [apply resolve_at_most_1 | constructor].
Qed.

Lemma execute_trace_length (h : handler api) (q : request) :
  (length (trace h (execute q)) <= 1)%nat.
Proof. rewrite execute_trace. apply resolve_trace_length. Qed.

(** [execute_terminates]: the execution of a query ends within two turns
    of the event loop. *)
Lemma execute_terminates (h : handler api) (q : request) :
  settle h 2 (Pending (execute q)) = Some (run h (execute q)).
Proof. apply settle_enough. pose proof (execute_trace_length h q). lia. Qed.

(** [execute_settles]: whatever the services answer, the promise of a query eventually
    settles with a well-typed response: data of the type the schema
    declares, or [data: null] with exactly one [GraphQLError].  No query
    stays pending once its request has been answered, and none is answered
    with a value the schema does not allow. *)
Theorem execute_settles (h : handler api) (q : request) :
  eventually h (delivered q) (Pending (execute q)).
Proof.
  apply (eventually_weaken h (fun c => c = Settled (run h (execute q))));
    [|apply pending_settles].
  intros c ->. unfold delivered, execute.
  rewrite run_execute_with. apply respond_typed, call_payload.
Qed.

End Answered.

(** ** Two ranking services *)

Section Rankings.
Context `{NumberText}.
Variables S1 S2 : RankingService.service.

(** [execute_ext]: the response to a query depends on the ranking service
    only through the rankings of the days the weather service answers
    with. *)
Lemma execute_ext (h : handler api) (q : request) :
  (forall latitude longitude data,
     h _ (forecastRequest latitude longitude) = Fulfilled (Some data) ->
     same_rankings S1 S2 (WeatherResponse.daily data)) ->
  run h (execute (ranking := S1) q) = run h (execute (ranking := S2) q).
Proof.
  intros Hsame. rewrite !execute_run, !resolve_run.
  destruct (operation_of q) as [input|cityId]; [reflexivity|].
  now rewrite !Query_getCityWeather_run, (getWeatherByCityId_ext S1 S2 h cityId Hsame).
Qed.

End Rankings.

(** ** Witnesses *)

From S2P Require Import JsNumberText.

Definition london_info : CityInfo.t :=
  {| CityInfo.latitude := dec 515074 4; CityInfo.longitude := dec (-1278) 4;
     CityInfo.name := "London"; CityInfo.country := "United Kingdom" |}.

Lemma getCityWeather_has_data_witness :
  has_data (run (forecast_only (Fulfilled (Some two_days))) (execute (full (GetCityWeather london_id))))
  = body_complete two_days.
Proof.
  apply (getCityWeather_has_data (forecast_only (Fulfilled (Some two_days))) london_id
           london_info two_days); reflexivity.
Defined.

Lemma getCityWeather_scores_fit_Int_witness :
  exists cityWeather,
    run (forecast_only (Fulfilled (Some two_days))) (resolve (GetCityWeather london_id))
    = Ok (CityWeatherOf cityWeather)
    /\ Forall (fun d =>
                Forall (fun a => int_between 0 100 (Activity.suitabilityScore a)
                                 /\ is_ok (serializeInt (Activity.suitabilityScore a)) = true)
                  (DailyForecast.activities d))
         (Weather.forecast (CityWeather.weather cityWeather)).
Proof.
  apply (getCityWeather_scores_fit_Int (forecast_only (Fulfilled (Some two_days))) london_id
           london_info two_days); reflexivity.
Defined.

Lemma getCityWeather_missing_number_witness :
  exists e,
    run (forecast_only (Fulfilled (Some ragged))) (execute (full (GetCityWeather london_id)))
    = {| data := None; errors := [e] |}
    /\ plain_error e = true.
Proof.
  apply (getCityWeather_missing_number (forecast_only (Fulfilled (Some ragged))) london_id
           london_info ragged) with (index := 1%nat);
    [reflexivity | reflexivity | cbn; lia | reflexivity].
Defined.

(** A query for the current temperature and the dates of the forecast. *)
Definition temperature_and_dates (cityId : string) : request :=
  {| operation_of := GetCityWeather cityId;
     selected := Select [("weather", Select [("temperature", leaf);
                                             ("forecast", Select [("date", leaf)])])] |}.


Lemma getCityWeather_valid_has_data_witness :
  has_data (run (forecast_only (Fulfilled (Some two_days)))
              (execute (temperature_and_dates london_id))) = true.
Proof.
  apply (getCityWeather_valid_has_data (forecast_only (Fulfilled (Some two_days))) london_id
           london_info two_days); reflexivity.
Defined.

(** On the answer [ragged], whose second maximum temperature is missing,
    the query of every field has no data, and the query that selects only
    the current temperature and the dates has. *)
Example selection_scenarios :
  has_data (run (forecast_only (Fulfilled (Some ragged)))
              (execute (full (GetCityWeather london_id)))) = false
  /\ run (forecast_only (Fulfilled (Some ragged))) (execute (temperature_and_dates london_id))
     = {| data :=
            Some (Object
                    [("getCityWeather",
                      Object
                        [("weather",
                          Object [("temperature", Number (dec 185 1));
                                  ("forecast",
                                   Array [Object [("date", Text "2026-01-01")];
                                          Object [("date", Text "2026-01-02")]])])])]);
          errors := [] |}
  /\ valid_request (temperature_and_dates london_id) = true.
Proof. repeat split; vm_compute; reflexivity. Qed.

(** The response to [getCityWeather] for London on the answer [two_days];
    on the answer [ragged], whose second maximum temperature is missing,
    the response has no data; a rate limit of the geocoding service is the
    one error of the response to [searchCities]. *)
Example execute_scenarios :
  let city :=
    Object [("id", Text london_id); ("name", Text "London");
            ("country", Text "United Kingdom");
            ("latitude", Number (dec 515074 4)); ("longitude", Number (dec (-1278) 4))] in
  let mild :=
    Object [("date", Text "2026-01-01"); ("maxTemp", Number (int 22));
            ("minTemp", Number (int 18)); ("conditions", Text "Clear sky");
            ("precipitation", Number (int 0)); ("windSpeed", Number (int 5));
            ("activities",
             Array [Object [("name", Text "outdoor_sightseeing");
                            ("suitabilityScore", Number (int 90));
                            ("reasoning", Text "ideal temperature, no rain")]])] in
  let rainy :=
    Object [("date", Text "2026-01-02"); ("maxTemp", Number (int 18));
            ("minTemp", Number (int 15)); ("conditions", Text "Slight rain");
            ("precipitation", Number (int 15)); ("windSpeed", Number (int 10));
            ("activities",
             Array [Object [("name", Text "indoor_sightseeing");
                            ("suitabilityScore", Number (int 90));
                            ("reasoning",
                             Text "ideal temperature, rain makes it more appealing")]])] in
  let weather :=
    Object [("temperature", Number (dec 185 1)); ("conditions", Text "Partly cloudy");
            ("humidity", Number (int 60)); ("windSpeed", Number (dec 123 1));
            ("precipitation", Number (int 0)); ("forecast", Array [mild; rainy])] in
  run (forecast_only (Fulfilled (Some two_days))) (execute (full (GetCityWeather london_id)))
  = {| data := Some (Object [("getCityWeather", Object [("city", city); ("weather", weather)])]);
       errors := [] |}
  /\ has_data (run (forecast_only (Fulfilled (Some ragged)))
                 (execute (full (GetCityWeather london_id)))) = false
  /\ run (geocoding_only rate_limited) (execute (full (SearchCities "London")))
     = {| data := None;
          errors := [GraphQLError "Rate limit exceeded. Please try again later."
                       (Some RATE_LIMIT_EXCEEDED) (Some "OpenMeteo Geocoding API")] |}.
Proof. repeat split; vm_compute; reflexivity. Qed.
