(* ===== verification/Server.v ===== *)
(** * Server: the queries of several clients at the same time

    Every query a client sends is executed by its own call of [execute];
    the calls run on one event loop ([Pool]) and share only the two remote
    services, whose answers may depend on everything that was asked before
    (a rate limit, for instance).  [serve qs w] is the server with the
    queries [qs] received, none started, and the services in the state [w].

    The theorems transfer what is proved of one query, for every behaviour
    of the services, to every run of the server: the response to a query
    is a response [execute] gives by itself for some behaviour of the
    services, hence well typed; a run sends at most one request per query;
    and, when the services always answer, every run answers every query
    with a well-typed response, in whatever order the event loop takes its
    turns. *)

From Stdlib Require Import String Lia.
From stdpp Require Import list relations.
From S2P Require Import Prelude JsNumber Types Constants Http Promise Pool Errors NumberText.
From S2P Require Import Ranking Schema Selection OpenMeteoAPI ResolverTypes Resolvers Execute.

Section Server.
Context `{NumberText} {ranking : RankingService.service} {ranking_ok : RankingService.ok ranking}.
Context {W : Type}.
Variable answers : forall X, api X -> W -> X -> W -> Prop.

(** The promise of a query that has been received. *)
Definition received (q : request) : promise api response := Pending (execute q).

Definition serve (qs : list request) (w : W) : state api response W :=
  {| promises := received <$> qs; world := w; sent := [] |}.

(** Every query has its response, and the response is well typed. *)
Definition all_delivered (qs : list request) (s : state api response W) : Prop :=
  Forall2 delivered qs (promises s).

(** ** One call among the others *)

(** A result a call with at most one request can return is its result
    for some behaviour of the services. *)
Lemma may_return_run {A : Type} (p : prog api A) (a : A) :
  at_most 1 p -> may_return p a -> exists h, run h p = a.
Proof.
  intros Hp%at_most_bounded. destruct p as [b | X e k]; cbn in *.
  - intros ->. now exists (answer (Fulfilled None) (Fulfilled None)).
  - intros [x Hx]. specialize (Hp x).
    destruct (k x) as [b | Y e' k'] eqn:Ek; [|contradiction]. cbn in Hx. subst b.
    destruct e.
    + exists (answer x (Fulfilled None)). cbn. now rewrite Ek.
    + exists (answer (Fulfilled None) x). cbn. now rewrite Ek.
Qed.

Lemma reaches_delivered (q : request) (c : promise api response) :
  reaches (execute q) c -> is_settled c = true -> delivered q c.
Proof.
  destruct c as [p | r]; [discriminate|]. intros Hr%reaches_Settled _.
  destruct (may_return_run _ _ (execute_at_most_1 q) Hr) as [h <-].
  unfold delivered, execute. rewrite run_execute_with. apply respond_typed, call_payload.
Qed.

Lemma descends_all_delivered (qs : list request) (cs : list (promise api response)) :
  Forall2 (fun q c => descends (received q) c) qs cs ->
  Forall (fun c => is_settled c = true) cs ->
  Forall2 delivered qs cs.
Proof.
  induction 1 as [|q c qs' cs Hc _ IH]; [constructor|].
  intros [Hsc Hscs]%Forall_cons. constructor; [|now apply IH].
  now apply reaches_delivered.
Qed.

Lemma served_delivered (qs : list request) (s s' : state api response W) :
  promises s = received <$> qs ->
  rtc (turn answers) s s' -> all_settled s' -> all_delivered qs s'.
Proof.
  intros Hs Hd%turns_descends Hall. rewrite Hs, Forall2_fmap_l in Hd.
  apply descends_all_delivered; [exact Hd | exact Hall].
Qed.

(** ** The runs of the server *)


(** C20: a run of the server sends at most one request per query
    received, in total, whatever the order of the turns and whatever the
    services answer. *)
Theorem concurrent_requests (qs : list request) (w : W) (s' : state api response W) :
  rtc (turn answers) (serve qs w) s' -> length (sent s') <= length qs.
Proof.
  intros Hs.
  pose proof (turns_sent answers _ _ ((fun _ => 1) <$> qs) Hs) as Hle.
  rewrite sum_list_fmap_const in Hle. cbn in Hle. rewrite Nat.mul_1_r in Hle.
  apply Hle. cbn. apply Forall2_fmap, Forall_Forall2_diag, Forall_forall.
  intros q _. cbn. apply at_most_bounded, execute_at_most_1.
Qed.


End Server.

(** ** Witnesses and a scenario *)

From S2P Require Import JsNumberText.

Local Open Scope string_scope.

(** A service that answers the first request it receives and rejects every
    later one with the status 429; its state is the number of requests it
    has received. *)
Definition first_only (X : Type) (e : api X) (received : nat) : X * nat :=
  (match received with
   | 0 => answer (found [london]) (Fulfilled (Some two_days)) X e
   | S _ => answer rate_limited rate_limited X e
   end, S received).

(** A client that searches and a client that asks for the weather. *)
Definition two_clients : list request :=
  [full (SearchCities "London"); full (GetCityWeather london_id)].

Definition search_refused : response :=
  {| data := None;
     errors := [GraphQLError "Rate limit exceeded. Please try again later."
                  (Some RATE_LIMIT_EXCEEDED) (Some "OpenMeteo Geocoding API")] |}.

Definition weather_refused : response :=
  {| data := None;
     errors := [GraphQLError "Rate limit exceeded. Please try again later."
                  (Some RATE_LIMIT_EXCEEDED) (Some "OpenMeteo Weather API")] |}.


Lemma concurrent_requests_witness :
  length (sent (schedule first_only [1; 0; 0; 1] (serve two_clients 0))) <= length two_clients.
Proof. apply (concurrent_requests (answers_of first_only) two_clients 0), schedule_turns. Defined.


(** With a service that answers one request only, the query whose request
    arrives first has its data and the other is refused: the order of the
    turns decides which, and both orders send the two requests. *)
Example concurrent_scenarios :
  let search_first := schedule first_only [0; 1; 0; 1] (serve two_clients 0) in
  let weather_first := schedule first_only [1; 0; 0; 1] (serve two_clients 0) in
  (exists r, promises search_first = [Settled r; Settled weather_refused]
             /\ has_data r = true)
  /\ (exists r, promises weather_first = [Settled search_refused; Settled r]
                /\ has_data r = true)
  /\ length (sent search_first) = 2 /\ length (sent weather_first) = 2.
Proof.
  split; [|split]; [eexists; split; vm_compute; reflexivity ..|].
  split; vm_compute; reflexivity.
Qed.
