(* ===== verification/Arithmetic.v ===== *)
(** * Arithmetic: the scoring engine over any arithmetic

    The other files compute with exact decimals ([JsNumber]); the program
    computes with binary64 floating-point numbers.  This file states what
    the scoring engine needs of its numbers as a class, [Arithmetic]: the
    literals, [+], [-], [*], [/ 2], the comparisons, [Math.min],
    [Math.max], [Math.round], the test for [NaN] and the exact value of a
    number, with two laws: [<] implies [<=], and a clamp between the
    literals 0 and 100 is [NaN] or lies between them.

    [src/src/utils/activityRanking.ts] is translated once more, over the
    class (module [Engine]: [scoreActivity], [rankActivitiesForDay] and the
    table [ACTIVITY_CONFIGS]); the records [Profile.t], [Day.t] and
    [Scored.t] are the profile, the day and the scored activity with
    numbers of the arithmetic.

    The theorems hold for every arithmetic that meets the laws: the score
    is [NaN] or lies between 0 and 100, the reasoning begins with one of
    the three temperature reasons and is never the fallback, and the
    ranking has [min top 4] activities drawn from the table.  The exact
    decimals are an instance ([decimal]), for which the engine of this
    file is the one of [ActivityRanking.Literal]; [Binary64] has the
    instance of the program. *)

From Stdlib Require Import String List ZArith Bool Lia.
From S2P Require Import Prelude JsNumber JsString JsArray Types Constants.
From S2P Require ActivityRanking.
Import ListNotations.

Local Open Scope list_scope.
Local Open Scope string_scope.

(** ** The interface *)

Class Arithmetic (N : Type) : Type := {
  (** the literal [m / 10^e] of the sources *)
  lit : Z -> nat -> N;
  add : N -> N -> N;
  sub : N -> N -> N;
  mul : N -> N -> N;
  half : N -> N;
  ltb : N -> N -> bool;
  leb : N -> N -> bool;
  Math_min : N -> N -> N;
  Math_max : N -> N -> N;
  Math_round : N -> N;
  is_NaN : N -> bool;
  (** the number as an exact decimal *)
  exact : N -> number;
  ltb_leb : forall x y, ltb x y = true -> leb x y = true;
  clamp_0_100 : forall x,
    let r := Math_max (lit 0 0) (Math_min (lit 100 0) x) in
    is_NaN r = true \/ (leb (lit 0 0) r = true /\ leb r (lit 100 0) = true)
}.

(** ** The data of the engine *)

Module Profile.
Record t (N : Type) : Type := mk {
  name : string;
  idealTempMin : N;
  idealTempMax : N;
  rainTolerance : N;
  windPreference : N
}.
Arguments mk {N}.
Arguments name {N}.
Arguments idealTempMin {N}.
Arguments idealTempMax {N}.
Arguments rainTolerance {N}.
Arguments windPreference {N}.
End Profile.

Module Day.
Record t (N : Type) : Type := mk {
  date : string;
  maxTemp : N;
  minTemp : N;
  conditions : string;
  precipitation : N;
  windSpeed : N
}.
Arguments mk {N}.
Arguments date {N}.
Arguments maxTemp {N}.
Arguments minTemp {N}.
Arguments conditions {N}.
Arguments precipitation {N}.
Arguments windSpeed {N}.
End Day.

Module Scored.
Record t (N : Type) : Type := mk {
  name : string;
  suitabilityScore : N;
  reasoning : string
}.
Arguments mk {N}.
Arguments name {N}.
Arguments suitabilityScore {N}.
Arguments reasoning {N}.
End Scored.

(** ** The engine *)

Module Engine.
Section WithArithmetic.
Context {N : Type} `{Arithmetic N}.

(** [x > y] and [x >= y] *)
Definition gtb (x y : N) : bool := ltb y x.
Definition geb (x y : N) : bool := leb y x.

(** The locals [score] and [reasons] of [scoreActivity]. *)
Record tally : Type := mk_tally {
  score : N;
  reasons : list string
}.

Definition plus (d : N) (st : tally) : tally :=
  {| score := add (score st) d; reasons := reasons st |}.

Definition minus (d : N) (st : tally) : tally :=
  {| score := sub (score st) d; reasons := reasons st |}.

Definition push (r : string) (st : tally) : tally :=
  {| score := score st; reasons := (reasons st ++ [r])%list |}.

Definition ACTIVITY_CONFIGS : list (Profile.t N) :=
  [ Profile.mk "skiing" (lit (-10) 0) (lit 2 0) (lit 1 1) (lit 2 1);
    Profile.mk "surfing" (lit 18 0) (lit 28 0) (lit 7 1) (lit 8 1);
    Profile.mk "indoor_sightseeing" (lit 10 0) (lit 30 0) (lit 10 1) (lit 5 1);
    Profile.mk "outdoor_sightseeing" (lit 15 0) (lit 25 0) (lit 1 1) (lit 3 1) ].

(** The first [if] of [scoreActivity]: the temperature. *)
Definition temperature (config : Profile.t N) (avgTemp : N) (st : tally) : tally :=
  if geb avgTemp (Profile.idealTempMin config) && leb avgTemp (Profile.idealTempMax config)
  then push "ideal temperature" (plus (lit 30 0) st)
  else if ltb avgTemp (Profile.idealTempMin config)
  then push "too cold"
         (minus (Math_min (lit 30 0)
                   (mul (sub (Profile.idealTempMin config) avgTemp) (lit 5 0))) st)
  else push "too warm"
         (minus (Math_min (lit 30 0)
                   (mul (sub avgTemp (Profile.idealTempMax config)) (lit 5 0))) st).

(** The other three: rain, wind and the indoor activities. *)
Definition conditions (config : Profile.t N) (avgTemp : N) (hasRain isWindy : bool)
    (st : tally) : tally :=
  let st :=
    if hasRain then
      let st := minus (mul (sub (lit 1 0) (Profile.rainTolerance config)) (lit 20 0)) st in
      if gtb (Profile.rainTolerance config) (lit 8 1)
      then push "rain makes it more appealing" (plus (lit 10 0) st)
      else if ltb (Profile.rainTolerance config) (lit 3 1)
      then push "rain not ideal" st
      else st
    else if ltb (Profile.rainTolerance config) (lit 3 1)
    then push "no rain" (plus (lit 10 0) st)
    else st in
  let st :=
    if isWindy then
      let st := plus (sub (mul (Profile.windPreference config) (lit 15 0)) (lit 75 1)) st in
      if gtb (Profile.windPreference config) (lit 6 1)
      then push "good wind conditions" st
      else if ltb (Profile.windPreference config) (lit 4 1)
      then push "windy conditions" st
      else st
    else st in
  if includes (Profile.name config) "indoor" then
    if ltb avgTemp (lit 10 0) || gtb avgTemp (lit 30 0)
    then push "extreme weather favors indoor activities" (plus (lit 15 0) st)
    else st
  else st.

Definition scoreActivity (config : Profile.t N) (avgTemp : N) (hasRain isWindy : bool)
    (precipitation windSpeed : N) : Scored.t N :=
  let st := {| score := lit 50 0; reasons := [] |} in
  let st := temperature config avgTemp st in
  let st := conditions config avgTemp hasRain isWindy st in
  {| Scored.name := Profile.name config;
     Scored.suitabilityScore :=
       Math_max (lit 0 0) (Math_min (lit 100 0) (Math_round (score st)));
     Scored.reasoning := or_default (join (reasons st) ", ") "standard conditions" |}.

(** The scored profiles, before they are sorted. *)
Definition scored (forecast : Day.t N) : list (Scored.t N) :=
  let avgTemp := half (add (Day.maxTemp forecast) (Day.minTemp forecast)) in
  let hasRain := gtb (Day.precipitation forecast) (lit 1 0) in
  let isWindy := gtb (Day.windSpeed forecast) (lit 20 0) in
  map (fun config =>
         scoreActivity config avgTemp hasRain isWindy
           (Day.precipitation forecast) (Day.windSpeed forecast))
      ACTIVITY_CONFIGS.

(** The comparator of the sort; the sort reads the sign of its result. *)
Definition byScore (a b : Scored.t N) : number :=
  exact (sub (Scored.suitabilityScore b) (Scored.suitabilityScore a)).

Definition rankActivitiesForDay (forecast : Day.t N) (top : option number) :
    list (Scored.t N) :=
  let top := match top with Some n => n | None => int 1 end in
  Array_slice (Array_sort byScore (scored forecast)) (int 0) top.

End WithArithmetic.

Arguments tally N : clear implicits.

End Engine.
Import Engine.

(** ** What holds in every arithmetic *)

Section EngineFacts.
Context {N : Type} `{Arithmetic N}.

(** The score is [NaN] or lies between 0 and 100. *)
Lemma scoreActivity_bounds (config : Profile.t N) (avgTemp : N) (hasRain isWindy : bool)
  (precipitation windSpeed : N) :
  let s := Scored.suitabilityScore
             (scoreActivity config avgTemp hasRain isWindy precipitation windSpeed) in
  is_NaN s = true \/ (leb (lit 0 0) s = true /\ leb s (lit 100 0) = true).
Proof. apply clamp_0_100. Qed.

(** The reasons are pushed at the end: a block keeps the reasons it finds. *)
Definition extends (st st' : tally N) : Prop := exists l, reasons st' = (reasons st ++ l)%list.

Lemma tally_extends_refl (st : tally N) : extends st st.
Proof. exists []. now rewrite app_nil_r. Qed.

Lemma tally_extends_push (r : string) (st st' : tally N) : extends st st' -> extends st (push r st').
Proof. intros [l Hl]. exists (l ++ [r])%list. cbn. now rewrite Hl, app_assoc. Qed.

Lemma tally_extends_plus (d : N) (st st' : tally N) : extends st st' -> extends st (plus d st').
Proof. now intros [l Hl]; exists l. Qed.

Lemma tally_extends_minus (d : N) (st st' : tally N) : extends st st' -> extends st (minus d st').
Proof. now intros [l Hl]; exists l. Qed.

Lemma conditions_extends (config : Profile.t N) (avgTemp : N) (hasRain isWindy : bool)
  (st : tally N) :
  extends st (conditions config avgTemp hasRain isWindy st).
Proof.
  unfold conditions.
  repeat match goal with
  | |- context [if ?b then _ else _] => destruct b
  end;
  auto 8 using tally_extends_refl, tally_extends_push, tally_extends_plus, tally_extends_minus.
Qed.

(** The temperature pushes exactly one of its three reasons. *)
Lemma temperature_reasons (config : Profile.t N) (avgTemp : N) (st : tally N) :
  exists tag, In tag ["ideal temperature"; "too cold"; "too warm"]
    /\ reasons (temperature config avgTemp st) = (reasons st ++ [tag])%list.
Proof.
  unfold temperature.
  repeat match goal with
  | |- context [if ?b then _ else _] => destruct b
  end;
  eexists; (split; [|reflexivity]); cbn; auto.
Qed.

(** The reasoning begins with the reason of the temperature, so it is
    never empty and never the fallback. *)
Lemma scoreActivity_reasoning (config : Profile.t N) (avgTemp : N) (hasRain isWindy : bool)
  (precipitation windSpeed : N) :
  exists tag rest,
    In tag ["ideal temperature"; "too cold"; "too warm"]
    /\ Scored.reasoning (scoreActivity config avgTemp hasRain isWindy precipitation windSpeed)
       = tag ++ rest.
Proof.
  unfold scoreActivity. cbn [Scored.reasoning].
  destruct (temperature_reasons config avgTemp {| score := lit 50 0; reasons := [] |})
    as (tag & Htag & Ht).
  destruct (conditions_extends config avgTemp hasRain isWindy
              (temperature config avgTemp {| score := lit 50 0; reasons := [] |})) as [l Hl].
  rewrite Hl, Ht. cbn [reasons app].
  destruct (join_prefix tag l ", ") as [rest Hr]. exists tag, rest. split; [exact Htag|].
  rewrite Hr, or_default_nonempty; [reflexivity|].
  destruct Htag as [<-|[<-|[<-|[]]]]; discriminate.
Qed.

Lemma scored_length (forecast : Day.t N) : length (scored forecast) = 4%nat.
Proof. reflexivity. Qed.

(** For an integer [top >= 0] the ranking has [min top 4] activities. *)
Lemma ranking_length (forecast : Day.t N) (n : Z) :
  (0 <= n)%Z ->
  length (rankActivitiesForDay forecast (Some (int n))) = Nat.min (Z.to_nat n) 4.
Proof.
  intros Hn. unfold rankActivitiesForDay.
  now rewrite Array_slice_0_length, Array_sort_length, scored_length.
Qed.

(** [scoreActivity] makes no use of its last two parameters. *)
Lemma scoreActivity_unused (config : Profile.t N) (avgTemp : N) (hasRain isWindy : bool)
  (p w p' w' : N) :
  scoreActivity config avgTemp hasRain isWindy p w
  = scoreActivity config avgTemp hasRain isWindy p' w'.
Proof. reflexivity. Qed.

Lemma scored_at (forecast : Day.t N) (p w : N) :
  scored forecast
  = map (fun config =>
           scoreActivity config
             (half (add (Day.maxTemp forecast) (Day.minTemp forecast)))
             (gtb (Day.precipitation forecast) (lit 1 0))
             (gtb (Day.windSpeed forecast) (lit 20 0)) p w)
      ACTIVITY_CONFIGS.
Proof. reflexivity. Qed.

(** The ranking is drawn from the scored profiles. *)
Lemma rankActivitiesForDay_In (forecast : Day.t N) (top : option number) (a : Scored.t N) :
  In a (rankActivitiesForDay forecast top) -> In a (scored forecast).
Proof.
  unfold rankActivitiesForDay.
  destruct (Array_slice_0_prefix (Array_sort byScore (scored forecast))
              match top with Some n => n | None => int 1 end) as [n ->].
  intros Hin. apply (Array_sort_In byScore).
  rewrite <- (firstn_skipn n). apply in_or_app. now left.
Qed.

Lemma scored_In (forecast : Day.t N) (a : Scored.t N) :
  In a (scored forecast) ->
  exists config,
    In config ACTIVITY_CONFIGS
    /\ a = scoreActivity config
             (half (add (Day.maxTemp forecast) (Day.minTemp forecast)))
             (gtb (Day.precipitation forecast) (lit 1 0))
             (gtb (Day.windSpeed forecast) (lit 20 0))
             (Day.precipitation forecast) (Day.windSpeed forecast).
Proof.
  unfold scored. intros (config & <- & Hc)%in_map_iff. now exists config.
Qed.

(** Every activity of a ranking is a profile of the table with a score
    that is [NaN] or between 0 and 100, and a reasoning that begins with
    the reason of the temperature. *)
Lemma rankActivitiesForDay_Forall (forecast : Day.t N) (top : option number) :
  Forall (fun a =>
            In (Scored.name a) (map Profile.name ACTIVITY_CONFIGS)
            /\ (is_NaN (Scored.suitabilityScore a) = true
                \/ (leb (lit 0 0) (Scored.suitabilityScore a) = true
                    /\ leb (Scored.suitabilityScore a) (lit 100 0) = true))
            /\ exists tag rest,
                 In tag ["ideal temperature"; "too cold"; "too warm"]
                 /\ Scored.reasoning a = tag ++ rest)
    (rankActivitiesForDay forecast top).
Proof.
  apply Forall_forall. intros a Ha%rankActivitiesForDay_In%scored_In.
  destruct Ha as (config & Hc & ->).
  split; [exact (in_map Profile.name _ _ Hc)|].
  split; [apply scoreActivity_bounds | apply scoreActivity_reasoning].
Qed.

End EngineFacts.

(** ** The exact decimals *)

Lemma decimal_clamp (x : number) :
  let r := JsNumber.Math_max (int 0) (JsNumber.Math_min (int 100) x) in
  JsNumber.is_NaN r = true
  \/ (JsNumber.leb (int 0) r = true /\ JsNumber.leb r (int 100) = true).
Proof.
  destruct x as [| s | m e]; [now left | right; now destruct s |]. right.
  unfold JsNumber.Math_min, int.
  destruct (JsNumber.ltb (Fin m e) (Fin 100 0)) eqn:Ehi; [|split; reflexivity].
  unfold JsNumber.Math_max.
  destruct (JsNumber.ltb (Fin 0 0) (Fin m e)) eqn:Elo; [|split; reflexivity].
  split; now apply ltb_leb_incl.
Qed.

#[export] Instance decimal : Arithmetic number := {|
  lit := dec;
  add := JsNumber.add;
  sub := JsNumber.sub;
  mul := JsNumber.mul;
  half := JsNumber.half;
  ltb := JsNumber.ltb;
  leb := JsNumber.leb;
  Math_min := JsNumber.Math_min;
  Math_max := JsNumber.Math_max;
  Math_round := JsNumber.Math_round;
  is_NaN := JsNumber.is_NaN;
  exact := fun x => x;
  ltb_leb := ltb_leb_incl;
  clamp_0_100 := decimal_clamp
|}.

(** The records of [Types], as records of the engine. *)
Definition of_config (config : ActivityConfig.t) : Profile.t number :=
  {| Profile.name := ActivityConfig.name config;
     Profile.idealTempMin := ActivityConfig.idealTempMin config;
     Profile.idealTempMax := ActivityConfig.idealTempMax config;
     Profile.rainTolerance := ActivityConfig.rainTolerance config;
     Profile.windPreference := ActivityConfig.windPreference config |}.

Definition of_day (forecast : ForecastDay.t) : Day.t number :=
  {| Day.date := ForecastDay.date forecast;
     Day.maxTemp := ForecastDay.maxTemp forecast;
     Day.minTemp := ForecastDay.minTemp forecast;
     Day.conditions := ForecastDay.conditions forecast;
     Day.precipitation := ForecastDay.precipitation forecast;
     Day.windSpeed := ForecastDay.windSpeed forecast |}.

Definition to_Activity (a : Scored.t number) : Activity.t :=
  {| Activity.name := Scored.name a;
     Activity.suitabilityScore := Scored.suitabilityScore a;
     Activity.reasoning := Scored.reasoning a |}.

(** Over the exact decimals the engine of this file is the one of
    [ActivityRanking.Literal]. *)
Lemma decimal_scoreActivity (config : ActivityConfig.t) (avgTemp : number)
  (hasRain isWindy : bool) (precipitation windSpeed : number) :
  to_Activity (scoreActivity (of_config config) avgTemp hasRain isWindy precipitation windSpeed)
  = ActivityRanking.Literal.scoreActivity config avgTemp hasRain isWindy
      precipitation windSpeed.
Proof.
  unfold scoreActivity, ActivityRanking.Literal.scoreActivity, temperature, conditions,
    to_Activity, gtb, geb.
  cbn [Scored.name Scored.suitabilityScore Scored.reasoning of_config Profile.name
       Profile.idealTempMin Profile.idealTempMax Profile.rainTolerance Profile.windPreference
       decimal lit add sub mul ltb leb Math_min Math_max Math_round].
  unfold JsNumber.gtb, JsNumber.geb, int, dec.
  repeat match goal with
  | |- context [if ?b then _ else _] => destruct b
  end;
  reflexivity.
Qed.

Lemma decimal_scored (forecast : ForecastDay.t) :
  map to_Activity (scored (of_day forecast))
  = map (fun config =>
           ActivityRanking.Literal.scoreActivity config
             (JsNumber.half (JsNumber.add (ForecastDay.maxTemp forecast)
                               (ForecastDay.minTemp forecast)))
             (JsNumber.gtb (ForecastDay.precipitation forecast) (int 1))
             (JsNumber.gtb (ForecastDay.windSpeed forecast) (int 20))
             (ForecastDay.precipitation forecast) (ForecastDay.windSpeed forecast))
      ActivityRanking.Literal.ACTIVITY_CONFIGS.
Proof.
  unfold scored. rewrite map_map.
  change (@ACTIVITY_CONFIGS number decimal)
    with (map of_config ActivityRanking.Literal.ACTIVITY_CONFIGS).
  rewrite map_map. apply map_ext. intros config. apply decimal_scoreActivity.
Qed.

(** [decimal_rankActivitiesForDay]: in exact decimal arithmetic the engine
    of this file returns the ranking of [ActivityRanking.Literal], for
    every day and every [top]. *)
Theorem decimal_rankActivitiesForDay (forecast : ForecastDay.t) (top : option number) :
  map to_Activity (rankActivitiesForDay (of_day forecast) top)
  = ActivityRanking.Literal.rankActivitiesForDay forecast top.
Proof.
  unfold rankActivitiesForDay, ActivityRanking.Literal.rankActivitiesForDay.
  rewrite Array_slice_map.
  rewrite (Array_sort_map to_Activity
             (fun a b => JsNumber.sub (Activity.suitabilityScore b)
                           (Activity.suitabilityScore a))).
  now rewrite decimal_scored.
Qed.
