(* ===== verification/Float64.v ===== *)
(** * Float64: facts about binary64 numbers

    The binary64 numbers of the program are the primitive floating-point
    numbers of Rocq.  The Standard Library specifies their operations by
    functions on [spec_float] (a sign, a mantissa and an exponent), through
    [Prim2SF] ([FloatAxioms]).  This file derives from that specification
    what the other files need:

    - the tests [is_nan], [is_zero], [is_finite] and [get_sign] read off
      the class of [Prim2SF x];
    - the mantissa of a number has at most 53 binary digits;
    - an integer below [2^53] is a binary64 number: [of_Z], the integer as
      a float, has the integer as its mantissa, shifted to 53 digits;
    - rounding never produces [NaN], so [+], [-], [*] and [/] return [NaN]
      only in the cases of IEEE 754: an operand that is [NaN], a sum of
      opposite infinities, a product of zero and infinity, a quotient of
      two zeros or of two infinities.  The lemmas state it for the
      operands the scoring engine has: a finite constant on one side;
    - rounding a number below [2^1023] gives a finite number, so the
      quotient of two integers below [2^53] is finite. *)

From Stdlib Require Import ZArith Bool Lia Floats.

(** An integer as a float (exact below [2^53]). *)
Definition of_Z (z : Z) : float :=
  if (z <? 0)%Z then (- of_uint63 (Uint63.of_Z (- z)))%float
  else of_uint63 (Uint63.of_Z z).

(** A number that is finite and not zero. *)
Definition is_regular (x : float) : bool := PrimFloat.is_finite x && negb (is_zero x).

(** ** The tests, on the specification *)

Lemma SFcompare_refl (x : spec_float) :
  SFcompare x x = match x with S754_nan => None | _ => Some Eq end.
Proof.
  destruct x as [s| s | | s m e]; cbn; try reflexivity; [now destruct s|].
  rewrite Z.compare_refl.
  change (Pos.compare_cont Eq m m) with (Pos.compare m m). rewrite Pos.compare_refl.
  now destruct s.
Qed.

Lemma is_nan_spec (x : float) :
  PrimFloat.is_nan x = match Prim2SF x with S754_nan => true | _ => false end.
Proof.
  unfold PrimFloat.is_nan. rewrite eqb_spec. unfold SFeqb. rewrite SFcompare_refl.
  now destruct (Prim2SF x).
Qed.

Lemma is_zero_spec (x : float) :
  is_zero x = match Prim2SF x with S754_zero _ => true | _ => false end.
Proof.
  unfold is_zero. rewrite eqb_spec. change (Prim2SF zero) with (S754_zero false).
  destruct (Prim2SF x) as [s| s | | s m e]; try reflexivity; now destruct s.
Qed.

Lemma get_sign_spec (x : float) :
  get_sign x = match Prim2SF x with
               | S754_zero s | S754_infinity s | S754_finite s _ _ => s
               | S754_nan => false
               end.
Proof.
  unfold get_sign. rewrite is_zero_spec.
  destruct (Prim2SF x) as [s| s | | s m e] eqn:E.
  - rewrite ltb_spec, div_spec, E. change (Prim2SF one) with (S754_finite false 4503599627370496 (-52)).
    now destruct s.
  - rewrite ltb_spec, E. now destruct s.
  - rewrite ltb_spec, E. reflexivity.
  - rewrite ltb_spec, E. now destruct s.
Qed.

Lemma is_finite_spec (x : float) :
  PrimFloat.is_finite x
  = match Prim2SF x with S754_finite _ _ _ | S754_zero _ => true | _ => false end.
Proof.
  unfold PrimFloat.is_finite, is_infinity. rewrite is_nan_spec, eqb_spec, abs_spec.
  change (Prim2SF infinity) with (S754_infinity false).
  now destruct (Prim2SF x) as [s|s| |s m e].
Qed.

Lemma is_nan_false (x : float) : PrimFloat.is_nan x = false <-> Prim2SF x <> S754_nan.
Proof. rewrite is_nan_spec. destruct (Prim2SF x); split; congruence. Qed.

Lemma is_finite_real (x : float) : PrimFloat.is_finite x = true -> PrimFloat.is_nan x = false.
Proof. rewrite is_finite_spec, is_nan_spec. now destruct (Prim2SF x). Qed.

Lemma float_ltb_leb (x y : float) : (x <? y)%float = true -> (x <=? y)%float = true.
Proof.
  rewrite ltb_spec, leb_spec. unfold SFltb, SFleb.
  now destruct (SFcompare (Prim2SF x) (Prim2SF y)) as [[| |]|].
Qed.

(** ** Mantissas *)

Lemma digits2_pos_log2 (m : positive) :
  Zpos (digits2_pos m) = Z.succ (Z.log2 (Zpos m)).
Proof.
  induction m as [m IH|m IH|]; [| |reflexivity]; cbn [digits2_pos]; rewrite Pos2Z.inj_succ, IH.
  - now rewrite (Pos2Z.inj_xI m), Z.log2_succ_double.
  - now rewrite (Pos2Z.inj_xO m), Z.log2_double.
Qed.

Lemma digits2_pos_bounds (m : positive) :
  (2 ^ (Zpos (digits2_pos m) - 1) <= Zpos m < 2 ^ Zpos (digits2_pos m))%Z.
Proof.
  rewrite digits2_pos_log2, <- Z.add_1_r, Z.add_simpl_r, Z.add_1_r.
  now apply Z.log2_spec.
Qed.

Lemma iter_xO (m d : positive) : Zpos (Pos.iter xO m d) = (Zpos m * 2 ^ Zpos d)%Z.
Proof.
  induction d as [|d IH] using Pos.peano_ind.
  - cbn. lia.
  - rewrite Pos.iter_succ, Pos2Z.inj_xO, IH, Pos2Z.inj_succ, Z.pow_succ_r by lia. lia.
Qed.

Lemma digits2_pos_iter_xO (m d : positive) :
  Zpos (digits2_pos (Pos.iter xO m d)) = (Zpos (digits2_pos m) + Zpos d)%Z.
Proof.
  rewrite !digits2_pos_log2, iter_xO, Z.log2_mul_pow2 by lia. lia.
Qed.

(** A mantissa of 53 digits with an exponent in range is not rounded. *)
Lemma binary_round_aux_canonical (sx : bool) (m : positive) (e : Z) :
  Zpos (digits2_pos m) = 53%Z -> (-1074 <= e <= 971)%Z ->
  binary_round_aux prec emax sx (Zpos m) e loc_Exact = S754_finite sx m e.
Proof.
  intros Hd He.
  assert (H0 : forall p, Zpos (digits2_pos p) = 53%Z ->
            shr_fexp prec emax (Zpos p) e loc_Exact
            = ({| shr_m := Zpos p; shr_r := false; shr_s := false |}, e)).
  { intros p Hp. unfold shr_fexp, Zdigits2, fexp, SpecFloat.emin, prec, emax. rewrite Hp.
    replace (Z.max (53 + e - 53) (3 - 1024 - 53) - e)%Z with 0%Z by lia. reflexivity. }
  unfold binary_round_aux. rewrite (H0 m Hd).
  cbn [shr_m loc_of_shr_record round_nearest_even]. rewrite (H0 m Hd). cbn [shr_m].
  unfold prec, emax. destruct (Z.leb_spec e (1024 - 53)); [reflexivity | lia].
Qed.

(** An integer below [2^53] is a binary64 number. *)
Lemma binary_normalize_exact (m : positive) :
  (Zpos (digits2_pos m) <= 53)%Z ->
  binary_normalize prec emax (Zpos m) 0 false
  = match (Zpos (digits2_pos m) - 53)%Z with
    | Zneg d => S754_finite false (Pos.iter xO m d) (Zneg d)
    | _ => S754_finite false m 0
    end.
Proof.
  intros Hd. cbn [binary_normalize]. unfold binary_round.
  assert (Hf : fexp prec emax (Zpos (digits2_pos m) + 0) = (Zpos (digits2_pos m) - 53)%Z)
    by (unfold fexp, SpecFloat.emin, prec, emax; lia).
  rewrite Hf. unfold shl_align. rewrite Z.sub_0_r.
  destruct (Zpos (digits2_pos m) - 53)%Z as [|d|d] eqn:Ed; [| lia |].
  - apply binary_round_aux_canonical; lia.
  - apply binary_round_aux_canonical; [rewrite digits2_pos_iter_xO|]; lia.
Qed.

(** The mantissa of a binary64 number has at most 53 digits. *)
Lemma Prim2SF_digits (x : float) (s : bool) (m : positive) (e : Z) :
  Prim2SF x = S754_finite s m e ->
  (Zpos (digits2_pos m) <= 53 /\ -1074 <= e <= 971)%Z.
Proof.
  intros E. pose proof (Prim2SF_valid x) as Hv. rewrite E in Hv.
  cbn [valid_binary] in Hv. unfold bounded, canonical_mantissa in Hv.
  apply andb_true_iff in Hv. destruct Hv as [Hc He].
  apply Z.eqb_eq in Hc. apply Z.leb_le in He.
  unfold fexp, SpecFloat.emin, prec, emax in *. lia.
Qed.

Lemma Prim2SF_mantissa (x : float) (s : bool) (m : positive) (e : Z) :
  Prim2SF x = S754_finite s m e -> (Zpos m < 2 ^ 53)%Z.
Proof.
  intros E. destruct (Prim2SF_digits x s m e E) as [Hd _].
  pose proof (digits2_pos_bounds m) as [_ Hm].
  eapply Z.lt_le_trans; [exact Hm|]. apply Z.pow_le_mono_r; lia.
Qed.

(** The canonical form of a positive integer below [2^53]. *)
Definition normal (m : positive) : spec_float :=
  match (Zpos (digits2_pos m) - 53)%Z with
  | Zneg d => S754_finite false (Pos.iter xO m d) (Zneg d)
  | _ => S754_finite false m 0
  end.

Lemma digits2_pos_le (m : positive) (k : Z) :
  (Zpos m < 2 ^ k)%Z -> (Zpos (digits2_pos m) <= k)%Z.
Proof.
  intros Hm. pose proof (digits2_pos_bounds m) as [Hlo _].
  destruct (Z.le_gt_cases (Zpos (digits2_pos m)) k) as [|Hgt]; [assumption|].
  exfalso. assert (2 ^ k <= 2 ^ (Zpos (digits2_pos m) - 1))%Z by (apply Z.pow_le_mono_r; lia).
  lia.
Qed.

Lemma Prim2SF_of_Z_pos (m : positive) :
  (Zpos m < 2 ^ 53)%Z -> Prim2SF (of_Z (Zpos m)) = normal m.
Proof.
  intros Hm. unfold of_Z. cbn [Z.ltb Z.compare].
  rewrite of_uint63_spec, Uint63.of_Z_spec, Z.mod_small.
  - apply binary_normalize_exact. now apply digits2_pos_le.
  - split; [lia|]. eapply Z.lt_trans; [exact Hm|]. reflexivity.
Qed.

Lemma Prim2SF_of_Z_neg (m : positive) :
  (Zpos m < 2 ^ 53)%Z -> Prim2SF (of_Z (Zneg m)) = SFopp (normal m).
Proof.
  intros Hm. unfold of_Z. cbn [Z.ltb Z.compare Z.opp].
  rewrite opp_spec. f_equal.
  rewrite of_uint63_spec, Uint63.of_Z_spec, Z.mod_small.
  - apply binary_normalize_exact. now apply digits2_pos_le.
  - split; [lia|]. eapply Z.lt_trans; [exact Hm|]. reflexivity.
Qed.

(** ** Rounding never gives [NaN] *)

Lemma iter_pos_invariant {A : Type} (P : A -> Prop) (f : A -> A) :
  (forall x, P x -> P (f x)) -> forall p x, P x -> P (iter_pos f p x).
Proof. intros Hf p. induction p as [p IH|p IH|]; cbn [iter_pos]; auto. Qed.

Lemma shr_1_nonneg (mrs : shr_record) : (0 <= shr_m mrs)%Z -> (0 <= shr_m (shr_1 mrs))%Z.
Proof. destruct mrs as [[|[p|p|]|p] r s]; cbn; lia. Qed.

Lemma shr_fexp_nonneg (m e : Z) (l : location) :
  (0 <= m)%Z -> (0 <= shr_m (fst (shr_fexp prec emax m e l)))%Z.
Proof.
  intros Hm. unfold shr_fexp, shr.
  assert (H0 : (0 <= shr_m (shr_record_of_loc m l))%Z) by now destruct l as [|[]].
  destruct (_ - e)%Z; cbn [fst]; try exact H0.
  apply (iter_pos_invariant (fun r => 0 <= shr_m r)%Z); [apply shr_1_nonneg | exact H0].
Qed.

Lemma round_nearest_even_nonneg (m : Z) (l : location) :
  (0 <= m)%Z -> (0 <= round_nearest_even m l)%Z.
Proof. intros Hm. destruct l as [|[]]; cbn; try destruct (Z.even m); lia. Qed.

(** Rounding a non-negative mantissa never gives [NaN]. *)
Lemma binary_round_aux_real (sx : bool) (m e : Z) (l : location) :
  (0 <= m)%Z -> binary_round_aux prec emax sx m e l <> S754_nan.
Proof.
  intros Hm. unfold binary_round_aux.
  pose proof (shr_fexp_nonneg m e l Hm) as H1.
  destruct (shr_fexp prec emax m e l) as [mrs' e']. cbn [fst] in H1.
  pose proof (shr_fexp_nonneg _ e' loc_Exact
                (round_nearest_even_nonneg _ (loc_of_shr_record mrs') H1)) as H2.
  destruct (shr_fexp prec emax (round_nearest_even _ _) e' loc_Exact) as [mrs'' e''].
  cbn [fst] in H2. destruct (shr_m mrs''); [discriminate | | lia].
  destruct (e'' <=? emax - prec)%Z; discriminate.
Qed.

Lemma binary_normalize_real (m e : Z) (s : bool) :
  binary_normalize prec emax m e s <> S754_nan.
Proof.
  destruct m as [|p|p]; cbn [binary_normalize]; [discriminate| |];
    unfold binary_round; destruct (shl_align _ _ _) as [mz ez];
    apply binary_round_aux_real; lia.
Qed.

(** ** No [NaN] from the operations *)

Ltac spec_floats :=
  rewrite ?is_finite_spec, ?is_zero_spec, ?is_nan_false in *;
  rewrite ?add_spec, ?sub_spec, ?mul_spec, ?div_spec in *;
  unfold SF64add, SF64sub, SF64mul, SF64div.

Lemma add_real (a b : float) :
  PrimFloat.is_nan a = false -> PrimFloat.is_finite b = true ->
  PrimFloat.is_nan (a + b) = false.
Proof.
  spec_floats. intros Ha Hb.
  destruct (Prim2SF a) as [sa|sa| |sa ma ea], (Prim2SF b) as [sb|sb| |sb mb eb];
    try discriminate; try (now destruct sa, sb); try congruence.
  apply binary_normalize_real.
Qed.

Lemma sub_real (a b : float) :
  PrimFloat.is_nan a = false -> PrimFloat.is_finite b = true ->
  PrimFloat.is_nan (a - b) = false.
Proof.
  spec_floats. intros Ha Hb.
  destruct (Prim2SF a) as [sa|sa| |sa ma ea], (Prim2SF b) as [sb|sb| |sb mb eb];
    try discriminate; try (now destruct sa, sb); try congruence.
  apply binary_normalize_real.
Qed.

Lemma sub_from_finite (a b : float) :
  PrimFloat.is_finite a = true -> PrimFloat.is_nan b = false ->
  PrimFloat.is_nan (a - b) = false.
Proof.
  spec_floats. intros Ha Hb.
  destruct (Prim2SF a) as [sa|sa| |sa ma ea], (Prim2SF b) as [sb|sb| |sb mb eb];
    try discriminate; try (now destruct sa, sb); try congruence.
  apply binary_normalize_real.
Qed.

Lemma mul_real (a c : float) :
  PrimFloat.is_nan a = false -> is_regular c = true -> PrimFloat.is_nan (a * c) = false.
Proof.
  unfold is_regular. spec_floats. intros Ha Hc.
  destruct (Prim2SF a) as [sa|sa| |sa ma ea], (Prim2SF c) as [sc|sc| |sc mc ec];
    try discriminate; try congruence.
  apply binary_round_aux_real. lia.
Qed.

Lemma div_real (a c : float) :
  PrimFloat.is_nan a = false -> is_regular c = true -> PrimFloat.is_nan (a / c) = false.
Proof.
  unfold is_regular. spec_floats. intros Ha Hc.
  destruct (Prim2SF a) as [sa|sa| |sa ma ea], (Prim2SF c) as [sc|sc| |sc mc ec];
    try discriminate; try congruence.
  unfold SFdiv, SFdiv_core_binary. cbv zeta.
  match goal with |- context [Z.div_eucl ?n ?d] =>
    assert (Hn : (0 <= n)%Z);
    [ destruct (_ - _ - _)%Z; [lia | apply Z.shiftl_nonneg; lia | lia]
    | pose proof (Z.div_pos n d Hn ltac:(lia)) as Hq; unfold Z.div in Hq;
      destruct (Z.div_eucl n d) as [q r] ]
  end.
  now apply binary_round_aux_real.
Qed.

(** ** [NaN] is absorbing *)

Lemma is_nan_true (x : float) : PrimFloat.is_nan x = true <-> Prim2SF x = S754_nan.
Proof. rewrite is_nan_spec. now destruct (Prim2SF x). Qed.

(** There is one [NaN]. *)
Lemma is_nan_eq (x : float) : PrimFloat.is_nan x = true -> x = nan.
Proof.
  intros Hx%is_nan_true. rewrite <- (SF2Prim_Prim2SF x), Hx. reflexivity.
Qed.

Lemma add_nan_l (a b : float) : PrimFloat.is_nan a = true -> PrimFloat.is_nan (a + b) = true.
Proof. rewrite !is_nan_true, add_spec. now intros ->. Qed.

Lemma sub_nan_l (a b : float) : PrimFloat.is_nan a = true -> PrimFloat.is_nan (a - b) = true.
Proof. rewrite !is_nan_true, sub_spec. now intros ->. Qed.

Lemma sub_nan_r (a b : float) : PrimFloat.is_nan b = true -> PrimFloat.is_nan (a - b) = true.
Proof. rewrite !is_nan_true, sub_spec. intros ->. now destruct (Prim2SF a). Qed.

Lemma mul_nan_l (a b : float) : PrimFloat.is_nan a = true -> PrimFloat.is_nan (a * b) = true.
Proof. rewrite !is_nan_true, mul_spec. now intros ->. Qed.

(** An integer is a number. *)
Lemma of_Z_real (z : Z) : PrimFloat.is_nan (of_Z z) = false.
Proof.
  apply is_nan_false. unfold of_Z.
  destruct (z <? 0)%Z; rewrite ?opp_spec, of_uint63_spec.
  - pose proof (binary_normalize_real (Uint63.to_Z (Uint63.of_Z (- z))) 0 false) as Hn.
    now destruct binary_normalize.
  - apply binary_normalize_real.
Qed.

(** ** Finite quotients

    Rounding a number below [2^1023] does not overflow, so the quotient of
    two integers below [2^53] is a finite number: the reading of a decimal
    with such a mantissa and at most 15 decimals. *)

Section Quotients.
Local Open Scope Z_scope.

(** A number that is neither [NaN] nor infinite, on the specification. *)
Definition finite_SF (x : spec_float) : bool :=
  match x with S754_zero _ | S754_finite _ _ _ => true | _ => false end.

Lemma Zdigits2_log2 (m : Z) : 0 < m -> Zdigits2 m = Z.succ (Z.log2 m).
Proof. destruct m as [|p|p]; try lia. intros _. apply digits2_pos_log2. Qed.

Lemma Zdigits2_nonneg (m : Z) : 0 <= Zdigits2 m.
Proof. destruct m; cbn; lia. Qed.

Lemma Zdigits2_mono (a b : Z) : 0 <= a <= b -> Zdigits2 a <= Zdigits2 b.
Proof.
  intros H. destruct (Z.eq_dec a 0) as [->|Ha]; [apply Zdigits2_nonneg|].
  rewrite !Zdigits2_log2 by lia. pose proof (Z.log2_le_mono a b). lia.
Qed.

Lemma Zdigits2_lt_pow2 (m k : Z) : 0 <= k -> 0 <= m < 2 ^ k -> Zdigits2 m <= k.
Proof.
  intros Hk Hm. destruct (Z.eq_dec m 0) as [->|Hm0]; [exact Hk|].
  rewrite Zdigits2_log2 by lia. pose proof (proj1 (Z.log2_lt_pow2 m k ltac:(lia))). lia.
Qed.

Lemma Zdigits2_succ (m : Z) : 0 <= m -> Zdigits2 (m + 1) <= Zdigits2 m + 1.
Proof.
  intros Hm. destruct (Z.eq_dec m 0) as [->|Hm0]; [cbn; lia|].
  rewrite !Zdigits2_log2 by lia. pose proof (Z.log2_succ_le m) as H. rewrite <- Z.add_1_r in H. lia.
Qed.

Lemma Zdigits2_div_pow2 (m p : Z) :
  0 <= m -> 0 < p -> Zdigits2 (m / 2 ^ p) <= Z.max 0 (Zdigits2 m - p).
Proof.
  intros Hm Hp. destruct (Z.eq_dec (m / 2 ^ p) 0) as [->|Hq]; [cbn; lia|].
  assert (0 <= m / 2 ^ p) by (apply Z.div_pos; lia).
  assert (0 < m).
  { destruct (Z.eq_dec m 0) as [->|]; [|lia]. now rewrite Z.div_0_l in Hq by lia. }
  assert (Hp2 : 2 ^ p <= m).
  { destruct (Z.le_gt_cases (2 ^ p) m) as [Hle|Hlt]; [exact Hle|].
    now rewrite Z.div_small in Hq by lia. }
  apply Z.log2_le_pow2 in Hp2; [|lia].
  rewrite !Zdigits2_log2 by lia.
  rewrite <- Z.shiftr_div_pow2, Z.log2_shiftr by lia. lia.
Qed.

Lemma shr_m_shr_1 (mrs : shr_record) : 0 <= shr_m mrs -> shr_m (shr_1 mrs) = shr_m mrs / 2.
Proof.
  destruct mrs as [m r s]. cbn [shr_m]. intros Hm.
  destruct m as [|[p|p|]|p]; cbn [shr_1 shr_m]; try lia;
    try (rewrite Pos2Z.inj_xI; apply Z.div_unique with 1; lia);
    try (rewrite Pos2Z.inj_xO; apply Z.div_unique with 0; lia);
    reflexivity.
Qed.

Lemma shr_m_iter (p : positive) (mrs : shr_record) :
  0 <= shr_m mrs ->
  0 <= shr_m (iter_pos shr_1 p mrs)
  /\ shr_m (iter_pos shr_1 p mrs) = shr_m mrs / 2 ^ Zpos p.
Proof.
  revert mrs. induction p as [p IH|p IH|]; intros mrs Hm; cbn [iter_pos].
  - pose proof (shr_m_shr_1 mrs Hm) as H1.
    assert (H0 : 0 <= shr_m (shr_1 mrs)) by (rewrite H1; apply Z.div_pos; lia).
    destruct (IH _ H0) as [H2 H3]. destruct (IH _ H2) as [H4 H5].
    split; [exact H4|]. rewrite H5, H3, H1, !Z.div_div by lia. f_equal.
    replace (Z.pos p~1) with (1 + Z.pos p + Z.pos p) by lia.
    rewrite !Z.pow_add_r, Z.pow_1_r by lia. ring.
  - destruct (IH _ Hm) as [H2 H3]. destruct (IH _ H2) as [H4 H5].
    split; [exact H4|]. rewrite H5, H3, Z.div_div by lia. f_equal.
    replace (Z.pos p~0) with (Z.pos p + Z.pos p) by lia.
    now rewrite Z.pow_add_r by lia.
  - rewrite shr_m_shr_1 by exact Hm. split; [apply Z.div_pos; lia | reflexivity].
Qed.

Lemma shr_record_of_loc_m (m : Z) (l : location) : shr_m (shr_record_of_loc m l) = m.
Proof. now destruct l as [|[| |]]. Qed.

(** The exponent and the digits after a shift to the format. *)
Lemma shr_fexp_bound (m e : Z) (l : location) (k : Z) :
  0 <= m -> e <= 971 -> Zdigits2 m + e <= k -> k <= 1024 ->
  0 <= shr_m (fst (shr_fexp prec emax m e l))
  /\ snd (shr_fexp prec emax m e l) <= 971
  /\ Zdigits2 (shr_m (fst (shr_fexp prec emax m e l))) + snd (shr_fexp prec emax m e l)
     <= Z.max k 971.
Proof.
  intros Hm He Hd Hk. unfold shr_fexp, shr.
  pose proof (Zdigits2_nonneg m) as Hn.
  assert (Hf : fexp prec emax (Zdigits2 m + e) = Z.max (Zdigits2 m + e - 53) (-1074))
    by reflexivity.
  destruct (fexp prec emax (Zdigits2 m + e) - e) as [|p|p] eqn:En; cbn [fst snd];
    rewrite ?shr_record_of_loc_m.
  - repeat split; lia.
  - destruct (shr_m_iter p (shr_record_of_loc m l)) as [H1 H2];
      [now rewrite shr_record_of_loc_m|].
    rewrite shr_record_of_loc_m in H2.
    split; [exact H1|]. split; [lia|]. rewrite H2.
    pose proof (Zdigits2_div_pow2 m (Zpos p) Hm ltac:(lia)). lia.
  - repeat split; lia.
Qed.

Lemma round_nearest_even_bounds (m : Z) (l : location) :
  m <= round_nearest_even m l <= m + 1.
Proof. destruct l as [|[| |]]; cbn [round_nearest_even]; try lia. destruct (Z.even m); lia. Qed.

(** Rounding a number below [2^1023] gives a finite number. *)
Lemma binary_round_aux_finite (sx : bool) (m e : Z) (l : location) :
  0 <= m -> e <= 971 -> Zdigits2 m + e <= 1023 ->
  finite_SF (binary_round_aux prec emax sx m e l) = true.
Proof.
  intros Hm He Hd. unfold binary_round_aux.
  destruct (shr_fexp_bound m e l 1023 Hm He Hd ltac:(lia)) as (H1 & H2 & H3).
  destruct (shr_fexp prec emax m e l) as [mrs' e'] eqn:E1. cbn [fst snd] in *.
  pose proof (round_nearest_even_bounds (shr_m mrs') (loc_of_shr_record mrs')) as Hr.
  set (m' := round_nearest_even (shr_m mrs') (loc_of_shr_record mrs')) in *.
  assert (Hd' : Zdigits2 m' + e' <= 1024).
  { pose proof (Zdigits2_mono m' (shr_m mrs' + 1) ltac:(lia)).
    pose proof (Zdigits2_succ (shr_m mrs') H1). lia. }
  destruct (shr_fexp_bound m' e' loc_Exact 1024 ltac:(lia) H2 Hd' ltac:(lia)) as (H4 & H5 & _).
  destruct (shr_fexp prec emax m' e' loc_Exact) as [mrs'' e''] eqn:E2. cbn [fst snd] in *.
  destruct (shr_m mrs'') as [|p|p]; [reflexivity | | lia].
  change (emax - prec) with 971. now destruct (Z.leb_spec e'' 971); [|lia].
Qed.

(** An integer below [2^53], as a float: 53 digits and an exponent from
    -52 to 0. *)
Lemma normal_spec (m : positive) :
  Zpos m < 2 ^ 53 ->
  exists n e, normal m = S754_finite false n e
    /\ Zpos (digits2_pos n) = 53 /\ -52 <= e <= 0.
Proof.
  intros Hm. pose proof (digits2_pos_le m 53 Hm) as Hd. unfold normal.
  destruct (Zpos (digits2_pos m) - 53) as [|d|d] eqn:Ed; [| lia |].
  - exists m, 0. repeat split; lia.
  - exists (Pos.iter xO m d), (Zneg d). rewrite digits2_pos_iter_xO. repeat split; lia.
Qed.

(** The quotient of two numbers of 53 digits with small exponents is
    finite. *)
Lemma SFdiv_finite (sx sy : bool) (mx my : positive) (ex ey : Z) :
  Zpos (digits2_pos mx) = 53 -> Zpos (digits2_pos my) = 53 ->
  -52 <= ex <= 0 -> -52 <= ey <= 0 ->
  finite_SF (SFdiv prec emax (S754_finite sx mx ex) (S754_finite sy my ey)) = true.
Proof.
  intros Hx Hy Hex Hey. unfold SFdiv, SFdiv_core_binary. cbv zeta.
  cbn [Zdigits2]. rewrite Hx, Hy.
  assert (He : Z.min (fexp prec emax (53 + ex - (53 + ey))) (ex - ey) = ex - ey - 53).
  { unfold fexp, SpecFloat.emin, prec, emax. lia. }
  rewrite He. replace (ex - ey - (ex - ey - 53)) with 53 by lia.
  pose proof (digits2_pos_bounds mx) as [_ Hmx]. pose proof (digits2_pos_bounds my) as [Hmy _].
  rewrite Hx in Hmx. rewrite Hy in Hmy. change (53 - 1) with 52 in Hmy.
  rewrite Z.shiftl_mul_pow2 by lia.
  pose proof (Z.div_eucl_eq (Zpos mx * 2 ^ 53) (Zpos my) ltac:(lia)) as Hq.
  pose proof (Z.mod_pos_bound (Zpos mx * 2 ^ 53) (Zpos my) ltac:(lia)) as Hr.
  unfold Z.modulo in Hr.
  destruct (Z.div_eucl (Zpos mx * 2 ^ 53) (Zpos my)) as [q r].
  assert (Hq0 : 0 <= q) by nia.
  assert (Hq1 : q < 2 ^ 54).
  { change (2 ^ 54) with (2 * 2 ^ 53). change (2 ^ 52) with 4503599627370496 in *.
    change (2 ^ 53) with 9007199254740992 in *. nia. }
  apply binary_round_aux_finite; [exact Hq0 | lia |].
  pose proof (Zdigits2_lt_pow2 q 54 ltac:(lia) ltac:(lia)). lia.
Qed.

Lemma is_finite_SF (x : float) : PrimFloat.is_finite x = finite_SF (Prim2SF x).
Proof. rewrite is_finite_spec. now destruct (Prim2SF x). Qed.

(** The quotient of an integer below [2^53] and a positive one is a finite
    number. *)
Lemma div_of_Z_finite (a : Z) (b : positive) :
  - 2 ^ 53 < a < 2 ^ 53 -> Zpos b < 2 ^ 53 ->
  PrimFloat.is_finite (of_Z a / of_Z (Zpos b)) = true.
Proof.
  intros Ha Hb. rewrite is_finite_SF, div_spec, (Prim2SF_of_Z_pos b Hb).
  destruct (normal_spec b Hb) as (nb & eb & -> & Hnb & Heb).
  destruct a as [|a|a].
  - reflexivity.
  - rewrite Prim2SF_of_Z_pos by lia.
    destruct (normal_spec a ltac:(lia)) as (na & ea & -> & Hna & Hea).
    now apply SFdiv_finite.
  - rewrite Prim2SF_of_Z_neg by lia.
    destruct (normal_spec a ltac:(lia)) as (na & ea & -> & Hna & Hea).
    now apply SFdiv_finite.
Qed.

End Quotients.
