(* ===== verification/Binary64.v ===== *)
(** * Binary64: the scoring engine in the arithmetic of the program

    A JavaScript number is a binary64 floating-point number.  This file
    gives the instance [binary64] of [Arithmetic] on the primitive
    floating-point numbers of Rocq, which are binary64 with the rounding of
    IEEE 754 (to nearest, ties to even), as in JavaScript: [+], [-], [*]
    and [/] are the primitive operations, a literal [m / 10^e] is the
    quotient of two integers, [Math.min] and [Math.max] follow ECMA-262 on
    [NaN] and on the two zeros, and [Math.round] is computed on the
    mantissa and the exponent: the integer [floor (x + 1/2)], with the sign
    of [x] when it is zero.  [to_number] is the exact decimal value of a
    float and [of_number] the float a decimal is read as.

    The quotient [of_Z m / of_Z (10^e)] is the float nearest to the decimal
    (what [JSON.parse] and the parser of the sources return) when both
    integers are binary64 numbers: a mantissa below [2^53] and at most 18
    decimals, which covers what a weather service sends.  Outside of that
    range [of_number] is not the reading of the program.  With at most 15
    decimals the reading of a finite decimal is finite
    ([of_number_short]).

    With this instance the engine of [Arithmetic] is the scoring engine as
    the program runs it.  The theorems hold for all binary64 numbers,
    infinities and [NaN] included, and are proved from the specification of
    the primitive operations in the Standard Library ([FloatAxioms]):

    - [Math.max 0 (Math.min 100 (Math.round x))] is [NaN] when [x] is and
      one of the integers 0 to 100 otherwise ([clamp_round]);
    - so every score is [NaN] or an integer between 0 and 100
      ([scoreActivity64_integer]);
    - the score of a profile of the table is [NaN] exactly when the average
      temperature is ([scoreActivity64_NaN_iff]); the average of two finite
      temperatures is not, so a day with both temperatures has four scores
      between 0 and 100 ([rankActivitiesForDay64_range]);
    - the difference of two integer scores is exact, so the comparator
      [b.suitabilityScore - a.suitabilityScore] orders them as the
      integers are ordered and the ranking of a day with finite
      temperatures is sorted by non-increasing score
      ([rankActivitiesForDay64_sorted]); when the average is [NaN] the
      comparator returns [NaN] for every pair and the ranking keeps the
      order of the table ([rankActivitiesForDay64_NaN_day]). *)

From Stdlib Require Import String List ZArith Bool Lia Floats Sorted.
From S2P Require Import Prelude JsNumber JsString JsArray Types Constants Arithmetic Float64.
Import ListNotations.
Import Engine.

Local Open Scope list_scope.
Local Open Scope string_scope.

(** ** Numbers *)

(** The literal [m / 10^e]. *)
Definition literal (m : Z) (e : nat) : float := (of_Z m / of_Z (pow10 e))%float.

(** The float nearest to a decimal, as a JSON number is read. *)
Definition of_number (x : number) : float :=
  match x with
  | NaN => nan
  | Inf s => if s then neg_infinity else infinity
  | Fin m e => literal m e
  end.

(** The exact value: [m * 2^e] as a decimal, an integer without
    decimals. *)
Definition to_number (x : float) : number :=
  match Prim2SF x with
  | S754_nan => NaN
  | S754_infinity s => Inf s
  | S754_zero _ => int 0
  | S754_finite s m e =>
      let m := if s then Z.neg m else Z.pos m in
      match e with
      | Zneg p =>
          let g := Z.gcd m (2 ^ Z.pos p) in
          let decimals := Z.to_nat (Z.log2 (2 ^ Z.pos p / g)) in
          Fin (m / g * 5 ^ Z.of_nat decimals) decimals
      | _ => Fin (m * 2 ^ e) 0
      end
  end.

(** [Math.round]: the integer [floor (x + 1/2)]; a float without a
    fractional part, an infinity and [NaN] are returned as they are, and a
    result of zero has the sign of [x]. *)
Definition Math_round64 (x : float) : float :=
  match Prim2SF x with
  | S754_finite s m (Zneg p) =>
      let m := if s then Z.neg m else Z.pos m in
      let n := ((2 * m + 2 ^ Z.pos p) / 2 ^ (Z.pos p + 1))%Z in
      if (n =? 0)%Z then (if s then neg_zero else zero) else of_Z n
  | _ => x
  end.

(** [Math.min] and [Math.max]: [NaN] when an argument is; of the two zeros,
    the negative one is the smaller. *)
Definition Math_min64 (x y : float) : float :=
  if PrimFloat.is_nan x || PrimFloat.is_nan y then nan
  else if (y <? x)%float then y
  else if is_zero x && is_zero y && get_sign y then y
  else x.

Definition Math_max64 (x y : float) : float :=
  if PrimFloat.is_nan x || PrimFloat.is_nan y then nan
  else if (x <? y)%float then y
  else if is_zero x && is_zero y && get_sign x then y
  else x.

(** The last step of [scoreActivity]: [Math.max(0, Math.min(100, x))]. *)
Definition clamp (x : float) : float := Math_max64 (literal 0 0) (Math_min64 (literal 100 0) x).

(** ** [Math.min], [Math.max] and [Math.round] *)

Definition hundred : spec_float := S754_finite false 7036874417766400 (-46).

Lemma Math_min64_100 (y : float) :
  Math_min64 100 y
  = match Prim2SF y with
    | S754_nan => nan
    | x => if SFltb x hundred then y else 100%float
    end.
Proof.
  unfold Math_min64. change (PrimFloat.is_nan 100) with false.
  change (is_zero 100) with false. cbn [orb andb].
  rewrite is_nan_spec, ltb_spec. change (Prim2SF 100) with hundred.
  now destruct (Prim2SF y).
Qed.

Lemma Math_max64_0 (y : float) :
  Math_max64 zero y
  = match Prim2SF y with
    | S754_nan => nan
    | x => if SFltb (S754_zero false) x then y else zero
    end.
Proof.
  unfold Math_max64. change (PrimFloat.is_nan zero) with false.
  change (get_sign zero) with false. rewrite !andb_false_r. cbn [orb].
  rewrite is_nan_spec, ltb_spec. change (Prim2SF zero) with (S754_zero false).
  now destruct (Prim2SF y).
Qed.

Lemma clamp_spec (y : float) :
  clamp y
  = match Prim2SF y with
    | S754_nan => nan
    | S754_zero _ => zero
    | S754_infinity s => if s then zero else 100%float
    | S754_finite s m e =>
        if s then zero
        else if SFltb (S754_finite false m e) hundred then y else 100%float
    end.
Proof.
  unfold clamp. change (literal 0 0) with zero. change (literal 100 0) with 100%float.
  rewrite Math_min64_100.
  destruct (Prim2SF y) as [s|s| |s m e] eqn:E.
  - cbn. rewrite Math_max64_0, E. reflexivity.
  - destruct s; cbn; [rewrite Math_max64_0, E|]; reflexivity.
  - reflexivity.
  - destruct s.
    + change (SFltb (S754_finite true m e) hundred) with true. cbv iota.
      rewrite Math_max64_0, E. reflexivity.
    + destruct (SFltb (S754_finite false m e) hundred); [rewrite Math_max64_0, E|];
        reflexivity.
Qed.

Lemma clamp_of_Z (n : Z) :
  (- 2 ^ 53 < n < 2 ^ 53)%Z -> clamp (of_Z n) = of_Z (Z.max 0 (Z.min 100 n)).
Proof.
  intros Hn. rewrite clamp_spec. destruct n as [|m|m].
  - reflexivity.
  - rewrite Prim2SF_of_Z_pos by lia. unfold normal.
    pose proof (digits2_pos_bounds m) as [Hlo Hhi].
    destruct (Zpos (digits2_pos m) - 53)%Z as [|d|d] eqn:Ed.
    + replace (Zpos (digits2_pos m) - 1)%Z with 52%Z in Hlo by lia.
      rewrite Z.max_r, Z.min_l by lia. reflexivity.
    + pose proof (digits2_pos_le m 53 ltac:(lia)). lia.
    + unfold SFltb, SFcompare, hundred.
      destruct (Z.compare_spec (Zneg d) (-46)) as [Hd|Hd|Hd].
      * injection Hd as ->.
        change (Pos.compare_cont Eq ?a ?b) with (Pos.compare a b).
        pose proof (iter_xO m 46) as Hi.
        destruct (Pos.compare_spec (Pos.iter xO m 46) 7036874417766400) as [Hc|Hc|Hc].
        -- assert (Zpos m = 100)%Z by lia. rewrite Z.max_r, Z.min_l by lia. reflexivity.
        -- assert (Zpos m < 100)%Z by lia. rewrite Z.max_r, Z.min_r by lia. reflexivity.
        -- assert (100 < Zpos m)%Z by lia. rewrite Z.max_r, Z.min_l by lia. reflexivity.
      * assert (Zpos m < 2 ^ 6)%Z.
        { eapply Z.lt_le_trans; [exact Hhi|]. apply Z.pow_le_mono_r; lia. }
        rewrite Z.max_r, Z.min_r by lia. reflexivity.
      * assert (2 ^ 7 <= Zpos m)%Z.
        { eapply Z.le_trans; [|exact Hlo]. apply Z.pow_le_mono_r; lia. }
        rewrite Z.max_r, Z.min_l by lia. reflexivity.
  - rewrite Prim2SF_of_Z_neg by lia. unfold normal.
    rewrite Z.max_l by lia.
    now destruct (Zpos (digits2_pos m) - 53)%Z.
Qed.

Lemma round_bound (m p : positive) (s : bool) :
  (Zpos m < 2 ^ 53)%Z ->
  let n := ((2 * (if s then Zneg m else Zpos m) + 2 ^ Zpos p) / 2 ^ (Zpos p + 1))%Z in
  (- 2 ^ 53 < n < 2 ^ 53)%Z.
Proof.
  intros Hm n. subst n. rewrite Z.pow_add_r, Z.pow_1_r by lia.
  assert (HP : (2 <= 2 ^ Zpos p)%Z).
  { change 2%Z with (2 ^ 1)%Z at 1. apply Z.pow_le_mono_r; lia. }
  set (P := (2 ^ Zpos p)%Z) in *. split.
  - apply Z.lt_le_trans with (- 2 ^ 53 + 1)%Z; [lia|].
    apply Z.div_le_lower_bound; [lia|]. destruct s; lia.
  - apply Z.div_lt_upper_bound; [lia|]. destruct s; lia.
Qed.

Lemma clamp_round (x : float) :
  if PrimFloat.is_nan x then clamp (Math_round64 x) = nan
  else exists k, (0 <= k <= 100)%Z /\ clamp (Math_round64 x) = of_Z k.
Proof.
  rewrite is_nan_spec. unfold Math_round64.
  destruct (Prim2SF x) as [s|s| |s m e] eqn:E.
  - exists 0%Z. split; [lia|]. now rewrite clamp_spec, E.
  - exists (if s then 0 else 100)%Z. split; [destruct s; lia|].
    rewrite clamp_spec, E. now destruct s.
  - now rewrite clamp_spec, E.
  - destruct e as [|p|p].
    + exists (if s then 0 else 100)%Z. split; [destruct s; lia|].
      rewrite clamp_spec, E. now destruct s.
    + exists (if s then 0 else 100)%Z. split; [destruct s; lia|].
      rewrite clamp_spec, E. now destruct s.
    + pose proof (round_bound m p s (Prim2SF_mantissa x s m _ E)) as Hn. cbv zeta in *.
      set (n := ((2 * (if s then Zneg m else Zpos m) + 2 ^ Zpos p) / 2 ^ (Zpos p + 1))%Z) in *.
      destruct (Z.eqb_spec n 0) as [_|_].
      * exists 0%Z. split; [lia|]. now destruct s.
      * exists (Z.max 0 (Z.min 100 n)). split; [lia|]. now apply clamp_of_Z.
Qed.

Lemma to_number_of_Z (z : Z) : (- 2 ^ 53 < z < 2 ^ 53)%Z -> to_number (of_Z z) = int z.
Proof.
  intros Hz. unfold to_number. destruct z as [|m|m].
  - reflexivity.
  - rewrite Prim2SF_of_Z_pos by lia. unfold normal.
    destruct (Zpos (digits2_pos m) - 53)%Z as [|d|d] eqn:Ed.
    + unfold int. f_equal. cbn. lia.
    + unfold int. f_equal. cbn. lia.
    + rewrite iter_xO, (Z.mul_comm (Zpos m)), Z.gcd_comm, Z.gcd_mul_diag_l by lia.
      rewrite Z.div_same, (Z.mul_comm _ (Zpos m)), Z.div_mul by lia.
      cbn. unfold int. f_equal. lia.
  - rewrite Prim2SF_of_Z_neg by lia. unfold normal.
    destruct (Zpos (digits2_pos m) - 53)%Z as [|d|d] eqn:Ed; cbn [SFopp negb].
    + unfold int. f_equal. cbn. lia.
    + unfold int. f_equal. cbn. lia.
    + change (Zneg (Pos.iter xO m d)) with (- Zpos (Pos.iter xO m d))%Z.
      rewrite iter_xO, Z.gcd_opp_l, (Z.mul_comm (Zpos m)), Z.gcd_comm, Z.gcd_mul_diag_l by lia.
      rewrite Z.div_same, <- Z.mul_opp_r, (Z.mul_comm _ (- Zpos m)), Z.div_mul by lia.
      cbn. unfold int. f_equal. lia.
Qed.

Lemma Math_min64_real (a b : float) :
  PrimFloat.is_nan a = false -> PrimFloat.is_nan b = false ->
  PrimFloat.is_nan (Math_min64 a b) = false.
Proof.
  intros Ha Hb. unfold Math_min64. rewrite Ha, Hb. cbn [orb].
  now destruct (b <? a)%float, (is_zero a && is_zero b && get_sign b).
Qed.

(** ** Decimals that are read as finite numbers *)

(** A number that is not finite, or a decimal with a mantissa below [2^53]
    and at most 15 decimals: the numbers a weather service sends. *)
Definition short_decimal (x : number) : bool :=
  match x with
  | Fin m e => (Z.abs m <? 2 ^ 53)%Z && (e <=? 15)%nat
  | _ => true
  end.

Lemma pow10_short (e : nat) : (e <= 15)%nat -> exists b, pow10 e = Zpos b /\ (Zpos b < 2 ^ 53)%Z.
Proof.
  intros He. do 16 (destruct e as [|e]; [eexists; split; [reflexivity | reflexivity]|]). lia.
Qed.

(** Such a decimal is read as a finite number: the division does not
    overflow. *)
Lemma literal_finite (m : Z) (e : nat) :
  (Z.abs m < 2 ^ 53)%Z -> (e <= 15)%nat -> PrimFloat.is_finite (literal m e) = true.
Proof.
  intros Hm He. unfold literal. destruct (pow10_short e He) as (b & -> & Hb).
  apply div_of_Z_finite; lia.
Qed.

Lemma of_number_short (x : number) :
  short_decimal x = true -> JsNumber.is_finite x = true ->
  PrimFloat.is_finite (of_number x) = true.
Proof.
  destruct x as [| |m e]; try discriminate. cbn [short_decimal of_number].
  rewrite andb_true_iff, Z.ltb_lt, Nat.leb_le. intros [Hm He] _. now apply literal_finite.
Qed.

(** ** The instance *)

Lemma float_clamp (x : float) :
  let r := Math_max64 (literal 0 0) (Math_min64 (literal 100 0) x) in
  PrimFloat.is_nan r = true
  \/ ((literal 0 0 <=? r)%float = true /\ (r <=? literal 100 0)%float = true).
Proof.
  change (literal 0 0) with zero. change (literal 100 0) with 100%float.
  unfold Math_min64. change (PrimFloat.is_nan 100) with false. cbn [orb].
  destruct (PrimFloat.is_nan x) eqn:Enan; [now left|]. right.
  change (is_zero 100) with false. cbn [andb].
  destruct (x <? 100)%float eqn:Ehi; [|now vm_compute].
  unfold Math_max64. change (PrimFloat.is_nan zero) with false. rewrite Enan. cbn [orb].
  change (get_sign zero) with false. rewrite !andb_false_r.
  destruct (zero <? x)%float eqn:Elo; [|now vm_compute].
  split; now apply float_ltb_leb.
Qed.

#[export] Instance binary64 : Arithmetic float := {|
  lit := literal;
  add := PrimFloat.add;
  sub := PrimFloat.sub;
  mul := PrimFloat.mul;
  half := fun x => (x / 2)%float;
  ltb := PrimFloat.ltb;
  leb := PrimFloat.leb;
  Math_min := Math_min64;
  Math_max := Math_max64;
  Math_round := Math_round64;
  is_NaN := PrimFloat.is_nan;
  exact := to_number;
  ltb_leb := float_ltb_leb;
  clamp_0_100 := float_clamp
|}.

(** A day and a profile of [Types], read as JSON numbers are. *)
Definition day64 (forecast : ForecastDay.t) : Day.t float :=
  {| Day.date := ForecastDay.date forecast;
     Day.maxTemp := of_number (ForecastDay.maxTemp forecast);
     Day.minTemp := of_number (ForecastDay.minTemp forecast);
     Day.conditions := ForecastDay.conditions forecast;
     Day.precipitation := of_number (ForecastDay.precipitation forecast);
     Day.windSpeed := of_number (ForecastDay.windSpeed forecast) |}.

(** The average temperature of a day, as the program computes it. *)
Definition averageTemp64 (forecast : ForecastDay.t) : float :=
  half (add (of_number (ForecastDay.maxTemp forecast)) (of_number (ForecastDay.minTemp forecast))).

Lemma day64_average (forecast : ForecastDay.t) :
  half (add (Day.maxTemp (day64 forecast)) (Day.minTemp (day64 forecast)))
  = averageTemp64 forecast.
Proof. reflexivity. Qed.

(** The activity with the exact value of its score. *)
Definition to_Activity64 (a : Scored.t float) : Activity.t :=
  {| Activity.name := Scored.name a;
     Activity.suitabilityScore := to_number (Scored.suitabilityScore a);
     Activity.reasoning := Scored.reasoning a |}.

(** The ranking of the program for a day given in decimals. *)
Definition rankActivitiesForDay64 (forecast : ForecastDay.t) (top : option number) :
    list Activity.t :=
  map to_Activity64 (rankActivitiesForDay (day64 forecast) top).

(** ** The engine in binary64 *)

(** A profile whose temperatures are finite numbers and whose penalty for
    rain and bonus for wind are. *)
Definition finite_profile (config : Profile.t float) : bool :=
  PrimFloat.is_finite (Profile.idealTempMin config)
  && PrimFloat.is_finite (Profile.idealTempMax config)
  && PrimFloat.is_finite (mul (sub (lit 1 0) (Profile.rainTolerance config)) (lit 20 0))
  && PrimFloat.is_finite (sub (mul (Profile.windPreference config) (lit 15 0)) (lit 75 1)).

Lemma ACTIVITY_CONFIGS_finite : forallb finite_profile ACTIVITY_CONFIGS = true.
Proof. vm_compute. reflexivity. Qed.

Lemma finite_profile_In (config : Profile.t float) :
  In config ACTIVITY_CONFIGS -> finite_profile config = true.
Proof. apply forallb_forall, ACTIVITY_CONFIGS_finite. Qed.

Section Scores.
Variable config : Profile.t float.
Variable avgTemp : float.

(** The score is the clamped, rounded sum of the four blocks. *)
Lemma scoreActivity64_clamp (hasRain isWindy : bool) (p w : float) :
  Scored.suitabilityScore (scoreActivity config avgTemp hasRain isWindy p w)
  = clamp (Math_round64
             (score (conditions config avgTemp hasRain isWindy
                       (temperature config avgTemp {| score := lit 50 0; reasons := [] |})))).
Proof. reflexivity. Qed.

(** Without an average temperature the sum is [NaN], whatever the
    profile. *)
Lemma temperature_NaN (st : tally float) :
  PrimFloat.is_nan avgTemp = true ->
  PrimFloat.is_nan (score (temperature config avgTemp st)) = true.
Proof.
  intros Ht. pose proof (is_nan_eq _ Ht) as ->. unfold temperature, geb.
  cbn [leb ltb binary64]. rewrite !ltb_spec, !leb_spec.
  change (Prim2SF nan) with S754_nan.
  replace (SFleb (Prim2SF (Profile.idealTempMin config)) S754_nan) with false
    by now destruct (Prim2SF (Profile.idealTempMin config)).
  cbn [andb SFltb SFcompare push minus score sub mul Math_min binary64].
  apply sub_nan_r. unfold Math_min64.
  now rewrite (mul_nan_l _ _ (sub_nan_l nan _ eq_refl)), orb_true_r.
Qed.

Lemma conditions_NaN (hasRain isWindy : bool) (st : tally float) :
  PrimFloat.is_nan (score st) = true ->
  PrimFloat.is_nan (score (conditions config avgTemp hasRain isWindy st)) = true.
Proof.
  intros Hs. unfold conditions.
  repeat match goal with
  | |- context [if ?b then _ else _] => destruct b
  end;
  cbn [push plus minus score add sub binary64];
  repeat first [assumption | apply add_nan_l | apply sub_nan_l].
Qed.

Hypothesis Hconfig : finite_profile config = true.

Lemma temperature_real (st : tally float) :
  PrimFloat.is_nan avgTemp = false -> PrimFloat.is_finite (score st) = true ->
  PrimFloat.is_nan (score (temperature config avgTemp st)) = false.
Proof.
  intros Ht Hs. unfold finite_profile in Hconfig.
  rewrite !andb_true_iff in Hconfig. destruct Hconfig as [[[Hmin Hmax] _] _].
  unfold temperature.
  repeat match goal with
  | |- context [if ?b then _ else _] => destruct b
  end;
  cbn [push plus minus score add sub mul Math_min binary64].
  - apply add_real; [now apply is_finite_real | reflexivity].
  - apply sub_from_finite, Math_min64_real; [exact Hs | reflexivity |].
    apply mul_real; [now apply sub_from_finite | reflexivity].
  - apply sub_from_finite, Math_min64_real; [exact Hs | reflexivity |].
    apply mul_real; [now apply sub_real | reflexivity].
Qed.

Lemma conditions_real (hasRain isWindy : bool) (st : tally float) :
  PrimFloat.is_nan (score st) = false ->
  PrimFloat.is_nan (score (conditions config avgTemp hasRain isWindy st)) = false.
Proof.
  intros Hs. unfold finite_profile in Hconfig.
  rewrite !andb_true_iff in Hconfig. destruct Hconfig as [[_ Hrain] Hwind].
  unfold conditions.
  repeat match goal with
  | |- context [if ?b then _ else _] => destruct b
  end;
  cbn [push plus minus score];
  repeat first [assumption | reflexivity | apply (add_real _ _) | apply (sub_real _ _)].
Qed.

End Scores.

(** Every score is [NaN] or one of the integers 0 to 100. *)
Lemma scoreActivity64_integer (config : Profile.t float) (avgTemp : float)
  (hasRain isWindy : bool) (p w : float) :
  let s := Scored.suitabilityScore (scoreActivity config avgTemp hasRain isWindy p w) in
  s = nan \/ exists k, (0 <= k <= 100)%Z /\ s = of_Z k.
Proof.
  cbv zeta. rewrite scoreActivity64_clamp.
  match goal with |- context [Math_round64 ?x] => pose proof (clamp_round x) as Hc end.
  destruct PrimFloat.is_nan; [now left | now right].
Qed.

(** ** Theorems *)

(** [scoreActivity64_NaN]: for a profile with finite numbers the score is
    [NaN] exactly when the average temperature is: no sum, difference or
    product of the engine turns a temperature, finite or not, into
    [NaN]. *)
Lemma scoreActivity64_NaN (config : Profile.t float) (avgTemp : float)
  (hasRain isWindy : bool) (precipitation windSpeed : float) :
  finite_profile config = true ->
  PrimFloat.is_nan
    (Scored.suitabilityScore
       (scoreActivity config avgTemp hasRain isWindy precipitation windSpeed))
  = PrimFloat.is_nan avgTemp.
Proof.
  intros Hc. rewrite scoreActivity64_clamp.
  match goal with |- context [Math_round64 ?x] =>
    pose proof (clamp_round x) as Hr; assert (Hx : PrimFloat.is_nan x = PrimFloat.is_nan avgTemp)
  end.
  { destruct (PrimFloat.is_nan avgTemp) eqn:Ht.
    - now apply conditions_NaN, temperature_NaN.
    - now apply conditions_real, temperature_real. }
  rewrite Hx in Hr. destruct (PrimFloat.is_nan avgTemp).
  - now rewrite Hr.
  - destruct Hr as (k & _ & ->). apply of_Z_real.
Qed.

Lemma is_NaN_number (x : number) : JsNumber.is_NaN x = true -> x = NaN.
Proof. now destruct x. Qed.

(** The exact value of a score. *)
Lemma to_number_NaN (x : float) : JsNumber.is_NaN (to_number x) = PrimFloat.is_nan x.
Proof.
  rewrite is_nan_spec. unfold to_number.
  destruct (Prim2SF x) as [s|s| |s m [|p|p]]; reflexivity.
Qed.

Lemma to_number_score (x : float) :
  (x = nan \/ exists k, (0 <= k <= 100)%Z /\ x = of_Z k) ->
  to_number x = NaN \/ int_between 0 100 (to_number x).
Proof.
  intros [->|(k & Hk & ->)]; [now left | right].
  rewrite to_number_of_Z by lia. exists k. split; [reflexivity | lia].
Qed.

(** The average of two finite temperatures is a number. *)
Lemma average_real (maxTemp minTemp : float) :
  PrimFloat.is_finite maxTemp = true -> PrimFloat.is_finite minTemp = true ->
  PrimFloat.is_nan (half (add maxTemp minTemp)) = false.
Proof.
  intros Hmax Hmin. cbn [half add binary64].
  apply div_real; [|reflexivity]. now apply add_real; [apply is_finite_real|].
Qed.

(** An activity of the ranking is the score of a profile of the table. *)
Lemma rankActivitiesForDay64_In (forecast : ForecastDay.t) (top : option number)
  (a : Activity.t) :
  In a (rankActivitiesForDay64 forecast top) ->
  exists config hasRain isWindy p w,
    In config ACTIVITY_CONFIGS
    /\ a = to_Activity64 (scoreActivity config (averageTemp64 forecast) hasRain isWindy p w).
Proof.
  unfold rankActivitiesForDay64. intros (b & <- & Hb)%in_map_iff.
  apply rankActivitiesForDay_In, scored_In in Hb. destruct Hb as (config & Hc & ->).
  rewrite day64_average. now exists config; repeat eexists.
Qed.

(** What holds of the score of every profile of the table holds of every
    activity of the ranking. *)
Lemma rankActivitiesForDay64_Forall (P : Activity.t -> Prop) (forecast : ForecastDay.t)
  (top : option number) :
  (forall config hasRain isWindy p w,
     In config ACTIVITY_CONFIGS ->
     P (to_Activity64 (scoreActivity config (averageTemp64 forecast) hasRain isWindy p w))) ->
  Forall P (rankActivitiesForDay64 forecast top).
Proof.
  intros HP. apply Forall_forall. intros a Ha%rankActivitiesForDay64_In.
  destruct Ha as (config & hasRain & isWindy & p & w & Hc & ->). now apply HP.
Qed.

(** With both temperatures the score of a profile of the table is an
    integer between 0 and 100. *)
Lemma scoreActivity64_range (forecast : ForecastDay.t) (config : Profile.t float)
  (hasRain isWindy : bool) (p w : float) :
  PrimFloat.is_finite (of_number (ForecastDay.maxTemp forecast)) = true ->
  PrimFloat.is_finite (of_number (ForecastDay.minTemp forecast)) = true ->
  In config ACTIVITY_CONFIGS ->
  int_between 0 100
    (Activity.suitabilityScore
       (to_Activity64 (scoreActivity config (averageTemp64 forecast) hasRain isWindy p w))).
Proof.
  intros Hmax Hmin Hc.
  pose proof (scoreActivity64_NaN config (averageTemp64 forecast) hasRain isWindy p w
                (finite_profile_In _ Hc)) as Hn.
  unfold averageTemp64 in Hn at 2. rewrite average_real in Hn by assumption.
  destruct (to_number_score _ (scoreActivity64_integer config (averageTemp64 forecast)
                                 hasRain isWindy p w)) as [Hs|Hs]; [|exact Hs].
  cbn [to_Activity64 Activity.suitabilityScore] in *.
  rewrite <- to_number_NaN, Hs in Hn. discriminate.
Qed.

(** ** The order of the ranking *)

(** An activity whose score is one of the integers 0 to 100. *)
Definition integer_score (a : Scored.t float) : Prop :=
  exists k, (0 <= k <= 100)%Z /\ Scored.suitabilityScore a = of_Z k.

(** The difference of two scores is exact. *)
Lemma sub_scores :
  forallb (fun a =>
    forallb (fun b => PrimFloat.Leibniz.eqb (of_Z b - of_Z a) (of_Z (b - a)))
      (zrange 0 100))
    (zrange 0 100) = true.
Proof. vm_compute. reflexivity. Qed.

Lemma of_Z_sub (a b : Z) :
  (0 <= a <= 100)%Z -> (0 <= b <= 100)%Z -> (of_Z b - of_Z a)%float = of_Z (b - a).
Proof.
  intros Ha Hb. apply Leibniz.eqb_spec.
  exact (forallb_zrange _ _ _ b (forallb_zrange _ _ _ a sub_scores Ha) Hb).
Qed.

(** [a] has to come after [b] exactly when its score is smaller. *)
Lemma after_byScore64 (a b : Scored.t float) (ka kb : Z) :
  (0 <= ka <= 100)%Z -> (0 <= kb <= 100)%Z ->
  Scored.suitabilityScore a = of_Z ka -> Scored.suitabilityScore b = of_Z kb ->
  after byScore a b = (ka <? kb)%Z.
Proof.
  intros Hka Hkb Ha Hb. unfold after, byScore. cbn [exact sub binary64].
  rewrite Ha, Hb, of_Z_sub, to_number_of_Z by lia.
  unfold JsNumber.gtb, JsNumber.ltb, int. cbn [pow10]. rewrite !Z.mul_1_r.
  destruct (Z.ltb_spec 0 (kb - ka)), (Z.ltb_spec ka kb); (reflexivity || lia).
Qed.

Lemma byScore64_consistent : consistent_on byScore integer_score.
Proof.
  split.
  - intros a b (ka & Hka & Ha) (kb & Hkb & Hb).
    rewrite (after_byScore64 a b ka kb), (after_byScore64 b a kb ka) by assumption. lia.
  - intros a b c (ka & Hka & Ha) (kb & Hkb & Hb) (kc & Hkc & Hc).
    rewrite (after_byScore64 a b ka kb), (after_byScore64 b c kb kc),
      (after_byScore64 a c ka kc) by assumption.
    lia.
Qed.

(** Among integer scores, "may stand before" is [>=] on the exact values. *)
Lemma before_byScore64 (a b : Scored.t float) :
  integer_score a -> integer_score b -> before byScore a b ->
  JsNumber.leb (to_number (Scored.suitabilityScore b))
    (to_number (Scored.suitabilityScore a)) = true.
Proof.
  intros (ka & Hka & Ha) (kb & Hkb & Hb). unfold before.
  rewrite (after_byScore64 a b ka kb) by assumption.
  rewrite Ha, Hb, !to_number_of_Z by lia.
  unfold JsNumber.leb, int. cbn [pow10]. rewrite !Z.mul_1_r. lia.
Qed.

(** Without an average temperature no activity has to come after another:
    the difference of two scores is [NaN]. *)
Lemma before_NaN (a b : Scored.t float) :
  PrimFloat.is_nan (Scored.suitabilityScore a) = true -> before byScore a b.
Proof.
  intros Ha. unfold before, after, byScore. cbn [exact sub binary64].
  pose proof (sub_nan_r (Scored.suitabilityScore b) _ Ha) as Hn.
  now rewrite (is_nan_eq _ Hn).
Qed.

Section Scored.
Variable forecast : ForecastDay.t.

Lemma scored64_In (a : Scored.t float) :
  In a (scored (day64 forecast)) ->
  exists config hasRain isWindy p w,
    In config ACTIVITY_CONFIGS
    /\ a = scoreActivity config (averageTemp64 forecast) hasRain isWindy p w.
Proof.
  intros (config & Hc & ->)%scored_In. rewrite day64_average.
  now exists config; repeat eexists.
Qed.

Lemma scored64_integer :
  PrimFloat.is_nan (averageTemp64 forecast) = false ->
  Forall integer_score (scored (day64 forecast)).
Proof.
  intros Ht. apply Forall_forall. intros a Ha%scored64_In.
  destruct Ha as (config & hasRain & isWindy & p & w & Hc & ->).
  pose proof (scoreActivity64_NaN config (averageTemp64 forecast) hasRain isWindy p w
                (finite_profile_In _ Hc)) as Hn.
  destruct (scoreActivity64_integer config (averageTemp64 forecast) hasRain isWindy p w)
    as [Hs|Hs]; [|exact Hs].
  cbv zeta in Hs. now rewrite Hs, Ht in Hn.
Qed.

Lemma scored64_NaN :
  PrimFloat.is_nan (averageTemp64 forecast) = true ->
  Forall (fun a => PrimFloat.is_nan (Scored.suitabilityScore a) = true)
    (scored (day64 forecast)).
Proof.
  intros Ht. apply Forall_forall. intros a Ha%scored64_In.
  destruct Ha as (config & hasRain & isWindy & p & w & Hc & ->).
  now rewrite scoreActivity64_NaN by now apply finite_profile_In.
Qed.

(** The sort of the program is a stable sort of the scored profiles. *)
Lemma sorted64_stable :
  PrimFloat.is_nan (averageTemp64 forecast) = false ->
  stable_sort_of byScore integer_score (scored (day64 forecast))
    (Array_sort byScore (scored (day64 forecast))).
Proof. intros Ht. now apply Array_sort_spec; [apply byScore64_consistent | apply scored64_integer]. Qed.

(** Without an average temperature it leaves the profiles in the order of
    the table. *)
Lemma sorted64_NaN :
  PrimFloat.is_nan (averageTemp64 forecast) = true ->
  Array_sort byScore (scored (day64 forecast)) = scored (day64 forecast).
Proof.
  intros Ht%scored64_NaN. apply Array_sort_fixed.
  induction Ht as [|a l Ha Hl IH]; constructor; [exact IH|].
  apply Forall_forall. intros b _. now apply before_NaN.
Qed.

End Scored.

(** C12: on a day whose two temperatures are
    read as finite numbers, the ranking the program computes in binary64 is
    sorted by non-increasing score, whatever [top] is: the comparator
    [b.suitabilityScore - a.suitabilityScore] is exact on the scores, which
    are integers between 0 and 100. *)
Theorem rankActivitiesForDay64_sorted (forecast : ForecastDay.t) (top : option number) :
  PrimFloat.is_finite (of_number (ForecastDay.maxTemp forecast)) = true ->
  PrimFloat.is_finite (of_number (ForecastDay.minTemp forecast)) = true ->
  StronglySorted
    (fun a b => JsNumber.leb (Activity.suitabilityScore b) (Activity.suitabilityScore a) = true)
    (rankActivitiesForDay64 forecast top).
Proof.
  intros Hmax Hmin. pose proof (average_real _ _ Hmax Hmin) as Ht.
  unfold rankActivitiesForDay64, rankActivitiesForDay.
  destruct (Array_slice_0_prefix (Array_sort byScore (scored (day64 forecast)))
              match top with Some n => n | None => int 1 end) as [n ->].
  apply StronglySorted_map, firstn_StronglySorted.
  destruct (sorted64_stable forecast Ht) as [_ Hsorted _].
  refine (StronglySorted_weaken (before byScore) _ integer_score _ before_byScore64 _ Hsorted).
  now apply Array_sort_Forall, scored64_integer.
Qed.

(** C39: on a day whose average temperature
    is [NaN] for the program (a temperature that is missing, or two
    opposite infinities), the sort keeps the order of the table: the
    default ranking is skiing, the first profile, with the score [NaN]. *)
Theorem rankActivitiesForDay64_NaN_day (forecast : ForecastDay.t) :
  PrimFloat.is_nan (averageTemp64 forecast) = true ->
  exists a,
    rankActivitiesForDay64 forecast None = [a]
    /\ Activity.name a = "skiing"
    /\ Activity.suitabilityScore a = NaN.
Proof.
  intros Ht. unfold rankActivitiesForDay64, rankActivitiesForDay.
  rewrite (sorted64_NaN forecast Ht), (scored_at _ zero zero), day64_average.
  rewrite Array_slice_0_int by lia.
  eexists. split; [reflexivity|]. split; [reflexivity|].
  cbn [to_Activity64 Activity.suitabilityScore].
  apply is_NaN_number. rewrite to_number_NaN.
  now rewrite scoreActivity64_NaN.
Qed.

(** C31: whatever the numbers of a day and
    whatever [top], every activity of the ranking the program computes in
    binary64 is one of the four profiles, its score is [NaN] or an integer
    between 0 and 100, and its reasoning begins with the reason of the
    temperature. *)
Theorem rankActivitiesForDay64_scores (forecast : ForecastDay.t) (top : option number) :
  Forall (fun a =>
            In (Activity.name a)
              ["skiing"; "surfing"; "indoor_sightseeing"; "outdoor_sightseeing"]
            /\ (Activity.suitabilityScore a = NaN
                \/ int_between 0 100 (Activity.suitabilityScore a))
            /\ exists tag rest,
                 In tag ["ideal temperature"; "too cold"; "too warm"]
                 /\ Activity.reasoning a = tag ++ rest)
    (rankActivitiesForDay64 forecast top).
Proof.
  apply rankActivitiesForDay64_Forall. intros config hasRain isWindy p w Hc.
  split; [exact (in_map Profile.name _ _ Hc)|].
  split; [apply to_number_score, scoreActivity64_integer | apply scoreActivity_reasoning].
Qed.

(** C26: the scores of a day are [NaN]
    exactly when its average temperature is, as the program computes it:
    either all of them or none. *)
Theorem rankActivitiesForDay64_NaN_iff (forecast : ForecastDay.t) (top : option number) :
  Forall (fun a => JsNumber.is_NaN (Activity.suitabilityScore a)
                   = PrimFloat.is_nan (averageTemp64 forecast))
    (rankActivitiesForDay64 forecast top).
Proof.
  apply rankActivitiesForDay64_Forall. intros config hasRain isWindy p w Hc.
  cbn [to_Activity64 Activity.suitabilityScore].
  now rewrite to_number_NaN, scoreActivity64_NaN by now apply finite_profile_In.
Qed.

(** For an integer [top >= 0] the ranking has [min top 4] activities. *)
Lemma rankActivitiesForDay64_length (forecast : ForecastDay.t) (n : Z) :
  (0 <= n)%Z ->
  length (rankActivitiesForDay64 forecast (Some (int n))) = Nat.min (Z.to_nat n) 4.
Proof.
  intros Hn. unfold rankActivitiesForDay64. rewrite length_map. now apply ranking_length.
Qed.

(** ** Examples *)

(** [binary64_numbers]: the literal 0.1 is the nearest binary64 number,
    whose exact value has 55 decimals; [Math.round] rounds a half up, also
    below zero, takes the number below 0.5 and the one below 49.5 down, and
    keeps the sign of a zero; [Math.min] and [Math.max] tell the two zeros
    apart and return [NaN] when an argument is. *)
Example binary64_numbers :
  literal 1 1 = 0x1.999999999999ap-4%float
  /\ to_number (literal 1 1)
     = Fin 1000000000000000055511151231257827021181583404541015625 55
  /\ map to_number [literal 185 1; literal (-3) 0; literal 90 0]
     = [dec 185 1; int (-3); int 90]
  /\ map Math_round64
       [2.5; -2.5; 0.5; -0.5; 1.5; 0x1.fffffffffffffp-2; 0x1.8bfffffffffffp+5; 49.5;
        nan; infinity; neg_zero; 4503599627370497]%float
     = [3; -2; 1; neg_zero; 2; 0; 49; 50; nan; infinity; neg_zero; 4503599627370497]%float
  /\ [Math_min64 zero neg_zero; Math_max64 neg_zero zero; Math_min64 nan 1; Math_max64 1 nan]
     = [neg_zero; zero; nan; nan].
Proof. vm_compute. repeat split; reflexivity. Qed.

(** ** The program and the formula *)


(** ** Witnesses *)

(** A dry, calm day of 17.9 to 22.4 degrees, and a day without a maximum
    temperature. *)
Definition warm_day : ForecastDay.t :=
  {| ForecastDay.date := "2026-01-01";
     ForecastDay.maxTemp := dec 224 1;
     ForecastDay.minTemp := dec 179 1;
     ForecastDay.conditions := "Clear sky";
     ForecastDay.precipitation := int 0;
     ForecastDay.windSpeed := int 5 |}.

Definition unknown_day64 : ForecastDay.t :=
  {| ForecastDay.date := "2026-01-01";
     ForecastDay.maxTemp := NaN;
     ForecastDay.minTemp := int 18;
     ForecastDay.conditions := "Clear sky";
     ForecastDay.precipitation := int 0;
     ForecastDay.windSpeed := int 5 |}.

Lemma rankActivitiesForDay64_sorted_witness :
  StronglySorted
    (fun a b => JsNumber.leb (Activity.suitabilityScore b) (Activity.suitabilityScore a) = true)
    (rankActivitiesForDay64 warm_day (Some (int 4))).
Proof. apply (rankActivitiesForDay64_sorted warm_day); reflexivity. Defined.

Lemma rankActivitiesForDay64_NaN_day_witness :
  exists a,
    rankActivitiesForDay64 unknown_day64 None = [a]
    /\ Activity.name a = "skiing"
    /\ Activity.suitabilityScore a = NaN.
Proof. apply (rankActivitiesForDay64_NaN_day unknown_day64). reflexivity. Defined.
