(* ===== verification/Compare64.v ===== *)
(** * Compare64: the two arithmetics compared

    The scoring engine of [Arithmetic] runs in the exact decimals of
    [JsNumber] and in the binary64 numbers of [Binary64].  This file
    compares the two results:

    - on a day whose temperatures are whole degrees they are the same
      ranking ([binary64_whole_degrees]);
    - for an average temperature in tenths of a degree the binary64 score
      of a profile is the exact one or one less
      ([binary64_tenths_one_below]);
    - they are not always the same ([Binary64.binary64_differs]).

    The first two are proved by evaluating both engines on every
    temperature of a range: a boolean check over the range, and a lemma
    that reads a member of the range off the check. *)

From Stdlib Require Import String List ZArith Bool Lia Floats.
From S2P Require Import Prelude JsNumber JsString JsArray Types Constants Arithmetic Float64.
From S2P Require Import Binary64.
From S2P Require ActivityRanking.
Import ListNotations.
Import Engine.

Local Open Scope list_scope.
Local Open Scope string_scope.

(** A profile of the decimal table, read as the program reads it. *)
Definition profile64 (config : Profile.t number) : Profile.t float :=
  {| Profile.name := Profile.name config;
     Profile.idealTempMin := of_number (Profile.idealTempMin config);
     Profile.idealTempMax := of_number (Profile.idealTempMax config);
     Profile.rainTolerance := of_number (Profile.rainTolerance config);
     Profile.windPreference := of_number (Profile.windPreference config) |}.

Lemma ACTIVITY_CONFIGS_64 :
  ACTIVITY_CONFIGS (N := float) = map profile64 (ACTIVITY_CONFIGS (N := number)).
Proof. reflexivity. Qed.

Lemma number_eq_dec (x y : number) : {x = y} + {x <> y}.
Proof. decide equality; auto using Z.eq_dec, Nat.eq_dec, bool_dec. Defined.

Lemma Activity_eq_dec (a b : Activity.t) : {a = b} + {a <> b}.
Proof. decide equality; auto using string_dec, number_eq_dec. Defined.

(** *** An average temperature in tenths of a degree *)

(** The binary64 score [a] and the exact score [b] of a profile: the same
    name and reasoning, and the same score or one less. *)
Definition one_below (a : Scored.t float) (b : Scored.t number) : Prop :=
  Scored.name a = Scored.name b
  /\ Scored.reasoning a = Scored.reasoning b
  /\ (to_number (Scored.suitabilityScore a) = Scored.suitabilityScore b
      \/ to_number (Scored.suitabilityScore a)
         = JsNumber.sub (Scored.suitabilityScore b) (int 1)).

Definition one_belowb (a : Scored.t float) (b : Scored.t number) : bool :=
  String.eqb (Scored.name a) (Scored.name b)
  && String.eqb (Scored.reasoning a) (Scored.reasoning b)
  && ((if number_eq_dec (to_number (Scored.suitabilityScore a)) (Scored.suitabilityScore b)
       then true else false)
      || (if number_eq_dec (to_number (Scored.suitabilityScore a))
               (JsNumber.sub (Scored.suitabilityScore b) (int 1))
          then true else false)).

Lemma one_belowb_spec (a : Scored.t float) (b : Scored.t number) :
  one_belowb a b = true -> one_below a b.
Proof.
  unfold one_belowb, one_below. rewrite !andb_true_iff, orb_true_iff, !String.eqb_eq.
  intros [[Hn Hr] Hs]. repeat split; [exact Hn | exact Hr |].
  destruct Hs as [Hs|Hs]; [left | right]; now destruct number_eq_dec.
Qed.

(** The scores of all profiles for an average temperature of [t] tenths of
    a degree, in every weather. *)
Definition compared (t : Z) : bool :=
  forallb (fun config =>
    forallb (fun hasRain =>
      forallb (fun isWindy =>
        one_belowb
          (scoreActivity (profile64 config) (literal t 1) hasRain isWindy zero zero)
          (scoreActivity config (dec t 1) hasRain isWindy (int 0) (int 0)))
        [true; false])
      [true; false])
    (ACTIVITY_CONFIGS (N := number)).

Lemma compared_tenths : forallb compared (zrange (-300) 500) = true.
Proof. vm_compute. reflexivity. Qed.

(** *** Days of whole degrees *)

(** The scored profiles for an average temperature, sorted, with the exact
    values of the scores: the ranking before it is cut to [top]. *)
Definition sorted64 (avgTemp : float) (hasRain isWindy : bool) : list Activity.t :=
  map to_Activity64
    (Array_sort byScore
       (map (fun config => scoreActivity config avgTemp hasRain isWindy zero zero)
          ACTIVITY_CONFIGS)).

Definition sorted10 (avgTemp : number) (hasRain isWindy : bool) : list Activity.t :=
  map to_Activity
    (Array_sort byScore
       (map (fun config => scoreActivity config avgTemp hasRain isWindy (int 0) (int 0))
          ACTIVITY_CONFIGS)).

Lemma rankActivitiesForDay64_slice (forecast : ForecastDay.t) (top : option number) :
  rankActivitiesForDay64 forecast top
  = Array_slice
      (sorted64 (half (add (of_number (ForecastDay.maxTemp forecast))
                         (of_number (ForecastDay.minTemp forecast))))
         (gtb (of_number (ForecastDay.precipitation forecast)) (lit 1 0))
         (gtb (of_number (ForecastDay.windSpeed forecast)) (lit 20 0)))
      (int 0) match top with Some n => n | None => int 1 end.
Proof.
  unfold rankActivitiesForDay64, rankActivitiesForDay, sorted64.
  rewrite Array_slice_map, (scored_at _ zero zero). reflexivity.
Qed.

Lemma rankActivitiesForDay10_sorted (forecast : ForecastDay.t) (top : option number) :
  map to_Activity (rankActivitiesForDay (of_day forecast) top)
  = Array_slice
      (sorted10 (half (add (ForecastDay.maxTemp forecast) (ForecastDay.minTemp forecast)))
         (gtb (ForecastDay.precipitation forecast) (lit 1 0))
         (gtb (ForecastDay.windSpeed forecast) (lit 20 0)))
      (int 0) match top with Some n => n | None => int 1 end.
Proof.
  unfold rankActivitiesForDay, sorted10.
  rewrite Array_slice_map, (scored_at _ (int 0) (int 0)). reflexivity.
Qed.

(** The average of two whole degrees is the same half degree in both
    arithmetics. *)
Lemma average_whole64 :
  forallb (fun hi =>
    forallb (fun lo =>
      PrimFloat.Leibniz.eqb (half (add (of_number (int hi)) (of_number (int lo))))
        (literal (5 * (hi + lo)) 1))
      (zrange (-50) 75))
    (zrange (-50) 75) = true.
Proof. vm_compute. reflexivity. Qed.

Lemma average_whole10 (hi lo : Z) :
  half (add (int hi) (int lo)) = dec (5 * (hi + lo)) 1.
Proof. unfold half, add, int, dec. cbn. now rewrite !Z.mul_1_r. Qed.

(** Rain and wind given in whole units or in tenths are judged alike. *)
Lemma threshold_tenths (limit : Z) (e : nat) :
  In limit [1; 20]%Z -> In e [0; 1]%nat ->
  forallb (fun x => Bool.eqb (gtb (of_number (dec x e)) (lit limit 0))
                      (gtb (dec x e) (lit limit 0)))
    (zrange 0 5000) = true.
Proof. intros [<-|[<-|[]]] [<-|[<-|[]]]; vm_compute; reflexivity. Qed.

Lemma sorted_halves :
  forallb (fun k =>
    forallb (fun hasRain =>
      forallb (fun isWindy =>
        if list_eq_dec Activity_eq_dec
             (sorted64 (literal (5 * k) 1) hasRain isWindy)
             (sorted10 (dec (5 * k) 1) hasRain isWindy)
        then true else false)
        [true; false])
      [true; false])
    (zrange (-100) 150) = true.
Proof. vm_compute. reflexivity. Qed.

Lemma sorted_whole (hi lo : Z) (hasRain isWindy : bool) :
  (-50 <= hi <= 75)%Z -> (-50 <= lo <= 75)%Z ->
  sorted64 (half (add (of_number (int hi)) (of_number (int lo)))) hasRain isWindy
  = sorted10 (half (add (int hi) (int lo))) hasRain isWindy.
Proof.
  intros Hhi Hlo.
  pose proof (forallb_zrange _ _ _ lo (forallb_zrange _ _ _ hi average_whole64 Hhi) Hlo) as Havg.
  apply Leibniz.eqb_spec in Havg. rewrite Havg, average_whole10.
  pose proof (forallb_bool _ isWindy
                (forallb_bool _ hasRain
                   (forallb_zrange _ _ _ (hi + lo) sorted_halves ltac:(lia)))) as Hs.
  cbv beta in Hs. now destruct list_eq_dec.
Qed.

Lemma threshold_agrees (limit x : Z) (e : nat) :
  In limit [1; 20]%Z -> (e <= 1)%nat -> (0 <= x <= 5000)%Z ->
  gtb (of_number (dec x e)) (lit limit 0) = gtb (dec x e) (lit limit 0).
Proof.
  intros Hl He Hx. apply eqb_prop.
  refine (forallb_zrange _ _ _ x (threshold_tenths limit e Hl _) Hx).
  destruct e as [|[|e]]; cbn; auto. lia.
Qed.

(** ** Theorems *)

(** [binary64_whole_degrees]: on a day whose two temperatures are whole
    degrees between -50 and 75, with precipitation and wind speed given as
    whole numbers or in tenths (a mantissa up to 5000), the ranking the
    program computes in binary64 is the ranking of exact arithmetic, for
    every [top]: the same activities in the same order with the same
    scores and reasoning. *)
Theorem binary64_whole_degrees (forecast : ForecastDay.t) (hi lo p w : Z) (pe we : nat)
  (top : option number) :
  ForecastDay.maxTemp forecast = int hi -> ForecastDay.minTemp forecast = int lo ->
  ForecastDay.precipitation forecast = dec p pe -> ForecastDay.windSpeed forecast = dec w we ->
  (-50 <= hi <= 75)%Z -> (-50 <= lo <= 75)%Z ->
  (0 <= p <= 5000)%Z -> (0 <= w <= 5000)%Z -> (pe <= 1)%nat -> (we <= 1)%nat ->
  rankActivitiesForDay64 forecast top = ActivityRanking.rankActivitiesForDay forecast top.
Proof.
  intros Hmax Hmin Hp Hw Hhi Hlo Hpr Hwr Hpe Hwe.
  rewrite <- ActivityRanking.Literal_rankActivitiesForDay_eq, <- decimal_rankActivitiesForDay.
  rewrite rankActivitiesForDay64_slice, rankActivitiesForDay10_sorted.
  rewrite Hmax, Hmin, Hp, Hw.
  rewrite !threshold_agrees by (cbn; auto).
  now rewrite sorted_whole.
Qed.

(** C23: for an average temperature given in tenths
    of a degree between -30 and 50 and the same verdicts on rain and wind,
    the program's binary64 computation gives every profile of the table the
    name and the reasoning of exact arithmetic, and the exact score or one
    less (a penalty that is a half in exact arithmetic may be a little
    more in binary64). *)
Theorem binary64_tenths_one_below (t : Z) (config : Profile.t number)
  (hasRain isWindy : bool) (p w : float) (p' w' : number) :
  (-300 <= t <= 500)%Z -> In config ACTIVITY_CONFIGS ->
  one_below (scoreActivity (profile64 config) (literal t 1) hasRain isWindy p w)
    (scoreActivity config (dec t 1) hasRain isWindy p' w').
Proof.
  intros Ht Hc. apply one_belowb_spec.
  pose proof (forallb_zrange _ _ _ t compared_tenths Ht) as Hall.
  unfold compared in Hall. rewrite forallb_forall in Hall.
  exact (forallb_bool _ isWindy (forallb_bool _ hasRain (Hall config Hc))).
Qed.

(** ** Witnesses *)

Lemma binary64_whole_degrees_witness :
  rankActivitiesForDay64 ActivityRanking.mild_day (Some (int 4))
  = ActivityRanking.rankActivitiesForDay ActivityRanking.mild_day (Some (int 4)).
Proof.
  apply (binary64_whole_degrees ActivityRanking.mild_day 22 18 0 5 0 0);
    (reflexivity || lia).
Defined.

Lemma binary64_tenths_one_below_witness :
  one_below
    (scoreActivity (profile64 (Profile.mk "surfing" (int 18) (int 28) (dec 7 1) (dec 8 1)))
       (literal 179 1) false false zero zero)
    (scoreActivity (Profile.mk "surfing" (int 18) (int 28) (dec 7 1) (dec 8 1))
       (dec 179 1) false false (int 0) (int 0)).
Proof.
  apply (binary64_tenths_one_below 179); [lia | cbn; auto].
Defined.
