(* ===== verification/Forecast64.v ===== *)
(** * Forecast64: the program with the ranking in binary64 arithmetic

    [binary64_service] is the ranking service as the program runs it: the
    engine of [Arithmetic] on the binary64 numbers of [Binary64].  It keeps
    the laws of [RankingService.ok], so every theorem of [OpenMeteoAPI],
    [Resolvers], [Execute] and [Server] that is proved against the
    interface holds for the program with its own arithmetic.

    A decimal with a mantissa below [2^53] and at most 15 decimals is read
    as a finite number, so for such answers the theorems about the
    response need no assumption on the arithmetic
    ([binary64_getCityWeather_has_data]).

    The last theorem compares the two instances through the whole program:
    when the weather service answers with temperatures in whole degrees,
    every query gets the same response with the ranking in binary64 and
    with the ranking in exact decimal arithmetic. *)

From Stdlib Require Import String List ZArith Bool Lia Floats.
From S2P Require Import Prelude JsNumber JsString JsArray Types Constants ActivityRanking.
From S2P Require Import Ranking Http Errors NumberText Schema Selection OpenMeteoAPI.
From S2P Require Import ResolverTypes Resolvers Execute Arithmetic Float64 Binary64 Compare64.
Import ListNotations.

Local Open Scope Z_scope.
Local Open Scope string_scope.

(** ** The service *)

Definition binary64_service : RankingService.service := {|
  RankingService.rankActivitiesForDay := rankActivitiesForDay64;
  RankingService.finite := fun x => PrimFloat.is_finite (of_number x)
|}.

Lemma of_number_finite (x : number) :
  PrimFloat.is_finite (of_number x) = true -> JsNumber.is_finite x = true.
Proof. destruct x as [|[|]|m e]; cbn [of_number]; (discriminate || reflexivity). Qed.

(** An activity of the table scored in binary64 is an activity as the
    interface asks. *)
Lemma to_Activity64_ranked (config : Profile.t float) (avgTemp : float)
  (hasRain isWindy : bool) (p w : float) :
  In config Engine.ACTIVITY_CONFIGS ->
  RankingService.ranked
    (to_Activity64 (Engine.scoreActivity config avgTemp hasRain isWindy p w)).
Proof.
  intros Hc. split; [exact (in_map Profile.name _ _ Hc) | split].
  - destruct (scoreActivity_reasoning config avgTemp hasRain isWindy p w)
      as (tag & rest & Htag & Hr).
    cbn [to_Activity64 Activity.reasoning]. rewrite Hr.
    destruct Htag as [<-|[<-|[<-|[]]]]; discriminate.
  - apply to_number_score, scoreActivity64_integer.
Qed.

#[export] Instance binary64_ok : RankingService.ok binary64_service.
Proof.
  split; cbn [RankingService.rankActivitiesForDay RankingService.finite binary64_service].
  - exact of_number_finite.
  - exact rankActivitiesForDay64_length.
  - intros forecast top. apply rankActivitiesForDay64_Forall. intros.
    now apply to_Activity64_ranked.
  - intros forecast top Hmax Hmin. apply rankActivitiesForDay64_Forall.
    intros config hasRain isWindy p w Hc. now apply scoreActivity64_range.
Qed.

(** ** Answers the program reads without overflow *)

(** The temperatures of the dated days are decimals with a mantissa below
    [2^53] and at most 15 decimals, where they are numbers at all. *)
Definition temperatures_short (daily : DailyWeather.t) : bool :=
  forallb (fun index =>
             short_decimal (number_at (DailyWeather.temperature_2m_max daily) index)
             && short_decimal (number_at (DailyWeather.temperature_2m_min daily) index))
    (seq 0 (length (DailyWeather.time daily))).

(** The ranking in binary64 reads such a number as finite when it is. *)
Lemma short_readable (x : number) :
  short_decimal x = true -> readable (ranking := binary64_service) x = true.
Proof.
  intros Hx. unfold readable. cbn [RankingService.finite binary64_service].
  destruct (JsNumber.is_finite x) eqn:Hf; [|reflexivity]. now apply of_number_short.
Qed.

Lemma temperatures_short_readable (daily : DailyWeather.t) :
  temperatures_short daily = true ->
  temperatures_readable (ranking := binary64_service) daily = true.
Proof.
  unfold temperatures_short, temperatures_readable. rewrite !forallb_forall.
  intros Hall index Hin. apply Hall, andb_true_iff in Hin as [Hmax Hmin].
  now rewrite !short_readable.
Qed.

(** ** Answers in whole degrees *)

(** A temperature in whole degrees between -50 and 75. *)
Definition whole_degrees (x : number) : bool :=
  match x with
  | Fin m O => ((-50 <=? m) && (m <=? 75))%Z
  | _ => false
  end.

(** An amount of rain or a wind speed from 0 to 5000, given as a whole
    number or in tenths. *)
Definition in_tenths (x : number) : bool :=
  match x with
  | Fin m e => (e <=? 1)%nat && (0 <=? m)%Z && (m <=? 5000)%Z
  | _ => false
  end.

Definition day_in_range (daily : DailyWeather.t) (index : nat) : bool :=
  whole_degrees (number_at (DailyWeather.temperature_2m_max daily) index)
  && whole_degrees (number_at (DailyWeather.temperature_2m_min daily) index)
  && in_tenths (number_at (DailyWeather.precipitation_sum daily) index)
  && in_tenths (number_at (DailyWeather.wind_speed_10m_max daily) index).

Definition body_in_range (body : WeatherResponse.t) : bool :=
  let daily := WeatherResponse.daily body in
  forallb (day_in_range daily) (seq 0 (length (DailyWeather.time daily))).

Lemma whole_degrees_int (x : number) :
  whole_degrees x = true -> exists z, x = int z /\ -50 <= z <= 75.
Proof. destruct x as [| |m [|e]]; try discriminate. cbn. exists m. split; [reflexivity | lia]. Qed.

Lemma in_tenths_dec (x : number) :
  in_tenths x = true -> exists m e, x = dec m e /\ 0 <= m <= 5000 /\ (e <= 1)%nat.
Proof.
  destruct x as [| |m e]; try discriminate. cbn.
  rewrite !andb_true_iff, Nat.leb_le. exists m, e. split; [reflexivity | lia].
Qed.

Section Program.
Context `{NumberText}.

(** On the days of such an answer the two rankings are the same. *)
Lemma same_rankings_in_range (body : WeatherResponse.t) :
  body_in_range body = true ->
  same_rankings binary64_service decimal_service (WeatherResponse.daily body).
Proof.
  unfold body_in_range. rewrite forallb_forall. intros Hall index date Hdate.
  assert (Hin : In index (seq 0 (length (DailyWeather.time (WeatherResponse.daily body))))).
  { apply in_seq. split; [lia | apply nth_error_Some; congruence]. }
  apply Hall in Hin. unfold day_in_range in Hin. rewrite !andb_true_iff in Hin.
  destruct Hin as [[[Hmax Hmin] Hp] Hw].
  apply whole_degrees_int in Hmax as (hi & Hmax & Hhi), Hmin as (lo & Hmin & Hlo).
  apply in_tenths_dec in Hp as (p & pe & Hp & Hpr & Hpe), Hw as (w & we & Hw & Hwr & Hwe).
  cbn [RankingService.rankActivitiesForDay binary64_service decimal_service].
  rewrite Literal_rankActivitiesForDay_eq.
  now apply (binary64_whole_degrees _ hi lo p w pe we).
Qed.

(** C9: when the weather service answers
    with temperatures in whole degrees between -50 and 75, and with rain
    and wind from 0 to 5000 as whole numbers or in tenths, every query gets
    the same response from the program, which ranks in binary64, and from
    the program with the ranking of exact decimal arithmetic: the same
    data, activities, scores and errors. *)
Theorem binary64_execute_whole_degrees (h : handler api) (q : request) :
  (forall latitude longitude body,
     h _ (forecastRequest latitude longitude) = Fulfilled (Some body) ->
     body_in_range body = true) ->
  run h (execute (ranking := binary64_service) q)
  = run h (execute (ranking := decimal_service) q).
Proof.
  intros Hrange. apply execute_ext. intros latitude longitude body Hbody.
  apply same_rankings_in_range. now apply (Hrange latitude longitude).
Qed.

(** C21: for the program as it runs, with
    the ranking in binary64: when the identifier is one [parseCityId]
    accepts, the weather service answers with a body and the temperatures
    of the body are decimals with a mantissa below [2^53] and at most 15
    decimals, the response to [getCityWeather] has data exactly when the
    four numbers of the current weather and the four numbers of every
    dated day are there and finite.  Reading a temperature does not
    overflow, the average of two temperatures is a number, and the score
    of every day is an integer between 0 and 100, so a score never stands
    in the way. *)
Theorem binary64_getCityWeather_has_data (h : handler api) (cityId : string)
  (parsed : CityInfo.t) (body : WeatherResponse.t) :
  parseCityId cityId = Ok parsed ->
  h _ (forecastRequest (CityInfo.latitude parsed) (CityInfo.longitude parsed))
  = Fulfilled (Some body) ->
  temperatures_short (WeatherResponse.daily body) = true ->
  has_data (run h (execute (ranking := binary64_service) (full (GetCityWeather cityId))))
  = body_complete body.
Proof.
  intros Hparsed Hanswer Hshort.
  now apply (getCityWeather_has_data h cityId parsed body Hparsed Hanswer),
    temperatures_short_readable.
Qed.

End Program.

(** ** Witnesses *)

From S2P Require Import JsNumberText.

Lemma binary64_execute_whole_degrees_witness :
  run (forecast_only (Fulfilled (Some two_days)))
    (execute (ranking := binary64_service) (full (GetCityWeather london_id)))
  = run (forecast_only (Fulfilled (Some two_days)))
      (execute (ranking := decimal_service) (full (GetCityWeather london_id))).
Proof.
  apply (binary64_execute_whole_degrees (forecast_only (Fulfilled (Some two_days)))).
  intros latitude longitude body [= <-]. reflexivity.
Defined.

Lemma binary64_getCityWeather_has_data_witness :
  has_data (run (forecast_only (Fulfilled (Some two_days)))
              (execute (ranking := binary64_service) (full (GetCityWeather london_id))))
  = body_complete two_days.
Proof.
  apply (binary64_getCityWeather_has_data (forecast_only (Fulfilled (Some two_days)))
           london_id
           {| CityInfo.latitude := dec 515074 4; CityInfo.longitude := dec (-1278) 4;
              CityInfo.name := "London"; CityInfo.country := "United Kingdom" |}
           two_days); reflexivity.
Defined.

(** An answer with one day between -4.3 and 8.3 degrees. *)
Definition chilly_day : WeatherResponse.t :=
  {| WeatherResponse.current := current_weather;
     WeatherResponse.daily :=
       {| DailyWeather.time := ["2026-01-01"];
          DailyWeather.weather_code := [int 0];
          DailyWeather.temperature_2m_max := [dec 83 1];
          DailyWeather.temperature_2m_min := [dec (-43) 1];
          DailyWeather.precipitation_sum := [int 0];
          DailyWeather.wind_speed_10m_max := [int 5] |} |}.

(** The activities of the days of a forecast. *)
Definition activities_of (r : result exn Weather.t) : list (list Activity.t) :=
  match r with
  | Ok weather => map DailyForecast.activities (Weather.forecast weather)
  | Err _ => []
  end.

(** [binary64_service_examples]: on the answer of two days the program
    reads both temperatures as finite numbers and its response has data.
    On the day between -4.3 and 8.3 degrees the forecast of the program
    differs from the one of exact arithmetic: the average is 2 degrees,
    ideal for skiing, but the sum of the program is a little more than 4,
    so it reports skiing as too warm with the score 60 instead of 90. *)
Example binary64_service_examples :
  temperatures_readable (ranking := binary64_service) (WeatherResponse.daily two_days) = true
  /\ has_data (run (forecast_only (Fulfilled (Some two_days)))
                 (execute (ranking := binary64_service) (full (GetCityWeather london_id))))
     = true
  /\ activities_of (run (forecast_only (Fulfilled (Some chilly_day)))
                      (getWeatherData (ranking := binary64_service)
                         (dec 515074 4) (dec (-1278) 4)))
     = [[Activity.mk "skiing" "too warm, no rain" (int 60)]]
  /\ activities_of (run (forecast_only (Fulfilled (Some chilly_day)))
                      (getWeatherData (ranking := decimal_service)
                         (dec 515074 4) (dec (-1278) 4)))
     = [[Activity.mk "skiing" "ideal temperature, no rain" (int 90)]].
Proof. repeat split; vm_compute; reflexivity. Qed.
