(* ===== verification/TestSuite.v ===== *)
(** * TestSuite: the tests of the repository, on the model

    The three test files of the repository (the ranking tests at the end of
    [src/src/utils/constants.ts], the service tests and the resolver tests of
    [src/src/__tests__/openMeteoAPI.test.ts]) describe what the authors expect
    of the program.  The ranking tests are functions of the service under
    test: an [it(...)] block is the conjunction of its [expect] lines, and
    the [describe] block is the list of the tests with their names; they
    pass on the ranking in exact decimals ([test_ranking_exact]) and on the
    ranking of the program in binary64 ([test_ranking_binary64]).  Each
    [it(...)] block of the other two files is an [Example]: the mocked
    answers of [axios.get] are the definitions of this file, a mock is a
    [handler] that gives the mocked answer, and the [expect] lines are the
    statement, which the model proves by evaluation.  A model that disagreed
    with the program on one of these inputs would fail here.

    The date strings [today] and [tomorrow] of the tests are variables: every
    example holds for every date.  A mocked rejection for which the test makes
    [axios.isAxiosError] return [true] is an [AxiosError]; [undefined] passed
    for a number is [NaN], what [isNaN] and the comparisons make of it.  The
    resolver tests go through the server: each is stated on the resolver it
    reaches, [result.errors] being undefined means that it returns, and
    [errors[0].message] and [errors[0].extensions.code] are the message and
    the code of the [GraphQLError] it throws.  The queries of the resolver
    tests are requests ([SEARCH_CITIES_QUERY], [GET_CITY_WEATHER_QUERY] and
    the two queries of the sequence test, which select some of the fields);
    [test_query_responses] and [test_query_sequence_responses] state the
    responses of [Execute.execute] to them. *)

From Stdlib Require Import String Ascii List ZArith Bool.
From S2P Require Import Prelude JsNumber JsString JsArray Types Constants.
From S2P Require Import ActivityRanking Ranking Http Errors NumberText JsNumberText.
From S2P Require Import Schema Selection OpenMeteoAPI Resolvers Execute.
From S2P Require Binary64 Forecast64.
Import ListNotations.

Local Open Scope list_scope.
Local Open Scope string_scope.
Local Open Scope js_scope.

(** ** The matchers of the tests *)

(** [activities.find(a => a.name === name)] *)
Definition find_named (name : string) (activities : list Activity.t) : option Activity.t :=
  find (fun a => Activity.name a =? name) activities.

(** [expect(names).toContain(name)] *)
Definition contains (names : list string) (name : string) : bool :=
  existsb (String.eqb name) names.

(** The loop of the test 'sorted by score': every score is at least the
    next one. *)
Fixpoint scores_descend (activities : list Activity.t) : bool :=
  match activities with
  | a :: (b :: _) as rest =>
      geb (Activity.suitabilityScore a) (Activity.suitabilityScore b)
      && scores_descend rest
  | _ => true
  end.

(** [expect(s).toBeTruthy()] on a string. *)
Definition truthy (s : string) : bool := negb (s =? "").

(** [expect(received).toHaveLength(expected)] *)
Definition toHaveLength {T : Type} (received : list T) (expected : nat) : bool :=
  (length received =? expected)%nat.

(** [expect(received).toBe(expected)] on strings. *)
Definition toBe (received expected : string) : bool := (received =? expected)%string.

(** [expect(received).toBeGreaterThan(expected)] *)
Definition toBeGreaterThan (received expected : number) : bool := gtb received expected.

(** [mockAxios.get.mockResolvedValue({ data })] *)
Definition resolved {T : Type} (data : T) : settled exn T := Fulfilled (Some data).

Section Tests.
Variables today tomorrow : string.

(** ** The ranking tests *)

Definition forecast_of (maxTemp minTemp : number) (conditions : string)
  (precipitation windSpeed : number) : ForecastDay.t :=
  {| ForecastDay.date := today;
     ForecastDay.maxTemp := maxTemp;
     ForecastDay.minTemp := minTemp;
     ForecastDay.conditions := conditions;
     ForecastDay.precipitation := precipitation;
     ForecastDay.windSpeed := windSpeed |}.

Definition weather : ForecastDay.t := forecast_of (int 22) (int 18) "Clear sky" (int 0) (int 5).
Definition breezyWeather : ForecastDay.t :=
  forecast_of (int 20) (int 15) "Clear sky" (int 0) (int 10).
Definition rainyWeather : ForecastDay.t :=
  forecast_of (int 18) (int 15) "Heavy rain" (int 15) (int 10).
Definition coldWeather : ForecastDay.t :=
  forecast_of (int (-2)) (int (-8)) "Snow" (int 3) (int 8).
Definition warmWeather : ForecastDay.t :=
  forecast_of (int 25) (int 20) "Clear sky" (int 0) (int 5).
Definition extremeWeather : ForecastDay.t :=
  forecast_of (int 45) (int 40) "Thunderstorm" (int 50) (int 80).
Definition overcastWeather : ForecastDay.t :=
  forecast_of (int 20) (int 15) "Overcast" (int 1) (int 15).

(** *** The [it] blocks

    A test is a function of the service under test, the object of
    [beforeEach]: it passes ([true]) when every [expect] of its body
    does.  Reading [activities[0]] of an empty array or a field of
    [undefined] throws, which fails the test. *)

Section Blocks.
Variable service : RankingService.service.

Let rank (forecast : ForecastDay.t) (top : option number) : list Activity.t :=
  RankingService.rankActivitiesForDay (service := service) forecast top.

Definition should_return_only_top_1_activity_by_default : bool :=
  let activities := rank weather None in
  toHaveLength activities 1
  && match activities with
     | first :: _ =>
         toBe (Activity.name first) "outdoor_sightseeing"
         && toBeGreaterThan (Activity.suitabilityScore first) (int 80)
     | [] => false
     end.

Definition should_return_all_4_activities_when_top_4 : bool :=
  let activities := rank weather (Some (int 4)) in
  toHaveLength activities 4
  && match activities with
     | first :: _ => toBe (Activity.name first) "outdoor_sightseeing"
     | [] => false
     end
  && (let activityNames := map Activity.name activities in
      contains activityNames "skiing"
      && contains activityNames "surfing"
      && contains activityNames "indoor_sightseeing"
      && contains activityNames "outdoor_sightseeing").

Definition should_return_activities_sorted_by_score : bool :=
  let activities := rank breezyWeather (Some (int 4)) in
  scores_descend activities.

Definition should_rank_indoor_sightseeing_highest_on_rainy_days : bool :=
  let activities := rank rainyWeather (Some (int 2)) in
  toHaveLength activities 2
  && match activities with
     | first :: _ =>
         toBe (Activity.name first) "indoor_sightseeing"
         && toBeGreaterThan (Activity.suitabilityScore first) (int 70)
     | [] => false
     end.

Definition should_rank_skiing_higher_in_cold_weather : bool :=
  let activities := rank coldWeather (Some (int 4)) in
  match find_named "skiing" activities with
  | Some skiing =>
      toBeGreaterThan (Activity.suitabilityScore skiing) (int 50)
      && includes (Activity.reasoning skiing) "ideal temperature"
      && (let warmActivities := rank warmWeather (Some (int 4)) in
          match find_named "skiing" warmActivities with
          | Some warmSkiing =>
              toBeGreaterThan (Activity.suitabilityScore skiing)
                (Activity.suitabilityScore warmSkiing)
          | None => false
          end)
  | None => false
  end.

Definition should_handle_top_parameter_correctly : bool :=
  toHaveLength (rank breezyWeather (Some (int 1))) 1
  && toHaveLength (rank breezyWeather (Some (int 2))) 2
  && toHaveLength (rank breezyWeather (Some (int 3))) 3
  && toHaveLength (rank breezyWeather (Some (int 4))) 4.

Definition should_ensure_all_scores_are_within_valid_range : bool :=
  let activities := rank extremeWeather (Some (int 4)) in
  forallb (fun activity =>
             geb (Activity.suitabilityScore activity) (int 0)
             && leb (Activity.suitabilityScore activity) (int 100)
             && truthy (Activity.reasoning activity))
    activities.

Definition should_provide_meaningful_reasoning_for_all_activities : bool :=
  let activities := rank overcastWeather (Some (int 4)) in
  forallb (fun activity =>
             truthy (Activity.reasoning activity)
             && (0 <? String.length (Activity.reasoning activity))%nat)
    activities.

(** [describe('rankActivitiesForDay', ...)]: the tests with their names. *)
Definition rankActivitiesForDay_tests : list (string * bool) :=
  [ ("should return only top 1 activity by default",
     should_return_only_top_1_activity_by_default);
    ("should return all 4 activities when top=4",
     should_return_all_4_activities_when_top_4);
    ("should return activities sorted by score (highest first)",
     should_return_activities_sorted_by_score);
    ("should rank indoor sightseeing highest on rainy days",
     should_rank_indoor_sightseeing_highest_on_rainy_days);
    ("should rank skiing higher in cold weather",
     should_rank_skiing_higher_in_cold_weather);
    ("should handle top parameter correctly",
     should_handle_top_parameter_correctly);
    ("should ensure all scores are within valid range",
     should_ensure_all_scores_are_within_valid_range);
    ("should provide meaningful reasoning for all activities",
     should_provide_meaningful_reasoning_for_all_activities) ].

(** The tests that fail. *)
Definition failures (tests : list (string * bool)) : list string :=
  map fst (filter (fun t => negb (snd t)) tests).

End Blocks.

(** The eight tests pass on the ranking in exact arithmetic. *)
Example test_ranking_exact : failures (rankActivitiesForDay_tests decimal_service) = [].
Proof. vm_compute. reflexivity. Qed.

(** They pass on the program's ranking in binary64. *)
Example test_ranking_binary64 :
  failures (rankActivitiesForDay_tests Forecast64.binary64_service) = [].
Proof. vm_compute. reflexivity. Qed.

(** The scores the tests see: the best activity of the mild day scores
    90 and the skiing of the cold day, with its rain, 62. *)
Example test_ranking_values :
  Literal.rankActivitiesForDay weather None
  = [Activity.mk "outdoor_sightseeing" "ideal temperature, no rain" (int 90)]
  /\ option_map Activity.suitabilityScore
       (find_named "skiing" (Literal.rankActivitiesForDay coldWeather (Some (int 4))))
     = Some (int 62).
Proof. split; vm_compute; reflexivity. Qed.

(** The tests run the program, which computes in binary64: on the seven
    days of the ranking tests, all of whole degrees, the rankings of the
    program are those of the exact model, for every [top] the tests use. *)
Example test_days_in_binary64 :
  Forall (fun day =>
            Forall (fun top =>
                      Binary64.rankActivitiesForDay64 day top
                      = Literal.rankActivitiesForDay day top)
              [None; Some (int 1); Some (int 2); Some (int 3); Some (int 4)])
    [weather; breezyWeather; rainyWeather; coldWeather; warmWeather; extremeWeather;
     overcastWeather].
Proof. repeat constructor; vm_compute; reflexivity. Qed.

(** ** The service tests *)

Definition mockResponse_london : GeocodingResponse.t :=
  {| GeocodingResponse.results := Some
       [ {| GeocodingResult.name := "London";
            GeocodingResult.latitude := dec 515074 4;
            GeocodingResult.longitude := dec (-1278) 4;
            GeocodingResult.country := "United Kingdom";
            GeocodingResult.feature_code := "PPLC" |} ] |}.

Definition mockWeatherResponse : WeatherResponse.t :=
  {| WeatherResponse.current :=
       {| CurrentWeather.temperature_2m := int 20;
          CurrentWeather.relative_humidity_2m := int 65;
          CurrentWeather.precipitation := int 0;
          CurrentWeather.weather_code := int 1;
          CurrentWeather.wind_speed_10m := int 10 |};
     WeatherResponse.daily :=
       {| DailyWeather.time := [today];
          DailyWeather.weather_code := [int 1];
          DailyWeather.temperature_2m_max := [int 22];
          DailyWeather.temperature_2m_min := [int 18];
          DailyWeather.precipitation_sum := [int 0];
          DailyWeather.wind_speed_10m_max := [int 12] |} |}.

Definition mockResponse_codes : WeatherResponse.t :=
  {| WeatherResponse.current :=
       {| CurrentWeather.temperature_2m := int 20;
          CurrentWeather.relative_humidity_2m := int 65;
          CurrentWeather.precipitation := int 0;
          CurrentWeather.weather_code := int 0;
          CurrentWeather.wind_speed_10m := int 10 |};
     WeatherResponse.daily :=
       {| DailyWeather.time := [today];
          DailyWeather.weather_code := [int 61];
          DailyWeather.temperature_2m_max := [int 22];
          DailyWeather.temperature_2m_min := [int 18];
          DailyWeather.precipitation_sum := [int 3];
          DailyWeather.wind_speed_10m_max := [int 12] |} |}.

(** [{ data: { results: undefined } }] *)
Definition mockResponse_undefined : GeocodingResponse.t :=
  {| GeocodingResponse.results := None |}.

(** [{ code: 'ECONNABORTED', message: 'timeout' }], an Axios error by the
    mocked [isAxiosError]. *)
Definition timeoutError : exn := AxiosError (Some "ECONNABORTED") None "timeout".

(** A mock of [axios.get] for the geocoding requests, and one for the
    forecast requests; the other kind of request is not made in the test. *)
Definition geocoding_mock (r : settled exn GeocodingResponse.t) : handler api :=
  answer r (Fulfilled None).

Definition forecast_mock (r : settled exn WeatherResponse.t) : handler api :=
  answer (Fulfilled None) r.

(** 'should return cities with rich ID format' *)
Example test_rich_id_format :
  exists city rest,
    run (geocoding_mock (resolved mockResponse_london)) (OpenMeteoAPI.searchCities "London")
    = Ok (city :: rest)
    /\ city = {| City.id := "51.5074,-0.1278:London:United Kingdom";
                 City.name := "London";
                 City.country := "United Kingdom";
                 City.latitude := dec 515074 4;
                 City.longitude := dec (-1278) 4 |}.
Proof. do 2 eexists. split; vm_compute; reflexivity. Qed.

(** 'should validate input length': no mock is set up, so the statement is
    for every answer of the service. *)
Example test_validate_input_length (h : handler api) :
  exists e, run h (OpenMeteoAPI.searchCities "a") = Err e
    /\ instanceof_OpenMeteoAPIError e = true.
Proof. eexists. split; reflexivity. Qed.

(** 'should parse rich city ID and return weather with activities' *)
Example test_parse_rich_city_id :
  exists result day,
    run (forecast_mock (resolved mockWeatherResponse))
        (getWeatherByCityId "51.5074,-0.1278:London:United Kingdom") = Ok result
    /\ CityInfo.name (WeatherByCityId.cityInfo result) = "London"
    /\ CityInfo.country (WeatherByCityId.cityInfo result) = "United Kingdom"
    /\ CityInfo.latitude (WeatherByCityId.cityInfo result) ==n dec 515074 4
    /\ CityInfo.longitude (WeatherByCityId.cityInfo result) ==n dec (-1278) 4
    /\ eqb (Weather.temperature (WeatherByCityId.weather result)) (int 20) = true
    /\ Weather.forecast (WeatherByCityId.weather result) = [day]
    /\ (0 <? length (DailyForecast.activities day))%nat = true.
Proof.
  do 2 eexists. split; [vm_compute; reflexivity|].
  do 5 (split; [reflexivity|]). split; reflexivity.
Qed.

(** 'should handle invalid city ID format' *)
Example test_invalid_city_id_format (h : handler api) :
  exists e, run h (getWeatherByCityId "invalid-format") = Err e
    /\ includes (message_of e) "Invalid city ID format" = true.
Proof. eexists. split; reflexivity. Qed.

(** 'should map weather codes to readable conditions' *)
Example test_weather_code_mapping :
  exists weather day,
    run (forecast_mock (resolved mockResponse_codes))
        (getWeatherData (dec 515074 4) (dec (-1278) 4)) = Ok weather
    /\ Weather.conditions weather = "Clear sky"
    /\ hd_error (Weather.forecast weather) = Some day
    /\ DailyForecast.conditions day = "Slight rain".
Proof.
  do 2 eexists. split; [vm_compute; reflexivity|]. repeat split.
Qed.

(** 'should return an empty array when API returns no results' *)
Example test_no_results :
  run (geocoding_mock (resolved mockResponse_undefined)) (OpenMeteoAPI.searchCities "Nowhere")
  = Ok [].
Proof. vm_compute. reflexivity. Qed.

(** 'should convert axios timeout error into OpenMeteoAPIError with TIMEOUT
    code' *)
Example test_searchCities_timeout :
  exists e, run (geocoding_mock (Rejected timeoutError)) (OpenMeteoAPI.searchCities "Paris")
            = Err e
    /\ code_of e = Some TIMEOUT
    /\ instanceof_OpenMeteoAPIError e = true.
Proof. eexists. split; [vm_compute; reflexivity|]. split; reflexivity. Qed.

(** 'should throw INVALID_COORDINATES error for invalid latitude/longitude':
    the call is [getWeatherData(120, undefined)]. *)
Example test_invalid_latitude_longitude (h : handler api) :
  exists e, run h (getWeatherData (int 120) NaN) = Err e
    /\ code_of e = Some INVALID_COORDINATES.
Proof. eexists. split; reflexivity. Qed.

(** 'should convert axios timeout into OpenMeteoAPIError with TIMEOUT code' *)
Example test_getWeatherData_timeout :
  exists e, run (forecast_mock (Rejected timeoutError))
                (getWeatherData (dec 488566 4) (dec 23522 4)) = Err e
    /\ code_of e = Some TIMEOUT.
Proof. eexists. split; [vm_compute; reflexivity | reflexivity]. Qed.

(** 'should handle city IDs with invalid coordinate ranges' *)
Example test_invalid_coordinate_ranges (h : handler api) :
  exists e, run h (getWeatherByCityId "999,999:Atlantis:Ocean") = Err e
    /\ code_of e = Some INVALID_COORDINATES.
Proof. eexists. split; reflexivity. Qed.

(** ** The resolver tests *)

(** The fields of the mocked results that [GeocodingResult] declares; the
    second longitude is written [-81.2330] in the test. *)
Definition mockGeocodingResponse : GeocodingResponse.t :=
  {| GeocodingResponse.results := Some
       [ {| GeocodingResult.name := "London";
            GeocodingResult.latitude := dec 515074 4;
            GeocodingResult.longitude := dec (-1278) 4;
            GeocodingResult.country := "United Kingdom";
            GeocodingResult.feature_code := "PPLC" |};
         {| GeocodingResult.name := "London";
            GeocodingResult.latitude := dec 429834 4;
            GeocodingResult.longitude := dec (-812330) 4;
            GeocodingResult.country := "Canada";
            GeocodingResult.feature_code := "PPLA" |} ] |}.

Definition mockEmptyResponse : GeocodingResponse.t :=
  {| GeocodingResponse.results := None |}.

Definition mockWeatherResponse_london : WeatherResponse.t :=
  {| WeatherResponse.current :=
       {| CurrentWeather.temperature_2m := dec 205 1;
          CurrentWeather.relative_humidity_2m := int 65;
          CurrentWeather.precipitation := int 0;
          CurrentWeather.weather_code := int 1;
          CurrentWeather.wind_speed_10m := int 12 |};
     WeatherResponse.daily :=
       {| DailyWeather.time := [today; tomorrow];
          DailyWeather.weather_code := [int 1; int 3];
          DailyWeather.temperature_2m_max := [int 22; int 24];
          DailyWeather.temperature_2m_min := [int 18; int 20];
          DailyWeather.precipitation_sum := [int 0; int 2];
          DailyWeather.wind_speed_10m_max := [int 15; int 18] |} |}.

(** [{ response: { status: 429, statusText: 'Too Many Requests' } }]: the
    mock has no code and no message, and the message is not read when the
    status is 429. *)
Definition apiError : exn :=
  AxiosError None
    (Some {| AxiosResponse.status := int 429;
             AxiosResponse.statusText := "Too Many Requests" |}) "".

Definition mockSearchResponse : GeocodingResponse.t :=
  {| GeocodingResponse.results := Some
       [ {| GeocodingResult.name := "Paris";
            GeocodingResult.latitude := dec 488566 4;
            GeocodingResult.longitude := dec 23522 4;
            GeocodingResult.country := "France";
            GeocodingResult.feature_code := "PPLC" |} ] |}.

Definition mockWeatherResponse_paris : WeatherResponse.t :=
  {| WeatherResponse.current :=
       {| CurrentWeather.temperature_2m := dec 185 1;
          CurrentWeather.relative_humidity_2m := int 70;
          CurrentWeather.precipitation := int 0;
          CurrentWeather.weather_code := int 1;
          CurrentWeather.wind_speed_10m := int 8 |};
     WeatherResponse.daily :=
       {| DailyWeather.time := [today];
          DailyWeather.weather_code := [int 1];
          DailyWeather.temperature_2m_max := [int 20];
          DailyWeather.temperature_2m_min := [int 16];
          DailyWeather.precipitation_sum := [int 0];
          DailyWeather.wind_speed_10m_max := [int 10] |} |}.

Definition london_cityId : string := "51.5074,-0.1278:London:United Kingdom".

(** 'should return cities when valid search input is provided' *)
Example test_query_returns_cities :
  run (geocoding_mock (resolved mockGeocodingResponse)) (Query.searchCities "London")
  = Ok [ {| City.id := "51.5074,-0.1278:London:United Kingdom";
            City.name := "London";
            City.country := "United Kingdom";
            City.latitude := dec 515074 4;
            City.longitude := dec (-1278) 4 |};
         {| City.id := "42.9834,-81.233:London:Canada";
            City.name := "London";
            City.country := "Canada";
            City.latitude := dec 429834 4;
            City.longitude := dec (-812330) 4 |} ]
  /\ dec (-812330) 4 ==n dec (-81233) 3.
Proof. split; vm_compute; reflexivity. Qed.

(** 'should return empty array when no cities found' *)
Example test_query_no_cities_found :
  run (geocoding_mock (resolved mockEmptyResponse)) (Query.searchCities "NonExistentCity")
  = Ok [].
Proof. vm_compute. reflexivity. Qed.

(** 'should handle API errors gracefully' *)
Example test_query_api_errors :
  exists e, run (geocoding_mock (Rejected timeoutError)) (Query.searchCities "Paris") = Err e
    /\ instanceof_GraphQLError e = true
    /\ includes (message_of e) "Request timeout" = true
    /\ code_of e = Some TIMEOUT.
Proof. eexists. split; [vm_compute; reflexivity|]. repeat split. Qed.

(** 'should validate minimum input length' *)
Example test_query_minimum_input_length (h : handler api) :
  exists e, run h (Query.searchCities "a") = Err e
    /\ instanceof_GraphQLError e = true
    /\ includes (message_of e) "at least 2 characters" = true.
Proof. eexists. split; [vm_compute; reflexivity|]. repeat split. Qed.

(** 'should return complete weather data with activity rankings' *)
Example test_query_complete_weather_data :
  exists weatherData firstDay secondDay activity,
    run (forecast_mock (resolved mockWeatherResponse_london)) (Query.getCityWeather london_cityId)
    = Ok weatherData
    /\ City.id (CityWeather.city weatherData) = "51.5074,-0.1278:London:United Kingdom"
    /\ City.name (CityWeather.city weatherData) = "London"
    /\ City.country (CityWeather.city weatherData) = "United Kingdom"
    /\ City.latitude (CityWeather.city weatherData) ==n dec 515074 4
    /\ City.longitude (CityWeather.city weatherData) ==n dec (-1278) 4
    /\ Weather.temperature (CityWeather.weather weatherData) = dec 205 1
    /\ Weather.conditions (CityWeather.weather weatherData) = "Mainly clear"
    /\ Weather.humidity (CityWeather.weather weatherData) = int 65
    /\ Weather.windSpeed (CityWeather.weather weatherData) = int 12
    /\ Weather.precipitation (CityWeather.weather weatherData) = int 0
    /\ Weather.forecast (CityWeather.weather weatherData) = [firstDay; secondDay]
    /\ DailyForecast.date firstDay = today
    /\ DailyForecast.maxTemp firstDay = int 22
    /\ DailyForecast.minTemp firstDay = int 18
    /\ DailyForecast.conditions firstDay = "Mainly clear"
    /\ DailyForecast.precipitation firstDay = int 0
    /\ DailyForecast.windSpeed firstDay = int 15
    /\ DailyForecast.activities firstDay = [activity]
    /\ gtb (Activity.suitabilityScore activity) (int 0) = true
    /\ leb (Activity.suitabilityScore activity) (int 100) = true
    /\ truthy (Activity.reasoning activity) = true.
Proof.
  do 4 eexists. split; [vm_compute; reflexivity|].
  do 18 (split; [reflexivity|]). repeat split.
Qed.

(** 'should handle invalid city ID format' *)
Example test_query_invalid_city_id_format (h : handler api) :
  exists e, run h (Query.getCityWeather "invalid-format") = Err e
    /\ instanceof_GraphQLError e = true
    /\ includes (message_of e) "Invalid city ID format" = true.
Proof. eexists. split; [vm_compute; reflexivity|]. repeat split. Qed.

(** 'should handle invalid coordinates' *)
Example test_query_invalid_coordinates (h : handler api) :
  exists e, run h (Query.getCityWeather "999,999:InvalidCity:InvalidCountry") = Err e
    /\ instanceof_GraphQLError e = true
    /\ includes (message_of e) "Invalid coordinates" = true.
Proof. eexists. split; [vm_compute; reflexivity|]. repeat split. Qed.

(** 'should handle weather API errors' *)
Example test_query_weather_api_errors :
  exists e, run (forecast_mock (Rejected apiError)) (Query.getCityWeather london_cityId) = Err e
    /\ instanceof_GraphQLError e = true
    /\ includes (message_of e) "Rate limit exceeded" = true
    /\ code_of e = Some RATE_LIMIT_EXCEEDED.
Proof. eexists. split; [vm_compute; reflexivity|]. repeat split. Qed.

(** 'should handle weather API timeouts' *)
Example test_query_weather_api_timeouts :
  exists e, run (forecast_mock (Rejected timeoutError)) (Query.getCityWeather london_cityId)
            = Err e
    /\ instanceof_GraphQLError e = true
    /\ includes (message_of e) "Request timeout" = true
    /\ code_of e = Some TIMEOUT.
Proof. eexists. split; [vm_compute; reflexivity|]. repeat split. Qed.

(** 'should handle multiple queries in sequence': the identifier of the first
    city found is the argument of the second query; the first call of the
    mock gives the search results and the second the forecast. *)
Example test_query_sequence :
  let mock := answer (resolved mockSearchResponse) (resolved mockWeatherResponse_paris) in
  exists city rest weatherResult,
    run mock (Query.searchCities "Paris") = Ok (city :: rest)
    /\ run mock (Query.getCityWeather (City.id city)) = Ok weatherResult
    /\ City.name (CityWeather.city weatherResult) = "Paris"
    /\ Weather.temperature (CityWeather.weather weatherResult) = dec 185 1.
Proof.
  do 3 eexists. split; [vm_compute; reflexivity|].
  split; [vm_compute; reflexivity|]. split; reflexivity.
Qed.

(** ** The queries of the resolver tests *)

(** [SEARCH_CITIES_QUERY] with its variable. *)
Definition SEARCH_CITIES_QUERY (input : string) : request :=
  {| operation_of := SearchCities input;
     selected := Select [("id", leaf); ("name", leaf); ("country", leaf);
                         ("latitude", leaf); ("longitude", leaf)] |}.

(** [GET_CITY_WEATHER_QUERY] with its variable. *)
Definition GET_CITY_WEATHER_QUERY (cityId : string) : request :=
  {| operation_of := GetCityWeather cityId;
     selected :=
       Select
         [("city", Select [("id", leaf); ("name", leaf); ("country", leaf);
                           ("latitude", leaf); ("longitude", leaf)]);
          ("weather",
           Select
             [("temperature", leaf); ("conditions", leaf); ("humidity", leaf);
              ("windSpeed", leaf); ("precipitation", leaf);
              ("forecast",
               Select
                 [("date", leaf); ("maxTemp", leaf); ("minTemp", leaf);
                  ("conditions", leaf); ("precipitation", leaf); ("windSpeed", leaf);
                  ("activities",
                   Select [("name", leaf); ("suitabilityScore", leaf);
                           ("reasoning", leaf)])])])] |}.

(** The two queries of 'should handle multiple queries in sequence', which
    select some of the fields. *)
Definition sequence_search_query (input : string) : request :=
  {| operation_of := SearchCities input;
     selected := Select [("id", leaf); ("name", leaf); ("country", leaf)] |}.

Definition sequence_weather_query (cityId : string) : request :=
  {| operation_of := GetCityWeather cityId;
     selected :=
       Select
         [("city", Select [("name", leaf); ("country", leaf)]);
          ("weather",
           Select
             [("temperature", leaf); ("conditions", leaf);
              ("forecast",
               Select
                 [("date", leaf);
                  ("activities", Select [("name", leaf); ("suitabilityScore", leaf)])])])] |}.

(** The queries of the tests are valid, and the first two select every
    field. *)
Example test_queries_valid (input cityId : string) :
  SEARCH_CITIES_QUERY input = full (SearchCities input)
  /\ GET_CITY_WEATHER_QUERY cityId = full (GetCityWeather cityId)
  /\ valid_request (SEARCH_CITIES_QUERY input) = true
  /\ valid_request (GET_CITY_WEATHER_QUERY cityId) = true
  /\ valid_request (sequence_search_query input) = true
  /\ valid_request (sequence_weather_query cityId) = true.
Proof. repeat split. Qed.

(** The responses of the server in the resolver tests: data and no error
    when the test expects [result.errors] to be undefined, no data and the
    one error the test reads otherwise. *)
Example test_query_responses :
  let searched := run (geocoding_mock (resolved mockGeocodingResponse))
                    (execute (SEARCH_CITIES_QUERY "London")) in
  let weather := run (forecast_mock (resolved mockWeatherResponse_london))
                   (execute (GET_CITY_WEATHER_QUERY london_cityId)) in
  has_data searched = true /\ errors searched = []
  /\ run (geocoding_mock (resolved mockEmptyResponse))
       (execute (SEARCH_CITIES_QUERY "NonExistentCity"))
     = {| data := Some (Object [("searchCities", Array [])]); errors := [] |}
  /\ run (geocoding_mock (Rejected timeoutError)) (execute (SEARCH_CITIES_QUERY "Paris"))
     = {| data := None;
          errors := [GraphQLError "Request timeout while searching cities" (Some TIMEOUT)
                       (Some "OpenMeteo Geocoding API")] |}
  /\ has_data weather = true /\ errors weather = []
  /\ run (forecast_mock (Rejected apiError)) (execute (GET_CITY_WEATHER_QUERY london_cityId))
     = {| data := None;
          errors := [GraphQLError "Rate limit exceeded. Please try again later."
                       (Some RATE_LIMIT_EXCEEDED) (Some "OpenMeteo Weather API")] |}.
Proof. repeat split; vm_compute; reflexivity. Qed.

(** 'should handle multiple queries in sequence', through the server: the
    responses carry the selected fields only, and the identifier of the
    first response is the argument of the second query. *)
Example test_query_sequence_responses :
  let mock := answer (resolved mockSearchResponse) (resolved mockWeatherResponse_paris) in
  let cityId := "48.8566,2.3522:Paris:France" in
  run mock (execute (sequence_search_query "Paris"))
  = {| data :=
         Some (Object
                 [("searchCities",
                   Array [Object [("id", Text cityId); ("name", Text "Paris");
                                  ("country", Text "France")]])]);
       errors := [] |}
  /\ run mock (execute (sequence_weather_query cityId))
     = {| data :=
            Some (Object
                    [("getCityWeather",
                      Object
                        [("city", Object [("name", Text "Paris"); ("country", Text "France")]);
                         ("weather",
                          Object
                            [("temperature", Number (dec 185 1));
                             ("conditions", Text "Mainly clear");
                             ("forecast",
                              Array
                                [Object
                                   [("date", Text today);
                                    ("activities",
                                     Array
                                       [Object
                                          [("name", Text "outdoor_sightseeing");
                                           ("suitabilityScore", Number (int 90))]])]])])])]);
          errors := [] |}.
Proof. split; vm_compute; reflexivity. Qed.

End Tests.
